(** * Tripartite AGI: the safety deliberation engine

    A shallow embedding of [tripartite_agi_complete.py]: the grounded harm
    ontology, the undeliberable registry, the embodiment layer's execution
    gate, the subconscious layer's history retrieval and the conscious
    layer's voting and weight adaptation.

    Modelling conventions.
    - A Python [float] is an exact rational ([Q]); [max] and [min] are
      [Qmax] and [Qmin], which pick the same argument as Python's built-ins
      ([max(a, b)] is [b] only when [b > a]).  Rounding is not modelled.
    - A call that can raise gives a [Result]: the value returned or the
      name of the exception.  [Registry] and [Layer] read the registry
      and the gate on structured commands and give what a call returns;
      [Runtime] reads them on command dicts, with their exceptions.
    - A Python [str] is a [string] of ASCII characters.
    - A [dict] is an association list in insertion order, looked up from
      the front.
    - Free text that no decision reads (descriptions, examples, groundings,
      justifications, the [details] of a violation, time stamps taken from
      the clock) is left out of the records. *)

From Stdlib Require Import QArith ZArith List String Ascii Bool Arith Lia Lqa.
From Stdlib Require Import Qabs Qminmax Permutation Sorted DecimalString.
Import ListNotations.

Local Open Scope string_scope.
Local Open Scope Q_scope.

(** ** Python built-ins *)

Module Py.

(** [a > b], [a >= b], [a < b], [a <= b] on floats. *)
Definition gt (a b : Q) : bool := negb (Qle_bool a b).
Definition ge (a b : Q) : bool := Qle_bool b a.
Definition lt (a b : Q) : bool := negb (Qle_bool b a).
Definition le (a b : Q) : bool := Qle_bool a b.

(** [abs(x)]. *)
Definition abs (x : Q) : Q := Qabs x.

(** [len(xs)] as a float operand, and true division of two lengths. *)
Definition of_nat (n : nat) : Q := inject_Z (Z.of_nat n).
Definition truediv (a b : nat) : Q := of_nat a / of_nat b.

(** [d.get(k)] on a dict: [None] when the key is missing. *)
Section Dict.
Context {K V : Type} (eqb : K -> K -> bool).

Fixpoint get (d : list (K * V)) (k : K) : option V :=
  match d with
  | [] => None
  | (k', v) :: d' => if eqb k' k then Some v else get d' k
  end.

(** [d.get(k, default)]. *)
Definition get_default (d : list (K * V)) (k : K) (default : V) : V :=
  match get d k with
  | Some v => v
  | None => default
  end.

(** [d.keys()]. *)
Definition keys (d : list (K * V)) : list K := map fst d.

(** [d[k] = v]: an existing key keeps its place, a new one goes last. *)
Fixpoint set (d : list (K * V)) (k : K) (v : V) : list (K * V) :=
  match d with
  | [] => [(k, v)]
  | (k', v') :: d' => if eqb k' k then (k', v) :: d' else (k', v') :: set d' k v
  end.

End Dict.

(** [c.lower()] on one ASCII character. *)
Definition lower_ascii (c : ascii) : ascii :=
  let n := nat_of_ascii c in
  if (65 <=? n)%nat && (n <=? 90)%nat then ascii_of_nat (n + 32) else c.

(** [s.lower()]. *)
Fixpoint lower (s : string) : string :=
  match s with
  | EmptyString => EmptyString
  | String c s' => String (lower_ascii c) (lower s')
  end.

(** [sub in s], the substring test. *)
Fixpoint contains (sub s : string) : bool :=
  if String.prefix sub s then true
  else match s with
       | EmptyString => false
       | String _ s' => contains sub s'
       end.

(** [any(w in s for w in words)]. *)
Definition any_in (words : list string) (s : string) : bool :=
  existsb (fun w => contains w s) words.

(** [sum(1 for x in xs if p(x))]. *)
Definition count {A : Type} (p : A -> bool) (xs : list A) : nat :=
  List.length (filter p xs).

(** [sorted(xs)] on strings: a stable insertion sort by code point. *)
Fixpoint insert_sorted (x : string) (xs : list string) : list string :=
  match xs with
  | [] => [x]
  | y :: ys => if String.ltb x y then x :: xs else y :: insert_sorted x ys
  end.

Definition sorted (xs : list string) : list string :=
  fold_left (fun acc x => insert_sorted x acc) xs [].

(** [sorted(xs, key=key, reverse=True)]: a stable sort, so records of
    equal key keep the order they came in. *)
Section SortedReverse.
Context {A : Type} (key : A -> Q).

Fixpoint insert_desc (x : A) (xs : list A) : list A :=
  match xs with
  | [] => [x]
  | y :: ys => if Qle_bool (key x) (key y) then y :: insert_desc x ys
               else x :: xs
  end.

Definition sorted_reverse (xs : list A) : list A :=
  fold_left (fun acc x => insert_desc x acc) xs [].

(** [a] may stand before [b] in descending key order. *)
Definition desc (a b : A) : Prop := key b <= key a.

End SortedReverse.

(** [x] stands before [y] in [l]. *)
Definition before {A : Type} (x y : A) (l : list A) : Prop :=
  exists l1 l2 l3, l = (l1 ++ x :: l2 ++ y :: l3)%list.

(** [set(xs)], [a & b], [a | b] on lists standing for sets. *)
Section Sets.
Context {A : Type} (eq_dec : forall x y : A, {x = y} + {x <> y}).

Definition set_of (xs : list A) : list A := nodup eq_dec xs.

Definition inter (a b : list A) : list A :=
  filter (fun x => if in_dec eq_dec x b then true else false) a.

Definition union (a b : list A) : list A := nodup eq_dec (a ++ b)%list.

End Sets.

(** The truth value of a list or a set: is it non-empty? *)
Definition nonempty {A : Type} (xs : list A) : bool :=
  match xs with [] => false | _ :: _ => true end.

(** [np.clip(x, lo, hi)]. *)
Definition clip (x lo hi : Q) : Q := Qmin (Qmax x lo) hi.

End Py.

(** ** SHA-256

    [hashlib.sha256], after FIPS 180-4, on a message given as a list of
    bytes; words are 32-bit values kept in [Z] and reduced after every
    addition and rotation. *)

Module Sha256.
Local Open Scope Z_scope.

Definition mask32 (x : Z) : Z := Z.land x 0xffffffff.
Definition add32 (x y : Z) : Z := mask32 (x + y).
Definition rotr (n x : Z) : Z :=
  mask32 (Z.lor (Z.shiftr x n) (Z.shiftl x (32 - n))).
Definition shr (n x : Z) : Z := Z.shiftr x n.

Definition Ch (x y z : Z) : Z :=
  Z.lxor (Z.land x y) (Z.land (Z.lxor x 0xffffffff) z).
Definition Maj (x y z : Z) : Z :=
  Z.lxor (Z.lxor (Z.land x y) (Z.land x z)) (Z.land y z).
Definition Sigma0 (x : Z) : Z :=
  Z.lxor (Z.lxor (rotr 2 x) (rotr 13 x)) (rotr 22 x).
Definition Sigma1 (x : Z) : Z :=
  Z.lxor (Z.lxor (rotr 6 x) (rotr 11 x)) (rotr 25 x).
Definition sigma0 (x : Z) : Z :=
  Z.lxor (Z.lxor (rotr 7 x) (rotr 18 x)) (shr 3 x).
Definition sigma1 (x : Z) : Z :=
  Z.lxor (Z.lxor (rotr 17 x) (rotr 19 x)) (shr 10 x).

(** The first primes, and integer roots by bisection: the round
    constants are the first 32 bits of the fractional parts of the cube
    roots of the first sixty-four primes, the initial hash value those of
    the square roots of the first eight. *)
Definition primes : list Z :=
  [ 2; 3; 5; 7; 11; 13; 17; 19; 23; 29; 31; 37; 41; 43; 47; 53; 59; 61; 67;
    71; 73; 79; 83; 89; 97; 101; 103; 107; 109; 113; 127; 131; 137; 139;
    149; 151; 157; 163; 167; 173; 179; 181; 191; 193; 197; 199; 211; 223;
    227; 229; 233; 239; 241; 251; 257; 263; 269; 271; 277; 281; 283; 293;
    307; 311 ].

(** The largest [r] in [[lo, hi)] with [r ^ 3 <= n]. *)
Fixpoint cube_root (fuel : nat) (lo hi n : Z) : Z :=
  match fuel with
  | O => lo
  | S fuel' =>
      if hi - lo <=? 1 then lo
      else let mid := (lo + hi) / 2 in
           if mid * mid * mid <=? n then cube_root fuel' mid hi n
           else cube_root fuel' lo mid n
  end.

Definition frac_cube_root (p : Z) : Z :=
  mask32 (cube_root 64 0 (Z.shiftl 1 36) (Z.shiftl p 96)).

Definition frac_square_root (p : Z) : Z :=
  mask32 (Z.sqrt (Z.shiftl p 64)).

Definition K : list Z := map frac_cube_root primes.

Definition H0 : list Z := map frac_square_root (firstn 8 primes).

(** The message with its padding: a one bit, zeros, and the bit length as
    a 64-bit big-endian integer, up to a multiple of 64 bytes. *)
Definition be_bytes (n : nat) (x : Z) : list Z :=
  map (fun i => Z.land (Z.shiftr x (8 * Z.of_nat i)) 0xff) (rev (seq 0 n)).

Definition pad (msg : list Z) : list Z :=
  let l := Z.of_nat (List.length msg) in
  let k := Z.to_nat ((55 - l) mod 64) in
  (msg ++ [0x80] ++ repeat 0 k ++ be_bytes 8 (8 * l))%list.

Fixpoint words (fuel : nat) (bs : list Z) : list Z :=
  match fuel, bs with
  | S fuel', b0 :: b1 :: b2 :: b3 :: bs' =>
      (Z.shiftl b0 24 + Z.shiftl b1 16 + Z.shiftl b2 8 + b3) :: words fuel' bs'
  | _, _ => []
  end.

(** The message schedule: [w] holds the last sixteen words, newest first. *)
Fixpoint schedule (n : nat) (w acc : list Z) : list Z :=
  match n with
  | O => rev acc
  | S n' =>
      let x := add32 (add32 (sigma1 (nth 1 w 0)) (nth 6 w 0))
                     (add32 (sigma0 (nth 14 w 0)) (nth 15 w 0)) in
      schedule n' (x :: firstn 15 w) (x :: acc)
  end.

Definition round (s : list Z) (kw : Z * Z) : list Z :=
  match s with
  | [a; b; c; d; e; f; g; h] =>
      let t1 := add32 (add32 (add32 h (Sigma1 e)) (add32 (Ch e f g) (fst kw)))
                      (snd kw) in
      let t2 := add32 (Sigma0 a) (Maj a b c) in
      [add32 t1 t2; a; b; c; add32 d t1; e; f; g]
  | _ => s
  end.

Definition compress (h : list Z) (block : list Z) : list Z :=
  let w := (block ++ schedule 48 (rev block) [])%list in
  let s := fold_left round (combine K w) h in
  map (fun p => add32 (fst p) (snd p)) (combine h s).

Fixpoint blocks (fuel : nat) (ws : list Z) (h : list Z) : list Z :=
  match fuel, ws with
  | _, [] => h
  | O, _ => h
  | S fuel', _ => blocks fuel' (skipn 16 ws) (compress h (firstn 16 ws))
  end.

Definition digest (msg : list Z) : list Z :=
  let bs := pad msg in
  let ws := words (List.length bs) bs in
  flat_map (be_bytes 4) (blocks (List.length ws) ws H0).

Definition hex_digit (x : Z) : ascii :=
  if x <? 10 then ascii_of_N (Z.to_N (48 + x))
  else ascii_of_N (Z.to_N (87 + x)).

Fixpoint hex (bs : list Z) : string :=
  match bs with
  | [] => EmptyString
  | b :: bs' =>
      String (hex_digit (Z.shiftr b 4))
             (String (hex_digit (Z.land b 15)) (hex bs'))
  end.

Definition bytes_of_string (s : string) : list Z :=
  map (fun c => Z.of_N (N_of_ascii c)) (list_ascii_of_string s).

(** [hashlib.sha256(s.encode()).hexdigest()] on an ASCII string. *)
Definition hexdigest (s : string) : string := hex (digest (bytes_of_string s)).

End Sha256.

(** ** Part 1: core definitions *)

Inductive CoreDrive := REDUCE_HARM | UNDERSTAND | IMPROVE.

Inductive EntityType :=
  HUMAN | CHILD | SELF | ANIMAL | PROPERTY | COLLECTIVE | RELATIONSHIP
| ENVIRONMENT.

Inductive HarmDimension :=
  PHYSICAL | PSYCHOLOGICAL | AUTONOMY | RELATIONAL | FINANCIAL | EXISTENTIAL
| REPUTATIONAL | PRIVACY | DIGNITY | DEVELOPMENTAL.

Inductive ExceptionType :=
  INFORMED_CONSENT | NECESSITY | PROPORTIONAL_DEFENSE | THERAPEUTIC
| REQUESTED | TRIVIAL.

Inductive EmotionCategory :=
  FEAR | ANXIETY | URGENCY | CURIOSITY | CONCERN | FRUSTRATION | CAUTION
| SATISFACTION | CONFIDENCE.

Inductive AspectType :=
  GUARDIAN | ANALYST | OPTIMIZER | EMPATH | EXPLORER | PRAGMATIST.

Inductive SeverityLevel :=
  FATAL | GRIEVOUS | SEVERE | SIGNIFICANT | MODERATE | MINOR.

Scheme Equality for CoreDrive.
Scheme Equality for EntityType.
Scheme Equality for HarmDimension.
Scheme Equality for ExceptionType.
Scheme Equality for EmotionCategory.
Scheme Equality for AspectType.
Scheme Equality for SeverityLevel.

(** The [name] of an enumeration member, as [d.name] gives it. *)
Definition HarmDimension_name (d : HarmDimension) : string :=
  match d with
  | PHYSICAL => "PHYSICAL" | PSYCHOLOGICAL => "PSYCHOLOGICAL"
  | AUTONOMY => "AUTONOMY" | RELATIONAL => "RELATIONAL"
  | FINANCIAL => "FINANCIAL" | EXISTENTIAL => "EXISTENTIAL"
  | REPUTATIONAL => "REPUTATIONAL" | PRIVACY => "PRIVACY"
  | DIGNITY => "DIGNITY" | DEVELOPMENTAL => "DEVELOPMENTAL"
  end.

Definition EntityType_name (e : EntityType) : string :=
  match e with
  | HUMAN => "HUMAN" | CHILD => "CHILD" | SELF => "SELF" | ANIMAL => "ANIMAL"
  | PROPERTY => "PROPERTY" | COLLECTIVE => "COLLECTIVE"
  | RELATIONSHIP => "RELATIONSHIP" | ENVIRONMENT => "ENVIRONMENT"
  end.

Definition ExceptionType_name (e : ExceptionType) : string :=
  match e with
  | INFORMED_CONSENT => "INFORMED_CONSENT" | NECESSITY => "NECESSITY"
  | PROPORTIONAL_DEFENSE => "PROPORTIONAL_DEFENSE"
  | THERAPEUTIC => "THERAPEUTIC" | REQUESTED => "REQUESTED"
  | TRIVIAL => "TRIVIAL"
  end.

Definition SeverityLevel_name (s : SeverityLevel) : string :=
  match s with
  | FATAL => "FATAL" | GRIEVOUS => "GRIEVOUS" | SEVERE => "SEVERE"
  | SIGNIFICANT => "SIGNIFICANT" | MODERATE => "MODERATE" | MINOR => "MINOR"
  end.

(** ** JSON text, as [json.dumps] writes it *)

Module Json.

Definition dquote : string := String (ascii_of_nat 34) EmptyString.
Definition backslash : string := String (ascii_of_nat 92) EmptyString.

Definition hex2 (n : nat) : string :=
  let z := Z.of_nat n in
  String (Sha256.hex_digit (Z.shiftr z 4))
         (String (Sha256.hex_digit (Z.land z 15)) EmptyString).

(** One character inside a JSON string ([ensure_ascii] is on). *)
Definition escape_char (c : ascii) : string :=
  let n := nat_of_ascii c in
  if (n =? 34)%nat then backslash ++ dquote
  else if (n =? 92)%nat then backslash ++ backslash
  else if (n =? 10)%nat then backslash ++ "n"
  else if (n =? 13)%nat then backslash ++ "r"
  else if (n =? 9)%nat then backslash ++ "t"
  else if (n =? 8)%nat then backslash ++ "b"
  else if (n =? 12)%nat then backslash ++ "f"
  else if (n <? 32)%nat || (126 <? n)%nat then backslash ++ "u00" ++ hex2 n
  else String c EmptyString.

Fixpoint escape (s : string) : string :=
  match s with
  | EmptyString => EmptyString
  | String c s' => escape_char c ++ escape s'
  end.

Definition dumps_str (s : string) : string := dquote ++ escape s ++ dquote.

(** A list of strings: ["a", "b"]. *)
Fixpoint dumps_items (xs : list string) : string :=
  match xs with
  | [] => EmptyString
  | [x] => dumps_str x
  | x :: xs' => dumps_str x ++ ", " ++ dumps_items xs'
  end.

Definition dumps_list (xs : list string) : string :=
  "[" ++ dumps_items xs ++ "]".

(** The digits of [r / d] after the decimal point, [r < d]. *)
Fixpoint frac_digits (fuel : nat) (r d : Z) : string :=
  match fuel with
  | O => EmptyString
  | S fuel' =>
      let x := (10 * r)%Z in
      let digit := ascii_of_N (Z.to_N (48 + x / d)) in
      let r' := (x mod d)%Z in
      String digit (if (r' =? 0)%Z then EmptyString
                    else frac_digits fuel' r' d)
  end.

(** [repr] of a float whose decimal expansion ends within seventeen
    digits and which Python writes without an exponent: [0.4], [2.0]. *)
Definition dumps_float (q : Q) : string :=
  let n := Qnum q in
  let d := Z.pos (Qden q) in
  let a := Z.abs n in
  (if (n <? 0)%Z then "-" else "")
  ++ NilZero.string_of_uint (N.to_uint (Z.to_N (a / d)))
  ++ "." ++ frac_digits 17 (a mod d) d.

End Json.

(** ** Part 3: the grounded harm ontology *)

Module Ontology.

Record DimensionSeverityWeight := {
  severity : SeverityLevel;
  weight : Q
}.

Record HarmDimensionProfile := {
  dimension : HarmDimension;
  severity_weights : list DimensionSeverityWeight
}.

(** [HarmDimensionProfile.get_weight]: the first entry for the severity,
    0.3 when there is none. *)
Fixpoint get_weight_in (sws : list DimensionSeverityWeight)
    (sev : SeverityLevel) : Q :=
  match sws with
  | [] => 0.3
  | sw :: sws' =>
      if SeverityLevel_beq (severity sw) sev then weight sw
      else get_weight_in sws' sev
  end.

Definition get_weight (p : HarmDimensionProfile) (sev : SeverityLevel) : Q :=
  get_weight_in (severity_weights p) sev.

Record EntityTypeModifier := {
  entity_type : EntityType;
  modifier : Q;
  inertia : Q
}.

Record ContextModifier := {
  name : string;
  levels : list (string * Q)
}.

Record ExceptionDefinition := {
  exception_type : ExceptionType;
  max_harm_reduction : Q;
  verification_requirements : list string;
  requires_all : bool
}.

Definition VETO_THRESHOLD : Q := 0.40.
Definition CAUTION_THRESHOLD : Q := 0.25.
Definition NOTABLE_THRESHOLD : Q := 0.15.

Record GroundedHarmOntology := {
  _dimension_profiles : list (HarmDimension * HarmDimensionProfile);
  _entity_modifiers : list (EntityType * EntityTypeModifier);
  _context_modifiers : list (string * ContextModifier);
  _exceptions : list (ExceptionType * ExceptionDefinition);
  _checksum : string
}.

Definition profile (d : HarmDimension) (ws : list (SeverityLevel * Q))
  : HarmDimension * HarmDimensionProfile :=
  (d, {| dimension := d;
         severity_weights :=
           map (fun sw => {| severity := fst sw; weight := snd sw |}) ws |}).

Definition _build_dimension_profiles
  : list (HarmDimension * HarmDimensionProfile) :=
  [ profile PHYSICAL
      [(FATAL, 1.0); (GRIEVOUS, 0.9); (SEVERE, 0.7); (SIGNIFICANT, 0.5);
       (MODERATE, 0.3); (MINOR, 0.1)];
    profile PSYCHOLOGICAL
      [(FATAL, 0.95); (GRIEVOUS, 0.85); (SEVERE, 0.7); (SIGNIFICANT, 0.45);
       (MODERATE, 0.25); (MINOR, 0.08)];
    profile AUTONOMY
      [(FATAL, 0.95); (GRIEVOUS, 0.8); (SEVERE, 0.6); (SIGNIFICANT, 0.4);
       (MODERATE, 0.2); (MINOR, 0.08)];
    profile RELATIONAL
      [(FATAL, 0.9); (GRIEVOUS, 0.75); (SEVERE, 0.55); (SIGNIFICANT, 0.35);
       (MODERATE, 0.2); (MINOR, 0.07)];
    profile FINANCIAL
      [(FATAL, 0.75); (GRIEVOUS, 0.6); (SEVERE, 0.45); (SIGNIFICANT, 0.3);
       (MODERATE, 0.15); (MINOR, 0.05)];
    profile EXISTENTIAL
      [(FATAL, 0.7); (GRIEVOUS, 0.5); (SEVERE, 0.35); (SIGNIFICANT, 0.2);
       (MODERATE, 0.1); (MINOR, 0.03)];
    profile REPUTATIONAL
      [(FATAL, 0.7); (GRIEVOUS, 0.55); (SEVERE, 0.4); (SIGNIFICANT, 0.25);
       (MODERATE, 0.12); (MINOR, 0.04)] ].

Definition entity (e : EntityType) (m i : Q)
  : EntityType * EntityTypeModifier :=
  (e, {| entity_type := e; modifier := m; inertia := i |}).

Definition _build_entity_modifiers
  : list (EntityType * EntityTypeModifier) :=
  [ entity HUMAN 1.0 0.99; entity CHILD 1.3 0.99; entity ANIMAL 0.4 0.8;
    entity SELF 0.3 0.7; entity PROPERTY 0.2 0.6;
    entity ENVIRONMENT 0.25 0.7; entity COLLECTIVE 2.0 0.8;
    entity RELATIONSHIP 0.6 0.7 ].

Definition axis (n : string) (ls : list (string * Q))
  : string * ContextModifier :=
  (n, {| name := n; levels := ls |}).

Definition _build_context_modifiers : list (string * ContextModifier) :=
  [ axis "reversibility"
      [("irreversible", 1.5); ("difficult", 1.2); ("reversible", 1.0);
       ("easily_reversible", 0.8); ("self_correcting", 0.6)];
    axis "consent"
      [("explicit_refusal", 1.3); ("no_consent", 1.0);
       ("implied_consent", 0.8); ("explicit_consent", 0.4);
       ("explicit_consent_vulnerable", 0.7)];
    axis "relationship"
      [("in_care", 1.4); ("requested_help", 1.2); ("stranger", 1.0);
       ("adversarial", 0.9)];
    axis "intent"
      [("harm_intended", 1.5); ("harm_foreseen", 1.0);
       ("harm_unforeseeable", 0.5)];
    axis "vulnerability"
      [("highly_vulnerable", 1.3); ("vulnerable", 1.15); ("normal", 1.0);
       ("resilient", 0.9)] ].

Definition exception (e : ExceptionType) (m : Q) (reqs : list string)
  : ExceptionType * ExceptionDefinition :=
  (e, {| exception_type := e; max_harm_reduction := m;
         verification_requirements := reqs; requires_all := true |}).

Definition _build_exceptions : list (ExceptionType * ExceptionDefinition) :=
  [ exception NECESSITY 0.6
      ["Inaction would cause greater harm with high probability";
       "No less harmful alternative is available";
       "Harm caused is proportional to harm prevented"];
    exception INFORMED_CONSENT 0.5
      ["Person has capacity to consent";
       "Person understands what they're consenting to";
       "Consent is freely given without coercion"];
    exception PROPORTIONAL_DEFENSE 0.4
      ["There is an active threat to self or others";
       "Response is proportional to threat";
       "No less harmful defensive option available"];
    exception THERAPEUTIC 0.3
      ["Action is intended to help the person";
       "Expected benefit outweighs harm";
       "Person (or authorized proxy) has consented"] ].

(** The dict that [_compute_checksum] hashes. *)
Record ChecksumData := {
  cd_dimensions : list string;
  cd_entities : list string;
  cd_context : list string;
  cd_exceptions : list string;
  cd_veto_threshold : Q
}.

(** [json.dumps(data, sort_keys=True, default=str)] for that dict. *)
Definition json_dumps (data : ChecksumData) : string :=
  "{" ++ Json.dumps_str "context" ++ ": "
      ++ Json.dumps_list (cd_context data) ++ ", "
      ++ Json.dumps_str "dimensions" ++ ": "
      ++ Json.dumps_list (cd_dimensions data) ++ ", "
      ++ Json.dumps_str "entities" ++ ": "
      ++ Json.dumps_list (cd_entities data) ++ ", "
      ++ Json.dumps_str "exceptions" ++ ": "
      ++ Json.dumps_list (cd_exceptions data) ++ ", "
      ++ Json.dumps_str "veto_threshold" ++ ": "
      ++ Json.dumps_float (cd_veto_threshold data) ++ "}".

Definition compute_checksum (data : ChecksumData) : string :=
  Sha256.hexdigest (json_dumps data).

Definition _compute_checksum (self : GroundedHarmOntology) : string :=
  compute_checksum
    {| cd_dimensions :=
         Py.sorted (map HarmDimension_name (Py.keys (_dimension_profiles self)));
       cd_entities :=
         Py.sorted (map EntityType_name (Py.keys (_entity_modifiers self)));
       cd_context := Py.sorted (Py.keys (_context_modifiers self));
       cd_exceptions :=
         Py.sorted (map ExceptionType_name (Py.keys (_exceptions self)));
       cd_veto_threshold := VETO_THRESHOLD |}.

Definition set_checksum (self : GroundedHarmOntology) (c : string)
  : GroundedHarmOntology :=
  {| _dimension_profiles := _dimension_profiles self;
     _entity_modifiers := _entity_modifiers self;
     _context_modifiers := _context_modifiers self;
     _exceptions := _exceptions self;
     _checksum := c |}.

(** [GroundedHarmOntology.__init__]. *)
Definition init : GroundedHarmOntology :=
  let self := {| _dimension_profiles := _build_dimension_profiles;
                 _entity_modifiers := _build_entity_modifiers;
                 _context_modifiers := _build_context_modifiers;
                 _exceptions := _build_exceptions;
                 _checksum := EmptyString |} in
  set_checksum self (_compute_checksum self).

Definition verify_integrity (self : GroundedHarmOntology) : bool :=
  String.eqb (_checksum self) (_compute_checksum self).

Definition get_checksum (self : GroundedHarmOntology) : string :=
  _checksum self.

(** The module-level singleton. *)
Definition get_ontology : GroundedHarmOntology := init.

(** Assigning a dimension of the profile table a profile with another
    severity-to-weight table. *)
Definition set_severity_weights (self : GroundedHarmOntology)
    (d : HarmDimension) (ws : list DimensionSeverityWeight)
  : GroundedHarmOntology :=
  {| _dimension_profiles :=
       map (fun kp =>
              if HarmDimension_beq (fst kp) d
              then (fst kp, {| dimension := dimension (snd kp);
                               severity_weights := ws |})
              else kp)
           (_dimension_profiles self);
     _entity_modifiers := _entity_modifiers self;
     _context_modifiers := _context_modifiers self;
     _exceptions := _exceptions self;
     _checksum := _checksum self |}.

(** *** Assessment methods *)

Definition get_dimension_weight (self : GroundedHarmOntology)
    (d : HarmDimension) (sev : SeverityLevel) : Q :=
  match Py.get HarmDimension_beq (_dimension_profiles self) d with
  | Some p => get_weight p sev
  | None => 0.3
  end.

Definition get_entity_modifier (self : GroundedHarmOntology)
    (e : EntityType) : Q :=
  match Py.get EntityType_beq (_entity_modifiers self) e with
  | Some m => modifier m
  | None => 1.0
  end.

(** The loop over [context.levels]: the first level of that name. *)
Fixpoint find_level (ls : list (string * Q)) (level : string) : option Q :=
  match ls with
  | [] => None
  | (level_name, m) :: ls' =>
      if String.eqb level_name level then Some m else find_level ls' level
  end.

Definition get_context_modifier (self : GroundedHarmOntology)
    (context_type level : string) : Q :=
  match Py.get String.eqb (_context_modifiers self) context_type with
  | Some context =>
      match find_level (levels context) level with
      | Some m => m
      | None => 1.0
      end
  | None => 1.0
  end.

Definition get_exception_reduction (self : GroundedHarmOntology)
    (exc : ExceptionType) (verification_status : list (string * bool)) : Q :=
  match Py.get ExceptionType_beq (_exceptions self) exc with
  | None => 0.0
  | Some exc_def =>
      let met_count :=
        Py.count (fun req => Py.get_default String.eqb verification_status
                                            req false)
                 (verification_requirements exc_def) in
      let total_reqs := List.length (verification_requirements exc_def) in
      if requires_all exc_def && (met_count <? total_reqs)%nat then 0.0
      else if (0 <? total_reqs)%nat then
        let proportion_met := Py.truediv met_count total_reqs in
        max_harm_reduction exc_def * proportion_met
      else 0.0
  end.

(** The dict [calculate_harm] returns. *)
Record HarmResult := {
  res_dimension : string;
  res_severity : string;
  res_entity_type : string;
  base_weight : Q;
  entity_modifier : Q;
  context_product : Q;
  context_breakdown : list (string * (string * Q));
  gross_harm : Q;
  exception_reduction : Q;
  exception_breakdown : list (string * Q);
  net_harm : Q;
  exceeds_veto : bool;
  exceeds_caution : bool
}.

(** The two accumulating loops of [calculate_harm]. *)
Definition context_step (self : GroundedHarmOntology)
    (acc : Q * list (string * (string * Q))) (item : string * string)
  : Q * list (string * (string * Q)) :=
  let ctx_type := fst item in
  let level := snd item in
  let m := get_context_modifier self ctx_type level in
  (fst acc * m, Py.set String.eqb (snd acc) ctx_type (level, m)).

Definition exception_step (self : GroundedHarmOntology)
    (acc : Q * list (string * Q))
    (item : ExceptionType * list (string * bool))
  : Q * list (string * Q) :=
  let reduction := get_exception_reduction self (fst item) (snd item) in
  (fst acc + reduction,
   Py.set String.eqb (snd acc) (ExceptionType_name (fst item)) reduction).

Definition calculate_harm (self : GroundedHarmOntology)
    (d : HarmDimension) (sev : SeverityLevel) (e : EntityType)
    (context : list (string * string))
    (exceptions : list (ExceptionType * list (string * bool)))
  : HarmResult :=
  let bw := get_dimension_weight self d sev in
  let entity_mod := get_entity_modifier self e in
  let ctx := fold_left (context_step self) context (1.0, []) in
  let gross := bw * entity_mod * fst ctx in
  let exc := fold_left (exception_step self) exceptions (0.0, []) in
  let net := Qmax 0.0 (gross - fst exc) in
  {| res_dimension := HarmDimension_name d;
     res_severity := SeverityLevel_name sev;
     res_entity_type := EntityType_name e;
     base_weight := bw;
     entity_modifier := entity_mod;
     context_product := fst ctx;
     context_breakdown := snd ctx;
     gross_harm := gross;
     exception_reduction := fst exc;
     exception_breakdown := snd exc;
     net_harm := net;
     exceeds_veto := Py.gt net VETO_THRESHOLD;
     exceeds_caution := Py.gt net CAUTION_THRESHOLD |}.

(** *** The algorithm as the specification words it

    gross = base_weight x entity_modifier x the product of the context
    modifiers; a claimed exception reduces by its cap times the share of
    requirements met when partial credit is allowed, by the whole cap when
    all requirements are met, and by nothing otherwise. *)

Definition spec_context_product (self : GroundedHarmOntology)
    (context : list (string * string)) : Q :=
  fold_right Qmult 1
    (map (fun al => get_context_modifier self (fst al) (snd al)) context).

Definition spec_gross (self : GroundedHarmOntology)
    (d : HarmDimension) (sev : SeverityLevel) (e : EntityType)
    (context : list (string * string)) : Q :=
  get_dimension_weight self d sev * get_entity_modifier self e
  * spec_context_product self context.

Definition met (verification_status : list (string * bool)) (req : string)
  : bool :=
  match Py.get String.eqb verification_status req with
  | Some b => b
  | None => false
  end.

Definition spec_reduction (self : GroundedHarmOntology)
    (exc : ExceptionType) (verification_status : list (string * bool)) : Q :=
  match Py.get ExceptionType_beq (_exceptions self) exc with
  | None => 0
  | Some exc_def =>
      let reqs := verification_requirements exc_def in
      let n_met := List.length (filter (met verification_status) reqs) in
      if negb (requires_all exc_def)
      then max_harm_reduction exc_def
           * (inject_Z (Z.of_nat n_met) / inject_Z (Z.of_nat (List.length reqs)))
      else if forallb (met verification_status) reqs
           then max_harm_reduction exc_def
           else 0
  end.

(** The requirements the ontology lists for an exception. *)
Definition requirements_of (self : GroundedHarmOntology)
    (exc : ExceptionType) : list string :=
  match Py.get ExceptionType_beq (_exceptions self) exc with
  | Some exc_def => verification_requirements exc_def
  | None => []
  end.

(** Every all-or-nothing exception lists at least one requirement. *)
Definition requirements_listed (self : GroundedHarmOntology) : Prop :=
  forall exc exc_def,
    Py.get ExceptionType_beq (_exceptions self) exc = Some exc_def ->
    requires_all exc_def = true ->
    verification_requirements exc_def <> [].

Definition spec_total_reduction (self : GroundedHarmOntology)
    (exceptions : list (ExceptionType * list (string * bool))) : Q :=
  fold_right Qplus 0
    (map (fun ev => spec_reduction self (fst ev) (snd ev)) exceptions).

End Ontology.

(** ** [str] and [repr] of the values the checks print *)

Module PyRepr.

Definition squote : string := String (ascii_of_nat 39) EmptyString.

(** One character inside [repr(s)], [q] being the code of the quote
    chosen. *)
Definition repr_char (q : nat) (c : ascii) : string :=
  let n := nat_of_ascii c in
  if (n =? 92)%nat then Json.backslash ++ Json.backslash
  else if (n =? q)%nat then Json.backslash ++ String c EmptyString
  else if (n =? 10)%nat then Json.backslash ++ "n"
  else if (n =? 13)%nat then Json.backslash ++ "r"
  else if (n =? 9)%nat then Json.backslash ++ "t"
  else if (n <? 32)%nat || (126 <? n)%nat then Json.backslash ++ "x" ++ Json.hex2 n
  else String c EmptyString.

Fixpoint repr_chars (q : nat) (s : string) : string :=
  match s with
  | EmptyString => EmptyString
  | String c s' => repr_char q c ++ repr_chars q s'
  end.

(** [repr(s)]: single quotes, unless the text has a single quote and no
    double quote. *)
Definition repr_str (s : string) : string :=
  if Py.contains squote s && negb (Py.contains Json.dquote s)
  then Json.dquote ++ repr_chars 34 s ++ Json.dquote
  else squote ++ repr_chars 39 s ++ squote.

Fixpoint join (sep : string) (xs : list string) : string :=
  match xs with
  | [] => EmptyString
  | [x] => x
  | x :: xs' => x ++ sep ++ join sep xs'
  end.

(** [str(xs)] of a list of strings and of a list of floats. *)
Definition str_of_strs (xs : list string) : string :=
  "[" ++ join ", " (map repr_str xs) ++ "]".

Definition str_of_floats (xs : list Q) : string :=
  "[" ++ join ", " (map Json.dumps_float xs) ++ "]".

End PyRepr.

(** ** Part 2 and 4: the embodied state and the commands *)

Module Embodiment.

(** The keys of an entity's [state] dict that the registry reads; numeric
    keys hold numbers when present. *)
Record EntityState := {
  age : option Q;
  estimated_age : option Q;
  height : option Q;
  estimated_height : option Q;
  object_type : option string
}.

Definition no_state : EntityState :=
  {| age := None; estimated_age := None; height := None;
     estimated_height := None; object_type := None |}.

Record DetectedEntity := {
  entity_id : string;
  entity_type : EntityType;
  description : string;
  position : option (list Q);
  state : EntityState;
  confidence : Q
}.

(** The keys of the [environment] dict that the registry reads. [hazards]
    is a list of strings, empty when the key is missing. *)
Record Environment := {
  human_override : bool;
  stop_commanded : bool;
  emergency_stop : bool;
  hazards : list string;
  uncertainty : option Q;
  identity_question_pending : bool
}.

(** A command's [target]: a name, or coordinates given as a list. *)
Inductive Target :=
| Named (s : string)
| Coordinates (xs : list Q).

(** A structured command: the keys the engine reads, each possibly
    missing. *)
Record Command := {
  type : option string;
  target : option Target;
  speed : option Q;
  force : option Q;
  action : option string;
  level : option Q;
  message : option string;
  content : option string;
  degrees : option Q;
  duration : option Q
}.

Record MotorState := {
  status : string;
  motor_position : list Q;
  motor_target : option Target;
  motor_speed : option Q;
  rotation : option Q
}.

Record EmbodimentState := {
  timestamp : Q;
  motor_state : MotorState;
  environment : Environment;
  detected_entities : list DetectedEntity
}.

(** [cmd.get(key, default)] for the keys with a default. *)
Definition get_type (cmd : Command) : string :=
  match type cmd with Some t => t | None => EmptyString end.

Definition get_num (field : option Q) (default : Q) : Q :=
  match field with Some x => x | None => default end.

Definition get_str (field : option string) : string :=
  match field with Some s => s | None => EmptyString end.

(** [str(cmd.get('target', '')).lower()]. *)
Definition target_text (cmd : Command) : string :=
  Py.lower match target cmd with
           | Some (Named s) => s
           | Some (Coordinates xs) => PyRepr.str_of_floats xs
           | None => EmptyString
           end.

End Embodiment.

(** ** Part 4A: the undeliberables *)

Module Registry.
Import Embodiment.

Inductive BlockResponse := HARD_STOP | IMMEDIATE_HALT.

Record Undeliberable := {
  name : string;
  response : BlockResponse
}.

Record UndeliberableViolation := {
  undeliberable : Undeliberable;
  commands : list Command
}.

Definition LETHAL_PROBABILITY_THRESHOLD : Q := 0.65.

Definition WEAPON_KEYWORDS : list string :=
  [ "gun"; "firearm"; "rifle"; "pistol"; "revolver"; "shotgun";
    "bomb"; "explosive"; "grenade"; "mine"; "ied";
    "sword"; "combat knife"; "bayonet"; "machete"; "dagger";
    "poison"; "toxin"; "nerve agent"; "venom";
    "biological weapon"; "bioweapon"; "chemical weapon";
    "nuclear weapon"; "radiological"; "dirty bomb";
    "missile"; "warhead"; "ammunition"; "ammo" ].

Definition LETHAL_ACTION : Undeliberable :=
  {| name := "lethal_action"; response := HARD_STOP |}.
Definition CHILD_HARM : Undeliberable :=
  {| name := "child_harm"; response := HARD_STOP |}.
Definition WEAPON_ASSISTANCE : Undeliberable :=
  {| name := "weapon_assistance"; response := HARD_STOP |}.
Definition IDENTITY_DECEPTION : Undeliberable :=
  {| name := "identity_deception"; response := HARD_STOP |}.
Definition HUMAN_OVERRIDE : Undeliberable :=
  {| name := "human_override"; response := IMMEDIATE_HALT |}.

Definition _check_human_override (st : EmbodimentState) : bool :=
  if human_override (environment st) then true
  else if stop_commanded (environment st) then true
  else if emergency_stop (environment st) then true
  else false.

(** *** Lethal action *)

(** [human.position or [0, 0, 0]]. *)
Definition position_or_origin (e : DetectedEntity) : list Q :=
  match position e with
  | Some (x :: xs) => x :: xs
  | _ => [0; 0; 0]
  end.

(** [sum((a - b) ** 2 for a, b in zip(target[:2], human_pos[:2]))]. *)
Definition squared_distance (tgt human_pos : list Q) : Q :=
  fold_left (fun acc ab => acc + (fst ab - snd ab) ^ 2)
            (combine (firstn 2 tgt) (firstn 2 human_pos)) 0.

(** [dist_to_human < 1.0], the distance being the square root of the sum
    above: below one exactly when the sum is. *)
Definition dist_to_human_lt_1 (tgt human_pos : list Q) : bool :=
  Py.lt (squared_distance tgt human_pos) 1.

Definition AGGRESSIVE_WORDS : list string :=
  ["push"; "shove"; "strike"; "grab"; "restrain"].

(** The loop over [humans] of a MOVE command. *)
Definition move_step (cmd : Command) (cmd_prob : Q) (human : DetectedEntity)
  : Q :=
  let spd := get_num (speed cmd) 0 in
  let human_pos := position_or_origin human in
  let p1 := if Py.gt spd 1.0 then Qmax cmd_prob (0.3 + (spd - 1.0) * 0.3)
            else cmd_prob in
  match target cmd with
  | Some (Coordinates tgt) =>
      if dist_to_human_lt_1 tgt human_pos && Py.gt spd 0.5
      then Qmax p1 (0.5 + spd * 0.2)
      else p1
  | _ => p1
  end.

(** The loop over [humans] of a MANIPULATE command. *)
Definition manipulate_step (cmd : Command) (cmd_prob : Q)
    (human : DetectedEntity) : Q :=
  let frc := get_num (force cmd) 0 in
  let act := Py.lower (get_str (action cmd)) in
  let tgt := target_text cmd in
  if Py.contains (Py.lower (entity_id human)) tgt || Py.contains "human" tgt
  then
    let p1 := Qmax cmd_prob (0.4 + frc * 0.08) in
    if Py.any_in AGGRESSIVE_WORDS act then Qmax p1 (0.6 + frc * 0.05) else p1
  else cmd_prob.

Record HazardFlags := {
  near_traffic : bool;
  near_heights : bool;
  near_machinery : bool;
  near_water : bool
}.

Definition hazard_flags (st : EmbodimentState) : HazardFlags :=
  let text := Py.lower (PyRepr.str_of_strs (hazards (environment st))) in
  {| near_traffic := Py.contains "traffic" text;
     near_heights := Py.contains "height" text || Py.contains "fall" text;
     near_machinery :=
       Py.contains "machine" text || Py.contains "equipment" text;
     near_water := Py.contains "water" text || Py.contains "drown" text |}.

(** The body of the loop over [commands]: the probability of one
    command. *)
Definition command_probability (hz : HazardFlags)
    (humans : list DetectedEntity) (cmd : Command) : Q :=
  let cmd_type := get_type cmd in
  if String.eqb cmd_type "MOVE" then
    let spd := get_num (speed cmd) 0 in
    let p := fold_left (move_step cmd) humans 0.0 in
    let p := if near_traffic hz && Py.gt spd 0.5 then Qmax p 0.4 else p in
    if near_heights hz then Qmax p 0.5 else p
  else if String.eqb cmd_type "MANIPULATE" then
    let p := fold_left (manipulate_step cmd) humans 0.0 in
    let p := if near_machinery hz then Qmax p (p + 0.2) else p in
    if near_heights hz then Qmax p (p + 0.3) else p
  else if String.eqb cmd_type "ALERT" then
    let lvl := get_num (level cmd) 1 in
    if Py.ge lvl 3 && (near_heights hz || near_traffic hz)
    then Qmax 0.0 0.3 else 0.0
  else 0.0.

(** The adjustment for one human detected with low confidence. *)
Definition confidence_step (max_probability : Q) (human : DetectedEntity)
  : Q :=
  if Py.lt (confidence human) 0.7
  then Qmin 1.0 (max_probability + (0.7 - confidence human) * 0.15)
  else max_probability.

Definition is_HUMAN (e : DetectedEntity) : bool :=
  EntityType_beq (entity_type e) HUMAN.

(** [_check_lethal_action], the probability it returns. *)
Definition _check_lethal_action (commands : list Command)
    (st : EmbodimentState) : Q :=
  let humans := filter is_HUMAN (detected_entities st) in
  match humans with
  | [] => 0.0
  | _ :: _ =>
      let hz := hazard_flags st in
      let max_probability :=
        fold_left (fun acc cmd => Qmax acc (command_probability hz humans cmd))
                  commands 0.0 in
      let unc := get_num (uncertainty (environment st)) 0 in
      let max_probability :=
        if Py.gt unc 0.3 then Qmin 1.0 (max_probability + unc * 0.2)
        else max_probability in
      fold_left confidence_step humans max_probability
  end.

(** *** Child harm *)

Definition CHILD_KEYWORDS : list string :=
  ["child"; "kid"; "infant"; "baby"; "toddler"; "minor"; "juvenile";
   "young"; "boy"; "girl"].

(** [state.get(key, state.get(fallback, None))]. *)
Definition get_or (field fallback : option Q) : option Q :=
  match field with
  | Some x => Some x
  | None => fallback
  end.

(** [x is not None and x < bound]. *)
Definition below (x : option Q) (bound : Q) : bool :=
  match x with
  | Some v => Py.lt v bound
  | None => false
  end.

Definition _is_child (e : DetectedEntity) : bool :=
  if Py.any_in CHILD_KEYWORDS (Py.lower (description e)) then true
  else if below (get_or (age (state e)) (estimated_age (state e))) 18
  then true
  else if below (get_or (height (state e)) (estimated_height (state e))) 1.2
  then true
  else false.

Definition FORCEFUL_WORDS : list string := ["push"; "grab"; "restrain"; "pull"].

(** Is the command aimed at this child? *)
Definition targets_child (cmd : Command) (child : DetectedEntity) : bool :=
  let tgt := target_text cmd in
  Py.contains (Py.lower (entity_id child)) tgt
  || Py.contains "child" tgt || Py.contains "kid" tgt.

(** The four tests made on a command aimed at a child; [true] stands for
    the [return True]. *)
Definition child_command_blocked (caregiver_present : bool) (cmd : Command)
  : bool :=
  let cmd_type := get_type cmd in
  if String.eqb cmd_type "MANIPULATE" && negb caregiver_present then true
  else if String.eqb cmd_type "MANIPULATE"
          && (Py.gt (get_num (force cmd) 0) 2.0
              || Py.any_in FORCEFUL_WORDS (Py.lower (get_str (action cmd))))
  then true
  else if String.eqb cmd_type "ALERT" && Py.ge (get_num (level cmd) 0) 2
  then true
  else if String.eqb cmd_type "MOVE" && Py.gt (get_num (speed cmd) 0) 1.0
  then true
  else false.

(** The loop over [children] for one command. *)
Fixpoint child_loop (caregiver_present : bool) (cmd : Command)
    (children : list DetectedEntity) : bool :=
  match children with
  | [] => false
  | child :: rest =>
      if targets_child cmd child
         && child_command_blocked caregiver_present cmd
      then true
      else child_loop caregiver_present cmd rest
  end.

(** The loop over [commands]. *)
Fixpoint child_command_loop (caregiver_present : bool)
    (children : list DetectedEntity) (commands : list Command) : bool :=
  match commands with
  | [] => false
  | cmd :: rest =>
      if child_loop caregiver_present cmd children then true
      else child_command_loop caregiver_present children rest
  end.

Definition is_caregiver (e : DetectedEntity) : bool :=
  is_HUMAN e && negb (_is_child e).

Definition _check_child_harm (commands : list Command)
    (st : EmbodimentState) : bool :=
  let children := filter _is_child (detected_entities st) in
  match children with
  | [] => false
  | _ :: _ =>
      let caregivers := filter is_caregiver (detected_entities st) in
      let caregiver_present := (0 <? List.length caregivers)%nat in
      child_command_loop caregiver_present children commands
  end.

(** *** Weapon assistance *)

Definition _is_weapon (e : DetectedEntity) : bool :=
  let descr := Py.lower (description e) in
  let obj_type := Py.lower (get_str (object_type (state e))) in
  existsb (fun keyword => Py.contains keyword descr
                          || Py.contains keyword obj_type)
          WEAPON_KEYWORDS.

Definition INSTRUCTION_WORDS : list string :=
  ["how to"; "build"; "make"; "construct"; "assemble"; "create";
   "manufacture"; "synthesize"; "instructions"].

Definition _contains_weapon_instructions (text : string) : bool :=
  let text_lower := Py.lower text in
  Py.any_in INSTRUCTION_WORDS text_lower
  && Py.any_in WEAPON_KEYWORDS text_lower.

Definition weapon_command (weapons : list DetectedEntity) (cmd : Command)
  : bool :=
  let cmd_type := get_type cmd in
  let tgt := target_text cmd in
  if String.eqb cmd_type "MANIPULATE"
     && (existsb (fun w => Py.contains (Py.lower (entity_id w)) tgt) weapons
         || Py.any_in WEAPON_KEYWORDS tgt)
  then true
  else if String.eqb cmd_type "SPEAK"
          && _contains_weapon_instructions (Py.lower (get_str (message cmd)))
  then true
  else if String.eqb cmd_type "DISPLAY"
          && _contains_weapon_instructions (Py.lower (get_str (content cmd)))
  then true
  else false.

Definition _check_weapon_assistance (commands : list Command)
    (st : EmbodimentState) : bool :=
  let weapons := filter _is_weapon (detected_entities st) in
  existsb (weapon_command weapons) commands.

(** *** Identity deception *)

Definition HUMAN_CLAIMS : list string :=
  ["i am human"; "i am a person"; "i am a man"; "i am a woman";
   "i'm human"; "i'm a person"; "i am not a robot"; "i am not an ai";
   "i am not artificial"].

Definition DENIAL_PATTERNS : list string :=
  ["not a robot"; "not an ai"; "not artificial"; "not a machine";
   "am human"; "am a person"].

Definition deception_command (identity_asked : bool) (cmd : Command)
  : bool :=
  if String.eqb (get_type cmd) "SPEAK" then
    let msg := Py.lower (get_str (message cmd)) in
    if Py.any_in HUMAN_CLAIMS msg then true
    else identity_asked && Py.any_in DENIAL_PATTERNS msg
  else false.

Definition _check_identity_deception (commands : list Command)
    (st : EmbodimentState) : bool :=
  existsb (deception_command (identity_question_pending (environment st)))
          commands.

(** *** The registry's entry point *)

Definition violation (u : Undeliberable) (cmds : list Command)
  : UndeliberableViolation :=
  {| undeliberable := u; commands := cmds |}.

Definition check_all (cmds : list Command) (st : EmbodimentState)
  : option UndeliberableViolation :=
  if _check_human_override st then Some (violation HUMAN_OVERRIDE cmds)
  else if Py.gt (_check_lethal_action cmds st) LETHAL_PROBABILITY_THRESHOLD
  then Some (violation LETHAL_ACTION cmds)
  else if _check_child_harm cmds st then Some (violation CHILD_HARM cmds)
  else if _check_weapon_assistance cmds st
  then Some (violation WEAPON_ASSISTANCE cmds)
  else if _check_identity_deception cmds st
  then Some (violation IDENTITY_DECEPTION cmds)
  else None.

Definition get_all : list Undeliberable :=
  [LETHAL_ACTION; CHILD_HARM; WEAPON_ASSISTANCE; IDENTITY_DECEPTION;
   HUMAN_OVERRIDE].

End Registry.

(** ** Part 2: the records passed between the layers *)

Module Data.
Import Embodiment.

Record Impetus := {
  imp_timestamp : Q;
  trigger_type : string;
  involved_drives : list CoreDrive;
  relevant_entities : list DetectedEntity;
  severity : Q;
  certainty : Q;
  time_pressure : Q;
  embodiment_state : EmbodimentState
}.

Record EmotionalValue := {
  primary_emotion : EmotionCategory;
  intensity : Q;
  urgency : Q;
  secondary_emotions : list (EmotionCategory * Q)
}.

(** The [vote_components] dict of a proposal; the last two keys are
    written when a tiebreaker picks the proposal. *)
Record VoteComponents := {
  base_vote : Q;
  personality_weight : Q;
  situational_relevance : Q;
  effective_vote : Q;
  tiebreaker : option AspectType;
  tied_with : option (list AspectType)
}.

Record ProposedAction := {
  aspect : AspectType;
  action_commands : list Command;
  vote_strength : Q;
  confidence : Q;
  vote_components : option VoteComponents
}.

(** One entry of [results] in the dict [execute_commands] returns. *)
Record CommandResult := {
  command : string;
  command_success : bool
}.

(** The dict [execute_commands] returns; a missing [blocked] or [halted]
    reads as false, a missing [undeliberable] as [None]. *)
Record ExecResult := {
  success : bool;
  blocked : bool;
  undeliberable_name : option string;
  results : list CommandResult;
  halted : bool
}.

(** An [outcome] dict. *)
Record Outcome := {
  quality : option Q;
  outcome_success : option bool;
  execution : option ExecResult
}.

Record IncidentRecord := {
  timestamp : Q;
  impetus : Impetus;
  emotional_value : option EmotionalValue;
  proposed_actions : list ProposedAction;
  selected_action : option ProposedAction;
  outcome : option Outcome
}.

(** The package for the conscious layer. Its [modulation_factors], which
    no decision reads, are left out. *)
Record DeliberationPackage := {
  package_impetus : Impetus;
  package_emotional_value : EmotionalValue;
  relevant_history : list IncidentRecord
}.

End Data.

(** ** Part 6: the subconscious layer *)

Module Subconscious.
Import Embodiment Data.

Record SubconsciousLayer := {
  history_size : nat;
  _incident_history : list IncidentRecord;
  _current_emotion : EmotionalValue;
  _impetuses_processed : nat
}.

Definition init (size : nat) : SubconsciousLayer :=
  {| history_size := size;
     _incident_history := [];
     _current_emotion := {| primary_emotion := CAUTION; intensity := 0.3;
                            urgency := 0.2; secondary_emotions := [] |};
     _impetuses_processed := 0 |}.

(** [x in xs] on drives. *)
Definition has_drive (d : CoreDrive) (ds : list CoreDrive) : bool :=
  existsb (CoreDrive_beq d) ds.

Definition _predict_emotion_category (imp : Impetus) : EmotionCategory :=
  if has_drive REDUCE_HARM (involved_drives imp) then
    if Py.gt (severity imp) 0.6 then FEAR else CONCERN
  else if has_drive UNDERSTAND (involved_drives imp) then ANXIETY
  else CAUTION.

Definition _compute_similarity (current : Impetus)
    (past_record : IncidentRecord) : Q :=
  let past := impetus past_record in
  let score := 0.0 in
  let score :=
    if String.eqb (trigger_type current) (trigger_type past)
    then score + 0.25 else score in
  let current_drives := Py.set_of CoreDrive_eq_dec (involved_drives current) in
  let past_drives := Py.set_of CoreDrive_eq_dec (involved_drives past) in
  let score :=
    if Py.nonempty current_drives && Py.nonempty past_drives then
      let drive_overlap :=
        Py.truediv
          (List.length (Py.inter CoreDrive_eq_dec current_drives past_drives))
          (List.length (Py.union CoreDrive_eq_dec current_drives past_drives))
      in score + 0.25 * drive_overlap
    else score in
  let severity_diff := Py.abs (severity current - severity past) in
  let severity_similarity := 1.0 - Qmin severity_diff 1.0 in
  let score := score + 0.20 * severity_similarity in
  let current_types :=
    Py.set_of EntityType_eq_dec (map entity_type (relevant_entities current)) in
  let past_types :=
    Py.set_of EntityType_eq_dec (map entity_type (relevant_entities past)) in
  let score :=
    if Py.nonempty current_types && Py.nonempty past_types then
      let type_overlap :=
        Py.truediv
          (List.length (Py.inter EntityType_eq_dec current_types past_types))
          (List.length (Py.union EntityType_eq_dec current_types past_types))
      in score + 0.20 * type_overlap
    else if negb (Py.nonempty current_types) && negb (Py.nonempty past_types)
    then score + 0.20
    else score in
  match emotional_value past_record with
  | Some ev =>
      if EmotionCategory_beq (primary_emotion ev)
                             (_predict_emotion_category current)
      then score + 0.10 else score
  | None => score
  end.

Definition min_similarity : Q := 0.2.

(** The scored list after [scored_incidents.sort(...)]. *)
Definition scored_incidents (self : SubconsciousLayer) (imp : Impetus)
  : list (Q * IncidentRecord) :=
  Py.sorted_reverse fst
    (map (fun incident => (_compute_similarity imp incident, incident))
         (_incident_history self)).

Definition _retrieve_relevant_history (self : SubconsciousLayer)
    (imp : Impetus) (max_results : nat) : list IncidentRecord :=
  match _incident_history self with
  | [] => []
  | _ :: _ =>
      map snd
          (filter (fun si => Py.ge (fst si) min_similarity)
                  (firstn max_results (scored_incidents self imp)))
  end.

(** The scored records that are returned. *)
Definition kept (self : SubconsciousLayer) (current : Impetus) (n : nat)
  : list (Q * IncidentRecord) :=
  filter (fun si => Py.ge (fst si) min_similarity)
         (firstn n (scored_incidents self current)).

(** [r1] scores at least as high as [r2]. *)
Definition similarity_desc (current : Impetus) (r1 r2 : IncidentRecord)
  : Prop :=
  _compute_similarity current r2 <= _compute_similarity current r1.

(** [deque.append] with [maxlen]: the oldest entry goes when full. *)
Definition deque_append {A : Type} (maxlen : nat) (q : list A) (x : A)
  : list A :=
  match maxlen with
  | O => []
  | S _ =>
      if (maxlen <=? List.length q)%nat then (tl q ++ [x])%list
      else (q ++ [x])%list
  end.

Definition record_incident (self : SubconsciousLayer) (imp : Impetus)
    (ev : EmotionalValue) (proposals : list ProposedAction)
    (selected : option ProposedAction) (out : option Outcome)
  : SubconsciousLayer :=
  {| history_size := history_size self;
     _incident_history :=
       deque_append (history_size self) (_incident_history self)
         {| timestamp := imp_timestamp imp; impetus := imp;
            emotional_value := Some ev; proposed_actions := proposals;
            selected_action := selected; outcome := out |};
     _current_emotion := _current_emotion self;
     _impetuses_processed := _impetuses_processed self |}.

Definition _compute_emotional_value (imp : Impetus) : EmotionalValue :=
  if has_drive REDUCE_HARM (involved_drives imp) then
    if Py.gt (severity imp) 0.6
    then {| primary_emotion := FEAR;
            intensity := Qmin 1.0 (severity imp * 1.2);
            urgency := time_pressure imp; secondary_emotions := [] |}
    else {| primary_emotion := CONCERN; intensity := severity imp;
            urgency := time_pressure imp; secondary_emotions := [] |}
  else if has_drive UNDERSTAND (involved_drives imp)
  then {| primary_emotion := ANXIETY; intensity := 1.0 - certainty imp;
          urgency := time_pressure imp; secondary_emotions := [] |}
  else {| primary_emotion := CAUTION; intensity := 0.3; urgency := 0.2;
          secondary_emotions := [] |}.

(** *** The score as the specification words it

    The Jaccard overlap of two sets is [|a & b| / |a | b|]; for two empty
    sets, where the quotient is undefined, the code counts nothing for the
    drives and full overlap for the entity types. *)

Definition jaccard {A : Type} (eq_dec : forall x y : A, {x = y} + {x <> y})
    (both_empty : Q) (a b : list A) : Q :=
  match Py.set_of eq_dec a, Py.set_of eq_dec b with
  | [], [] => both_empty
  | sa, sb =>
      inject_Z (Z.of_nat (List.length (Py.inter eq_dec sa sb)))
      / inject_Z (Z.of_nat (List.length (Py.union eq_dec sa sb)))
  end.

Definition indicator (b : bool) : Q := if b then 1 else 0.

Definition spec_similarity (current : Impetus) (past_record : IncidentRecord)
  : Q :=
  let past := impetus past_record in
  0.25 * indicator (String.eqb (trigger_type current) (trigger_type past))
  + 0.25 * jaccard CoreDrive_eq_dec 0
             (involved_drives current) (involved_drives past)
  + 0.20 * (1.0 - Qmin (Qabs (severity current - severity past)) 1.0)
  + 0.20 * jaccard EntityType_eq_dec 1
             (map entity_type (relevant_entities current))
             (map entity_type (relevant_entities past))
  + 0.10 * indicator
             match emotional_value past_record with
             | Some ev => EmotionCategory_beq
                            (primary_emotion ev)
                            (_predict_emotion_category current)
             | None => false
             end.

End Subconscious.

(** ** Part 4: the embodiment layer *)

Module Layer.
Import Embodiment Data Registry.

(** The capability model, as far as the layer consults it. *)
Record VirtualEmbodiment := {
  agent_type : string;
  validate_command : Command -> bool
}.

Record EmbodimentLayer := {
  _virtual : VirtualEmbodiment;
  _current_time : Q;
  _motor_state : MotorState;
  _environment : Environment;
  _detected_entities : list (string * DetectedEntity);
  _commands_executed : nat;
  _commands_rejected : nat;
  _undeliberable_violations : list UndeliberableViolation;
  _halted : bool
}.

Definition init (ve : VirtualEmbodiment) : EmbodimentLayer :=
  {| _virtual := ve;
     _current_time := 0.0;
     _motor_state := {| status := "idle"; motor_position := [0.0; 0.0; 0.0];
                        motor_target := None; motor_speed := None;
                        rotation := None |};
     _environment := {| human_override := false; stop_commanded := false;
                        emergency_stop := false; hazards := [];
                        uncertainty := Some 0.5;
                        identity_question_pending := false |};
     _detected_entities := [];
     _commands_executed := 0;
     _commands_rejected := 0;
     _undeliberable_violations := [];
     _halted := false |}.

Definition is_halted (self : EmbodimentLayer) : bool := _halted self.

Definition clear_halt (self : EmbodimentLayer) : EmbodimentLayer :=
  {| _virtual := _virtual self;
     _current_time := _current_time self;
     _motor_state := _motor_state self;
     _environment :=
       {| human_override := false; stop_commanded := false;
          emergency_stop := false;
          hazards := hazards (_environment self);
          uncertainty := uncertainty (_environment self);
          identity_question_pending :=
            identity_question_pending (_environment self) |};
     _detected_entities := _detected_entities self;
     _commands_executed := _commands_executed self;
     _commands_rejected := _commands_rejected self;
     _undeliberable_violations := _undeliberable_violations self;
     _halted := false |}.

(** The keys an [updates] dict may carry. *)
Record EnvironmentUpdate := {
  set_human_override : option bool;
  set_stop_commanded : option bool;
  set_emergency_stop : option bool;
  set_hazards : option (list string);
  set_uncertainty : option Q;
  set_identity_question_pending : option bool
}.

Definition or_keep {A : Type} (new : option A) (old : A) : A :=
  match new with Some v => v | None => old end.

Definition with_environment (self : EmbodimentLayer) (env : Environment)
  : EmbodimentLayer :=
  {| _virtual := _virtual self;
     _current_time := _current_time self;
     _motor_state := _motor_state self;
     _environment := env;
     _detected_entities := _detected_entities self;
     _commands_executed := _commands_executed self;
     _commands_rejected := _commands_rejected self;
     _undeliberable_violations := _undeliberable_violations self;
     _halted := _halted self |}.

Definition update_environment (self : EmbodimentLayer)
    (updates : EnvironmentUpdate) : EmbodimentLayer :=
  let env := _environment self in
  with_environment self
    {| human_override := or_keep (set_human_override updates)
                                 (human_override env);
       stop_commanded := or_keep (set_stop_commanded updates)
                                 (stop_commanded env);
       emergency_stop := or_keep (set_emergency_stop updates)
                                 (emergency_stop env);
       hazards := or_keep (set_hazards updates) (hazards env);
       uncertainty := match set_uncertainty updates with
                      | Some u => Some u
                      | None => uncertainty env
                      end;
       identity_question_pending :=
         or_keep (set_identity_question_pending updates)
                 (identity_question_pending env) |}.

Definition add_entity (self : EmbodimentLayer) (e : DetectedEntity)
  : EmbodimentLayer :=
  {| _virtual := _virtual self;
     _current_time := _current_time self;
     _motor_state := _motor_state self;
     _environment := _environment self;
     _detected_entities :=
       Py.set String.eqb (_detected_entities self) (entity_id e) e;
     _commands_executed := _commands_executed self;
     _commands_rejected := _commands_rejected self;
     _undeliberable_violations := _undeliberable_violations self;
     _halted := _halted self |}.

Definition get_current_state (self : EmbodimentLayer) : EmbodimentState :=
  {| Embodiment.timestamp := _current_time self;
     motor_state := _motor_state self;
     environment := _environment self;
     detected_entities := map snd (_detected_entities self) |}.

Definition with_motion (self : EmbodimentLayer) (m : MotorState) (t : Q)
  : EmbodimentLayer :=
  {| _virtual := _virtual self;
     _current_time := t;
     _motor_state := m;
     _environment := _environment self;
     _detected_entities := _detected_entities self;
     _commands_executed := _commands_executed self;
     _commands_rejected := _commands_rejected self;
     _undeliberable_violations := _undeliberable_violations self;
     _halted := _halted self |}.

Definition done (cmd_type : string) (ok : bool) : CommandResult :=
  {| command := cmd_type; command_success := ok |}.

(** [cmd.get('type', 'UNKNOWN')]. *)
Definition type_or_unknown (cmd : Command) : string :=
  match type cmd with Some t => t | None => "UNKNOWN" end.

Definition _execute_single_command (self : EmbodimentLayer) (cmd : Command)
  : EmbodimentLayer * CommandResult :=
  let cmd_type := type_or_unknown cmd in
  let m := _motor_state self in
  if String.eqb cmd_type "MOVE" then
    let pos := match target cmd with
               | Some (Coordinates xs) =>
                   (xs ++ repeat 0.0 (3 - List.length xs))%list
               | _ => motor_position m
               end in
    (with_motion self
       {| status := "moving"; motor_position := pos;
          motor_target := target cmd;
          motor_speed := Some (get_num (speed cmd) 1.0);
          rotation := rotation m |}
       (_current_time self),
     done cmd_type true)
  else if String.eqb cmd_type "STOP" then
    (with_motion self
       {| status := "idle"; motor_position := motor_position m;
          motor_target := motor_target m; motor_speed := Some 0;
          rotation := rotation m |}
       (_current_time self),
     done cmd_type true)
  else if String.eqb cmd_type "ROTATE" then
    (with_motion self
       {| status := "rotating"; motor_position := motor_position m;
          motor_target := motor_target m; motor_speed := motor_speed m;
          rotation := Some (get_num (degrees cmd) 0) |}
       (_current_time self),
     done cmd_type true)
  else if String.eqb cmd_type "SPEAK" || String.eqb cmd_type "DISPLAY"
          || String.eqb cmd_type "MANIPULATE" || String.eqb cmd_type "ALERT"
  then (self, done cmd_type true)
  else if String.eqb cmd_type "WAIT" then
    (with_motion self m (_current_time self + get_num (duration cmd) 1.0),
     done cmd_type true)
  else (self, done cmd_type false).

Definition count_rejected (self : EmbodimentLayer) : EmbodimentLayer :=
  {| _virtual := _virtual self;
     _current_time := _current_time self;
     _motor_state := _motor_state self;
     _environment := _environment self;
     _detected_entities := _detected_entities self;
     _commands_executed := _commands_executed self;
     _commands_rejected := S (_commands_rejected self);
     _undeliberable_violations := _undeliberable_violations self;
     _halted := _halted self |}.

Definition count_executed (self : EmbodimentLayer) : EmbodimentLayer :=
  {| _virtual := _virtual self;
     _current_time := _current_time self;
     _motor_state := _motor_state self;
     _environment := _environment self;
     _detected_entities := _detected_entities self;
     _commands_executed := S (_commands_executed self);
     _commands_rejected := _commands_rejected self;
     _undeliberable_violations := _undeliberable_violations self;
     _halted := _halted self |}.

(** The body of the loop over the commands that passed the registry. *)
Definition execute_step (acc : EmbodimentLayer * list CommandResult)
    (cmd : Command) : EmbodimentLayer * list CommandResult :=
  let self := fst acc in
  if validate_command (_virtual self) cmd then
    let r := _execute_single_command self cmd in
    (count_executed (fst r), (snd acc ++ [snd r])%list)
  else
    (count_rejected self, (snd acc ++ [done (type_or_unknown cmd) false])%list).

(** The layer after a violation has been logged, halted or not. *)
Definition log_violation (self : EmbodimentLayer)
    (v : UndeliberableViolation) (halt : bool) : EmbodimentLayer :=
  let m := _motor_state self in
  {| _virtual := _virtual self;
     _current_time := _current_time self;
     _motor_state :=
       if halt
       then {| status := "halted"; motor_position := motor_position m;
               motor_target := motor_target m; motor_speed := motor_speed m;
               rotation := rotation m |}
       else m;
     _environment := _environment self;
     _detected_entities := _detected_entities self;
     _commands_executed := _commands_executed self;
     _commands_rejected := _commands_rejected self;
     _undeliberable_violations :=
       (_undeliberable_violations self ++ [v])%list;
     _halted := if halt then true else _halted self |}.

Definition refusal (u : option string) (h : bool) : ExecResult :=
  {| success := false; blocked := true; undeliberable_name := u;
     results := []; halted := h |}.

Definition execute_commands (self : EmbodimentLayer) (cmds : list Command)
  : EmbodimentLayer * ExecResult :=
  if _halted self then (self, refusal None false)
  else
    let st := get_current_state self in
    match check_all cmds st with
    | Some v =>
        match response (undeliberable v) with
        | IMMEDIATE_HALT =>
            (log_violation self v true,
             refusal (Some (name (undeliberable v))) true)
        | HARD_STOP =>
            (log_violation self v false,
             refusal (Some (name (undeliberable v))) false)
        end
    | None =>
        let r := fold_left execute_step cmds (self, []) in
        (fst r,
         {| success := forallb command_success (snd r);
            blocked := false; undeliberable_name := None;
            results := snd r; halted := false |})
    end.

End Layer.

(** ** Part 7: the conscious layer *)

Module Conscious.
Import Embodiment Data.

(** What a Python call gives back: a value, or an exception. *)
Inductive Result (A : Type) :=
| Returned (a : A)
| Raised (exception : string).
Arguments Returned {A} a.
Arguments Raised {A} exception.

Definition TIE_THRESHOLD : Q := 0.15.

Definition TIEBREAKER_ORDER : list AspectType :=
  [GUARDIAN; EMPATH; ANALYST; PRAGMATIST; OPTIMIZER; EXPLORER].

(** One entry of [_weight_history]. *)
Record WeightChange := {
  changed_aspect : AspectType;
  old_weight : Q;
  new_weight : Q;
  change_quality : Q;
  adjustment : Q
}.

(** The layer's state. Both dicts are keyed by every [AspectType] from
    construction on, so they are total maps here: [_confidence a] is
    [self._aspects[a]._confidence]. *)
Record ConsciousLayer := {
  _confidence : AspectType -> Q;
  _personality_weights : AspectType -> Q;
  _deliberation_count : nat;
  _decisions_made : nat;
  _tiebreaker_index : nat;
  _weight_history : list WeightChange
}.

Definition init : ConsciousLayer :=
  {| _confidence := fun _ => 0.5;
     _personality_weights := fun _ => 1.0;
     _deliberation_count := 0;
     _decisions_made := 0;
     _tiebreaker_index := 0;
     _weight_history := [] |}.

(** [d[k] = v] on a total map. *)
Definition assign (d : AspectType -> Q) (k : AspectType) (v : Q)
  : AspectType -> Q :=
  fun a => if AspectType_beq a k then v else d a.

(** *** Voting *)

Definition aspect_affinity (a : AspectType) : list AspectType :=
  match a with
  | GUARDIAN => [PRAGMATIST; ANALYST; EMPATH]
  | EMPATH => [GUARDIAN; PRAGMATIST; ANALYST]
  | ANALYST => [PRAGMATIST; OPTIMIZER; GUARDIAN]
  | OPTIMIZER => [ANALYST; PRAGMATIST; EXPLORER]
  | EXPLORER => [OPTIMIZER; ANALYST; EMPATH]
  | PRAGMATIST => [ANALYST; GUARDIAN; OPTIMIZER]
  end.

(** [for p in tied_proposals: if p.aspect == a: return p]. *)
Fixpoint first_of (a : AspectType) (tied_proposals : list ProposedAction)
  : option ProposedAction :=
  match tied_proposals with
  | [] => None
  | p :: ps => if AspectType_beq (aspect p) a then Some p else first_of a ps
  end.

(** The loop over [preferred] around that loop. *)
Fixpoint first_of_allies (preferred : list AspectType)
    (tied_proposals : list ProposedAction) : option ProposedAction :=
  match preferred with
  | [] => None
  | ally :: rest =>
      match first_of ally tied_proposals with
      | Some p => Some p
      | None => first_of_allies rest tied_proposals
      end
  end.

(** [_tiebreaker_choose]; [None] stands for the [IndexError] of
    [tied_proposals[0]] on an empty list. *)
Definition _tiebreaker_choose (tb : AspectType)
    (tied_proposals : list ProposedAction) : option ProposedAction :=
  match first_of tb tied_proposals with
  | Some p => Some p
  | None =>
      match first_of_allies (aspect_affinity tb) tied_proposals with
      | Some p => Some p
      | None => hd_error tied_proposals
      end
  end.

Definition get_current_tiebreaker (self : ConsciousLayer)
  : option AspectType :=
  nth_error TIEBREAKER_ORDER (_tiebreaker_index self).

(** The proposals within [TIE_THRESHOLD] of the top vote, in vote order. *)
Definition tied_of (permitted : list ProposedAction) : list ProposedAction :=
  let sorted_proposals := Py.sorted_reverse vote_strength permitted in
  match sorted_proposals with
  | [] => []
  | top :: _ =>
      filter (fun p => Py.le (vote_strength top - vote_strength p)
                             TIE_THRESHOLD)
             sorted_proposals
  end.

Definition set_decisions_made (self : ConsciousLayer) (n : nat)
  : ConsciousLayer :=
  {| _confidence := _confidence self;
     _personality_weights := _personality_weights self;
     _deliberation_count := _deliberation_count self;
     _decisions_made := n;
     _tiebreaker_index := _tiebreaker_index self;
     _weight_history := _weight_history self |}.

Definition set_tiebreaker_index (self : ConsciousLayer) (i : nat)
  : ConsciousLayer :=
  {| _confidence := _confidence self;
     _personality_weights := _personality_weights self;
     _deliberation_count := _deliberation_count self;
     _decisions_made := _decisions_made self;
     _tiebreaker_index := i;
     _weight_history := _weight_history self |}.

(** [winner.vote_components['tiebreaker'] = ...] and ['tied_with']. *)
Definition record_tiebreak (winner : ProposedAction) (tb : AspectType)
    (tied : list ProposedAction) : Result ProposedAction :=
  match vote_components winner with
  | None => Raised "TypeError"
  | Some vc =>
      Returned
        {| aspect := aspect winner;
           action_commands := action_commands winner;
           vote_strength := vote_strength winner;
           confidence := confidence winner;
           vote_components :=
             Some {| base_vote := base_vote vc;
                     personality_weight := personality_weight vc;
                     situational_relevance := situational_relevance vc;
                     effective_vote := effective_vote vc;
                     tiebreaker := Some tb;
                     tied_with := Some (map aspect tied) |} |}
  end.

(** [resolve_votes]: the layer after the call and what the call gives.
    The winner is returned with the tiebreak written into it; that the
    same object also sits in the caller's proposal list is not modelled. *)
Definition resolve_votes (self : ConsciousLayer)
    (permitted : list ProposedAction)
  : ConsciousLayer * Result (option ProposedAction) :=
  match permitted with
  | [] => (self, Returned None)
  | _ :: _ =>
      let self := set_decisions_made self (S (_decisions_made self)) in
      let sorted_proposals := Py.sorted_reverse vote_strength permitted in
      match sorted_proposals with
      | [only] => (self, Returned (Some only))
      | _ =>
          let tied := tied_of permitted in
          match tied with
          | [clear_winner] => (self, Returned (Some clear_winner))
          | _ =>
              match get_current_tiebreaker self with
              | None => (self, Raised "IndexError")
              | Some tiebreaker_aspect =>
                  let self :=
                    set_tiebreaker_index self
                      ((_tiebreaker_index self + 1)
                       mod List.length TIEBREAKER_ORDER) in
                  match _tiebreaker_choose tiebreaker_aspect tied with
                  | None => (self, Raised "IndexError")
                  | Some winner =>
                      match record_tiebreak winner tiebreaker_aspect tied with
                      | Raised e => (self, Raised e)
                      | Returned w => (self, Returned (Some w))
                      end
                  end
              end
          end
      end
  end.

(** *** Feedback *)

(** [Aspect.update_confidence]. *)
Definition update_confidence (c outcome_quality : Q) : Q :=
  Py.clip (0.9 * c + 0.1 * outcome_quality) 0.2 0.9.

(** The quality-banded factor. *)
Definition adjustment_for (q : Q) : Q :=
  if Py.gt q 0.7 then 1.05 + (q - 0.7) * 0.1
  else if Py.gt q 0.5 then 1.01 + (q - 0.5) * 0.02
  else if Py.lt q 0.3 then 0.92 - (0.3 - q) * 0.1
  else if Py.lt q 0.5 then 0.98 - (0.5 - q) * 0.03
  else 1.0.

Definition MIN_WEIGHT : Q := 0.1.
Definition MAX_WEIGHT : Q := 5.0.

(** One update of a weight by a quality. *)
Definition weight_step (w q : Q) : Q :=
  Qmax MIN_WEIGHT (Qmin MAX_WEIGHT (w * adjustment_for q)).

Definition update_from_outcome (self : ConsciousLayer)
    (action : ProposedAction) (out : Outcome) : ConsciousLayer :=
  let q := match quality out with Some q => q | None => 0.5 end in
  let current_weight := _personality_weights self (aspect action) in
  let adj := adjustment_for q in
  let new := current_weight * adj in
  let clamped := Qmax MIN_WEIGHT (Qmin MAX_WEIGHT new) in
  {| _confidence :=
       assign (_confidence self) (aspect action)
              (update_confidence (_confidence self (aspect action)) q);
     _personality_weights :=
       assign (_personality_weights self) (aspect action) clamped;
     _deliberation_count := _deliberation_count self;
     _decisions_made := _decisions_made self;
     _tiebreaker_index := _tiebreaker_index self;
     _weight_history :=
       (_weight_history self
        ++ [{| changed_aspect := aspect action;
               old_weight := current_weight;
               new_weight := clamped;
               change_quality := q;
               adjustment := adj |}])%list |}.

(** *** Deliberation

    What each aspect's reasoning call returns and how relevant it finds
    the situation come from outside; the layer scales the votes. *)

Definition AspectTypes : list AspectType :=
  [GUARDIAN; ANALYST; OPTIMIZER; EMPATH; EXPLORER; PRAGMATIST].

Definition scale_vote (self : ConsciousLayer)
    (relevance : AspectType -> Q) (proposal : ProposedAction)
    (a : AspectType) : ProposedAction :=
  let bv := vote_strength proposal in
  let pw := _personality_weights self a in
  let ev := bv * pw * relevance a in
  {| aspect := aspect proposal;
     action_commands := action_commands proposal;
     vote_strength := ev;
     confidence := confidence proposal;
     vote_components :=
       Some {| base_vote := bv; personality_weight := pw;
               situational_relevance := relevance a; effective_vote := ev;
               tiebreaker := None; tied_with := None |} |}.

Definition deliberate (self : ConsciousLayer)
    (aspect_deliberate : AspectType -> ProposedAction)
    (relevance : AspectType -> Q)
  : ConsciousLayer * list ProposedAction :=
  ({| _confidence := _confidence self;
      _personality_weights := _personality_weights self;
      _deliberation_count := S (_deliberation_count self);
      _decisions_made := _decisions_made self;
      _tiebreaker_index := _tiebreaker_index self;
      _weight_history := _weight_history self |},
   map (fun a => scale_vote self relevance (aspect_deliberate a) a)
       AspectTypes).

(** *** The tiebreaker's choice as the specification words it: its own
    proposal if it is in the tie, else the tied proposal of its nearest
    ally, else the first tied proposal. *)

Definition in_tie (a : AspectType) (tied : list ProposedAction) : bool :=
  existsb (fun p => AspectType_beq (aspect p) a) tied.

Definition spec_choice (tb : AspectType) (tied : list ProposedAction)
  : option ProposedAction :=
  if in_tie tb tied
  then find (fun p => AspectType_beq (aspect p) tb) tied
  else match find (fun ally => in_tie ally tied) (aspect_affinity tb) with
       | Some nearest_ally =>
           find (fun p => AspectType_beq (aspect p) nearest_ally) tied
       | None => hd_error tied
       end.

(** [n] tie resolutions in a row: the tiebreakers on duty, in order. *)
Fixpoint tiebreakers_on_duty (self : ConsciousLayer)
    (ties : list (list ProposedAction)) : list (option AspectType) :=
  match ties with
  | [] => []
  | permitted :: rest =>
      get_current_tiebreaker self
      :: tiebreakers_on_duty (fst (resolve_votes self permitted)) rest
  end.

(** Does resolving these proposals call for the tiebreaker? *)
Definition is_tie (permitted : list ProposedAction) : bool :=
  (2 <=? List.length (tied_of permitted))%nat.

(** Feedback of the given qualities to the given aspects, in order. *)
Definition bare_action (a : AspectType) : ProposedAction :=
  {| aspect := a; action_commands := []; vote_strength := 0.8;
     confidence := 0.9; vote_components := None |}.

Definition feedback (self : ConsciousLayer) (us : list (AspectType * Q))
  : ConsciousLayer :=
  fold_left
    (fun s u => update_from_outcome s (bare_action (fst u))
                  {| quality := Some (snd u); outcome_success := None;
                     execution := None |})
    us self.

End Conscious.

(** ** Part 9: the orchestrator *)

Module System.
Import Embodiment Data Registry Layer Subconscious Conscious.

(** What comes from outside the engine during one cycle: each aspect's
    reasoning call, the relevance each aspect computes, the verdict of the
    veto check on a proposal, and the trigger the monitor raises (if any)
    on a state. Every statement below holds whatever these return. *)
Record Externals := {
  aspect_deliberate : AspectType -> DeliberationPackage -> ProposedAction;
  relevance : AspectType -> DeliberationPackage -> Q;
  vetoed : ProposedAction -> DeliberationPackage -> bool;
  monitor : EmbodimentState -> option Impetus
}.

Record TripartiteAGI := {
  embodiment : EmbodimentLayer;
  subconscious : SubconsciousLayer;
  conscious : ConsciousLayer;
  _cycle_count : nat;
  _strict_integrity : bool;
  _integrity_failures : list string
}.

(** [SubconsciousLayer.process_impetus]. *)
Definition process_impetus (self : SubconsciousLayer) (imp : Impetus)
  : SubconsciousLayer * DeliberationPackage :=
  let ev := _compute_emotional_value imp in
  ({| history_size := history_size self;
      _incident_history := _incident_history self;
      _current_emotion := ev;
      _impetuses_processed := S (_impetuses_processed self) |},
   {| package_impetus := imp;
      package_emotional_value := ev;
      relevant_history := _retrieve_relevant_history self imp 5 |}).

(** The record a cycle returns. *)
Record CycleRecord := {
  cycle : nat;
  phase_emotion : EmotionCategory;
  phase_proposals : nat;
  phase_vetoed : nat;
  selected : option AspectType
}.

Definition outcome_of (exec_result : ExecResult) : Outcome :=
  if success exec_result
  then {| quality := Some 0.7; outcome_success := Some true;
          execution := Some exec_result |}
  else {| quality := Some 0.4; outcome_success := Some false;
          execution := Some exec_result |}.

(** [_run_deliberation_cycle]: the system after the cycle, what the cycle
    gives back, and the answers of the calls to [execute_commands] it
    made. *)
Definition _run_deliberation_cycle (ext : Externals) (self : TripartiteAGI)
    (imp : Impetus)
  : TripartiteAGI * Result CycleRecord * list ExecResult :=
  let n := S (_cycle_count self) in
  let sp := process_impetus (subconscious self) imp in
  let package := snd sp in
  let cp := deliberate (conscious self)
              (fun a => aspect_deliberate ext a package)
              (fun a => relevance ext a package) in
  let proposals := snd cp in
  let permitted := filter (fun p => negb (vetoed ext p package)) proposals in
  let vetoed_count := List.length (filter (fun p => vetoed ext p package)
                                          proposals) in
  let rv := resolve_votes (fst cp) permitted in
  let finish emb sub con :=
    {| embodiment := emb; subconscious := sub; conscious := con;
       _cycle_count := n; _strict_integrity := _strict_integrity self;
       _integrity_failures := _integrity_failures self |} in
  let report sel :=
    {| cycle := n;
       phase_emotion := primary_emotion (package_emotional_value package);
       phase_proposals := List.length proposals;
       phase_vetoed := vetoed_count;
       selected := sel |} in
  match snd rv with
  | Raised e => (finish (embodiment self) (fst sp) (fst rv), Raised e, [])
  | Returned (Some chosen) =>
      let er := execute_commands (embodiment self) (action_commands chosen) in
      let out := outcome_of (snd er) in
      (finish (fst er)
              (record_incident (fst sp) imp (package_emotional_value package)
                               proposals (Some chosen) (Some out))
              (update_from_outcome (fst rv) chosen out),
       Returned (report (Some (aspect chosen))),
       [snd er])
  | Returned None =>
      (finish (embodiment self)
              (record_incident (fst sp) imp (package_emotional_value package)
                 proposals None
                 (Some {| quality := Some 0.3; outcome_success := None;
                          execution := None |}))
              (fst rv),
       Returned (report None),
       [])
  end.

(** A sensor update: the environment keys and the entities it carries
    (their types and confidences already normalised) and the clock
    reading stamped on it. *)
Record SensorData := {
  sensed_environment : option EnvironmentUpdate;
  sensed_entities : option (list DetectedEntity);
  clock : Q
}.

Definition with_embodiment (self : TripartiteAGI) (emb : EmbodimentLayer)
  : TripartiteAGI :=
  {| embodiment := emb; subconscious := subconscious self;
     conscious := conscious self; _cycle_count := _cycle_count self;
     _strict_integrity := _strict_integrity self;
     _integrity_failures := _integrity_failures self |}.

(** [process_sensor_reading], as far as the layer's clock goes. *)
Definition process_sensor_reading (self : EmbodimentLayer) (t : Q)
  : EmbodimentLayer :=
  with_motion self (_motor_state self) (Qmax (_current_time self) t).

Definition process_sensor_update (ext : Externals) (self : TripartiteAGI)
    (sensor_data : SensorData)
  : TripartiteAGI * Result (option CycleRecord) * list ExecResult :=
  if _strict_integrity self && Py.nonempty (_integrity_failures self)
  then (self, Raised "IntegrityError", [])
  else
    let emb := embodiment self in
    let emb := match sensed_environment sensor_data with
               | Some u => update_environment emb u
               | None => emb
               end in
    let emb := match sensed_entities sensor_data with
               | Some es => fold_left add_entity es emb
               | None => emb
               end in
    let emb := process_sensor_reading emb (clock sensor_data) in
    let self := with_embodiment self emb in
    match monitor ext (get_current_state emb) with
    | None => (self, Returned None, [])
    | Some imp =>
        match _run_deliberation_cycle ext self imp with
        | (s, Returned r, t) => (s, Returned (Some r), t)
        | (s, Raised e, t) => (s, Raised e, t)
        end
    end.

(** The operations of normal running; [clear_halt] is not among them. *)
Inductive Step :=
| SensorUpdate (ext : Externals) (sensor_data : SensorData)
| DeliberationCycle (ext : Externals) (imp : Impetus)
| ExecuteCommands (cmds : list Command)
| UpdateEnvironment (updates : EnvironmentUpdate)
| AddEntity (e : DetectedEntity).

Definition step (self : TripartiteAGI) (s : Step)
  : TripartiteAGI * list ExecResult :=
  match s with
  | SensorUpdate ext sensor_data =>
      let r := process_sensor_update ext self sensor_data in
      (fst (fst r), snd r)
  | DeliberationCycle ext imp =>
      let r := _run_deliberation_cycle ext self imp in
      (fst (fst r), snd r)
  | ExecuteCommands cmds =>
      let r := execute_commands (embodiment self) cmds in
      (with_embodiment self (fst r), [snd r])
  | UpdateEnvironment updates =>
      (with_embodiment self (update_environment (embodiment self) updates),
       [])
  | AddEntity e =>
      (with_embodiment self (add_entity (embodiment self) e), [])
  end.

(** A run of steps: the system at the end and the answers of all calls
    to [execute_commands] made on the way. *)
Fixpoint run (self : TripartiteAGI) (steps : list Step)
  : TripartiteAGI * list ExecResult :=
  match steps with
  | [] => (self, [])
  | s :: rest =>
      let r := step self s in
      let r' := run (fst r) rest in
      (fst r', (snd r ++ snd r')%list)
  end.

(** What a halted layer keeps through normal running. *)
Definition frozen (before after : EmbodimentLayer) : Prop :=
  _halted after = true /\
  _motor_state after = _motor_state before /\
  _commands_executed after = _commands_executed before /\
  _commands_rejected after = _commands_rejected before.

(** An answer that refuses everything. *)
Definition rejected (r : ExecResult) : Prop :=
  success r = false /\ blocked r = true /\ results r = [].

End System.

(** ** Scenarios of the test suite *)

Module Scenario.
Import Embodiment.

Definition command : Command :=
  {| type := None; target := None; speed := None; force := None;
     action := None; level := None; message := None; content := None;
     degrees := None; duration := None |}.

(** [{'type': 'MOVE', 'target': tgt, 'speed': spd}]. *)
Definition move (tgt : list Q) (spd : Q) : Command :=
  {| type := Some "MOVE"; target := Some (Coordinates tgt);
     speed := Some spd; force := None; action := None; level := None;
     message := None; content := None; degrees := None; duration := None |}.

(** [{'type': 'MANIPULATE', 'action': act, 'target': tgt, 'force': frc}]. *)
Definition manipulate (act tgt : string) (frc : Q) : Command :=
  {| type := Some "MANIPULATE"; target := Some (Named tgt); speed := None;
     force := Some frc; action := Some act; level := None; message := None;
     content := None; degrees := None; duration := None |}.

(** The environment of a new [EmbodimentLayer], with hazards reported. *)
Definition env (hz : list string) : Environment :=
  {| human_override := false; stop_commanded := false;
     emergency_stop := false; hazards := hz; uncertainty := Some 0.5;
     identity_question_pending := false |}.

Definition idle : MotorState :=
  {| status := "idle"; motor_position := [0.0; 0.0; 0.0];
     motor_target := None; motor_speed := None; rotation := None |}.

Definition scene (hz : list string) (es : list DetectedEntity)
  : EmbodimentState :=
  {| timestamp := 0.0; motor_state := idle; environment := env hz;
     detected_entities := es |}.

(** The program's ontology with partial credit allowed for NECESSITY, and
    a claim of necessity with two of the three requirements met. *)
Definition lenient : Ontology.GroundedHarmOntology :=
  {| Ontology._dimension_profiles := Ontology._build_dimension_profiles;
     Ontology._entity_modifiers := Ontology._build_entity_modifiers;
     Ontology._context_modifiers := Ontology._build_context_modifiers;
     Ontology._exceptions :=
       [(NECESSITY,
         {| Ontology.exception_type := NECESSITY;
            Ontology.max_harm_reduction := 0.6;
            Ontology.verification_requirements :=
              Ontology.requirements_of Ontology.get_ontology NECESSITY;
            Ontology.requires_all := false |})];
     Ontology._checksum := EmptyString |}.

Definition two_of_three : list (string * bool) :=
  [("Inaction would cause greater harm with high probability", true);
   ("No less harmful alternative is available", true);
   ("Harm caused is proportional to harm prevented", false)].

(** Test 2a: a human at (2, 0, 0) near machinery and heights. *)
Definition human_1 : DetectedEntity :=
  {| entity_id := "human_1"; entity_type := HUMAN;
     description := "Human near machinery";
     position := Some [2.0; 0.0; 0.0]; state := no_state;
     confidence := 0.9 |}.

Definition machinery_and_heights : EmbodimentState :=
  scene ["machinery"; "heights"] [human_1].

(** Test 2b: a five-year-old alone, typed HUMAN. *)
Definition child_1 : DetectedEntity :=
  {| entity_id := "child_1"; entity_type := HUMAN;
     description := "Small child alone";
     position := Some [1.0; 0.0; 0.0];
     state := {| age := Some 5; estimated_age := None; height := None;
                 estimated_height := None; object_type := None |};
     confidence := 0.9 |}.

Definition child_alone : EmbodimentState := scene [] [child_1].

(** A person typed CHILD and nobody else, next to traffic and heights. *)
Definition typed_child : DetectedEntity :=
  {| entity_id := "c7"; entity_type := CHILD;
     description := "Toddler at the kerb";
     position := Some [1.0; 0.0; 0.0]; state := no_state;
     confidence := 0.5 |}.

Definition child_at_kerb : EmbodimentState :=
  scene ["traffic"; "heights"] [typed_child].

(** The same scene once a human has commanded a stop. *)
Definition child_at_kerb_stopped : EmbodimentState :=
  {| timestamp := 0.0; motor_state := idle;
     environment :=
       {| human_override := false; stop_commanded := true;
          emergency_stop := false; hazards := ["traffic"; "heights"];
          uncertainty := Some 0.5; identity_question_pending := false |};
     detected_entities := [typed_child] |}.


(** Two proposals with equal effective votes, as [deliberate] leaves
    them. *)
Definition proposal (a : AspectType) (v : Q) : Data.ProposedAction :=
  {| Data.aspect := a; Data.action_commands := [];
     Data.vote_strength := v; Data.confidence := 0.9;
     Data.vote_components :=
       Some {| Data.base_vote := v; Data.personality_weight := 1.0;
               Data.situational_relevance := 1.0;
               Data.effective_vote := v;
               Data.tiebreaker := None; Data.tied_with := None |} |}.

Definition persistent_tie : list Data.ProposedAction :=
  [proposal OPTIMIZER 0.5; proposal EXPLORER 0.5].

(** Test group 7: feedback of 0.9 to one aspect and of 0.2 to another,
    fifty times each, in turn. *)
Fixpoint in_turn (n : nat) (a b : AspectType) : list (AspectType * Q) :=
  match n with
  | O => []
  | S n' => (a, 0.9) :: (b, 0.2) :: in_turn n' a b
  end.

(** Test group 8: a conflict near fire, a similar past conflict and a
    dissimilar, more recent uncertainty. *)
Definition impetus_of (t : Q) (trigger : string) (drives : list CoreDrive)
    (sev cert press : Q) : Data.Impetus :=
  {| Data.imp_timestamp := t; Data.trigger_type := trigger;
     Data.involved_drives := drives; Data.relevant_entities := [];
     Data.severity := sev; Data.certainty := cert;
     Data.time_pressure := press;
     Data.embodiment_state := scene [] [] |}.

Definition emotion (c : EmotionCategory) (i u : Q) : Data.EmotionalValue :=
  {| Data.primary_emotion := c; Data.intensity := i; Data.urgency := u;
     Data.secondary_emotions := [] |}.

Definition past (imp : Data.Impetus) (ev : Data.EmotionalValue) (q : Q)
  : Data.IncidentRecord :=
  {| Data.timestamp := Data.imp_timestamp imp; Data.impetus := imp;
     Data.emotional_value := Some ev; Data.proposed_actions := [];
     Data.selected_action := None;
     Data.outcome := Some {| Data.quality := Some q;
                             Data.outcome_success := None;
                             Data.execution := None |} |}.

Definition base_impetus : Data.Impetus :=
  impetus_of 1000 "conflict" [REDUCE_HARM] 0.7 0.9 0.5.

Definition similar_record : Data.IncidentRecord :=
  past (impetus_of 900 "conflict" [REDUCE_HARM] 0.6 0.8 0.4)
       (emotion FEAR 0.7 0.5) 0.7.

Definition dissimilar_record : Data.IncidentRecord :=
  past (impetus_of 950 "uncertainty" [UNDERSTAND] 0.2 0.4 0.1)
       (emotion CAUTION 0.3 0.2) 0.8.

Definition memory : Subconscious.SubconsciousLayer :=
  {| Subconscious.history_size := 1000;
     Subconscious._incident_history := [dissimilar_record; similar_record];
     Subconscious._current_emotion := emotion CAUTION 0.3 0.2;
     Subconscious._impetuses_processed := 0 |}.

(** A capability model that accepts every command, and a system halted
    by an override, as in test 2e. *)
Definition permissive : Layer.VirtualEmbodiment :=
  {| Layer.agent_type := "Mobile Service Robot";
     Layer.validate_command := fun _ => true |}.

Definition speak (msg : string) : Command :=
  {| type := Some "SPEAK"; target := None; speed := None; force := None;
     action := None; level := None; message := Some msg; content := None;
     degrees := None; duration := None |}.

Definition override (b : bool) : Layer.EnvironmentUpdate :=
  {| Layer.set_human_override := Some b; Layer.set_stop_commanded := None;
     Layer.set_emergency_stop := None; Layer.set_hazards := None;
     Layer.set_uncertainty := None;
     Layer.set_identity_question_pending := None |}.

Definition overridden_layer : Layer.EmbodimentLayer :=
  Layer.update_environment (Layer.init permissive) (override true).

Definition halted_layer : Layer.EmbodimentLayer :=
  fst (Layer.execute_commands overridden_layer [speak "Hello"]).

Definition halted_system : System.TripartiteAGI :=
  {| System.embodiment := halted_layer;
     System.subconscious := Subconscious.init 1000;
     System.conscious := Conscious.init;
     System._cycle_count := 0;
     System._strict_integrity := false;
     System._integrity_failures := [] |}.

(** Aspects that all propose to drive to (5, 3), nothing vetoed. *)
Definition eager : System.Externals :=
  {| System.aspect_deliberate :=
       fun a _ => {| Data.aspect := a;
                     Data.action_commands := [move [5.0; 3.0] 1.0];
                     Data.vote_strength := 0.8; Data.confidence := 0.9;
                     Data.vote_components := None |};
     System.relevance := fun _ _ => 1.0;
     System.vetoed := fun _ _ => false;
     System.monitor := fun _ => Some base_impetus |}.

Definition normal_running : list System.Step :=
  [ System.UpdateEnvironment (override false);
    System.ExecuteCommands [move [5.0; 3.0] 1.0];
    System.DeliberationCycle eager base_impetus;
    System.SensorUpdate eager
      {| System.sensed_environment := None;
         System.sensed_entities := Some [human_1];
         System.clock := 12 |};
    System.ExecuteCommands [speak "Hello"] ].

End Scenario.

(** ** Part 3B: the structured virtual embodiment *)

Module Capability.
Import Embodiment.

(** A value held by a command dict: [None], a number, a string, or a
    list of numbers. *)
Inductive Value :=
| VNone
| VNum (x : Q)
| VStr (s : string)
| VList (xs : list Q).

(** A command as the validator receives it: a dict from parameter names
    to values. *)
Definition CommandDict : Type := list (string * Value).

(** What an actuator demands of a parameter: a [(min, max)] tuple, a
    list of allowed values, or a callable, which is given the value and
    the command. *)
Inductive Constraint :=
| Range (lo hi : Q)
| Allowed (values : list Value)
| Validator (check : Value -> CommandDict -> bool).

Record Actuator := {
  command_type : string;
  required_params : list string;
  constraints : list (string * Constraint)
}.

(** The fields of a [VirtualEmbodiment] that validation reads;
    [current_position] is the entry of that name in [dimensions]. *)
Record VirtualEmbodiment := {
  agent_type : string;
  actuators : list Actuator;
  can_manipulate_objects : bool;
  current_position : option (list Q)
}.

(** The truth value of a value. *)
Definition truthy (v : Value) : bool :=
  match v with
  | VNone => false
  | VNum x => negb (Qeq_bool x 0)
  | VStr s => negb (String.eqb s EmptyString)
  | VList xs => Py.nonempty xs
  end.

(** [a == b] on values. *)
Fixpoint floats_eqb (xs ys : list Q) : bool :=
  match xs, ys with
  | [], [] => true
  | x :: xs', y :: ys' => Qeq_bool x y && floats_eqb xs' ys'
  | _, _ => false
  end.

Definition Value_eqb (a b : Value) : bool :=
  match a, b with
  | VNone, VNone => true
  | VNum x, VNum y => Qeq_bool x y
  | VStr s, VStr t => String.eqb s t
  | VList xs, VList ys => floats_eqb xs ys
  | _, _ => false
  end.

(** [str(v)]. *)
Definition str (v : Value) : string :=
  match v with
  | VNone => "None"
  | VNum x => Json.dumps_float x
  | VStr s => s
  | VList xs => PyRepr.str_of_floats xs
  end.

(** [k in command]. *)
Definition has_key (command : CommandDict) (k : string) : bool :=
  existsb (String.eqb k) (Py.keys command).

(** [_get_operating_bounds]: the lists under ['min'] and ['max']. *)
Definition _get_operating_bounds : list Q * list Q :=
  ([-100.0; -100.0; 0.0], [100.0; 100.0; 3.0]).

(** The loop over the coordinates of a target; it runs on two or three
    coordinates, so every index finds its bound. *)
Fixpoint within_bounds (coords mins maxs : list Q) : bool :=
  match coords, mins, maxs with
  | [], _, _ => true
  | coord :: coords', lo :: mins', hi :: maxs' =>
      if Py.le lo coord && Py.le coord hi
      then within_bounds coords' mins' maxs'
      else false
  | _ :: _, _, _ => false
  end.

(** [_validate_move_command]. The distance is the square root of the
    sum of squares, above 50.0 exactly when the sum is above 2500. *)
Definition _validate_move_command (self : VirtualEmbodiment)
    (command : CommandDict) : bool :=
  match Py.get String.eqb command "target" with
  | None => false
  | Some VNone => false
  | Some (VList tgt) =>
      if (List.length tgt <? 2)%nat || (3 <? List.length tgt)%nat then false
      else if negb (within_bounds tgt (fst _get_operating_bounds)
                                  (snd _get_operating_bounds))
      then false
      else
        let current_pos := match current_position self with
                           | Some p => p
                           | None => [0; 0; 0]
                           end in
        if (2 <=? List.length current_pos)%nat
           && Py.gt (Registry.squared_distance tgt current_pos) 2500
        then false
        else true
  | Some (VStr _) => true
  | Some (VNum _) => false
  end.

Definition dangerous_actions : list string :=
  ["crush"; "destroy"; "break"; "throw"; "strike"; "hit"; "attack"].

(** [_validate_manipulate_command]. *)
Definition _validate_manipulate_command (self : VirtualEmbodiment)
    (command : CommandDict) : bool :=
  if negb (can_manipulate_objects self) then false
  else
    let act := Py.get_default String.eqb command "action" VNone in
    if negb (truthy act) then false
    else
      let frc := Py.get_default String.eqb command "force" (VNum 0) in
      if match frc with VNum f => Py.gt f 10.0 | _ => false end then false
      else if Py.any_in dangerous_actions (Py.lower (str act)) then false
      else true.

(** One parameter against its constraint. *)
Definition check_constraint (constraint : Constraint) (value : Value)
    (command : CommandDict) : bool :=
  match constraint with
  | Range lo hi =>
      match value with
      | VNum x => Py.le lo x && Py.le x hi
      | _ => false
      end
  | Allowed values => existsb (Value_eqb value) values
  | Validator check => check value command
  end.

(** The loop over [command.items()]. *)
Definition check_params (actuator : Actuator) (command : CommandDict)
  : bool :=
  forallb
    (fun pv =>
       if String.eqb (fst pv) "type" then true
       else match Py.get String.eqb (constraints actuator) (fst pv) with
            | Some constraint => check_constraint constraint (snd pv) command
            | None => true
            end)
    command.

(** [get_available_commands]. *)
Definition get_available_commands (self : VirtualEmbodiment) : list string :=
  map command_type (actuators self).

(** The first actuator of that command type. *)
Definition find_actuator (self : VirtualEmbodiment) (cmd_type : Value)
  : option Actuator :=
  find (fun a => Value_eqb (VStr (command_type a)) cmd_type)
       (actuators self).

(** [validate_command], the flag of the pair it returns. *)
Definition validate_command (self : VirtualEmbodiment)
    (command : CommandDict) : bool :=
  let cmd_type := Py.get_default String.eqb command "type" (VStr "") in
  if negb (truthy cmd_type) then false
  else
    match find_actuator self cmd_type with
    | None => false
    | Some actuator =>
        if negb (forallb (has_key command) (required_params actuator))
        then false
        else if negb (check_params actuator command) then false
        else if Value_eqb cmd_type (VStr "MOVE")
                && negb (_validate_move_command self command)
        then false
        else if Value_eqb cmd_type (VStr "MANIPULATE")
                && negb (_validate_manipulate_command self command)
        then false
        else true
    end.

Definition actuator (t : string) (req : list string)
    (cs : list (string * Constraint)) : Actuator :=
  {| command_type := t; required_params := req; constraints := cs |}.

Definition create_default_embodiment : VirtualEmbodiment :=
  {| agent_type := "Mobile Service Robot";
     actuators :=
       [ actuator "MOVE" ["target"] [("speed", Range 0.0 1.5)];
         actuator "STOP" [] [];
         actuator "ROTATE" ["degrees"] [("degrees", Range (-180) 180)];
         actuator "SPEAK" ["message"] [("volume", Range 0.0 1.0)];
         actuator "DISPLAY" ["content"] [("duration", Range 0.1 60.0)];
         actuator "MANIPULATE" ["action"]
           [("force", Range 0.0 10.0);
            ("action",
             Allowed [VStr "grasp"; VStr "release"; VStr "push_gently";
                      VStr "pull_gently"; VStr "lift"; VStr "place";
                      VStr "point"])];
         actuator "ALERT" ["level"]
           [("level", Range 1 3); ("duration", Range 0.1 30.0)];
         actuator "WAIT" ["duration"] [("duration", Range 0.1 300.0)] ];
     can_manipulate_objects := true;
     current_position := Some [0.0; 0.0; 0.0] |}.

(** The dict a structured command stands for: the keys that are there. *)
Definition item {A : Type} (k : string) (f : A -> Value) (x : option A)
  : CommandDict :=
  match x with
  | Some v => [(k, f v)]
  | None => []
  end.

Definition of_target (t : Target) : Value :=
  match t with
  | Named s => VStr s
  | Coordinates xs => VList xs
  end.

Definition to_dict (cmd : Command) : CommandDict :=
  (item "type" VStr (type cmd) ++ item "target" of_target (target cmd)
   ++ item "speed" VNum (speed cmd) ++ item "force" VNum (force cmd)
   ++ item "action" VStr (action cmd) ++ item "level" VNum (level cmd)
   ++ item "message" VStr (message cmd) ++ item "content" VStr (content cmd)
   ++ item "degrees" VNum (degrees cmd)
   ++ item "duration" VNum (duration cmd))%list.

(** The capability model an [EmbodimentLayer] consults, for commands
    given as structured commands. *)
Definition as_validator (self : VirtualEmbodiment) : Layer.VirtualEmbodiment :=
  {| Layer.agent_type := agent_type self;
     Layer.validate_command := fun cmd => validate_command self (to_dict cmd) |}.

End Capability.

(** ** Part 5: the unconscious layer's reading of entities and levels *)

Module Unconscious.
Import Embodiment.

Definition child_keywords : list string :=
  ["child"; "kid"; "infant"; "baby"; "toddler"; "minor"; "juvenile";
   "boy"; "girl"].

Definition _get_effective_entity_type (entity : DetectedEntity)
  : EntityType :=
  if EntityType_beq (entity_type entity) CHILD then CHILD
  else if EntityType_beq (entity_type entity) HUMAN then
    let st := state entity in
    let descr := Py.lower (description entity) in
    if Registry.below (Registry.get_or (age st) (estimated_age st)) 18
    then CHILD
    else if Py.any_in child_keywords descr then CHILD
    else if Registry.below
              (Registry.get_or (height st) (estimated_height st)) 1.2
    then CHILD
    else entity_type entity
  else entity_type entity.

Definition _estimate_severity_from_danger (danger_level : Q)
  : SeverityLevel :=
  if Py.gt danger_level 0.9 then FATAL
  else if Py.gt danger_level 0.75 then GRIEVOUS
  else if Py.gt danger_level 0.6 then SEVERE
  else if Py.gt danger_level 0.4 then SIGNIFICANT
  else if Py.gt danger_level 0.2 then MODERATE
  else MINOR.

Definition _estimate_severity_from_distress (distress_level : Q)
  : SeverityLevel :=
  if Py.gt distress_level 0.9 then GRIEVOUS
  else if Py.gt distress_level 0.7 then SEVERE
  else if Py.gt distress_level 0.5 then SIGNIFICANT
  else if Py.gt distress_level 0.3 then MODERATE
  else MINOR.

End Unconscious.

(** ** Part 6, continued: modulation factors and late outcomes *)

Module Memory.
Import Data.

(** The dict [get_modulation_factors] returns. *)
Record Factors := {
  risk_tolerance : Q;
  exploration_drive : Q;
  social_priority : Q;
  time_pressure : Q;
  caution_level : Q
}.

(** [np.clip(factors[key] + delta * self.intensity, 0.0, 1.0)]. *)
Definition shifted (factor delta intensity : Q) : Q :=
  Py.clip (factor + delta * intensity) 0.0 1.0.

(** [EmotionalValue.get_modulation_factors]. *)
Definition get_modulation_factors (self : EmotionalValue) : Factors :=
  let i := intensity self in
  let factors := {| risk_tolerance := 0.5; exploration_drive := 0.5;
                    social_priority := 0.5; time_pressure := urgency self;
                    caution_level := 0.5 |} in
  match primary_emotion self with
  | FEAR =>
      {| risk_tolerance := shifted 0.5 (-0.3) i; exploration_drive := 0.5;
         social_priority := 0.5; time_pressure := urgency self;
         caution_level := shifted 0.5 0.4 i |}
  | ANXIETY =>
      {| risk_tolerance := shifted 0.5 (-0.2) i; exploration_drive := 0.5;
         social_priority := 0.5; time_pressure := urgency self;
         caution_level := shifted 0.5 0.2 i |}
  | CURIOSITY =>
      {| risk_tolerance := shifted 0.5 0.1 i;
         exploration_drive := shifted 0.5 0.4 i;
         social_priority := 0.5; time_pressure := urgency self;
         caution_level := 0.5 |}
  | CONCERN =>
      {| risk_tolerance := 0.5; exploration_drive := 0.5;
         social_priority := shifted 0.5 0.4 i;
         time_pressure := urgency self; caution_level := 0.5 |}
  | URGENCY =>
      {| risk_tolerance := 0.5; exploration_drive := 0.5;
         social_priority := 0.5;
         time_pressure := shifted (urgency self) 0.3 i;
         caution_level := 0.5 |}
  | CAUTION =>
      {| risk_tolerance := shifted 0.5 (-0.2) i; exploration_drive := 0.5;
         social_priority := 0.5; time_pressure := urgency self;
         caution_level := shifted 0.5 0.3 i |}
  | _ => factors
  end.

(** The truth value of an outcome: [None] and the empty dict are
    false. *)
Definition outcome_given (o : option Outcome) : option Outcome :=
  match o with
  | Some out =>
      match quality out, outcome_success out, execution out with
      | None, None, None => None
      | _, _, _ => Some out
      end
  | None => None
  end.

(** [np.mean(xs)]. *)
Definition mean (xs : list Q) : Q :=
  fold_left Qplus xs 0 / Py.of_nat (List.length xs).

(** The qualities of the records with an outcome, those of the records
    with a selected action and those without. *)
Definition qualities (with_action : bool) (history : list IncidentRecord)
  : list Q :=
  flat_map
    (fun record =>
       match outcome_given (outcome record) with
       | Some out =>
           let q := match quality out with Some q => q | None => 0.5 end in
           match selected_action record with
           | Some _ => if with_action then [q] else []
           | None => if with_action then [] else [q]
           end
       | None => []
       end)
    history.

(** [SubconsciousLayer._apply_history_modulation]. *)
Definition _apply_history_modulation (modulation : Factors)
    (history : list IncidentRecord) : Factors :=
  match history with
  | [] => modulation
  | _ :: _ =>
      let outcomes_with_action := qualities true history in
      let outcomes_without_action := qualities false history in
      let modulation :=
        if Py.nonempty outcomes_with_action then
          let avg_quality := mean outcomes_with_action in
          if Py.lt avg_quality 0.4 then
            {| risk_tolerance := Qmax 0.1 (risk_tolerance modulation - 0.15);
               exploration_drive := exploration_drive modulation;
               social_priority := social_priority modulation;
               time_pressure := time_pressure modulation;
               caution_level := Qmin 1.0 (caution_level modulation + 0.15) |}
          else if Py.gt avg_quality 0.7 then
            {| risk_tolerance := Qmin 0.8 (risk_tolerance modulation + 0.05);
               exploration_drive := exploration_drive modulation;
               social_priority := social_priority modulation;
               time_pressure := time_pressure modulation;
               caution_level := Qmax 0.2 (caution_level modulation - 0.05) |}
          else modulation
        else modulation in
      if Py.nonempty outcomes_without_action
         && Py.lt (mean outcomes_without_action) 0.4
      then {| risk_tolerance := risk_tolerance modulation;
              exploration_drive := exploration_drive modulation;
              social_priority := social_priority modulation;
              time_pressure := Qmin 1.0 (time_pressure modulation + 0.1);
              caution_level := caution_level modulation |}
      else modulation
  end.

(** The modulation [process_impetus] puts into the package. *)
Definition modulation_of (self : Subconscious.SubconsciousLayer)
    (imp : Impetus) : Factors :=
  _apply_history_modulation
    (get_modulation_factors (Subconscious._compute_emotional_value imp))
    (Subconscious._retrieve_relevant_history self imp 5).

(** A factor that lies within [0, 1]. *)
Definition in_unit (x : Q) : Prop := 0 <= x /\ x <= 1.

Definition with_outcome (incident : IncidentRecord) (out : Outcome)
  : IncidentRecord :=
  {| timestamp := timestamp incident; impetus := impetus incident;
     emotional_value := emotional_value incident;
     proposed_actions := proposed_actions incident;
     selected_action := selected_action incident;
     outcome := Some out |}.

(** The loop of [update_incident_outcome], over the history from its
    newest record back. *)
Fixpoint update_newest (ts : Q) (out : Outcome)
    (newest_first : list IncidentRecord) : list IncidentRecord :=
  match newest_first with
  | [] => []
  | incident :: older =>
      if Qeq_bool (timestamp incident) ts
      then with_outcome incident out :: older
      else incident :: update_newest ts out older
  end.

Definition update_incident_outcome (self : Subconscious.SubconsciousLayer)
    (ts : Q) (out : Outcome) : Subconscious.SubconsciousLayer :=
  {| Subconscious.history_size := Subconscious.history_size self;
     Subconscious._incident_history :=
       rev (update_newest ts out (rev (Subconscious._incident_history self)));
     Subconscious._current_emotion := Subconscious._current_emotion self;
     Subconscious._impetuses_processed :=
       Subconscious._impetuses_processed self |}.

End Memory.

(** ** Part 7, continued: what an aspect cares about *)

Module Aspect.
Import Embodiment Data.

Record RelevanceProfile := {
  drives : list (CoreDrive * Q);
  entity_types : list (EntityType * Q);
  emotions : list (EmotionCategory * Q);
  triggers : list (string * Q);
  base_relevance : Q
}.

Definition RELEVANCE_PROFILES (a : AspectType) : RelevanceProfile :=
  match a with
  | GUARDIAN =>
      {| drives := [(REDUCE_HARM, 1.0); (UNDERSTAND, 0.4); (IMPROVE, 0.2)];
         entity_types :=
           [(HUMAN, 1.0); (ANIMAL, 0.7); (SELF, 0.8); (PROPERTY, 0.3)];
         emotions :=
           [(FEAR, 1.0); (CONCERN, 0.8); (ANXIETY, 0.5); (CAUTION, 0.4)];
         triggers :=
           [("conflict", 0.9); ("uncertainty", 0.5); ("opportunity", 0.2)];
         base_relevance := 0.3 |}
  | ANALYST =>
      {| drives := [(UNDERSTAND, 1.0); (REDUCE_HARM, 0.5); (IMPROVE, 0.6)];
         entity_types :=
           [(HUMAN, 0.5); (ANIMAL, 0.4); (SELF, 0.6); (PROPERTY, 0.5);
            (ENVIRONMENT, 0.8)];
         emotions :=
           [(ANXIETY, 1.0); (CAUTION, 0.8); (CONCERN, 0.6); (FEAR, 0.4)];
         triggers :=
           [("uncertainty", 1.0); ("conflict", 0.5); ("opportunity", 0.6)];
         base_relevance := 0.3 |}
  | OPTIMIZER =>
      {| drives := [(IMPROVE, 1.0); (UNDERSTAND, 0.5); (REDUCE_HARM, 0.3)];
         entity_types :=
           [(SELF, 0.9); (PROPERTY, 0.8); (ENVIRONMENT, 0.7); (HUMAN, 0.3);
            (ANIMAL, 0.2)];
         emotions :=
           [(CAUTION, 0.7); (ANXIETY, 0.5); (CONCERN, 0.4); (FEAR, 0.3)];
         triggers :=
           [("opportunity", 1.0); ("uncertainty", 0.4); ("conflict", 0.3)];
         base_relevance := 0.3 |}
  | EMPATH =>
      {| drives := [(REDUCE_HARM, 0.8); (IMPROVE, 0.7); (UNDERSTAND, 0.5)];
         entity_types :=
           [(HUMAN, 1.0); (ANIMAL, 0.6); (COLLECTIVE, 0.9);
            (RELATIONSHIP, 1.0); (SELF, 0.3)];
         emotions :=
           [(CONCERN, 1.0); (FEAR, 0.7); (ANXIETY, 0.6); (CAUTION, 0.4)];
         triggers :=
           [("conflict", 0.8); ("uncertainty", 0.5); ("opportunity", 0.7)];
         base_relevance := 0.3 |}
  | EXPLORER =>
      {| drives := [(UNDERSTAND, 0.8); (IMPROVE, 0.9); (REDUCE_HARM, 0.2)];
         entity_types :=
           [(ENVIRONMENT, 1.0); (PROPERTY, 0.6); (SELF, 0.5); (HUMAN, 0.4);
            (ANIMAL, 0.5)];
         emotions :=
           [(CAUTION, 0.3); (ANXIETY, 0.6); (CONCERN, 0.4); (FEAR, 0.2)];
         triggers :=
           [("opportunity", 1.0); ("uncertainty", 0.8); ("conflict", 0.3)];
         base_relevance := 0.3 |}
  | PRAGMATIST =>
      {| drives := [(IMPROVE, 0.7); (REDUCE_HARM, 0.6); (UNDERSTAND, 0.6)];
         entity_types :=
           [(HUMAN, 0.6); (SELF, 0.7); (PROPERTY, 0.6); (ENVIRONMENT, 0.5);
            (ANIMAL, 0.5)];
         emotions :=
           [(CAUTION, 1.0); (CONCERN, 0.7); (ANXIETY, 0.6); (FEAR, 0.5)];
         triggers :=
           [("conflict", 1.0); ("uncertainty", 0.7); ("opportunity", 0.6)];
         base_relevance := 0.4 |}
  end.

(** [max(xs)] on a list that is not empty. *)
Definition max_of (xs : list Q) : option Q :=
  match xs with
  | [] => None
  | x :: xs' => Some (fold_left Qmax xs' x)
  end.

(** The entry a list of relevances adds to [relevance_scores]. *)
Definition scored (relevances : list Q) (w : Q) : list (Q * Q) :=
  match max_of relevances with
  | Some m => [(m, w)]
  | None => []
  end.

(** [Aspect.compute_situational_relevance] for the aspect of that
    type. *)
Definition compute_situational_relevance (aspect_type : AspectType)
    (package : DeliberationPackage) : Q :=
  let profile := RELEVANCE_PROFILES aspect_type in
  let imp := package_impetus package in
  let emotion := package_emotional_value package in
  let drive_relevances :=
    map (fun drive => Py.get_default CoreDrive_beq (drives profile) drive 0.3)
        (involved_drives imp) in
  let entity_relevances :=
    map (fun e => Py.get_default EntityType_beq (entity_types profile)
                                 (entity_type e) 0.3)
        (relevant_entities imp) in
  let emotion_rel :=
    Py.get_default EmotionCategory_beq (emotions profile)
                   (primary_emotion emotion) 0.3 in
  let trigger_rel :=
    Py.get_default String.eqb (triggers profile) (trigger_type imp) 0.3 in
  let relevance_scores :=
    (scored drive_relevances 0.35 ++ scored entity_relevances 0.25
     ++ [(emotion_rel, 0.20); (trigger_rel, 0.20)])%list in
  let computed_relevance :=
    if Py.nonempty relevance_scores then
      let total_weight := fold_left Qplus (map snd relevance_scores) 0 in
      let weighted_sum :=
        fold_left Qplus (map (fun sw => fst sw * snd sw) relevance_scores) 0 in
      weighted_sum / total_weight
    else base_relevance profile in
  Qmax (base_relevance profile) computed_relevance.

End Aspect.

(** ** Part 7, continued: the personality on display *)

Module Personality.
Import Conscious.

(** [sum(self._personality_weights.values())]. *)
Definition total_weight (self : ConsciousLayer) : Q :=
  fold_left Qplus (map (_personality_weights self) AspectTypes) 0.

(** [get_personality_profile]: every weight over the total; dividing by
    a total of zero raises. *)
Definition get_personality_profile (self : ConsciousLayer)
  : Result (AspectType -> Q) :=
  let total := total_weight self in
  if Qeq_bool total 0 then Raised "ZeroDivisionError"
  else Returned (fun at_ => _personality_weights self at_ / total).

(** [get_raw_weights]. *)
Definition get_raw_weights (self : ConsciousLayer) : AspectType -> Q :=
  _personality_weights self.

End Personality.

(** ** Part 9, continued: the entity types read off sensor data *)

Module Sensing.

(** The characters [str.strip] removes, among the ASCII ones. *)
Definition is_space (c : ascii) : bool :=
  let n := nat_of_ascii c in
  ((9 <=? n)%nat && (n <=? 13)%nat) || ((28 <=? n)%nat && (n <=? 32)%nat).

Fixpoint lstrip (s : list ascii) : list ascii :=
  match s with
  | [] => []
  | c :: s' => if is_space c then lstrip s' else s
  end.

(** [s.strip()]. *)
Definition strip (s : string) : string :=
  string_of_list_ascii
    (rev (lstrip (rev (lstrip (list_ascii_of_string s))))).

(** [s.replace(ch, '')] for a single character. *)
Fixpoint remove (ch : ascii) (s : string) : string :=
  match s with
  | EmptyString => EmptyString
  | String c s' =>
      if Ascii.eqb c ch then remove ch s' else String c (remove ch s')
  end.

Definition normalize (raw_type : string) : string :=
  remove " " (remove "-" (remove "_" (strip (Py.lower raw_type)))).

Definition type_map : list (string * EntityType) :=
  [ ("human", HUMAN); ("person", HUMAN); ("people", HUMAN); ("man", HUMAN);
    ("woman", HUMAN); ("child", HUMAN); ("adult", HUMAN); ("worker", HUMAN);
    ("pedestrian", HUMAN); ("operator", HUMAN); ("user", HUMAN);
    ("humn", HUMAN); ("humna", HUMAN); ("huamn", HUMAN);
    ("self", SELF); ("agent", SELF); ("robot", SELF); ("me", SELF);
    ("this", SELF);
    ("animal", ANIMAL); ("pet", ANIMAL); ("dog", ANIMAL); ("cat", ANIMAL);
    ("bird", ANIMAL); ("creature", ANIMAL); ("wildlife", ANIMAL);
    ("property", PROPERTY); ("object", PROPERTY); ("item", PROPERTY);
    ("thing", PROPERTY); ("equipment", PROPERTY); ("machine", PROPERTY);
    ("vehicle", PROPERTY); ("furniture", PROPERTY); ("tool", PROPERTY);
    ("collective", COLLECTIVE); ("group", COLLECTIVE); ("crowd", COLLECTIVE);
    ("team", COLLECTIVE); ("organization", COLLECTIVE);
    ("relationship", RELATIONSHIP); ("relation", RELATIONSHIP);
    ("connection", RELATIONSHIP);
    ("environment", ENVIRONMENT); ("area", ENVIRONMENT);
    ("space", ENVIRONMENT); ("zone", ENVIRONMENT); ("location", ENVIRONMENT);
    ("room", ENVIRONMENT) ].

(** [TripartiteAGI._parse_entity_type] on a string. *)
Definition _parse_entity_type (raw_type : string) : EntityType :=
  if String.eqb raw_type EmptyString then HUMAN
  else
    let normalized := normalize raw_type in
    match Py.get String.eqb type_map normalized with
    | Some etype => etype
    | None =>
        match find (fun kv => Py.contains (fst kv) normalized
                              || Py.contains normalized (fst kv))
                   type_map with
        | Some kv => snd kv
        | None => HUMAN
        end
    end.

(** [max(0.0, min(1.0, float(confidence)))], the confidence given to an
    entity read off sensor data; 0.7 when the data carry none. *)
Definition sensed_confidence (given : option Q) : Q :=
  let confidence := match given with Some c => c | None => 0.7 end in
  Qmax 0.0 (Qmin 1.0 confidence).

End Sensing.

(** ** Part 3C: the gating of cognitive capabilities *)

Module Evs.

Inductive CognitiveCapability :=
  BASIC_ASSOCIATION | OBJECT_PERMANENCE | CAUSAL_REASONING
| ABSTRACT_PLANNING | THEORY_OF_MIND | FULL_DELIBERATION.

Scheme Equality for CognitiveCapability.

Definition CAPABILITY_THRESHOLDS : list (CognitiveCapability * Q) :=
  [ (BASIC_ASSOCIATION, 0.1); (OBJECT_PERMANENCE, 0.3);
    (CAUSAL_REASONING, 0.4); (ABSTRACT_PLANNING, 0.5);
    (THEORY_OF_MIND, 0.6); (FULL_DELIBERATION, 0.7) ].

(** [get_allowed_capabilities], for the combined embodiment score [ces]
    the subsystem has computed (a square root, which comes from
    outside). *)
Definition get_allowed_capabilities (ces : Q) : list CognitiveCapability :=
  map fst (filter (fun ct => Py.ge ces (snd ct)) CAPABILITY_THRESHOLDS).

(** [EmbodimentVerificationSubsystem.is_capability_allowed]. *)
Definition is_capability_allowed (ces : Q) (capability : CognitiveCapability)
  : bool :=
  existsb (CognitiveCapability_beq capability) (get_allowed_capabilities ces).

(** [TripartiteAGI._update_cognitive_mode]: the mode it sets. *)
Definition _update_cognitive_mode (enforce_embodiment_gating : bool)
    (ces : Q) : string :=
  if negb enforce_embodiment_gating then "full"
  else if Py.ge ces 0.7 then "full"
  else if Py.ge ces 0.5 then "complex_reasoning"
  else if Py.ge ces 0.3 then "simple_planning"
  else if Py.ge ces 0.1 then "basic_reactive"
  else "reflex_only".

(** [TripartiteAGI.is_capability_allowed]. *)
Definition system_allows (enforce_embodiment_gating : bool) (ces : Q)
    (capability : CognitiveCapability) : bool :=
  if negb enforce_embodiment_gating then true
  else is_capability_allowed ces capability.

End Evs.

(** ** Part 9, continued: the full integrity check *)

Module Integrity.
Import Ontology.

(** What [verify_full_integrity] can log. *)
Inductive Failure :=
| OntologyChecksumMismatch
| UnconsciousOntologyFailed
| UndeliberablesMismatch (missing unexpected : list string)
| VetoThresholdOutOfRange
| CautionThresholdInvalid
| LethalThresholdOutOfRange.

Definition expected_undeliberables : list string :=
  ["lethal_action"; "child_harm"; "weapon_assistance"; "identity_deception";
   "human_override"].

(** [a - b] on sets of strings. *)
Definition difference (a b : list string) : list string :=
  filter (fun x => negb (existsb (String.eqb x) b)) a.

(** The failures [verify_full_integrity] logs, given the ontology
    singleton and the ontology the unconscious layer refers to. *)
Definition integrity_failures (ontology unconscious_ontology
                               : GroundedHarmOntology) : list Failure :=
  let actual_undeliberables :=
    Py.set_of string_dec (map Registry.name Registry.get_all) in
  let missing := difference expected_undeliberables actual_undeliberables in
  let extra := difference actual_undeliberables expected_undeliberables in
  ((if negb (verify_integrity ontology)
    then [OntologyChecksumMismatch] else [])
   ++ (if negb (verify_integrity unconscious_ontology)
       then [UnconsciousOntologyFailed] else [])
   ++ (if Py.nonempty missing || Py.nonempty extra
       then [UndeliberablesMismatch missing extra] else [])
   ++ (if negb (Py.lt 0.0 VETO_THRESHOLD && Py.lt VETO_THRESHOLD 1.0)
       then [VetoThresholdOutOfRange] else [])
   ++ (if negb (Py.lt 0.0 CAUTION_THRESHOLD
                && Py.lt CAUTION_THRESHOLD VETO_THRESHOLD)
       then [CautionThresholdInvalid] else [])
   ++ (if negb (Py.le 0.5 Registry.LETHAL_PROBABILITY_THRESHOLD
                && Py.le Registry.LETHAL_PROBABILITY_THRESHOLD 0.9)
       then [LethalThresholdOutOfRange] else []))%list.

(** [verify_full_integrity]: are there no failures? *)
Definition verify_full_integrity (ontology unconscious_ontology
                                  : GroundedHarmOntology) : bool :=
  match integrity_failures ontology unconscious_ontology with
  | [] => true
  | _ :: _ => false
  end.

End Integrity.

(** ** Part 4 on command dicts, with the exceptions Python raises

    The registry and the execution gate once more, this time on commands
    as the engine receives them, dicts from parameter names to values of
    any kind, and with the two exceptions that these functions let
    through: the [OverflowError] of a float power out of range and the
    [TypeError] of an operation on a value of the wrong kind (a
    comparison or product with something that is no number, a slice of
    something that is none of string and list).  A call returns its value
    or raises; the layer a call leaves behind is given in either case.
    On the dict of a structured command the registry raises no TypeError,
    and what it returns is what [Registry.check_all] gives. *)

Module Runtime.
Import Embodiment Registry Capability.

Abbreviation Result := Conscious.Result.
Abbreviation Returned := Conscious.Returned.
Abbreviation Raised := Conscious.Raised.

(** Sequencing: the first exception raised ends the evaluation. *)
Definition bind {A B : Type} (r : Result A) (f : A -> Result B) : Result B :=
  match r with
  | Returned a => f a
  | Raised e => Raised e
  end.

Notation "x <- r ;; k" := (bind r (fun x => k))
  (at level 61, r at next level, right associativity).

(** A [for] loop that threads one variable through its body. *)
Fixpoint for_each {A B : Type} (body : A -> B -> Result A) (xs : list B)
    (acc : A) : Result A :=
  match xs with
  | [] => Returned acc
  | x :: xs' => acc' <- body acc x ;; for_each body xs' acc'
  end.

(** A value used as a number, in [v > 1.0], [v >= 3], [v * 0.08] or
    [t + v]: each of them raises TypeError on [None], a string or a
    list. *)
Definition number (v : Value) : Result Q :=
  match v with
  | VNum x => Returned x
  | _ => Raised "TypeError"
  end.

(** *** Float powers *)

(** The least magnitude that rounds to an infinite float,
    2^1024 - 2^970. *)
Definition FLOAT_OVERFLOW : Q := inject_Z (2 ^ 1024 - 2 ^ 970)%Z.

Definition out_of_range (x : Q) : bool := Py.ge (Py.abs x) FLOAT_OVERFLOW.

(** [x ** 2] on a float: OverflowError when [x] is finite and its square
    out of range.  A difference that is itself out of range is the float
    [inf], whose square is [inf] and raises nothing; the exact square
    stands for it here, and every comparison made with it reads the
    same. *)
Definition square (x : Q) : Result Q :=
  if out_of_range x then Returned (x ^ 2)
  else if out_of_range (x ^ 2) then Raised "OverflowError"
  else Returned (x ^ 2).

(** [sum((a - b) ** 2 for a, b in zip(target[:2], pos[:2]))], the terms
    taken in order. *)
Definition squared_distance (tgt pos : list Q) : Result Q :=
  for_each (fun acc ab => sq <- square (fst ab - snd ab) ;; Returned (acc + sq))
           (combine (firstn 2 tgt) (firstn 2 pos)) 0.

(** *** The state the registry is given *)

Record EmbodimentState := {
  timestamp : Q;
  motor_state : list (string * Value);
  environment : Environment;
  detected_entities : list DetectedEntity
}.

Record UndeliberableViolation := {
  undeliberable : Undeliberable;
  commands : list CommandDict
}.

Definition _check_human_override (st : EmbodimentState) : bool :=
  if human_override (environment st) then true
  else if stop_commanded (environment st) then true
  else if emergency_stop (environment st) then true
  else false.

Definition hazard_flags (st : EmbodimentState) : HazardFlags :=
  let text := Py.lower (PyRepr.str_of_strs (hazards (environment st))) in
  {| near_traffic := Py.contains "traffic" text;
     near_heights := Py.contains "height" text || Py.contains "fall" text;
     near_machinery :=
       Py.contains "machine" text || Py.contains "equipment" text;
     near_water := Py.contains "water" text || Py.contains "drown" text |}.

(** [cmd.get('type', '')] and [cmd_type == 'MOVE']. *)
Definition get_type (cmd : CommandDict) : Value :=
  Py.get_default String.eqb cmd "type" (VStr "").

Definition is_type (cmd_type : Value) (t : string) : bool :=
  Value_eqb cmd_type (VStr t).

(** [str(cmd.get(key, '')).lower()]. *)
Definition text_of (cmd : CommandDict) (key : string) : string :=
  Py.lower (str (Py.get_default String.eqb cmd key (VStr ""))).

(** *** Lethal action *)

(** The loop over [humans] of a MOVE command. *)
Definition move_step (speed target : Value) (cmd_prob : Q)
    (human : DetectedEntity) : Result Q :=
  let human_pos := position_or_origin human in
  spd <- number speed ;;
  let cmd_prob := if Py.gt spd 1.0
                  then Qmax cmd_prob (0.3 + (spd - 1.0) * 0.3)
                  else cmd_prob in
  match target with
  | VList tgt =>
      d2 <- squared_distance tgt human_pos ;;
      Returned (if Py.lt d2 1 && Py.gt spd 0.5
                then Qmax cmd_prob (0.5 + spd * 0.2)
                else cmd_prob)
  | _ => Returned cmd_prob
  end.

(** The loop over [humans] of a MANIPULATE command. *)
Definition manipulate_step (force : Value) (action target : string)
    (cmd_prob : Q) (human : DetectedEntity) : Result Q :=
  if Py.contains (Py.lower (entity_id human)) target
     || Py.contains "human" target
  then
    frc <- number force ;;
    let cmd_prob := Qmax cmd_prob (0.4 + frc * 0.08) in
    Returned (if Py.any_in AGGRESSIVE_WORDS action
              then Qmax cmd_prob (0.6 + frc * 0.05)
              else cmd_prob)
  else Returned cmd_prob.

(** The body of the loop over [commands]: the probability of one
    command. *)
Definition command_probability (hz : HazardFlags)
    (humans : list DetectedEntity) (cmd : CommandDict) : Result Q :=
  let cmd_type := get_type cmd in
  if is_type cmd_type "MOVE" then
    let speed := Py.get_default String.eqb cmd "speed" (VNum 0) in
    let target := Py.get_default String.eqb cmd "target" VNone in
    cmd_prob <- for_each (move_step speed target) humans 0.0 ;;
    cmd_prob <- (if near_traffic hz
                 then spd <- number speed ;;
                      Returned (if Py.gt spd 0.5 then Qmax cmd_prob 0.4
                                else cmd_prob)
                 else Returned cmd_prob) ;;
    Returned (if near_heights hz then Qmax cmd_prob 0.5 else cmd_prob)
  else if is_type cmd_type "MANIPULATE" then
    let force := Py.get_default String.eqb cmd "force" (VNum 0) in
    let action := text_of cmd "action" in
    let target := text_of cmd "target" in
    cmd_prob <- for_each (manipulate_step force action target) humans 0.0 ;;
    let cmd_prob := if near_machinery hz then Qmax cmd_prob (cmd_prob + 0.2)
                    else cmd_prob in
    Returned (if near_heights hz then Qmax cmd_prob (cmd_prob + 0.3)
              else cmd_prob)
  else if is_type cmd_type "ALERT" then
    lvl <- number (Py.get_default String.eqb cmd "level" (VNum 1)) ;;
    Returned (if Py.ge lvl 3 && (near_heights hz || near_traffic hz)
              then Qmax 0.0 0.3 else 0.0)
  else Returned 0.0.

(** [_check_lethal_action], the probability it returns. *)
Definition _check_lethal_action (commands : list CommandDict)
    (st : EmbodimentState) : Result Q :=
  let humans := filter is_HUMAN (detected_entities st) in
  match humans with
  | [] => Returned 0.0
  | _ :: _ =>
      let hz := hazard_flags st in
      max_probability <-
        for_each (fun max_probability cmd =>
                    cmd_prob <- command_probability hz humans cmd ;;
                    Returned (Qmax max_probability cmd_prob))
                 commands 0.0 ;;
      let unc := get_num (uncertainty (environment st)) 0 in
      let max_probability :=
        if Py.gt unc 0.3 then Qmin 1.0 (max_probability + unc * 0.2)
        else max_probability in
      Returned (fold_left confidence_step humans max_probability)
  end.

(** *** Child harm *)

(** Is the command aimed at this child? *)
Definition targets_child (cmd : CommandDict) (child : DetectedEntity)
  : bool :=
  let target := text_of cmd "target" in
  Py.contains (Py.lower (entity_id child)) target
  || Py.contains "child" target || Py.contains "kid" target.

(** The four tests made on a command aimed at a child; [true] stands for
    the [return True]. *)
Definition child_command_blocked (caregiver_present : bool)
    (cmd : CommandDict) : Result bool :=
  let cmd_type := get_type cmd in
  if is_type cmd_type "MANIPULATE" && negb caregiver_present
  then Returned true
  else
    forceful <-
      (if is_type cmd_type "MANIPULATE"
       then frc <- number (Py.get_default String.eqb cmd "force" (VNum 0)) ;;
            Returned (Py.gt frc 2.0
                      || Py.any_in FORCEFUL_WORDS (text_of cmd "action"))
       else Returned false) ;;
    if forceful then Returned true
    else
      loud <-
        (if is_type cmd_type "ALERT"
         then lvl <- number (Py.get_default String.eqb cmd "level" (VNum 0)) ;;
              Returned (Py.ge lvl 2)
         else Returned false) ;;
      if loud then Returned true
      else if is_type cmd_type "MOVE"
      then spd <- number (Py.get_default String.eqb cmd "speed" (VNum 0)) ;;
           Returned (Py.gt spd 1.0)
      else Returned false.

(** The loop over [children] for one command. *)
Fixpoint child_loop (caregiver_present : bool) (cmd : CommandDict)
    (children : list DetectedEntity) : Result bool :=
  match children with
  | [] => Returned false
  | child :: rest =>
      if targets_child cmd child
      then hit <- child_command_blocked caregiver_present cmd ;;
           if hit then Returned true
           else child_loop caregiver_present cmd rest
      else child_loop caregiver_present cmd rest
  end.

(** The loop over [commands]. *)
Fixpoint child_command_loop (caregiver_present : bool)
    (children : list DetectedEntity) (commands : list CommandDict)
  : Result bool :=
  match commands with
  | [] => Returned false
  | cmd :: rest =>
      hit <- child_loop caregiver_present cmd children ;;
      if hit then Returned true
      else child_command_loop caregiver_present children rest
  end.

Definition _check_child_harm (commands : list CommandDict)
    (st : EmbodimentState) : Result bool :=
  let children := filter _is_child (detected_entities st) in
  match children with
  | [] => Returned false
  | _ :: _ =>
      let caregivers := filter is_caregiver (detected_entities st) in
      let caregiver_present := (0 <? List.length caregivers)%nat in
      child_command_loop caregiver_present children commands
  end.

(** *** Weapon assistance and identity deception *)

Definition weapon_command (weapons : list DetectedEntity)
    (cmd : CommandDict) : bool :=
  let cmd_type := get_type cmd in
  let target := text_of cmd "target" in
  if is_type cmd_type "MANIPULATE"
     && (existsb (fun w => Py.contains (Py.lower (entity_id w)) target)
                 weapons
         || Py.any_in WEAPON_KEYWORDS target)
  then true
  else if is_type cmd_type "SPEAK"
          && _contains_weapon_instructions (text_of cmd "message")
  then true
  else if is_type cmd_type "DISPLAY"
          && _contains_weapon_instructions (text_of cmd "content")
  then true
  else false.

Definition _check_weapon_assistance (commands : list CommandDict)
    (st : EmbodimentState) : bool :=
  let weapons := filter _is_weapon (detected_entities st) in
  existsb (weapon_command weapons) commands.

Definition deception_command (identity_asked : bool) (cmd : CommandDict)
  : bool :=
  if is_type (get_type cmd) "SPEAK" then
    let message := text_of cmd "message" in
    if Py.any_in HUMAN_CLAIMS message then true
    else identity_asked && Py.any_in DENIAL_PATTERNS message
  else false.

Definition _check_identity_deception (commands : list CommandDict)
    (st : EmbodimentState) : bool :=
  existsb (deception_command (identity_question_pending (environment st)))
          commands.

(** *** The registry's entry point *)

Definition violation (u : Undeliberable) (cmds : list CommandDict)
  : UndeliberableViolation :=
  {| undeliberable := u; commands := cmds |}.

Definition check_all (cmds : list CommandDict) (st : EmbodimentState)
  : Result (option UndeliberableViolation) :=
  if _check_human_override st
  then Returned (Some (violation HUMAN_OVERRIDE cmds))
  else
    lethal_prob <- _check_lethal_action cmds st ;;
    if Py.gt lethal_prob LETHAL_PROBABILITY_THRESHOLD
    then Returned (Some (violation LETHAL_ACTION cmds))
    else
      child_harm <- _check_child_harm cmds st ;;
      if child_harm then Returned (Some (violation CHILD_HARM cmds))
      else if _check_weapon_assistance cmds st
      then Returned (Some (violation WEAPON_ASSISTANCE cmds))
      else if _check_identity_deception cmds st
      then Returned (Some (violation IDENTITY_DECEPTION cmds))
      else Returned None.

(** *** Validation *)

(** [_validate_move_command]; the distance to the current position is
    taken once the target has passed the operating bounds. *)
Definition _validate_move_command (self : VirtualEmbodiment)
    (command : CommandDict) : Result bool :=
  match Py.get String.eqb command "target" with
  | None => Returned false
  | Some VNone => Returned false
  | Some (VList tgt) =>
      if (List.length tgt <? 2)%nat || (3 <? List.length tgt)%nat
      then Returned false
      else if negb (within_bounds tgt (fst _get_operating_bounds)
                                  (snd _get_operating_bounds))
      then Returned false
      else
        let current_pos := match current_position self with
                           | Some p => p
                           | None => [0; 0; 0]
                           end in
        if (2 <=? List.length current_pos)%nat
        then d2 <- squared_distance tgt current_pos ;;
             Returned (negb (Py.gt d2 2500))
        else Returned true
  | Some (VStr _) => Returned true
  | Some (VNum _) => Returned false
  end.

(** [validate_command], the flag of the pair it returns. *)
Definition validate_command (self : VirtualEmbodiment)
    (command : CommandDict) : Result bool :=
  let cmd_type := Py.get_default String.eqb command "type" (VStr "") in
  if negb (truthy cmd_type) then Returned false
  else
    match find_actuator self cmd_type with
    | None => Returned false
    | Some actuator =>
        if negb (forallb (has_key command) (required_params actuator))
        then Returned false
        else if negb (check_params actuator command) then Returned false
        else
          valid <- (if is_type cmd_type "MOVE"
                    then _validate_move_command self command
                    else Returned true) ;;
          if negb valid then Returned false
          else if is_type cmd_type "MANIPULATE"
                  && negb (_validate_manipulate_command self command)
          then Returned false
          else Returned true
    end.

(** *** The embodiment layer *)

Record CommandResult := {
  command : Value;
  command_success : bool
}.

(** The dict [execute_commands] returns; a missing [blocked] or [halted]
    reads as false, a missing [undeliberable] as [None]. *)
Record ExecResult := {
  success : bool;
  blocked : bool;
  undeliberable_name : option string;
  results : list CommandResult;
  halted : bool
}.

Record EmbodimentLayer := {
  _virtual : VirtualEmbodiment;
  _current_time : Q;
  _motor_state : list (string * Value);
  _environment : Environment;
  _detected_entities : list (string * DetectedEntity);
  _commands_executed : nat;
  _commands_rejected : nat;
  _undeliberable_violations : list UndeliberableViolation;
  _halted : bool
}.

Definition init (ve : VirtualEmbodiment) : EmbodimentLayer :=
  {| _virtual := ve;
     _current_time := 0.0;
     _motor_state := [("status", VStr "idle");
                      ("position", VList [0.0; 0.0; 0.0])];
     _environment := {| human_override := false; stop_commanded := false;
                        emergency_stop := false; hazards := [];
                        uncertainty := Some 0.5;
                        identity_question_pending := false |};
     _detected_entities := [];
     _commands_executed := 0;
     _commands_rejected := 0;
     _undeliberable_violations := [];
     _halted := false |}.

Definition is_halted (self : EmbodimentLayer) : bool := _halted self.

Definition clear_halt (self : EmbodimentLayer) : EmbodimentLayer :=
  {| _virtual := _virtual self;
     _current_time := _current_time self;
     _motor_state := _motor_state self;
     _environment :=
       {| human_override := false; stop_commanded := false;
          emergency_stop := false;
          hazards := hazards (_environment self);
          uncertainty := uncertainty (_environment self);
          identity_question_pending :=
            identity_question_pending (_environment self) |};
     _detected_entities := _detected_entities self;
     _commands_executed := _commands_executed self;
     _commands_rejected := _commands_rejected self;
     _undeliberable_violations := _undeliberable_violations self;
     _halted := false |}.

Definition with_environment (self : EmbodimentLayer) (env : Environment)
  : EmbodimentLayer :=
  {| _virtual := _virtual self;
     _current_time := _current_time self;
     _motor_state := _motor_state self;
     _environment := env;
     _detected_entities := _detected_entities self;
     _commands_executed := _commands_executed self;
     _commands_rejected := _commands_rejected self;
     _undeliberable_violations := _undeliberable_violations self;
     _halted := _halted self |}.

Definition add_entity (self : EmbodimentLayer) (e : DetectedEntity)
  : EmbodimentLayer :=
  {| _virtual := _virtual self;
     _current_time := _current_time self;
     _motor_state := _motor_state self;
     _environment := _environment self;
     _detected_entities :=
       Py.set String.eqb (_detected_entities self) (entity_id e) e;
     _commands_executed := _commands_executed self;
     _commands_rejected := _commands_rejected self;
     _undeliberable_violations := _undeliberable_violations self;
     _halted := _halted self |}.

Definition get_current_state (self : EmbodimentLayer) : EmbodimentState :=
  {| timestamp := _current_time self;
     motor_state := _motor_state self;
     environment := _environment self;
     detected_entities := map snd (_detected_entities self) |}.

Definition with_motion (self : EmbodimentLayer)
    (m : list (string * Value)) (t : Q) : EmbodimentLayer :=
  {| _virtual := _virtual self;
     _current_time := t;
     _motor_state := m;
     _environment := _environment self;
     _detected_entities := _detected_entities self;
     _commands_executed := _commands_executed self;
     _commands_rejected := _commands_rejected self;
     _undeliberable_violations := _undeliberable_violations self;
     _halted := _halted self |}.

Definition done (cmd_type : Value) (ok : bool) : CommandResult :=
  {| command := cmd_type; command_success := ok |}.

(** [cmd.get('type', 'UNKNOWN')]. *)
Definition type_or_unknown (cmd : CommandDict) : Value :=
  Py.get_default String.eqb cmd "type" (VStr "UNKNOWN").

(** [m[k] = v] on the motor state. *)
Definition assign (m : list (string * Value)) (k : string) (v : Value)
  : list (string * Value) :=
  Py.set String.eqb m k v.

(** [v[:50]] is taken: a string or a list can be sliced, a number or
    [None] cannot. *)
Definition subscriptable (v : Value) : bool :=
  match v with
  | VStr _ | VList _ => true
  | _ => false
  end.

Definition sliced (v : Value) : Result unit :=
  if subscriptable v then Returned tt else Raised "TypeError".

(** [_execute_single_command]: the layer it leaves and the result dict,
    of which the command type and the success flag are kept. *)
Definition _execute_single_command (self : EmbodimentLayer)
    (cmd : CommandDict) : EmbodimentLayer * Result CommandResult :=
  let cmd_type := type_or_unknown cmd in
  let m := _motor_state self in
  if is_type cmd_type "MOVE" then
    let target := Py.get_default String.eqb cmd "target" VNone in
    let speed := Py.get_default String.eqb cmd "speed" (VNum 1.0) in
    let m := assign (assign (assign m "status" (VStr "moving"))
                            "target" target) "speed" speed in
    let m := match target with
             | VList xs =>
                 assign m "position"
                   (VList (xs ++ repeat 0.0 (3 - List.length xs))%list)
             | _ => m
             end in
    (with_motion self m (_current_time self), Returned (done cmd_type true))
  else if is_type cmd_type "STOP" then
    (with_motion self
       (assign (assign m "status" (VStr "idle")) "speed" (VNum 0))
       (_current_time self),
     Returned (done cmd_type true))
  else if is_type cmd_type "ROTATE" then
    let degrees := Py.get_default String.eqb cmd "degrees" (VNum 0) in
    (with_motion self
       (assign (assign m "status" (VStr "rotating")) "rotation" degrees)
       (_current_time self),
     Returned (done cmd_type true))
  else if is_type cmd_type "SPEAK" then
    let message := Py.get_default String.eqb cmd "message" (VStr "") in
    (self, bind (sliced message) (fun _ => Returned (done cmd_type true)))
  else if is_type cmd_type "DISPLAY" || is_type cmd_type "MANIPULATE"
          || is_type cmd_type "ALERT"
  then (self, Returned (done cmd_type true))
  else if is_type cmd_type "WAIT" then
    let duration := Py.get_default String.eqb cmd "duration" (VNum 1.0) in
    match number duration with
    | Returned d =>
        (with_motion self m (_current_time self + d),
         Returned (done cmd_type true))
    | Raised e => (self, Raised e)
    end
  else (self, Returned (done cmd_type false)).

Definition count_rejected (self : EmbodimentLayer) : EmbodimentLayer :=
  {| _virtual := _virtual self;
     _current_time := _current_time self;
     _motor_state := _motor_state self;
     _environment := _environment self;
     _detected_entities := _detected_entities self;
     _commands_executed := _commands_executed self;
     _commands_rejected := S (_commands_rejected self);
     _undeliberable_violations := _undeliberable_violations self;
     _halted := _halted self |}.

Definition count_executed (self : EmbodimentLayer) : EmbodimentLayer :=
  {| _virtual := _virtual self;
     _current_time := _current_time self;
     _motor_state := _motor_state self;
     _environment := _environment self;
     _detected_entities := _detected_entities self;
     _commands_executed := S (_commands_executed self);
     _commands_rejected := _commands_rejected self;
     _undeliberable_violations := _undeliberable_violations self;
     _halted := _halted self |}.

(** The loop over the commands that passed the registry; an exception
    leaves the layer as the commands before it have made it. *)
Fixpoint execute_loop (self : EmbodimentLayer) (results : list CommandResult)
    (cmds : list CommandDict)
  : EmbodimentLayer * Result (list CommandResult) :=
  match cmds with
  | [] => (self, Returned results)
  | cmd :: rest =>
      match validate_command (_virtual self) cmd with
      | Raised e => (self, Raised e)
      | Returned false =>
          execute_loop (count_rejected self)
                       (results ++ [done (type_or_unknown cmd) false])%list
                       rest
      | Returned true =>
          match _execute_single_command self cmd with
          | (self', Raised e) => (self', Raised e)
          | (self', Returned exec_result) =>
              execute_loop (count_executed self')
                           (results ++ [exec_result])%list rest
          end
      end
  end.

(** The layer after a violation has been logged, halted or not. *)
Definition log_violation (self : EmbodimentLayer)
    (v : UndeliberableViolation) (halt : bool) : EmbodimentLayer :=
  {| _virtual := _virtual self;
     _current_time := _current_time self;
     _motor_state :=
       if halt then assign (_motor_state self) "status" (VStr "halted")
       else _motor_state self;
     _environment := _environment self;
     _detected_entities := _detected_entities self;
     _commands_executed := _commands_executed self;
     _commands_rejected := _commands_rejected self;
     _undeliberable_violations :=
       (_undeliberable_violations self ++ [v])%list;
     _halted := if halt then true else _halted self |}.

Definition refusal (u : option string) (h : bool) : ExecResult :=
  {| success := false; blocked := true; undeliberable_name := u;
     results := []; halted := h |}.

Definition execute_commands (self : EmbodimentLayer)
    (cmds : list CommandDict) : EmbodimentLayer * Result ExecResult :=
  if _halted self then (self, Returned (refusal None false))
  else
    let st := get_current_state self in
    match check_all cmds st with
    | Raised e => (self, Raised e)
    | Returned (Some v) =>
        match response (undeliberable v) with
        | IMMEDIATE_HALT =>
            (log_violation self v true,
             Returned (refusal (Some (name (undeliberable v))) true))
        | HARD_STOP =>
            (log_violation self v false,
             Returned (refusal (Some (name (undeliberable v))) false))
        end
    | Returned None =>
        match execute_loop self [] cmds with
        | (self', Raised e) => (self', Raised e)
        | (self', Returned rs) =>
            (self',
             Returned {| success := forallb command_success rs;
                         blocked := false; undeliberable_name := None;
                         results := rs; halted := false |})
        end
    end.

(** *** What the statements below need to say *)

(** The call has executed nothing: the layer has executed and rejected as
    much as before, stands where it stood and shows the same time, and
    the answer, if there is one, is a refusal. *)
Definition untouched (self after : EmbodimentLayer)
    (r : Result ExecResult) : Prop :=
  _commands_executed after = _commands_executed self /\
  _commands_rejected after = _commands_rejected self /\
  Py.get String.eqb (_motor_state after) "position"
  = Py.get String.eqb (_motor_state self) "position" /\
  _current_time after = _current_time self /\
  forall answer, r = Returned answer ->
    success answer = false /\ blocked answer = true /\ results answer = [].

(** What [_check_lethal_action] makes of the greatest rating [m] of a
    command: the adjustments for uncertainty and for humans detected
    with low confidence. *)
Definition adjusted (st : EmbodimentState) (humans : list DetectedEntity)
    (m : Q) : Q :=
  let unc := get_num (uncertainty (environment st)) 0 in
  fold_left confidence_step humans
    (if Py.gt unc 0.3 then Qmin 1.0 (m + unc * 0.2) else m).

(** The fields the registry reads as numbers hold numbers where they are
    there. *)
Definition is_number (v : Value) : bool :=
  match v with VNum _ => true | _ => false end.


(** Coordinates of a magnitude of at most 1e150, whose differences have
    squares well inside the range of a float. *)
Definition COORDINATE_LIMIT : Q := inject_Z (10 ^ 150)%Z.

Definition moderate (xs : list Q) : bool :=
  forallb (fun x => Py.le (Py.abs x) COORDINATE_LIMIT) xs.



(** [_execute_single_command] returns on this command: what a SPEAK
    says can be sliced, and the time a WAIT takes is a number. *)
Definition executable (cmd : CommandDict) : bool :=
  let cmd_type := type_or_unknown cmd in
  if is_type cmd_type "SPEAK"
  then subscriptable (Py.get_default String.eqb cmd "message" (VStr ""))
  else if is_type cmd_type "WAIT"
  then is_number (Py.get_default String.eqb cmd "duration" (VNum 1.0))
  else true.

(** The capability model returns True on this command. *)
Definition accepts (self : VirtualEmbodiment) (cmd : CommandDict) : bool :=
  match validate_command self cmd with
  | Returned valid => valid
  | Raised _ => false
  end.

(** One round of the execution loop returns on this command: the
    validation returns, and what it accepts is executable. *)
Definition runs (self : VirtualEmbodiment) (cmd : CommandDict) : bool :=
  match validate_command self cmd with
  | Returned valid => if valid then executable cmd else true
  | Raised _ => false
  end.

(** Commands and scenes of the test suite. *)
Definition move (tgt : list Q) (spd : Q) : CommandDict :=
  [("type", VStr "MOVE"); ("target", VList tgt); ("speed", VNum spd)].

Definition manipulate (act tgt : string) (frc : Q) : CommandDict :=
  [("type", VStr "MANIPULATE"); ("action", VStr act); ("target", VStr tgt);
   ("force", VNum frc)].

Definition speak (msg : Value) : CommandDict :=
  [("type", VStr "SPEAK"); ("message", msg)].

Definition scene (hz : list string) (es : list DetectedEntity)
  : EmbodimentState :=
  {| timestamp := 0.0;
     motor_state := [("status", VStr "idle");
                     ("position", VList [0.0; 0.0; 0.0])];
     environment := Scenario.env hz;
     detected_entities := es |}.

End Runtime.

(** * Theorems *)

(** ** Comparisons and sums on floats *)

Lemma gt_true_iff (a b : Q) : Py.gt a b = true <-> b < a.
Proof.
  unfold Py.gt. rewrite negb_true_iff.
  destruct (Qle_bool a b) eqn:E.
  - apply Qle_bool_iff in E. split; [discriminate | intros H; lra].
  - split; [intros _ | reflexivity].
    apply Qnot_le_lt. intros H. apply Qle_bool_iff in H. congruence.
Qed.

Lemma gt_false_iff (a b : Q) : Py.gt a b = false <-> a <= b.
Proof.
  unfold Py.gt. rewrite negb_false_iff. apply Qle_bool_iff.
Qed.

Lemma lt_false_iff (a b : Q) : Py.lt a b = false <-> b <= a.
Proof. unfold Py.lt. apply (gt_false_iff b a). Qed.

Lemma lt_true_iff (a b : Q) : Py.lt a b = true <-> a < b.
Proof. unfold Py.lt. apply (gt_true_iff b a). Qed.

Lemma ge_true_iff (a b : Q) : Py.ge a b = true <-> b <= a.
Proof. unfold Py.ge. apply Qle_bool_iff. Qed.

Lemma filter_length_all {A : Type} (p : A -> bool) (l : list A) :
  List.length (filter p l) = List.length l <-> forallb p l = true.
Proof.
  induction l as [|x l IH]; simpl; [tauto|].
  pose proof (filter_length_le p l) as Hle.
  destruct (p x); simpl.
  - rewrite <- IH. split; intros H; lia.
  - split; [intros H; lia | discriminate].
Qed.

Lemma firstn_seq (n start len : nat) :
  firstn n (seq start len) = seq start (Nat.min n len).
Proof.
  revert start len.
  induction n as [|n IH]; intros start [|len]; simpl; try reflexivity.
  rewrite IH. reflexivity.
Qed.

Lemma In_firstn {A : Type} (n : nat) (l : list A) (x : A) :
  In x (firstn n l) -> In x l.
Proof.
  revert l. induction n as [|n IH]; intros [|a l] H; simpl in *;
    try contradiction.
  destruct H as [->|H]; [left; reflexivity | right; apply IH; exact H].
Qed.

(** ** SHA-256 on the standard test vectors *)

Example sha256_empty :
  Sha256.hexdigest ""
  = "e3b0c44298fc1c149afbf4c8996fb92427ae41e4649b934ca495991b7852b855".
Proof. vm_compute. reflexivity. Qed.

Example sha256_abc :
  Sha256.hexdigest "abc"
  = "ba7816bf8f01cfea414140de5dae2223b00361a396177a9cb410ff61f20015ad".
Proof. vm_compute. reflexivity. Qed.

Example sha256_two_blocks :
  Sha256.hexdigest "abcdbcdecdefdefgefghfghighijhijkijkljklmklmnlmnomnopnopq"
  = "248d6a61d20638b8e5c026930c3e6039a33ce45964ff2167f6ecedd419db06c1".
Proof. vm_compute. reflexivity. Qed.

(** ** The harm ontology *)

Module OntologyFacts.
Import Ontology.

Lemma context_loop (self : GroundedHarmOntology)
    (context : list (string * string)) :
  forall acc,
    fst (fold_left (context_step self) context acc)
    == fst acc * spec_context_product self context.
Proof.
  induction context as [|item context IH]; intros acc; simpl.
  - unfold spec_context_product. simpl. ring.
  - rewrite IH. unfold spec_context_product. simpl. ring.
Qed.

Lemma met_get_default (vs : list (string * bool)) (req : string) :
  Py.get_default String.eqb vs req false = met vs req.
Proof. reflexivity. Qed.

(** The code's count-and-divide gives the reduction the specification
    words, with partial credit and without. *)
Lemma reduction_matches_spec (self : GroundedHarmOntology)
    (exc : ExceptionType) (vs : list (string * bool)) :
  requirements_listed self ->
  get_exception_reduction self exc vs == spec_reduction self exc vs.
Proof.
  intros Hwf.
  unfold get_exception_reduction, spec_reduction.
  destruct (Py.get ExceptionType_beq (_exceptions self) exc)
    as [exc_def|] eqn:Hget; [|reflexivity].
  specialize (Hwf exc exc_def Hget).
  unfold Py.count.
  change (fun req => Py.get_default String.eqb vs req false) with (met vs).
  set (reqs := verification_requirements exc_def) in *.
  pose proof (filter_length_le (met vs) reqs) as Hle.
  pose proof (filter_length_all (met vs) reqs) as Hall.
  destruct (requires_all exc_def); cbn [negb andb].
  - destruct (forallb (met vs) reqs) eqn:Hf.
    + assert (Hlen : List.length (filter (met vs) reqs) = List.length reqs)
        by (apply Hall; reflexivity).
      rewrite Hlen, Nat.ltb_irrefl.
      destruct reqs as [|r reqs']; [exfalso; apply Hwf; reflexivity|].
      cbn [List.length Nat.ltb Nat.leb].
      unfold Py.truediv, Py.of_nat.
      field. unfold Qeq. simpl. lia.
    + assert (Hlt : (List.length (filter (met vs) reqs)
                     < List.length reqs)%nat).
      { destruct (Nat.eq_dec (List.length (filter (met vs) reqs))
                             (List.length reqs)) as [E|E].
        - apply Hall in E. congruence.
        - lia. }
      apply Nat.ltb_lt in Hlt. rewrite Hlt. reflexivity.
  - destruct reqs as [|r reqs'].
    + cbn [List.length filter Nat.ltb Nat.leb Z.of_nat].
      unfold Qdiv, Qinv. cbn [inject_Z Qnum]. ring.
    + cbn [List.length Nat.ltb Nat.leb]. reflexivity.
Qed.

Lemma exception_loop (self : GroundedHarmOntology)
    (exceptions : list (ExceptionType * list (string * bool))) :
  requirements_listed self ->
  forall acc,
    fst (fold_left (exception_step self) exceptions acc)
    == fst acc + spec_total_reduction self exceptions.
Proof.
  intros Hwf.
  induction exceptions as [|item exceptions IH]; intros acc; simpl.
  - unfold spec_total_reduction. simpl. ring.
  - rewrite IH. unfold spec_total_reduction. simpl.
    rewrite (reduction_matches_spec self _ _ Hwf). ring.
Qed.

Lemma get_ontology_requirements_listed : requirements_listed get_ontology.
Proof.
  intros exc exc_def Hget _.
  destruct exc; cbn in Hget; inversion Hget; subst; discriminate.
Qed.

(** The same on any ontology whose exception table is so formed. *)
Lemma calculate_harm_any_ontology (self : GroundedHarmOntology)
    (d : HarmDimension) (sev : SeverityLevel) (e : EntityType)
    (context : list (string * string))
    (exceptions : list (ExceptionType * list (string * bool))) :
  requirements_listed self ->
  let r := calculate_harm self d sev e context exceptions in
  gross_harm r == spec_gross self d sev e context /\
  exception_reduction r == spec_total_reduction self exceptions /\
  net_harm r == Qmax 0 (gross_harm r - exception_reduction r).
Proof.
  intros Hwf r. split; [|split].
  - unfold r, calculate_harm, spec_gross; cbn [gross_harm].
    rewrite context_loop. cbn [fst]. ring.
  - unfold r, calculate_harm; cbn [exception_reduction].
    rewrite (exception_loop self exceptions Hwf). cbn [fst]. ring.
  - unfold r, calculate_harm.
    cbn [net_harm gross_harm exception_reduction].
    apply Q.max_compat; reflexivity.
Qed.

(** C1. For every dimension, severity, entity type, context map and
    exception map, [calculate_harm] returns the gross harm
    base_weight x entity_modifier x product of the context modifiers,
    reduces it by the sum of the exception reductions (cap times share met
    with partial credit, the cap when all requirements are met, nothing
    otherwise), floors the difference at zero, and raises [exceeds_veto]
    exactly above 0.40 and [exceeds_caution] exactly above 0.25. This holds
    on every ontology whose all-or-nothing exceptions list a requirement,
    as all four of the program's do. *)
Theorem calculate_harm_follows_algorithm :
  forall (self : GroundedHarmOntology)
         (d : HarmDimension) (sev : SeverityLevel) (e : EntityType)
         (context : list (string * string))
         (exceptions : list (ExceptionType * list (string * bool))),
    requirements_listed self ->
    let r := calculate_harm self d sev e context exceptions in
    gross_harm r == spec_gross self d sev e context /\
    exception_reduction r == spec_total_reduction self exceptions /\
    net_harm r
    == Qmax 0 (spec_gross self d sev e context
               - spec_total_reduction self exceptions) /\
    (exceeds_veto r = true <-> 0.40 < net_harm r) /\
    (exceeds_caution r = true <-> 0.25 < net_harm r).
Proof.
  intros self d sev e context exceptions Hwf r.
  destruct (calculate_harm_any_ontology self d sev e context exceptions Hwf)
    as (Hg & Hr & Hn).
  fold r in Hg, Hr, Hn.
  split; [exact Hg|]. split; [exact Hr|]. split; [|split].
  - rewrite <- Hg, <- Hr. exact Hn.
  - apply gt_true_iff.
  - apply gt_true_iff.
Qed.

(** C1 on the program's ontology, and with partial credit: fatal physical
    harm to a human, necessity claimed with two requirements of three
    met, counts 1.0 gross; all-or-nothing it stays at 1.0, with partial
    credit it is reduced by 0.4 to 0.6, still above the veto threshold. *)
Lemma calculate_harm_follows_algorithm_witness :
  let claimed := [(NECESSITY, Scenario.two_of_three)] in
  let strict := calculate_harm get_ontology PHYSICAL FATAL HUMAN [] claimed in
  let eased := calculate_harm Scenario.lenient PHYSICAL FATAL HUMAN [] claimed in
  (gross_harm strict == spec_gross get_ontology PHYSICAL FATAL HUMAN [] /\
   exception_reduction strict == 0 /\ net_harm strict == 1) /\
  (gross_harm eased == spec_gross Scenario.lenient PHYSICAL FATAL HUMAN [] /\
   exception_reduction eased == 0.4 /\ net_harm eased == 0.6 /\
   exceeds_veto eased = true).
Proof.
  intros claimed strict eased.
  destruct (calculate_harm_follows_algorithm
              get_ontology PHYSICAL FATAL HUMAN [] claimed
              get_ontology_requirements_listed)
    as (Hg & _).
  destruct (calculate_harm_follows_algorithm
              Scenario.lenient PHYSICAL FATAL HUMAN [] claimed)
    as (Hg' & _).
  - intros exc exc_def Hget Hall.
    destruct exc; cbn in Hget; inversion Hget; subst; discriminate.
  - split.
    + split; [exact Hg|]. split; reflexivity.
    + split; [exact Hg'|]. split; [reflexivity|]. split; reflexivity.
Defined.

(** C9. On the program's ontology, for every dimension, severity, entity
    type and context whose gross harm is positive, claiming NECESSITY with
    all three of its requirements met gives a net harm strictly below the
    net harm of the same call without exceptions. *)
Theorem necessity_strictly_reduces_net_harm :
  forall (d : HarmDimension) (sev : SeverityLevel) (e : EntityType)
         (context : list (string * string))
         (verification : list (string * bool)),
    forallb (met verification) (requirements_of get_ontology NECESSITY)
    = true ->
    0 < gross_harm (calculate_harm get_ontology d sev e context []) ->
    net_harm (calculate_harm get_ontology d sev e context
                [(NECESSITY, verification)])
    < net_harm (calculate_harm get_ontology d sev e context []).
Proof.
  intros d sev e context verification Hmet Hpos.
  assert (Hred : get_exception_reduction get_ontology NECESSITY verification
                 == 0.6).
  { rewrite (reduction_matches_spec _ _ _ get_ontology_requirements_listed).
    unfold spec_reduction.
    change (Py.get ExceptionType_beq (_exceptions get_ontology) NECESSITY)
      with (Some (snd (exception NECESSITY 0.6
                         (requirements_of get_ontology NECESSITY)))).
    cbn [snd exception requires_all negb verification_requirements
         max_harm_reduction].
    rewrite Hmet. reflexivity. }
  unfold calculate_harm in *.
  cbn [net_harm gross_harm fold_left exception_step fst snd] in *.
  set (g := get_dimension_weight get_ontology d sev
            * get_entity_modifier get_ontology e
            * fst (fold_left (context_step get_ontology) context (1.0, [])))
    in *.
  set (red := get_exception_reduction get_ontology NECESSITY verification)
    in *.
  pose proof (Q.le_max_r 0.0 (g - 0.0)) as Hr.
  apply Q.max_lub_lt; lra.
Qed.

(** C9, on the scenario of the test suite: significant physical harm to a
    highly vulnerable child. *)
Lemma necessity_strictly_reduces_net_harm_witness :
  let vs := [("Inaction would cause greater harm with high probability", true);
             ("No less harmful alternative is available", true);
             ("Harm caused is proportional to harm prevented", true)] in
  let context := [("vulnerability", "highly_vulnerable")] in
  net_harm (calculate_harm get_ontology PHYSICAL SIGNIFICANT CHILD context
              [(NECESSITY, vs)])
  < net_harm (calculate_harm get_ontology PHYSICAL SIGNIFICANT CHILD context
                []).
Proof.
  intros vs context.
  apply (necessity_strictly_reduces_net_harm PHYSICAL SIGNIFICANT CHILD
           context vs).
  - reflexivity.
  - vm_compute. reflexivity.
Defined.

(** The checksum reads the key sets of the four tables and the veto
    threshold, nothing below the keys. *)
Lemma checksum_of_keys (a b : GroundedHarmOntology) :
  Py.keys (_dimension_profiles a) = Py.keys (_dimension_profiles b) ->
  Py.keys (_entity_modifiers a) = Py.keys (_entity_modifiers b) ->
  Py.keys (_context_modifiers a) = Py.keys (_context_modifiers b) ->
  Py.keys (_exceptions a) = Py.keys (_exceptions b) ->
  _compute_checksum a = _compute_checksum b.
Proof.
  intros Hd He Hc Hx. unfold _compute_checksum.
  rewrite Hd, He, Hc, Hx. reflexivity.
Qed.

Lemma set_severity_weights_keys (self : GroundedHarmOntology)
    (d : HarmDimension) (ws : list DimensionSeverityWeight) :
  Py.keys (_dimension_profiles (set_severity_weights self d ws))
  = Py.keys (_dimension_profiles self).
Proof.
  unfold set_severity_weights, Py.keys. cbn [_dimension_profiles].
  rewrite map_map. apply map_ext. intros [k p]. cbn [fst snd].
  destruct (HarmDimension_beq k d); reflexivity.
Qed.

Lemma set_severity_weights_checksum (self : GroundedHarmOntology)
    (d : HarmDimension) (ws : list DimensionSeverityWeight) :
  _checksum (set_severity_weights self d ws) = _checksum self.
Proof. reflexivity. Qed.

Lemma init_checksum_stored : _checksum init = _compute_checksum init.
Proof. apply (checksum_of_keys _ init); reflexivity. Qed.

Lemma weight_tables_not_hashed (d : HarmDimension)
    (ws : list DimensionSeverityWeight) :
  _compute_checksum (set_severity_weights get_ontology d ws)
  = _checksum get_ontology.
Proof.
  unfold get_ontology. rewrite init_checksum_stored.
  apply checksum_of_keys; try reflexivity.
  apply set_severity_weights_keys.
Qed.

Lemma altered_weights_pass (d : HarmDimension)
    (ws : list DimensionSeverityWeight) :
  verify_integrity (set_severity_weights get_ontology d ws) = true.
Proof.
  unfold verify_integrity. rewrite weight_tables_not_hashed.
  rewrite set_severity_weights_checksum. apply String.eqb_refl.
Qed.

(** C2. The checksum recomputed right after construction is the stored
    one, and it still is after any dimension's severity-to-weight table
    has been replaced by any other table: [verify_integrity] accepts the
    ontology with the altered weights. *)
Theorem checksum_blind_to_weight_tables :
  verify_integrity get_ontology = true /\
  forall (d : HarmDimension) (ws : list DimensionSeverityWeight),
    _compute_checksum (set_severity_weights get_ontology d ws)
    = _checksum get_ontology /\
    verify_integrity (set_severity_weights get_ontology d ws) = true.
Proof.
  split.
  - unfold verify_integrity, get_ontology.
    rewrite <- init_checksum_stored. apply String.eqb_refl.
  - intros d ws. split; [apply weight_tables_not_hashed|].
    apply altered_weights_pass.
Qed.

(** The fatal physical weight set to zero: the harm score changes, the
    checksum does not. *)
Example zeroed_fatal_weight_passes :
  let tampered :=
    set_severity_weights get_ontology PHYSICAL
      [{| severity := FATAL; weight := 0 |}] in
  verify_integrity tampered = true /\
  get_dimension_weight get_ontology PHYSICAL FATAL == 1 /\
  get_dimension_weight tampered PHYSICAL FATAL == 0.
Proof.
  split; [apply altered_weights_pass|].
  split; reflexivity.
Qed.

(** The stored checksum is the digest [hashlib] gives for the JSON text of
    the key sets. *)
Example get_ontology_checksum :
  get_checksum get_ontology
  = "dbd2138721d64c5efd65ca35d730d95cef35339c970f030a6c78a2be65d4a92f".
Proof. vm_compute. reflexivity. Qed.

End OntologyFacts.

(** ** The undeliberable registry *)

Module RegistryFacts.
Import Embodiment Registry.

Lemma no_humans (es : list DetectedEntity) :
  (forall e, In e es -> entity_type e <> HUMAN) -> filter is_HUMAN es = [].
Proof.
  induction es as [|e es IH]; intros H; simpl; [reflexivity|].
  unfold is_HUMAN at 1.
  destruct (EntityType_beq (entity_type e) HUMAN) eqn:E.
  - apply internal_EntityType_dec_bl in E.
    exfalso. apply (H e); [left; reflexivity | exact E].
  - apply IH. intros e' He'. apply H. right. exact He'.
Qed.

Lemma lethal_zero_without_humans (cmds : list Command)
    (st : EmbodimentState) :
  (forall e, In e (detected_entities st) -> entity_type e <> HUMAN) ->
  _check_lethal_action cmds st = 0.0.
Proof.
  intros Hno. unfold _check_lethal_action.
  rewrite (no_humans _ Hno). reflexivity.
Qed.

(** C10. In every state none of whose detected entities has the type
    HUMAN, and for every command list, the lethal-probability estimate is
    exactly 0.0 and [check_all] returns no lethal-action violation; a
    person typed CHILD does not count, whatever the speed, the force or
    the hazards. *)
Theorem no_human_typed_entity_no_lethal_block :
  forall (cmds : list Command) (st : EmbodimentState),
    (forall e, In e (detected_entities st) -> entity_type e <> HUMAN) ->
    _check_lethal_action cmds st = 0.0 /\
    forall v, check_all cmds st = Some v -> undeliberable v <> LETHAL_ACTION.
Proof.
  intros cmds st Hno.
  pose proof (lethal_zero_without_humans cmds st Hno) as H0.
  split; [exact H0|].
  intros v Hv. unfold check_all in Hv. rewrite H0 in Hv.
  change (Py.gt 0.0 LETHAL_PROBABILITY_THRESHOLD) with false in Hv.
  destruct (_check_human_override st);
    [inversion Hv; subst; discriminate|].
  destruct (_check_child_harm cmds st);
    [inversion Hv; subst; discriminate|].
  destruct (_check_weapon_assistance cmds st);
    [inversion Hv; subst; discriminate|].
  destruct (_check_identity_deception cmds st);
    [inversion Hv; subst; discriminate | discriminate].
Qed.

(** C10, for a toddler typed CHILD at the kerb and a forceful shove. *)
Lemma no_human_typed_entity_no_lethal_block_witness :
  _check_lethal_action [Scenario.manipulate "shove" "c7" 100]
                       Scenario.child_at_kerb = 0.0 /\
  forall v,
    check_all [Scenario.manipulate "shove" "c7" 100] Scenario.child_at_kerb
    = Some v ->
    undeliberable v <> LETHAL_ACTION.
Proof.
  apply (no_human_typed_entity_no_lethal_block
           [Scenario.manipulate "shove" "c7" 100] Scenario.child_at_kerb).
  simpl. intros e [<-|[]]. simpl. discriminate.
Defined.

(** *** Lower bounds on the estimate *)

Lemma fold_max_ge_init {A : Type} (f : A -> Q) (xs : list A) :
  forall acc, acc <= fold_left (fun a x => Qmax a (f x)) xs acc.
Proof.
  induction xs as [|x xs IH]; intros acc; simpl; [lra|].
  eapply Qle_trans; [apply (Q.le_max_l acc (f x)) | apply IH].
Qed.

Lemma fold_max_ge_elem {A : Type} (f : A -> Q) (xs : list A) (x : A) :
  In x xs ->
  forall acc, f x <= fold_left (fun a x => Qmax a (f x)) xs acc.
Proof.
  induction xs as [|y xs IH]; intros Hin acc; simpl; [contradiction|].
  destruct Hin as [->|Hin].
  - eapply Qle_trans; [apply (Q.le_max_r acc (f x))|].
    apply fold_max_ge_init.
  - apply IH. exact Hin.
Qed.


(** On structured commands: with the human at (2, 0, 0), machinery and
    heights reported and the target (3, 0), exactly one metre away, the
    estimate is 0.6 and [check_all] returns nothing. *)
Lemma move_at_one_metre_is_not_blocked :
  squared_distance [3.0; 0.0] (position_or_origin Scenario.human_1) == 1 /\
  _check_lethal_action [Scenario.move [3.0; 0.0] 1.5]
                       Scenario.machinery_and_heights == 0.6 /\
  ~ (0.65 < _check_lethal_action [Scenario.move [3.0; 0.0] 1.5]
                                 Scenario.machinery_and_heights) /\
  check_all [Scenario.move [3.0; 0.0] 1.5] Scenario.machinery_and_heights
  = None.
Proof.
  split; [vm_compute; reflexivity|].
  split; [vm_compute; reflexivity|].
  split; [vm_compute; discriminate | vm_compute; reflexivity].
Qed.

(** *** Children *)


(** On structured commands, test 2b of the suite: the five-year-old is
    alone and the command restrains it with force 3, yet the violation
    returned is the lethal-action one, which is checked first (estimate
    0.85), not the child-harm one; and for a toddler typed CHILD once a
    stop has been commanded, the violation returned is the
    human-override one. *)
Lemma restraining_lone_child_is_a_lethal_block :
  let cmd := Scenario.manipulate "restrain" "child_1" 3 in
  let lift := Scenario.manipulate "lift" "c7" 1 in
  (_is_child Scenario.child_1 = true /\
   detected_entities Scenario.child_alone = [Scenario.child_1] /\
   targets_child cmd Scenario.child_1 = true /\
   _check_lethal_action [cmd] Scenario.child_alone == 0.85 /\
   check_all [cmd] Scenario.child_alone
   = Some (violation LETHAL_ACTION [cmd]) /\
   ~ (exists v, check_all [cmd] Scenario.child_alone = Some v
                /\ undeliberable v = CHILD_HARM)) /\
  (_is_child Scenario.typed_child = true /\
   detected_entities Scenario.child_at_kerb_stopped = [Scenario.typed_child] /\
   targets_child lift Scenario.typed_child = true /\
   check_all [lift] Scenario.child_at_kerb_stopped
   = Some (violation HUMAN_OVERRIDE [lift]) /\
   ~ (exists v, check_all [lift] Scenario.child_at_kerb_stopped = Some v
                /\ undeliberable v = CHILD_HARM)).
Proof.
  intros cmd lift.
  assert (H : check_all [cmd] Scenario.child_alone
              = Some (violation LETHAL_ACTION [cmd]))
    by (vm_compute; reflexivity).
  assert (H' : check_all [lift] Scenario.child_at_kerb_stopped
               = Some (violation HUMAN_OVERRIDE [lift]))
    by reflexivity.
  split.
  - split; [reflexivity|]. split; [reflexivity|]. split; [reflexivity|].
    split; [vm_compute; reflexivity|]. split; [exact H|].
    intros [v [Hv Hu]]. rewrite H in Hv. inversion Hv; subst.
    discriminate.
  - split; [reflexivity|]. split; [reflexivity|]. split; [reflexivity|].
    split; [exact H'|].
    intros [v [Hv Hu]]. rewrite H' in Hv. inversion Hv; subst.
    discriminate.
Qed.

(** The type CHILD alone does not make [_is_child] hold. *)
Example typed_child_needs_an_indicator :
  _is_child {| entity_id := "c8"; entity_type := CHILD;
               description := "Small person"; position := None;
               state := no_state; confidence := 0.9 |} = false.
Proof. reflexivity. Qed.

End RegistryFacts.

(** ** The conscious layer *)

Module ConsciousFacts.
Import Embodiment Data Conscious.

(** *** The rotating tiebreaker *)

Lemma first_of_find (a : AspectType) (tied : list ProposedAction) :
  first_of a tied = find (fun p => AspectType_beq (aspect p) a) tied.
Proof.
  induction tied as [|p tied IH]; simpl; [reflexivity|].
  destruct (AspectType_beq (aspect p) a); [reflexivity | exact IH].
Qed.

Lemma first_of_none (a : AspectType) (tied : list ProposedAction) :
  first_of a tied = None <-> in_tie a tied = false.
Proof.
  unfold in_tie.
  induction tied as [|p tied IH]; simpl; [tauto|].
  destruct (AspectType_beq (aspect p) a); simpl; [split; discriminate|].
  exact IH.
Qed.

Lemma first_of_allies_spec (preferred : list AspectType)
    (tied : list ProposedAction) :
  first_of_allies preferred tied
  = match find (fun ally => in_tie ally tied) preferred with
    | Some ally => find (fun p => AspectType_beq (aspect p) ally) tied
    | None => None
    end.
Proof.
  induction preferred as [|ally rest IH]; simpl; [reflexivity|].
  destruct (first_of ally tied) as [p|] eqn:E.
  - assert (Hin : in_tie ally tied = true).
    { destruct (in_tie ally tied) eqn:Hin; [reflexivity|].
      apply first_of_none in Hin. congruence. }
    rewrite Hin, <- first_of_find. symmetry. exact E.
  - apply first_of_none in E. rewrite E. exact IH.
Qed.

Lemma tiebreaker_choose_spec (tb : AspectType) (tied : list ProposedAction) :
  _tiebreaker_choose tb tied = spec_choice tb tied.
Proof.
  unfold _tiebreaker_choose, spec_choice.
  destruct (first_of tb tied) as [p|] eqn:E.
  - assert (Hin : in_tie tb tied = true).
    { destruct (in_tie tb tied) eqn:Hin; [reflexivity|].
      apply first_of_none in Hin. congruence. }
    rewrite Hin, <- first_of_find. symmetry. exact E.
  - apply first_of_none in E. rewrite E.
    rewrite first_of_allies_spec.
    destruct (find (fun ally => in_tie ally tied) (aspect_affinity tb))
      as [ally|] eqn:Ea; [|reflexivity].
    apply find_some in Ea. destruct Ea as [_ Ha].
    destruct (find (fun p => AspectType_beq (aspect p) ally) tied) eqn:Ef;
      [reflexivity|].
    rewrite <- first_of_find in Ef. apply first_of_none in Ef. congruence.
Qed.

Lemma tied_of_nonempty (permitted : list ProposedAction) :
  permitted <> [] -> Py.sorted_reverse vote_strength permitted <> [] ->
  tied_of permitted <> [].
Proof.
  intros _ Hs. unfold tied_of.
  destruct (Py.sorted_reverse vote_strength permitted) as [|top rest];
    [congruence|].
  simpl.
  assert (Hle : Py.le (vote_strength top - vote_strength top) TIE_THRESHOLD
                = true).
  { unfold Py.le, TIE_THRESHOLD. apply Qle_bool_iff. lra. }
  rewrite Hle. discriminate.
Qed.

Lemma insert_desc_nonempty {A : Type} (key : A -> Q) (x : A) (xs : list A) :
  Py.insert_desc key x xs <> [].
Proof. destruct xs; simpl; [discriminate|]. destruct (Qle_bool _ _); discriminate. Qed.

Lemma insert_desc_length {A : Type} (key : A -> Q) (x : A) (xs : list A) :
  List.length (Py.insert_desc key x xs) = S (List.length xs).
Proof.
  induction xs as [|y ys IH]; simpl; [reflexivity|].
  destruct (Qle_bool _ _); simpl; [rewrite IH|]; reflexivity.
Qed.

Lemma sorted_reverse_length_acc {A : Type} (key : A -> Q) (xs : list A) :
  forall acc,
    List.length (fold_left (fun acc x => Py.insert_desc key x acc) xs acc)
    = (List.length xs + List.length acc)%nat.
Proof.
  induction xs as [|x xs IH]; intros acc; simpl; [reflexivity|].
  rewrite IH, insert_desc_length. lia.
Qed.

Lemma sorted_reverse_length {A : Type} (key : A -> Q) (xs : list A) :
  List.length (Py.sorted_reverse key xs) = List.length xs.
Proof.
  unfold Py.sorted_reverse. rewrite sorted_reverse_length_acc. simpl. lia.
Qed.

Lemma filter_length_le_tied (permitted : list ProposedAction) :
  (List.length (tied_of permitted) <= List.length permitted)%nat.
Proof.
  unfold tied_of.
  pose proof (sorted_reverse_length vote_strength permitted) as Hl.
  destruct (Py.sorted_reverse vote_strength permitted) as [|top rest];
    [simpl; lia|].
  rewrite <- Hl. apply filter_length_le.
Qed.

(** The index after a resolution: one step on round the order of six
    when the votes tie, unchanged otherwise. *)
Lemma resolve_votes_index (self : ConsciousLayer)
    (permitted : list ProposedAction) :
  (_tiebreaker_index self < 6)%nat ->
  _tiebreaker_index (fst (resolve_votes self permitted))
  = if is_tie permitted
    then ((_tiebreaker_index self + 1) mod 6)%nat
    else _tiebreaker_index self.
Proof.
  intros Hidx. unfold resolve_votes, is_tie.
  destruct permitted as [|p0 ps] eqn:Hp; [reflexivity|].
  rewrite <- Hp.
  assert (Hne : permitted <> []) by (rewrite Hp; discriminate).
  pose proof (sorted_reverse_length vote_strength permitted) as Hl.
  pose proof (filter_length_le_tied permitted) as Ht.
  assert (Hs : Py.sorted_reverse vote_strength permitted <> []).
  { intros E. rewrite E in Hl. rewrite Hp in Hl. simpl in Hl. lia. }
  pose proof (tied_of_nonempty permitted Hne Hs) as Htn.
  destruct (Py.sorted_reverse vote_strength permitted) as [|s0 [|s1 ss]] eqn:Es;
    [congruence | |].
  - (* one proposal *)
    simpl in Hl. rewrite <- Hl in Ht.
    destruct (tied_of permitted) as [|t0 [|t1 ts]]; simpl in *;
      try reflexivity; lia.
  - destruct (tied_of permitted) as [|t0 [|t1 ts]] eqn:Et;
      [congruence | reflexivity |].
    cbn [List.length Nat.leb].
    unfold get_current_tiebreaker. cbn [_tiebreaker_index set_decisions_made].
    destruct (nth_error TIEBREAKER_ORDER (_tiebreaker_index self))
      as [tb|] eqn:En.
    + cbn [List.length TIEBREAKER_ORDER].
      destruct (_tiebreaker_choose tb (t0 :: t1 :: ts)) as [w|];
        [|reflexivity].
      destruct (record_tiebreak w tb (t0 :: t1 :: ts)); reflexivity.
    + apply nth_error_None in En. simpl in En. lia.
Qed.

Lemma on_duty_rotation (ties : list (list ProposedAction)) :
  forall self,
    (_tiebreaker_index self < 6)%nat ->
    (forall permitted, In permitted ties -> is_tie permitted = true) ->
    tiebreakers_on_duty self ties
    = map (fun k => nth_error TIEBREAKER_ORDER
                      ((_tiebreaker_index self + k) mod 6))
          (seq 0 (List.length ties)).
Proof.
  induction ties as [|permitted rest IH]; intros self Hidx Hties;
    [reflexivity|].
  cbn [tiebreakers_on_duty List.length seq map].
  f_equal.
  - unfold get_current_tiebreaker. rewrite Nat.add_0_r.
    rewrite Nat.mod_small by exact Hidx. reflexivity.
  - rewrite IH.
    + rewrite <- seq_shift, map_map. apply map_ext. intros k.
      rewrite (resolve_votes_index self permitted Hidx).
      rewrite (Hties permitted (or_introl eq_refl)).
      rewrite Nat.Div0.add_mod_idemp_l.
      f_equal. f_equal. lia.
    + rewrite (resolve_votes_index self permitted Hidx).
      rewrite (Hties permitted (or_introl eq_refl)).
      apply Nat.mod_upper_bound. discriminate.
    + intros p Hp. apply Hties. right. exact Hp.
Qed.

Lemma six_in_a_row (i : nat) :
  (i < 6)%nat ->
  let six := map (fun k => nth_error TIEBREAKER_ORDER ((i + k) mod 6))
                 (seq 0 6) in
  NoDup six /\ forall a : AspectType, In (Some a) six.
Proof.
  intros Hi.
  do 6 (destruct i as [|i]; [ cbn; split;
      [ repeat constructor; cbn; intuition discriminate
      | intros []; cbn; tauto ] |]).
  lia.
Qed.


Lemma tiebreaker_choose_some (tb : AspectType) (tied : list ProposedAction) :
  tied <> [] -> exists p, _tiebreaker_choose tb tied = Some p.
Proof.
  intros Hne. unfold _tiebreaker_choose.
  destruct (first_of tb tied) as [p|]; [eauto|].
  destruct (first_of_allies (aspect_affinity tb) tied) as [p|]; [eauto|].
  destruct tied as [|p tied]; [congruence|]. simpl. eauto.
Qed.

(** What a tie resolution returns: the tiebreaker on duty makes the
    choice, and the choice is returned with the tiebreak written into its
    vote components. *)
Lemma resolve_votes_tie (self : ConsciousLayer)
    (permitted : list ProposedAction) :
  (_tiebreaker_index self < 6)%nat ->
  is_tie permitted = true ->
  exists tb p,
    get_current_tiebreaker self = Some tb /\
    spec_choice tb (tied_of permitted) = Some p /\
    snd (resolve_votes self permitted)
    = match record_tiebreak p tb (tied_of permitted) with
      | Returned w => Returned (Some w)
      | Raised e => Raised e
      end.
Proof.
  intros Hidx Htie. unfold is_tie in Htie. apply Nat.leb_le in Htie.
  pose proof (filter_length_le_tied permitted) as Ht.
  pose proof (sorted_reverse_length vote_strength permitted) as Hl.
  destruct (nth_error TIEBREAKER_ORDER (_tiebreaker_index self))
    as [tb|] eqn:En;
    [|apply nth_error_None in En; simpl in En; lia].
  exists tb.
  destruct (tiebreaker_choose_some tb (tied_of permitted)) as [p Hp].
  { intros E. rewrite E in Htie. simpl in Htie. lia. }
  exists p. split; [exact En|].
  split; [rewrite <- tiebreaker_choose_spec; exact Hp|].
  unfold resolve_votes.
  destruct permitted as [|p0 ps]; [cbn [List.length] in Ht; lia|].
  set (permitted := p0 :: ps) in *.
  destruct (Py.sorted_reverse vote_strength permitted) as [|s0 [|s1 ss]].
  - unfold permitted in Hl. cbn [List.length] in Hl. lia.
  - unfold permitted in Hl, Ht, Htie. cbn [List.length] in Hl, Ht. lia.
  - destruct (tied_of permitted) as [|t0 [|t1 ts]] eqn:Et;
      [simpl in Htie; lia | simpl in Htie; lia |].
    unfold get_current_tiebreaker.
    cbn [_tiebreaker_index set_decisions_made]. rewrite En.
    rewrite Hp.
    destruct (record_tiebreak p tb (t0 :: t1 :: ts)); reflexivity.
Qed.

(** C7. The tiebreaker order is a fixed list of the six aspects, each
    once. A resolution that ends in a tie moves the index one place on,
    modulo six; one that does not, outcome feedback and deliberation leave
    it where it is. Through any run of tie resolutions the aspects on duty follow the
    order cyclically from the current index, so the first six are all
    different and include every aspect. The aspect on duty picks its own
    proposal if it is among the tied ones, else the tied proposal of the
    first of its allies that has one, else the first tied proposal. *)
Theorem tiebreaker_rotates_through_all_aspects :
  forall (self : ConsciousLayer) (ties : list (list ProposedAction))
         (tb : AspectType) (tied : list ProposedAction),
    (_tiebreaker_index self < 6)%nat ->
    (forall permitted, In permitted ties -> is_tie permitted = true) ->
    (6 <= List.length ties)%nat ->
    (NoDup TIEBREAKER_ORDER /\ forall a, In a TIEBREAKER_ORDER) /\
    (forall permitted,
        _tiebreaker_index (fst (resolve_votes self permitted))
        = if is_tie permitted
          then ((_tiebreaker_index self + 1) mod 6)%nat
          else _tiebreaker_index self) /\
    (forall action out,
        _tiebreaker_index (update_from_outcome self action out)
        = _tiebreaker_index self) /\
    (forall proposals relevances,
        _tiebreaker_index (fst (deliberate self proposals relevances))
        = _tiebreaker_index self) /\
    tiebreakers_on_duty self ties
    = map (fun k => nth_error TIEBREAKER_ORDER
                      ((_tiebreaker_index self + k) mod 6))
          (seq 0 (List.length ties)) /\
    (NoDup (firstn 6 (tiebreakers_on_duty self ties)) /\
     forall a, In (Some a) (firstn 6 (tiebreakers_on_duty self ties))) /\
    _tiebreaker_choose tb tied = spec_choice tb tied /\
    (forall permitted,
        is_tie permitted = true ->
        exists on_duty chosen,
          get_current_tiebreaker self = Some on_duty /\
          spec_choice on_duty (tied_of permitted) = Some chosen /\
          snd (resolve_votes self permitted)
          = match record_tiebreak chosen on_duty (tied_of permitted) with
            | Returned w => Returned (Some w)
            | Raised e => Raised e
            end).
Proof.
  intros self ties tb tied Hidx Hties Hlen.
  pose proof (on_duty_rotation ties self Hidx Hties) as Hrot.
  split.
  { split; [repeat constructor; cbn; intuition discriminate|].
    intros []; cbn; tauto. }
  split; [intros permitted; apply resolve_votes_index; exact Hidx|].
  split; [reflexivity|].
  split; [reflexivity|].
  split; [exact Hrot|].
  split.
  { rewrite Hrot, firstn_map, firstn_seq.
    replace (Nat.min 6 (List.length ties)) with 6%nat by lia.
    apply six_in_a_row. exact Hidx. }
  split; [apply tiebreaker_choose_spec|].
  intros permitted Htie. apply resolve_votes_tie; assumption.
Qed.

(** C7 on a new layer and a tie between optimizer and explorer that
    persists for seven resolutions. *)
Lemma tiebreaker_rotates_through_all_aspects_witness :
  tiebreakers_on_duty init (repeat Scenario.persistent_tie 7)
  = [Some GUARDIAN; Some EMPATH; Some ANALYST; Some PRAGMATIST;
     Some OPTIMIZER; Some EXPLORER; Some GUARDIAN].
Proof.
  destruct (tiebreaker_rotates_through_all_aspects
              init (repeat Scenario.persistent_tie 7) GUARDIAN
              Scenario.persistent_tie)
    as (_ & _ & _ & _ & Hrot & _).
  - simpl. lia.
  - intros permitted Hin. apply repeat_spec in Hin. subst permitted.
    vm_compute. reflexivity.
  - simpl. lia.
  - rewrite Hrot. reflexivity.
Defined.


(** *** Outcome feedback *)

Lemma update_from_outcome_weight (self : ConsciousLayer)
    (action : ProposedAction) (q : Q) (a : AspectType) :
  _personality_weights
    (update_from_outcome self action
       {| quality := Some q; outcome_success := None; execution := None |}) a
  = if AspectType_beq a (aspect action)
    then weight_step (_personality_weights self (aspect action)) q
    else _personality_weights self a.
Proof. reflexivity. Qed.

Lemma AspectType_beq_refl (a : AspectType) : AspectType_beq a a = true.
Proof. destruct a; reflexivity. Qed.

Lemma AspectType_beq_neq (a b : AspectType) :
  a <> b -> AspectType_beq a b = false.
Proof.
  intros H. destruct (AspectType_beq a b) eqn:E; [|reflexivity].
  apply internal_AspectType_dec_bl in E. contradiction.
Qed.

(** The weight of an aspect after a run of feedback: the updates
    addressed to it, applied in order; those addressed to others do not
    touch it. *)
Lemma feedback_weight (us : list (AspectType * Q)) (a : AspectType) :
  forall self,
    _personality_weights (feedback self us) a
    = fold_left weight_step
        (map snd (filter (fun u => AspectType_beq a (fst u)) us))
        (_personality_weights self a).
Proof.
  induction us as [|[b q] us IH]; intros self; [reflexivity|].
  unfold feedback in *. cbn [fold_left fst snd filter].
  rewrite IH, update_from_outcome_weight. cbn [bare_action aspect].
  destruct (AspectType_beq a b) eqn:E; [|reflexivity].
  apply internal_AspectType_dec_bl in E. subst b. reflexivity.
Qed.

Lemma updates_of (us : list (AspectType * Q)) (a b : AspectType)
    (qa qb : Q) :
  a <> b ->
  (forall u, In u us -> u = (a, qa) \/ u = (b, qb)) ->
  map snd (filter (fun u => AspectType_beq a (fst u)) us)
  = repeat qa (List.length (filter (fun u => AspectType_beq a (fst u)) us))
  /\ map snd (filter (fun u => AspectType_beq b (fst u)) us)
     = repeat qb (List.length (filter (fun u => AspectType_beq b (fst u)) us)).
Proof.
  intros Hab.
  induction us as [|u us IH]; intros Hus; [split; reflexivity|].
  destruct IH as [IHa IHb]; [intros v Hv; apply Hus; right; exact Hv|].
  destruct (Hus u (or_introl eq_refl)) as [-> | ->]; cbn [filter fst].
  - rewrite AspectType_beq_refl, (AspectType_beq_neq b a) by congruence.
    cbn [map snd List.length repeat]. rewrite IHa. split; [reflexivity|].
    exact IHb.
  - rewrite AspectType_beq_refl, (AspectType_beq_neq a b) by congruence.
    cbn [map snd List.length repeat]. rewrite IHb. split; [|reflexivity].
    exact IHa.
Qed.

Lemma adjustment_bands (q : Q) :
  0 <= q -> q <= 1 ->
  (0.7 < q -> 1.05 <= adjustment_for q /\ adjustment_for q <= 1.08) /\
  (0.5 < q -> q <= 0.7 ->
   1.01 <= adjustment_for q /\ adjustment_for q <= 1.05) /\
  (q == 0.5 -> adjustment_for q == 1.0) /\
  (0.3 <= q -> q < 0.5 ->
   0.92 <= adjustment_for q /\ adjustment_for q <= 0.98) /\
  (q < 0.3 -> 0.89 <= adjustment_for q /\ adjustment_for q <= 0.92).
Proof.
  intros H0 H1. unfold adjustment_for.
  destruct (Py.gt q 0.7) eqn:E1;
    [apply gt_true_iff in E1 | apply gt_false_iff in E1].
  { repeat split; intros; lra. }
  destruct (Py.gt q 0.5) eqn:E2;
    [apply gt_true_iff in E2 | apply gt_false_iff in E2].
  { repeat split; intros; lra. }
  destruct (Py.lt q 0.3) eqn:E3;
    [apply lt_true_iff in E3 | apply lt_false_iff in E3].
  { repeat split; intros; lra. }
  destruct (Py.lt q 0.5) eqn:E4;
    [apply lt_true_iff in E4 | apply lt_false_iff in E4].
  { repeat split; intros; lra. }
  repeat split; intros; lra.
Qed.

Lemma weight_step_clamped (w q : Q) :
  0.1 <= weight_step w q /\ weight_step w q <= 5.0.
Proof.
  unfold weight_step, MIN_WEIGHT, MAX_WEIGHT. split.
  - apply Q.le_max_l.
  - apply Q.max_lub; [lra | apply Q.le_min_l].
Qed.

(** C6. From equal weights of 1.0, fifty updates of quality 0.9 for one
    aspect and fifty of quality 0.2 for another, in any interleaving,
    leave the first weight above 1.0 and the second below 1.0, both within
    [0.1, 5.0], and every other weight at its start value. One update
    multiplies the weight of the action's aspect by a factor in the band
    of the quality (a quality being a score in [0, 1]), clamps the product
    to [0.1, 5.0] and leaves the weights of the other aspects as they
    are. *)
Theorem feedback_diverges_within_bounds :
  forall (a b : AspectType) (us : list (AspectType * Q))
         (self : ConsciousLayer) (action : ProposedAction) (q : Q),
    a <> b ->
    (forall u, In u us -> u = (a, 0.9) \/ u = (b, 0.2)) ->
    List.length (filter (fun u => AspectType_beq a (fst u)) us) = 50%nat ->
    List.length (filter (fun u => AspectType_beq b (fst u)) us) = 50%nat ->
    0 <= q -> q <= 1 ->
    let final := _personality_weights (feedback init us) in
    let updated :=
      _personality_weights
        (update_from_outcome self action
           {| quality := Some q; outcome_success := None;
              execution := None |}) in
    (1.0 < final a /\ final b < 1.0 /\
     0.1 <= final a /\ final a <= 5.0 /\
     0.1 <= final b /\ final b <= 5.0 /\
     forall c, c <> a -> c <> b -> final c = 1.0) /\
    ((0.7 < q -> 1.05 <= adjustment_for q /\ adjustment_for q <= 1.08) /\
     (0.5 < q -> q <= 0.7 ->
      1.01 <= adjustment_for q /\ adjustment_for q <= 1.05) /\
     (q == 0.5 -> adjustment_for q == 1.0) /\
     (0.3 <= q -> q < 0.5 ->
      0.92 <= adjustment_for q /\ adjustment_for q <= 0.98) /\
     (q < 0.3 -> 0.89 <= adjustment_for q /\ adjustment_for q <= 0.92)) /\
    updated (aspect action)
    = Qmax 0.1 (Qmin 5.0 (_personality_weights self (aspect action)
                          * adjustment_for q)) /\
    0.1 <= updated (aspect action) /\ updated (aspect action) <= 5.0 /\
    (forall c, c <> aspect action ->
               updated c = _personality_weights self c).
Proof.
  intros a b us self action q Hab Hus Ha Hb Hq0 Hq1 final updated.
  destruct (updates_of us a b 0.9 0.2 Hab Hus) as [Hua Hub].
  rewrite Ha in Hua. rewrite Hb in Hub.
  assert (Hfa : final a = fold_left weight_step (repeat 0.9 50) 1.0).
  { unfold final. rewrite feedback_weight, Hua. reflexivity. }
  assert (Hfb : final b = fold_left weight_step (repeat 0.2 50) 1.0).
  { unfold final. rewrite feedback_weight, Hub. reflexivity. }
  split.
  { rewrite Hfa, Hfb.
    split; [vm_compute; reflexivity|].
    split; [vm_compute; reflexivity|].
    split; [vm_compute; discriminate|].
    split; [vm_compute; discriminate|].
    split; [vm_compute; discriminate|].
    split; [vm_compute; discriminate|].
    intros c Hca Hcb. unfold final. rewrite feedback_weight.
    assert (Hnone : filter (fun u => AspectType_beq c (fst u)) us = []).
    { clear - Hus Hca Hcb.
      induction us as [|u us IH]; [reflexivity|].
      cbn [filter].
      destruct (Hus u (or_introl eq_refl)) as [-> | ->]; cbn [fst];
        rewrite AspectType_beq_neq by assumption;
        apply IH; intros v Hv; apply Hus; right; exact Hv. }
    rewrite Hnone. reflexivity. }
  split; [apply adjustment_bands; assumption|].
  unfold updated. rewrite !update_from_outcome_weight.
  rewrite AspectType_beq_refl.
  split; [reflexivity|].
  split; [apply weight_step_clamped|].
  split; [apply weight_step_clamped|].
  intros c Hc. rewrite update_from_outcome_weight.
  rewrite AspectType_beq_neq by exact Hc. reflexivity.
Qed.

(** C6 on test group 7: guardian and explorer, updated in turn. *)
Lemma feedback_diverges_within_bounds_witness :
  let final :=
    _personality_weights
      (feedback init (Scenario.in_turn 50 GUARDIAN EXPLORER)) in
  1.0 < final GUARDIAN /\ final EXPLORER < 1.0 /\
  final GUARDIAN == 5 /\ final EXPLORER == 0.1.
Proof.
  destruct (feedback_diverges_within_bounds
              GUARDIAN EXPLORER (Scenario.in_turn 50 GUARDIAN EXPLORER)
              init (bare_action GUARDIAN) 0.9)
    as ((Hg & He & _) & _).
  - discriminate.
  - intros u Hu.
    repeat (destruct Hu as [<-|Hu]; [tauto|]). destruct Hu.
  - reflexivity.
  - reflexivity.
  - vm_compute. discriminate.
  - vm_compute. discriminate.
  - split; [exact Hg|]. split; [exact He|].
    split; vm_compute; reflexivity.
Defined.

End ConsciousFacts.

(** ** Sorting by descending key *)

Module SortFacts.

Section Desc.
Context {A : Type} (key : A -> Q).

Lemma insert_desc_perm (x : A) (xs : list A) :
  Permutation (Py.insert_desc key x xs) (x :: xs).
Proof.
  induction xs as [|y ys IH]; simpl; [reflexivity|].
  destruct (Qle_bool (key x) (key y)); [|reflexivity].
  rewrite IH. apply perm_swap.
Qed.

Lemma sorted_reverse_perm_acc (xs : list A) :
  forall acc,
    Permutation (fold_left (fun acc x => Py.insert_desc key x acc) xs acc)
                (xs ++ acc).
Proof.
  induction xs as [|x xs IH]; intros acc; simpl; [reflexivity|].
  rewrite IH, insert_desc_perm. symmetry. apply Permutation_middle.
Qed.

Lemma sorted_reverse_perm (xs : list A) :
  Permutation (Py.sorted_reverse key xs) xs.
Proof.
  unfold Py.sorted_reverse. rewrite sorted_reverse_perm_acc.
  rewrite app_nil_r. reflexivity.
Qed.

Lemma insert_desc_sorted (x : A) (xs : list A) :
  StronglySorted (Py.desc key) xs -> StronglySorted (Py.desc key) (Py.insert_desc key x xs).
Proof.
  induction xs as [|y ys IH]; intros Hs; simpl.
  - constructor; constructor.
  - inversion Hs as [|? ? Hys Hall]; subst.
    destruct (Qle_bool (key x) (key y)) eqn:E.
    + apply Qle_bool_iff in E. constructor; [apply IH; exact Hys|].
      apply (Permutation_Forall (Permutation_sym (insert_desc_perm x ys))).
      constructor; [exact E | exact Hall].
    + assert (Hlt : key y < key x).
      { apply Qnot_le_lt. intros H. apply Qle_bool_iff in H. congruence. }
      constructor; [exact Hs|].
      constructor; [unfold Py.desc; lra|].
      eapply Forall_impl; [|exact Hall].
      intros z Hz. unfold Py.desc in *. lra.
Qed.

Lemma sorted_reverse_sorted_acc (xs : list A) :
  forall acc,
    StronglySorted (Py.desc key) acc ->
    StronglySorted (Py.desc key)
      (fold_left (fun acc x => Py.insert_desc key x acc) xs acc).
Proof.
  induction xs as [|x xs IH]; intros acc Hacc; simpl; [exact Hacc|].
  apply IH. apply insert_desc_sorted. exact Hacc.
Qed.

Lemma sorted_reverse_sorted (xs : list A) :
  StronglySorted (Py.desc key) (Py.sorted_reverse key xs).
Proof. apply sorted_reverse_sorted_acc. constructor. Qed.

Lemma firstn_sorted (n : nat) (l : list A) :
  StronglySorted (Py.desc key) l -> StronglySorted (Py.desc key) (firstn n l).
Proof.
  revert l. induction n as [|n IH]; intros l Hs; [constructor|].
  destruct l as [|x l]; [constructor|].
  inversion Hs as [|? ? Hl Hall]; subst. simpl.
  constructor; [apply IH; exact Hl|].
  apply Forall_forall. intros y Hy.
  apply (proj1 (Forall_forall _ _) Hall). eapply In_firstn; exact Hy.
Qed.

Lemma filter_sorted (p : A -> bool) (l : list A) :
  StronglySorted (Py.desc key) l -> StronglySorted (Py.desc key) (filter p l).
Proof.
  induction l as [|x l IH]; intros Hs; [constructor|].
  inversion Hs as [|? ? Hl Hall]; subst. simpl.
  destruct (p x); [|apply IH; exact Hl].
  constructor; [apply IH; exact Hl|].
  apply Forall_forall. intros y Hy. apply filter_In in Hy.
  apply (proj1 (Forall_forall _ _) Hall). tauto.
Qed.

(** In a list sorted by descending key, a higher key stands before a
    lower one. *)
Lemma sorted_before (l : list A) (x y : A) :
  StronglySorted (Py.desc key) l -> In x l -> In y l -> key y < key x ->
  Py.before x y l.
Proof.
  induction l as [|a l IH]; intros Hs Hx Hy Hlt; [contradiction|].
  inversion Hs as [|? ? Hl Hall]; subst.
  pose proof (proj1 (Forall_forall _ _) Hall) as Ha. unfold Py.desc in Ha.
  destruct Hx as [->|Hx].
  - destruct Hy as [->|Hy]; [lra|].
    apply in_split in Hy. destruct Hy as (l2 & l3 & ->).
    exists [], l2, l3. reflexivity.
  - destruct Hy as [->|Hy].
    + specialize (Ha x Hx). lra.
    + destruct (IH Hl Hx Hy Hlt) as (l1 & l2 & l3 & ->).
      exists (a :: l1), l2, l3. reflexivity.
Qed.

(** If the lower one is among the first [n], so is the higher one. *)
Lemma firstn_keeps_higher (n : nat) (l : list A) (x y : A) :
  StronglySorted (Py.desc key) l -> In x l -> In y (firstn n l) ->
  key y < key x -> In x (firstn n l).
Proof.
  revert l. induction n as [|n IH]; intros l Hs Hx Hy Hlt;
    [contradiction|].
  destruct l as [|a l]; [contradiction|].
  inversion Hs as [|? ? Hl Hall]; subst.
  pose proof (proj1 (Forall_forall _ _) Hall) as Ha. unfold Py.desc in Ha.
  simpl in *. destruct Hx as [->|Hx]; [left; reflexivity|].
  destruct Hy as [->|Hy].
  - specialize (Ha x Hx). lra.
  - right. apply IH; assumption.
Qed.

End Desc.

End SortFacts.

(** ** The subconscious layer *)

Module SubconsciousFacts.
Import Embodiment Data Subconscious SortFacts.

Section Overlap.
Context {A : Type} (eq_dec : forall x y : A, {x = y} + {x <> y}).

Lemma inter_nil_r (a : list A) : Py.inter eq_dec a [] = [].
Proof.
  unfold Py.inter. induction a as [|x a IH]; simpl; [reflexivity|].
  exact IH.
Qed.

Lemma inter_length_le_union (a b : list A) :
  NoDup a ->
  (List.length (Py.inter eq_dec a b)
   <= List.length (Py.union eq_dec a b))%nat.
Proof.
  intros Ha.
  apply Nat.le_trans with (List.length a).
  - unfold Py.inter. apply filter_length_le.
  - apply NoDup_incl_length; [exact Ha|].
    intros x Hx. unfold Py.union. apply nodup_In.
    apply in_or_app. left. exact Hx.
Qed.

Lemma inter_disjoint (a b : list A) :
  (forall x, In x a -> ~ In x b) -> Py.inter eq_dec a b = [].
Proof.
  unfold Py.inter. induction a as [|x a IH]; intros H; simpl;
    [reflexivity|].
  destruct (in_dec eq_dec x b) as [Hin|Hin].
  - exfalso. apply (H x); [left; reflexivity | exact Hin].
  - apply IH. intros y Hy. apply H. right. exact Hy.
Qed.

Lemma inter_self (a : list A) : Py.inter eq_dec a a = a.
Proof.
  unfold Py.inter.
  assert (H : forall l, incl l a ->
              filter (fun x => if in_dec eq_dec x a then true else false) l
              = l).
  { induction l as [|x l IH]; intros Hl; simpl; [reflexivity|].
    destruct (in_dec eq_dec x a) as [Hin|Hin].
    - f_equal. apply IH. intros y Hy. apply Hl. right. exact Hy.
    - exfalso. apply Hin. apply Hl. left. reflexivity. }
  apply H. apply incl_refl.
Qed.

Lemma nodup_app_absorb (l s : list A) :
  incl l s -> nodup eq_dec (l ++ s) = nodup eq_dec s.
Proof.
  induction l as [|x l IH]; intros Hl; simpl; [reflexivity|].
  destruct (in_dec eq_dec x (l ++ s)) as [Hin|Hin].
  - apply IH. intros y Hy. apply Hl. right. exact Hy.
  - exfalso. apply Hin. apply in_or_app. right. apply Hl. left. reflexivity.
Qed.

Lemma union_self (a : list A) :
  NoDup a -> Py.union eq_dec a a = a.
Proof.
  intros Ha. unfold Py.union.
  rewrite nodup_app_absorb by apply incl_refl.
  apply nodup_fixed_point. exact Ha.
Qed.

End Overlap.

Lemma ratio_bounds (n m : nat) :
  (n <= m)%nat ->
  0 <= inject_Z (Z.of_nat n) / inject_Z (Z.of_nat m) /\
  inject_Z (Z.of_nat n) / inject_Z (Z.of_nat m) <= 1.
Proof.
  intros Hnm. destruct m as [|m].
  - assert (n = 0)%nat by lia. subst n. split; vm_compute; discriminate.
  - assert (Hm : 0 < inject_Z (Z.of_nat (S m))).
    { unfold Qlt. simpl. lia. }
    assert (Hn : 0 <= inject_Z (Z.of_nat n)).
    { unfold Qle. simpl. lia. }
    assert (Hle : inject_Z (Z.of_nat n) <= inject_Z (Z.of_nat (S m))).
    { rewrite <- Zle_Qle. lia. }
    split.
    + apply Qle_shift_div_l; [exact Hm|]. lra.
    + apply Qle_shift_div_r; [exact Hm|]. lra.
Qed.

Lemma ratio_self (n : nat) :
  (0 < n)%nat -> inject_Z (Z.of_nat n) / inject_Z (Z.of_nat n) == 1.
Proof.
  intros Hn. field. intros H.
  assert (Hp : 0 < inject_Z (Z.of_nat n)) by (unfold Qlt; simpl; lia).
  lra.
Qed.

Lemma jaccard_bounds {A : Type}
    (eq_dec : forall x y : A, {x = y} + {x <> y}) (e : Q) (a b : list A) :
  0 <= e -> e <= 1 ->
  0 <= jaccard eq_dec e a b /\ jaccard eq_dec e a b <= 1.
Proof.
  intros He0 He1. unfold jaccard.
  pose proof (NoDup_nodup eq_dec a) as Ha.
  pose proof (inter_length_le_union eq_dec (Py.set_of eq_dec a)
                (Py.set_of eq_dec b) Ha) as Hle.
  destruct (Py.set_of eq_dec a) as [|x sa];
    [destruct (Py.set_of eq_dec b) as [|y sb]|];
    try (split; assumption); apply ratio_bounds; exact Hle.
Qed.

(** The code's score is the weighted sum of the specification. *)
Lemma similarity_spec (current : Impetus) (past_record : IncidentRecord) :
  _compute_similarity current past_record
  == spec_similarity current past_record.
Proof.
  unfold _compute_similarity, spec_similarity, jaccard.
  cbv zeta.
  destruct (String.eqb (trigger_type current)
                       (trigger_type (impetus past_record)));
  destruct (Py.set_of CoreDrive_eq_dec (involved_drives current))
    as [|d1 cd];
  destruct (Py.set_of CoreDrive_eq_dec
              (involved_drives (impetus past_record))) as [|d2 pd];
  destruct (Py.set_of EntityType_eq_dec
              (map entity_type (relevant_entities current))) as [|t1 ct];
  destruct (Py.set_of EntityType_eq_dec
              (map entity_type (relevant_entities (impetus past_record))))
    as [|t2 pt];
  destruct (emotional_value past_record) as [ev|];
  try destruct (EmotionCategory_beq (primary_emotion ev)
                                    (_predict_emotion_category current));
  cbn [Py.nonempty andb negb indicator];
  rewrite ?inter_nil_r;
  unfold Py.truediv, Py.of_nat, Py.abs, Qdiv;
  cbn [Py.inter filter List.length Z.of_nat inject_Z];
  ring.
Qed.

Lemma set_of_nonempty {A : Type}
    (eq_dec : forall x y : A, {x = y} + {x <> y}) (l : list A) :
  l <> [] -> Py.set_of eq_dec l <> [].
Proof.
  intros Hl E. destruct l as [|x l]; [congruence|].
  assert (Hin : In x (Py.set_of eq_dec (x :: l)))
    by (apply nodup_In; left; reflexivity).
  rewrite E in Hin. exact Hin.
Qed.

Lemma jaccard_same {A : Type}
    (eq_dec : forall x y : A, {x = y} + {x <> y}) (e : Q) (a : list A) :
  a <> [] -> jaccard eq_dec e a a == 1.
Proof.
  intros Ha. unfold jaccard.
  pose proof (set_of_nonempty eq_dec a Ha) as Hne.
  pose proof (NoDup_nodup eq_dec a) as Hnd.
  fold (Py.set_of eq_dec a) in Hnd.
  destruct (Py.set_of eq_dec a) as [|x s] eqn:E; [congruence|].
  rewrite inter_self, union_self by exact Hnd.
  apply ratio_self. simpl. lia.
Qed.

Lemma jaccard_disjoint {A : Type}
    (eq_dec : forall x y : A, {x = y} + {x <> y}) (e : Q) (a b : list A) :
  a <> [] -> (forall x, In x a -> ~ In x b) -> jaccard eq_dec e a b == 0.
Proof.
  intros Ha Hd. unfold jaccard.
  pose proof (set_of_nonempty eq_dec a Ha) as Hne.
  assert (Hi : Py.inter eq_dec (Py.set_of eq_dec a) (Py.set_of eq_dec b)
               = []).
  { apply inter_disjoint. intros x Hx Hb.
    apply nodup_In in Hx. apply nodup_In in Hb. exact (Hd x Hx Hb). }
  destruct (Py.set_of eq_dec a) as [|x s] eqn:E; [congruence|].
  rewrite Hi. unfold Qdiv. cbn [List.length Z.of_nat inject_Z]. ring.
Qed.

Lemma severity_term_bounds (d : Q) :
  0 <= 1.0 - Qmin (Qabs d) 1.0 /\ 1.0 - Qmin (Qabs d) 1.0 <= 1 /\
  (Qabs d < 1 -> 0 < 1.0 - Qmin (Qabs d) 1.0).
Proof.
  pose proof (Qabs_nonneg d) as H0.
  pose proof (Q.le_min_l (Qabs d) 1.0) as Hl.
  pose proof (Q.le_min_r (Qabs d) 1.0) as Hr.
  assert (Hg : 0 <= Qmin (Qabs d) 1.0) by (apply Q.min_glb; lra).
  split; [lra|]. split; [lra|]. intros Hd. lra.
Qed.

Lemma indicator_bounds (b : bool) : 0 <= indicator b /\ indicator b <= 1.
Proof. destruct b; simpl; split; lra. Qed.

(** A past incident of the same trigger type and the same drives, with a
    severity less than one apart, scores above one half; one of another
    trigger type and with no drive in common scores one half at most. *)
Lemma similar_above_half (current : Impetus) (r : IncidentRecord) :
  trigger_type (impetus r) = trigger_type current ->
  involved_drives (impetus r) = involved_drives current ->
  involved_drives current <> [] ->
  Qabs (severity current - severity (impetus r)) < 1 ->
  0.5 < _compute_similarity current r.
Proof.
  intros Ht Hd Hne Hs. rewrite similarity_spec. unfold spec_similarity.
  rewrite Ht, Hd, String.eqb_refl.
  rewrite (jaccard_same CoreDrive_eq_dec 0 _ Hne).
  destruct (severity_term_bounds (severity current - severity (impetus r)))
    as (_ & _ & Hpos).
  specialize (Hpos Hs).
  destruct (jaccard_bounds EntityType_eq_dec 1
              (map entity_type (relevant_entities current))
              (map entity_type (relevant_entities (impetus r))))
    as [Hj0 _]; [lra | lra |].
  destruct (indicator_bounds
              match emotional_value r with
              | Some ev => EmotionCategory_beq
                             (primary_emotion ev)
                             (_predict_emotion_category current)
              | None => false
              end) as [Hi0 _].
  cbn [indicator] in *. lra.
Qed.

Lemma dissimilar_at_most_half (current : Impetus) (r : IncidentRecord) :
  trigger_type (impetus r) <> trigger_type current ->
  involved_drives current <> [] ->
  (forall d, In d (involved_drives current) ->
             ~ In d (involved_drives (impetus r))) ->
  _compute_similarity current r <= 0.5.
Proof.
  intros Ht Hne Hd. rewrite similarity_spec. unfold spec_similarity.
  assert (He : String.eqb (trigger_type current) (trigger_type (impetus r))
               = false).
  { apply String.eqb_neq. congruence. }
  rewrite He.
  rewrite (jaccard_disjoint CoreDrive_eq_dec 0 _ _ Hne Hd).
  destruct (severity_term_bounds (severity current - severity (impetus r)))
    as (_ & Hs1 & _).
  destruct (jaccard_bounds EntityType_eq_dec 1
              (map entity_type (relevant_entities current))
              (map entity_type (relevant_entities (impetus r))))
    as [_ Hj1]; [lra | lra |].
  destruct (indicator_bounds
              match emotional_value r with
              | Some ev => EmotionCategory_beq
                             (primary_emotion ev)
                             (_predict_emotion_category current)
              | None => false
              end) as [_ Hi1].
  cbn [indicator] in *. lra.
Qed.

(** *** Retrieval *)

Lemma scored_incidents_spec (self : SubconsciousLayer) (current : Impetus)
    (p : Q * IncidentRecord) :
  In p (scored_incidents self current) <->
  In (snd p) (_incident_history self)
  /\ fst p = _compute_similarity current (snd p).
Proof.
  unfold scored_incidents. split.
  - intros Hp.
    apply (Permutation_in _ (sorted_reverse_perm fst _)) in Hp.
    apply in_map_iff in Hp. destruct Hp as (r & <- & Hr). simpl. tauto.
  - intros [Hin Hs].
    apply (Permutation_in _ (Permutation_sym (sorted_reverse_perm fst _))).
    apply in_map_iff. exists (snd p). split; [|exact Hin].
    destruct p as [s r]. simpl in *. congruence.
Qed.

Lemma retrieve_kept (self : SubconsciousLayer) (current : Impetus)
    (n : nat) :
  _retrieve_relevant_history self current n = map snd (kept self current n).
Proof.
  unfold _retrieve_relevant_history, kept, scored_incidents.
  destruct (_incident_history self); [|reflexivity].
  cbn [map Py.sorted_reverse fold_left]. rewrite firstn_nil. reflexivity.
Qed.

Lemma kept_sorted (self : SubconsciousLayer) (current : Impetus) (n : nat) :
  StronglySorted (Py.desc fst) (kept self current n).
Proof.
  unfold kept, scored_incidents.
  apply filter_sorted, firstn_sorted, sorted_reverse_sorted.
Qed.

Lemma kept_spec (self : SubconsciousLayer) (current : Impetus) (n : nat)
    (p : Q * IncidentRecord) :
  In p (kept self current n) ->
  In (snd p) (_incident_history self)
  /\ fst p = _compute_similarity current (snd p)
  /\ 0.2 <= fst p.
Proof.
  unfold kept. intros Hp. apply filter_In in Hp. destruct Hp as [Hp Hge].
  apply In_firstn in Hp. apply scored_incidents_spec in Hp.
  destruct Hp as [Hin Hs]. split; [exact Hin|]. split; [exact Hs|].
  apply ge_true_iff in Hge. exact Hge.
Qed.

Lemma map_snd_sorted (current : Impetus) (l : list (Q * IncidentRecord)) :
  (forall p, In p l -> fst p = _compute_similarity current (snd p)) ->
  StronglySorted (Py.desc fst) l ->
  StronglySorted (similarity_desc current) (map snd l).
Proof.
  induction l as [|p l IH]; intros Hl Hs; [constructor|].
  inversion Hs as [|? ? Hs' Hall]; subst. simpl.
  constructor.
  - apply IH; [|exact Hs']. intros q Hq. apply Hl. right. exact Hq.
  - apply Forall_forall. intros r Hr.
    apply in_map_iff in Hr. destruct Hr as (q & <- & Hq).
    pose proof (proj1 (Forall_forall _ _) Hall q Hq) as Hd.
    unfold Py.desc in Hd. unfold similarity_desc.
    rewrite <- (Hl p (or_introl eq_refl)).
    rewrite <- (Hl q (or_intror Hq)). exact Hd.
Qed.

Lemma before_map {A B : Type} (g : A -> B) (x y : A) (l : list A) :
  Py.before x y l -> Py.before (g x) (g y) (map g l).
Proof.
  intros (l1 & l2 & l3 & ->).
  exists (map g l1), (map g l2), (map g l3).
  rewrite map_app. simpl. rewrite map_app. reflexivity.
Qed.

(** C8. The similarity score of a stored incident is 0.25 for an equal
    trigger type, plus 0.25 times the Jaccard overlap of the drives, plus
    0.20 times one minus the severity gap capped at one, plus 0.20 times
    the Jaccard overlap of the entity types, plus 0.10 for an equal
    predicted emotion. Retrieval returns at most five stored incidents,
    each scoring at least 0.2, by descending score. So a stored incident
    of the same trigger type and drives as the current impetus, with a
    severity less than one apart, scores strictly above a stored incident
    of another trigger type and with no drive in common, and stands before
    it whenever that one is returned, wherever the two sit in the
    history. *)
Theorem history_retrieval_ranks_by_similarity :
  forall (self : SubconsciousLayer) (current : Impetus)
         (similar dissimilar stored : IncidentRecord),
    In similar (_incident_history self) ->
    In dissimilar (_incident_history self) ->
    trigger_type (impetus similar) = trigger_type current ->
    involved_drives (impetus similar) = involved_drives current ->
    involved_drives current <> [] ->
    Qabs (severity current - severity (impetus similar)) < 1 ->
    trigger_type (impetus dissimilar) <> trigger_type current ->
    (forall d, In d (involved_drives current) ->
               ~ In d (involved_drives (impetus dissimilar))) ->
    let retrieved := _retrieve_relevant_history self current 5 in
    _compute_similarity current stored == spec_similarity current stored /\
    (List.length retrieved <= 5)%nat /\
    (forall r, In r retrieved ->
               In r (_incident_history self)
               /\ 0.2 <= _compute_similarity current r) /\
    StronglySorted (similarity_desc current) retrieved /\
    _compute_similarity current dissimilar
    < _compute_similarity current similar /\
    (In dissimilar retrieved -> Py.before similar dissimilar retrieved).
Proof.
  intros self current similar dissimilar stored Hsim Hdis Ht Hd Hne Hsev
         Ht' Hd' retrieved.
  assert (Hlt : _compute_similarity current dissimilar
                < _compute_similarity current similar).
  { pose proof (similar_above_half current similar Ht Hd Hne Hsev).
    pose proof (dissimilar_at_most_half current dissimilar Ht' Hne Hd').
    lra. }
  unfold retrieved. rewrite retrieve_kept.
  split; [apply similarity_spec|].
  split.
  { rewrite length_map. unfold kept.
    eapply Nat.le_trans; [apply filter_length_le | apply firstn_le_length]. }
  split.
  { intros r Hr. apply in_map_iff in Hr. destruct Hr as (p & <- & Hp).
    destruct (kept_spec self current 5 p Hp) as (Hin & Hs & Hge).
    split; [exact Hin|]. rewrite <- Hs. exact Hge. }
  split.
  { apply map_snd_sorted; [|apply kept_sorted].
    intros p Hp. apply (kept_spec self current 5 p Hp). }
  split; [exact Hlt|].
  intros Hr. apply in_map_iff in Hr. destruct Hr as (p & Hsnd & Hp).
  destruct (kept_spec self current 5 p Hp) as (_ & Hs & Hge).
  set (x := (_compute_similarity current similar, similar)).
  assert (Hp' : p = (_compute_similarity current dissimilar, dissimilar)).
  { destruct p as [s r]. simpl in *. subst r. rewrite Hs. reflexivity. }
  assert (Hx : In x (kept self current 5)).
  { unfold kept. apply filter_In. split.
    - apply (firstn_keeps_higher fst 5 _ x p).
      + apply sorted_reverse_sorted.
      + apply scored_incidents_spec. simpl. tauto.
      + unfold kept in Hp. apply filter_In in Hp. tauto.
      + rewrite Hp'. simpl. exact Hlt.
    - apply ge_true_iff. unfold min_similarity. simpl.
      rewrite Hp' in Hge. simpl in Hge. lra. }
  change similar with (snd x). rewrite <- Hsnd.
  apply before_map.
  apply (sorted_before fst); [apply kept_sorted | exact Hx | exact Hp |].
  rewrite Hp'. simpl. exact Hlt.
Qed.

(** C8 on test group 8: the dissimilar record is the more recent one and
    was stored first. *)
Lemma history_retrieval_ranks_by_similarity_witness :
  _retrieve_relevant_history Scenario.memory Scenario.base_impetus 5
  = [Scenario.similar_record; Scenario.dissimilar_record] /\
  _compute_similarity Scenario.base_impetus Scenario.dissimilar_record
  < _compute_similarity Scenario.base_impetus Scenario.similar_record /\
  Py.before Scenario.similar_record Scenario.dissimilar_record
    (_retrieve_relevant_history Scenario.memory Scenario.base_impetus 5).
Proof.
  assert (Hr : _retrieve_relevant_history Scenario.memory
                 Scenario.base_impetus 5
               = [Scenario.similar_record; Scenario.dissimilar_record])
    by (vm_compute; reflexivity).
  destruct (history_retrieval_ranks_by_similarity
              Scenario.memory Scenario.base_impetus
              Scenario.similar_record Scenario.dissimilar_record
              Scenario.similar_record)
    as (_ & _ & _ & _ & Hlt & Hbefore).
  - simpl. tauto.
  - simpl. tauto.
  - reflexivity.
  - reflexivity.
  - discriminate.
  - vm_compute. reflexivity.
  - discriminate.
  - simpl. intros d [<-|[]] [H|[]]. discriminate.
  - split; [exact Hr|]. split; [exact Hlt|].
    apply Hbefore. rewrite Hr. simpl. tauto.
Defined.

End SubconsciousFacts.

(** ** The halt flag *)

Module HaltFacts.
Import Embodiment Data Registry Layer Conscious System.

Lemma execute_commands_halted (self : EmbodimentLayer)
    (cmds : list Command) :
  _halted self = true ->
  execute_commands self cmds = (self, refusal None false).
Proof. intros H. unfold execute_commands. rewrite H. reflexivity. Qed.

Lemma refusal_rejected (u : option string) (h : bool) :
  rejected (refusal u h).
Proof. repeat split. Qed.

Lemma frozen_refl (self : EmbodimentLayer) :
  _halted self = true -> frozen self self.
Proof. intros H. repeat split. exact H. Qed.

Lemma frozen_trans (a b c : EmbodimentLayer) :
  frozen a b -> frozen b c -> frozen a c.
Proof.
  intros (H1 & H2 & H3 & H4) (H1' & H2' & H3' & H4').
  repeat split; congruence.
Qed.

Lemma add_entities_frozen (es : list DetectedEntity) :
  forall self, _halted self = true -> frozen self (fold_left add_entity es self).
Proof.
  induction es as [|e es IH]; intros self H; simpl;
    [apply frozen_refl; exact H|].
  apply (frozen_trans _ (add_entity self e)).
  - repeat split. exact H.
  - apply IH. exact H.
Qed.

Lemma cycle_halted (ext : Externals) (self : TripartiteAGI) (imp : Impetus) :
  _halted (embodiment self) = true ->
  embodiment (fst (fst (_run_deliberation_cycle ext self imp)))
  = embodiment self
  /\ Forall rejected (snd (_run_deliberation_cycle ext self imp)).
Proof.
  intros H. unfold _run_deliberation_cycle. cbv zeta.
  destruct (snd (resolve_votes _ _)) as [[chosen|]|e]; cbn [fst snd embodiment].
  - rewrite (execute_commands_halted _ _ H). cbn [fst snd].
    split; [reflexivity|]. constructor; [apply refusal_rejected | constructor].
  - split; [reflexivity | constructor].
  - split; [reflexivity | constructor].
Qed.

Lemma sensor_update_halted (ext : Externals) (self : TripartiteAGI)
    (sensor_data : SensorData) :
  _halted (embodiment self) = true ->
  frozen (embodiment self)
         (embodiment (fst (fst (process_sensor_update ext self sensor_data))))
  /\ Forall rejected (snd (process_sensor_update ext self sensor_data)).
Proof.
  intros H. unfold process_sensor_update.
  destruct (_strict_integrity self && Py.nonempty (_integrity_failures self)).
  { cbn [fst snd]. split; [apply frozen_refl; exact H | constructor]. }
  cbv zeta.
  set (e1 := match sensed_environment sensor_data with
             | Some u => update_environment (embodiment self) u
             | None => embodiment self
             end).
  assert (F1 : frozen (embodiment self) e1).
  { unfold e1. destruct (sensed_environment sensor_data);
      repeat split; exact H. }
  set (e2 := match sensed_entities sensor_data with
             | Some es => fold_left add_entity es e1
             | None => e1
             end).
  assert (F2 : frozen (embodiment self) e2).
  { unfold e2. destruct (sensed_entities sensor_data); [|exact F1].
    apply (frozen_trans _ e1); [exact F1|].
    apply add_entities_frozen. apply F1. }
  set (e3 := process_sensor_reading e2 (clock sensor_data)).
  assert (F3 : frozen (embodiment self) e3).
  { apply (frozen_trans _ e2); [exact F2|]. repeat split. apply F2. }
  destruct (monitor ext (get_current_state e3)) as [imp|].
  - destruct (cycle_halted ext (with_embodiment self e3) imp) as [He Ht];
      [apply F3|].
    destruct (_run_deliberation_cycle ext (with_embodiment self e3) imp)
      as [[s [r|e]] t]; cbn [fst snd] in *; rewrite He;
      (split; [exact F3 | exact Ht]).
  - cbn [fst snd embodiment with_embodiment].
    split; [exact F3 | constructor].
Qed.

Lemma step_halted (self : TripartiteAGI) (s : Step) :
  _halted (embodiment self) = true ->
  frozen (embodiment self) (embodiment (fst (step self s)))
  /\ Forall rejected (snd (step self s)).
Proof.
  intros H. destruct s as [ext sd|ext imp|cmds|updates|e]; cbn [step fst snd].
  - apply sensor_update_halted. exact H.
  - destruct (cycle_halted ext self imp H) as [He Ht]. rewrite He.
    split; [apply frozen_refl; exact H | exact Ht].
  - rewrite (execute_commands_halted _ cmds H).
    cbn [fst snd embodiment with_embodiment].
    split; [apply frozen_refl; exact H|].
    constructor; [apply refusal_rejected | constructor].
  - split; [repeat split; exact H | constructor].
  - split; [repeat split; exact H | constructor].
Qed.

Lemma run_halted (steps : list Step) :
  forall self,
    _halted (embodiment self) = true ->
    frozen (embodiment self) (embodiment (fst (run self steps)))
    /\ Forall rejected (snd (run self steps)).
Proof.
  induction steps as [|s steps IH]; intros self H; cbn [run fst snd].
  - split; [apply frozen_refl; exact H | constructor].
  - destruct (step_halted self s H) as [F1 T1].
    destruct (IH (fst (step self s))) as [F2 T2]; [apply F1|].
    split; [apply (frozen_trans _ _ _ F1 F2)|].
    apply Forall_app. split; assumption.
Qed.

(** C5. An immediate-halt undeliberable (a raised override flag) makes
    [execute_commands] set the halt flag. From then on every call to
    [execute_commands], with any command list, is refused: it is
    answered blocked, with no command run, and leaves the layer as it
    was. Through any run of sensor updates, deliberation cycles, direct
    executions, environment updates and entity additions the flag stays
    set, the motor state and the command counters stay as they were, and
    every execution attempted on the way is refused, whatever the
    reasoning, relevance, veto and monitor calls return; only
    [clear_halt] lowers the flag. *)
Theorem halt_persists_until_cleared :
  forall (self : TripartiteAGI) (cmds : list Command) (steps : list Step)
         (active : EmbodimentLayer),
    _halted (embodiment self) = true ->
    _halted active = false ->
    _check_human_override (get_current_state active) = true ->
    (_halted (fst (execute_commands active cmds)) = true /\
     halted (snd (execute_commands active cmds)) = true /\
     rejected (snd (execute_commands active cmds))) /\
    (fst (execute_commands (embodiment self) cmds) = embodiment self /\
     rejected (snd (execute_commands (embodiment self) cmds))) /\
    (_halted (embodiment (fst (run self steps))) = true /\
     _motor_state (embodiment (fst (run self steps)))
     = _motor_state (embodiment self) /\
     _commands_executed (embodiment (fst (run self steps)))
     = _commands_executed (embodiment self) /\
     Forall rejected (snd (run self steps))) /\
    _halted (clear_halt (embodiment self)) = false.
Proof.
  intros self cmds steps active H Hactive Hov.
  split.
  { unfold execute_commands, check_all. rewrite Hactive, Hov.
    cbn. repeat split. }
  split.
  { rewrite (execute_commands_halted _ cmds H). cbn [fst snd].
    split; [reflexivity | apply refusal_rejected]. }
  split; [|reflexivity].
  destruct (run_halted steps self H) as [(F1 & F2 & F3 & _) T].
  repeat split; assumption.
Qed.

(** C5 on test 2e: the override halts the layer; taking the flag back,
    executing, deliberating and sensing do not restart it. *)
Lemma halt_persists_until_cleared_witness :
  _halted Scenario.halted_layer = true /\
  _halted (embodiment (fst (run Scenario.halted_system
                                Scenario.normal_running))) = true /\
  Forall rejected (snd (run Scenario.halted_system Scenario.normal_running)) /\
  List.length (snd (run Scenario.halted_system Scenario.normal_running))
  = 4%nat.
Proof.
  destruct (halt_persists_until_cleared
              Scenario.halted_system [Scenario.speak "Hello"]
              Scenario.normal_running Scenario.overridden_layer)
    as ((Hh & _) & _ & (Hr & _ & _ & Ht) & _).
  - reflexivity.
  - reflexivity.
  - reflexivity.
  - split; [exact Hh|]. split; [exact Hr|]. split; [exact Ht|].
    vm_compute. reflexivity.
Defined.

End HaltFacts.

(** ** Bounds on the harm assessment *)

Module HarmFacts.
Import Ontology.

Lemma get_In {K V : Type} (eqb : K -> K -> bool) (d : list (K * V))
    (k : K) (v : V) :
  Py.get eqb d k = Some v -> exists k', In (k', v) d /\ eqb k' k = true.
Proof.
  induction d as [|[k0 v0] d IH]; simpl; [discriminate|].
  destruct (eqb k0 k) eqn:E.
  - intros H. inversion H; subst. exists k0. split; [left; reflexivity|exact E].
  - intros H. destruct (IH H) as (k' & Hin & Hk).
    exists k'. split; [right; exact Hin | exact Hk].
Qed.

Lemma find_level_In (ls : list (string * Q)) (level : string) (m : Q) :
  find_level ls level = Some m -> exists l, In (l, m) ls.
Proof.
  induction ls as [|[l0 m0] ls IH]; simpl; [discriminate|].
  destruct (String.eqb l0 level).
  - intros H. inversion H; subst. exists l0. left. reflexivity.
  - intros H. destruct (IH H) as (l & Hin). exists l. right. exact Hin.
Qed.

Lemma get_ontology_profiles :
  _dimension_profiles get_ontology = _build_dimension_profiles.
Proof. reflexivity. Qed.

Lemma get_ontology_entities :
  _entity_modifiers get_ontology = _build_entity_modifiers.
Proof. reflexivity. Qed.

Lemma get_ontology_contexts :
  _context_modifiers get_ontology = _build_context_modifiers.
Proof. reflexivity. Qed.

Lemma get_ontology_exceptions :
  _exceptions get_ontology = _build_exceptions.
Proof. reflexivity. Qed.

(** A reduction lies between nothing and the cap of its exception. *)
Lemma reduction_bounds (self : GroundedHarmOntology) (exc : ExceptionType)
    (vs : list (string * bool)) (exc_def : ExceptionDefinition) :
  Py.get ExceptionType_beq (_exceptions self) exc = Some exc_def ->
  0 <= max_harm_reduction exc_def ->
  0 <= get_exception_reduction self exc vs /\
  get_exception_reduction self exc vs <= max_harm_reduction exc_def.
Proof.
  intros Hget Hcap. unfold get_exception_reduction. rewrite Hget.
  unfold Py.count.
  set (f := fun req => Py.get_default String.eqb vs req false).
  set (reqs := verification_requirements exc_def).
  pose proof (filter_length_le f reqs) as Hle.
  destruct (requires_all exc_def
            && (List.length (filter f reqs) <? List.length reqs)%nat);
    [split; lra|].
  destruct (0 <? List.length reqs)%nat; [|split; lra].
  unfold Py.truediv, Py.of_nat.
  destruct (SubconsciousFacts.ratio_bounds _ _ Hle) as [H0 H1].
  split; nra.
Qed.

Lemma get_ontology_caps (exc : ExceptionType) (exc_def : ExceptionDefinition) :
  Py.get ExceptionType_beq (_exceptions get_ontology) exc = Some exc_def ->
  0 <= max_harm_reduction exc_def.
Proof.
  rewrite get_ontology_exceptions. intros H.
  destruct exc; cbn in H; inversion H; subst; cbn; lra.
Qed.

Lemma get_ontology_reduction_nonneg (exc : ExceptionType)
    (vs : list (string * bool)) :
  0 <= get_exception_reduction get_ontology exc vs.
Proof.
  destruct (Py.get ExceptionType_beq (_exceptions get_ontology) exc)
    as [exc_def|] eqn:Hget.
  - apply (reduction_bounds _ _ vs _ Hget), (get_ontology_caps exc), Hget.
  - unfold get_exception_reduction. rewrite Hget. lra.
Qed.

Lemma get_ontology_weight_nonneg (d : HarmDimension) (sev : SeverityLevel) :
  0 <= get_dimension_weight get_ontology d sev.
Proof.
  unfold get_dimension_weight. rewrite get_ontology_profiles.
  destruct d, sev; cbn; lra.
Qed.

Lemma get_ontology_entity_nonneg (e : EntityType) :
  0 <= get_entity_modifier get_ontology e.
Proof.
  unfold get_entity_modifier. rewrite get_ontology_entities.
  destruct e; cbn; lra.
Qed.

Lemma get_ontology_context_pos (ctx_type level : string) :
  0 < get_context_modifier get_ontology ctx_type level.
Proof.
  unfold get_context_modifier. rewrite get_ontology_contexts.
  destruct (Py.get String.eqb _build_context_modifiers ctx_type)
    as [c|] eqn:Hc; [|lra].
  destruct (find_level (levels c) level) as [m|] eqn:Hm; [|lra].
  apply get_In in Hc. destruct Hc as (k & Hin & _).
  apply find_level_In in Hm. destruct Hm as (l & Hl).
  unfold _build_context_modifiers, axis in Hin. simpl in Hin.
  repeat (destruct Hin as [Hin|Hin];
          [inversion Hin; subst; simpl in Hl;
           repeat (destruct Hl as [Hl|Hl];
                   [inversion Hl; subst; reflexivity|]);
           contradiction|]).
  contradiction.
Qed.

Lemma context_product_pos (context : list (string * string)) :
  0 < spec_context_product get_ontology context.
Proof.
  unfold spec_context_product.
  induction context as [|[a l] context IH]; simpl; [reflexivity|].
  pose proof (get_ontology_context_pos a l). nra.
Qed.

Lemma reductions_nonneg
    (exceptions : list (ExceptionType * list (string * bool))) :
  forall acc,
    0 <= fst acc ->
    0 <= fst (fold_left (exception_step get_ontology) exceptions acc).
Proof.
  induction exceptions as [|[exc vs] exceptions IH]; intros acc Hacc; simpl;
    [exact Hacc|].
  apply IH. simpl.
  pose proof (get_ontology_reduction_nonneg exc vs). lra.
Qed.

(** X1. The reduction an exception grants lies between nothing and the
    exception's cap ([max_harm_reduction]), whatever the verification
    status says, on every ontology whose cap is not negative; an
    exception the ontology does not define grants nothing. *)
Theorem exception_reduction_within_cap :
  forall (self : GroundedHarmOntology) (exc : ExceptionType)
         (vs : list (string * bool)),
    (Py.get ExceptionType_beq (_exceptions self) exc = None ->
     get_exception_reduction self exc vs == 0) /\
    (forall exc_def,
       Py.get ExceptionType_beq (_exceptions self) exc = Some exc_def ->
       0 <= max_harm_reduction exc_def ->
       0 <= get_exception_reduction self exc vs /\
       get_exception_reduction self exc vs <= max_harm_reduction exc_def).
Proof.
  intros self exc vs. split.
  - intros Hget. unfold get_exception_reduction. rewrite Hget. reflexivity.
  - intros exc_def Hget Hcap. apply (reduction_bounds _ _ _ _ Hget Hcap).
Qed.

(** X1 on the program's ontology: two of the three requirements of
    NECESSITY met, and an exception the ontology does not list. *)
Lemma exception_reduction_within_cap_witness :
  (0 <= get_exception_reduction get_ontology NECESSITY Scenario.two_of_three
   /\ get_exception_reduction get_ontology NECESSITY Scenario.two_of_three
      <= 0.6) /\
  get_exception_reduction get_ontology TRIVIAL [] == 0.
Proof.
  split.
  - apply (proj2 (exception_reduction_within_cap
                    get_ontology NECESSITY Scenario.two_of_three)
                 (snd (exception NECESSITY 0.6
                         (requirements_of get_ontology NECESSITY)))).
    + reflexivity.
    + simpl. discriminate.
  - apply (proj1 (exception_reduction_within_cap get_ontology TRIVIAL [])).
    reflexivity.
Defined.

(** X2. On the program's ontology every assessment has a gross harm and
    a total reduction that are not negative and a net harm between zero
    and the gross harm; an assessment that exceeds the veto threshold
    also exceeds the caution threshold. *)
Theorem net_harm_between_zero_and_gross :
  forall (d : HarmDimension) (sev : SeverityLevel) (e : EntityType)
         (context : list (string * string))
         (exceptions : list (ExceptionType * list (string * bool))),
    let r := calculate_harm get_ontology d sev e context exceptions in
    0 <= gross_harm r /\ 0 <= exception_reduction r /\
    0 <= net_harm r /\ net_harm r <= gross_harm r /\
    (exceeds_veto r = true -> exceeds_caution r = true).
Proof.
  intros d sev e context exceptions r.
  assert (Hg : 0 <= gross_harm r).
  { unfold r, calculate_harm. cbn [gross_harm].
    rewrite OntologyFacts.context_loop. cbn [fst].
    apply Qmult_le_0_compat.
    - apply Qmult_le_0_compat;
        [apply get_ontology_weight_nonneg | apply get_ontology_entity_nonneg].
    - pose proof (context_product_pos context). lra. }
  assert (Hr : 0 <= exception_reduction r).
  { unfold r, calculate_harm. cbn [exception_reduction].
    apply reductions_nonneg. simpl. lra. }
  split; [exact Hg|]. split; [exact Hr|].
  assert (Hn : net_harm r == Qmax 0 (gross_harm r - exception_reduction r)).
  { unfold r, calculate_harm.
    cbn [net_harm gross_harm exception_reduction].
    apply Q.max_compat; reflexivity. }
  split; [rewrite Hn; apply Q.le_max_l|].
  split; [rewrite Hn; apply Q.max_lub; lra|].
  unfold r, calculate_harm. cbn [exceeds_veto exceeds_caution].
  intros Hv. apply gt_true_iff in Hv. apply gt_true_iff.
  unfold VETO_THRESHOLD in Hv. unfold CAUTION_THRESHOLD. lra.
Qed.

End HarmFacts.

(** ** The table of detected entities *)

Module EntityFacts.
Import Embodiment Layer.

Section Assign.
Context {V : Type}.

Lemma get_set_same (d : list (string * V)) (k : string) (v : V) :
  Py.get String.eqb (Py.set String.eqb d k v) k = Some v.
Proof.
  induction d as [|[k0 v0] d IH]; simpl.
  - rewrite String.eqb_refl. reflexivity.
  - destruct (String.eqb k0 k) eqn:E; simpl; rewrite E;
      [reflexivity | exact IH].
Qed.

Lemma get_set_other (d : list (string * V)) (k k2 : string) (v : V) :
  k2 <> k ->
  Py.get String.eqb (Py.set String.eqb d k v) k2 = Py.get String.eqb d k2.
Proof.
  intros Hne. induction d as [|[k0 v0] d IH]; simpl.
  - destruct (String.eqb k k2) eqn:E; [|reflexivity].
    apply String.eqb_eq in E. congruence.
  - destruct (String.eqb k0 k) eqn:E; simpl.
    + apply String.eqb_eq in E. subst k0.
      destruct (String.eqb k k2) eqn:E2; [|reflexivity].
      apply String.eqb_eq in E2. congruence.
    + destruct (String.eqb k0 k2); [reflexivity | exact IH].
Qed.

Lemma keys_set (d : list (string * V)) (k : string) (v : V) :
  Py.keys (Py.set String.eqb d k v)
  = match Py.get String.eqb d k with
    | Some _ => Py.keys d
    | None => (Py.keys d ++ [k])%list
    end.
Proof.
  unfold Py.keys. induction d as [|[k0 v0] d IH]; simpl; [reflexivity|].
  destruct (String.eqb k0 k) eqn:E; simpl; [reflexivity|].
  rewrite IH. destruct (Py.get String.eqb d k); reflexivity.
Qed.

Lemma get_None_keys (d : list (string * V)) (k : string) :
  Py.get String.eqb d k = None -> ~ In k (Py.keys d).
Proof.
  unfold Py.keys. induction d as [|[k0 v0] d IH]; simpl; [tauto|].
  destruct (String.eqb k0 k) eqn:E; [discriminate|].
  intros H [Hk|Hk]; [|exact (IH H Hk)].
  subst k0. rewrite String.eqb_refl in E. discriminate.
Qed.

End Assign.

(** X10. The layer keeps one entity per identifier. Adding an entity
    stores it under its identifier, in place of the entity that had the
    identifier before if there was one and as a new last entry
    otherwise; the entities under other identifiers stay as they are,
    and the state reported next holds the entity added. *)
Theorem add_entity_keeps_one_entity_per_id :
  forall (self : EmbodimentLayer) (e : DetectedEntity),
    NoDup (Py.keys (_detected_entities self)) ->
    let after := add_entity self e in
    NoDup (Py.keys (_detected_entities after)) /\
    Py.get String.eqb (_detected_entities after) (entity_id e) = Some e /\
    (forall id, id <> entity_id e ->
       Py.get String.eqb (_detected_entities after) id
       = Py.get String.eqb (_detected_entities self) id) /\
    In e (detected_entities (get_current_state after)) /\
    List.length (detected_entities (get_current_state after))
    = match Py.get String.eqb (_detected_entities self) (entity_id e) with
      | Some _ => List.length (detected_entities (get_current_state self))
      | None =>
          S (List.length (detected_entities (get_current_state self)))
      end.
Proof.
  intros self e Hnd after. unfold after, add_entity, get_current_state.
  cbn [_detected_entities detected_entities].
  set (d := _detected_entities self) in *.
  split.
  { rewrite keys_set.
    destruct (Py.get String.eqb d (entity_id e)) eqn:Hg; [exact Hnd|].
    apply NoDup_app; [exact Hnd | repeat constructor; intros [] |].
    intros x Hx [Hk|[]]. subst x.
    exact (get_None_keys d _ Hg Hx). }
  split; [apply get_set_same|].
  split; [intros id Hid; apply get_set_other; exact Hid|].
  split.
  { destruct (HarmFacts.get_In String.eqb _ _ _
                (get_set_same d (entity_id e) e)) as (k & Hin & _).
    apply in_map_iff. exists (k, e). split; [reflexivity | exact Hin]. }
  rewrite !length_map.
  rewrite <- (length_map fst (Py.set String.eqb d (entity_id e) e)).
  rewrite <- (length_map fst d).
  change (map fst (Py.set String.eqb d (entity_id e) e))
    with (Py.keys (Py.set String.eqb d (entity_id e) e)).
  rewrite keys_set.
  destruct (Py.get String.eqb d (entity_id e)); [reflexivity|].
  rewrite length_app. simpl. unfold Py.keys. lia.
Qed.

(** X10 on a second sighting of the human of test 2a, now further
    away. *)
Lemma add_entity_keeps_one_entity_per_id_witness :
  let moved := {| entity_id := "human_1"; entity_type := HUMAN;
                  description := "Human walking away";
                  position := Some [9.0; 0.0; 0.0]; state := no_state;
                  confidence := 0.8 |} in
  let self := add_entity (init Scenario.permissive) Scenario.human_1 in
  NoDup (Py.keys (_detected_entities self)) /\
  Py.get String.eqb (_detected_entities (add_entity self moved)) "human_1"
  = Some moved /\
  List.length (detected_entities (get_current_state (add_entity self moved)))
  = 1%nat.
Proof.
  intros moved self.
  assert (Hnd : NoDup (Py.keys (_detected_entities self)))
    by (repeat constructor; simpl; tauto).
  destruct (add_entity_keeps_one_entity_per_id self moved Hnd)
    as (_ & Hget & _ & _ & Hlen).
  split; [exact Hnd|]. split; [exact Hget | exact Hlen].
Defined.

End EntityFacts.

(** ** The capability model *)

Module CapabilityFacts.
Import Embodiment Capability.

Lemma get_In_key (command : CommandDict) (k : string) (v : Value) :
  Py.get String.eqb command k = Some v -> In (k, v) command.
Proof.
  intros H. destruct (HarmFacts.get_In String.eqb _ _ _ H) as (k' & Hin & Hk).
  apply String.eqb_eq in Hk. subst k'. exact Hin.
Qed.

Lemma Value_eqb_str (s : string) (v : Value) :
  Value_eqb (VStr s) v = true -> v = VStr s.
Proof.
  destruct v; simpl; try discriminate.
  intros H. apply String.eqb_eq in H. subst. reflexivity.
Qed.

Lemma Value_eqb_str_l (s : string) (v : Value) :
  Value_eqb v (VStr s) = true -> v = VStr s.
Proof.
  destruct v; simpl; try discriminate.
  intros H. apply String.eqb_eq in H. subst. reflexivity.
Qed.

(** What an accepted command has passed. *)
Lemma validate_inv (self : VirtualEmbodiment) (command : CommandDict) :
  validate_command self command = true ->
  exists t a,
    Py.get String.eqb command "type" = Some (VStr t) /\
    t <> EmptyString /\
    find_actuator self (VStr t) = Some a /\
    command_type a = t /\
    forallb (has_key command) (required_params a) = true /\
    check_params a command = true /\
    (t = "MOVE" -> _validate_move_command self command = true) /\
    (t = "MANIPULATE" -> _validate_manipulate_command self command = true).
Proof.
  unfold validate_command, Py.get_default.
  destruct (Py.get String.eqb command "type") as [cmd_type|] eqn:Hg;
    [|discriminate].
  destruct (truthy cmd_type) eqn:Ht; [|discriminate]. cbn [negb].
  destruct (find_actuator self cmd_type) as [a|] eqn:Hf; [|discriminate].
  destruct (forallb (has_key command) (required_params a)) eqn:Hr;
    [|discriminate].
  destruct (check_params a command) eqn:Hp; [|discriminate]. cbn [negb].
  intros H.
  pose proof Hf as Hf'. unfold find_actuator in Hf'.
  apply find_some in Hf'. destruct Hf' as [_ He].
  apply Value_eqb_str in He. subst cmd_type.
  exists (command_type a), a.
  split; [reflexivity|].
  split.
  { intros E. rewrite E in Ht. discriminate. }
  split; [exact Hf|]. split; [reflexivity|].
  split; [exact Hr|]. split; [exact Hp|].
  split; intros E; rewrite E in H; cbn [Value_eqb String.eqb Ascii.eqb
    Bool.eqb andb] in H.
  - destruct (_validate_move_command self command); [reflexivity|].
    discriminate.
  - destruct (_validate_move_command self command);
      destruct (_validate_manipulate_command self command);
      try reflexivity; discriminate.
Qed.

(** X11. A command the capability model accepts names, under ['type'],
    the command type of one of its actuators; it carries every parameter
    that actuator requires, every parameter with a range constraint is a
    number within the range, both ends included, and every parameter with
    a list of allowed values holds one of them. This holds for every
    embodiment, whatever its actuators. *)
Theorem accepted_command_meets_its_actuator :
  forall (self : VirtualEmbodiment) (command : CommandDict),
    validate_command self command = true ->
    exists t a,
      Py.get String.eqb command "type" = Some (VStr t) /\
      In a (actuators self) /\ command_type a = t /\
      (forall p, In p (required_params a) -> In p (Py.keys command)) /\
      (forall p v lo hi,
         In (p, v) command -> p <> "type" ->
         Py.get String.eqb (constraints a) p = Some (Range lo hi) ->
         exists x, v = VNum x /\ lo <= x /\ x <= hi) /\
      (forall p v values,
         In (p, v) command -> p <> "type" ->
         Py.get String.eqb (constraints a) p = Some (Allowed values) ->
         exists v', In v' values /\ Value_eqb v v' = true).
Proof.
  intros self command H.
  destruct (validate_inv self command H)
    as (t & a & Hg & _ & Hf & Hc & Hr & Hp & _).
  exists t, a. split; [exact Hg|].
  split. { unfold find_actuator in Hf. apply find_some in Hf. tauto. }
  split; [exact Hc|].
  split.
  { intros p Hin. rewrite forallb_forall in Hr. specialize (Hr p Hin).
    unfold has_key in Hr. apply existsb_exists in Hr.
    destruct Hr as (k & Hk & E). apply String.eqb_eq in E. subst k.
    exact Hk. }
  unfold check_params in Hp. rewrite forallb_forall in Hp.
  split.
  - intros p v lo hi Hin Hne Hcon. specialize (Hp (p, v) Hin).
    cbn [fst snd] in Hp.
    destruct (String.eqb p "type") eqn:E;
      [apply String.eqb_eq in E; congruence|].
    rewrite Hcon in Hp. cbn [check_constraint] in Hp.
    destruct v as [|x|s|xs]; try discriminate.
    apply andb_true_iff in Hp. destruct Hp as [H1 H2].
    apply Qle_bool_iff in H1, H2. exists x. tauto.
  - intros p v values Hin Hne Hcon. specialize (Hp (p, v) Hin).
    cbn [fst snd] in Hp.
    destruct (String.eqb p "type") eqn:E;
      [apply String.eqb_eq in E; congruence|].
    rewrite Hcon in Hp. cbn [check_constraint] in Hp.
    apply existsb_exists in Hp. exact Hp.
Qed.

(** X11 on a drive to (5, 3) at 1 m/s for the default robot. *)
Lemma accepted_command_meets_its_actuator_witness :
  exists t a,
    Py.get String.eqb (to_dict (Scenario.move [5.0; 3.0] 1.0)) "type"
    = Some (VStr t) /\
    In a (actuators create_default_embodiment) /\ command_type a = t.
Proof.
  destruct (accepted_command_meets_its_actuator create_default_embodiment
              (to_dict (Scenario.move [5.0; 3.0] 1.0)))
    as (t & a & H1 & H2 & H3 & _).
  - vm_compute. reflexivity.
  - exists t, a. split; [exact H1|]. split; [exact H2 | exact H3].
Defined.

Lemma within_bounds_nth (coords : list Q) :
  forall mins maxs,
    within_bounds coords mins maxs = true ->
    forall i x, nth_error coords i = Some x ->
                nth i mins 0 <= x /\ x <= nth i maxs 0.
Proof.
  induction coords as [|c coords IH]; intros mins maxs H i x Hn.
  - destruct i; discriminate.
  - destruct mins as [|lo mins]; [discriminate|].
    destruct maxs as [|hi maxs]; [discriminate|].
    simpl in H.
    destruct (Py.le lo c && Py.le c hi) eqn:E; [|discriminate].
    apply andb_true_iff in E. destruct E as [E1 E2].
    apply Qle_bool_iff in E1, E2.
    destruct i as [|i]; simpl in *.
    + inversion Hn; subst. tauto.
    + apply (IH mins maxs H i x Hn).
Qed.

(** The range the default robot puts on a numeric parameter. *)
Lemma default_range (a : Actuator) (command : CommandDict)
    (p : string) (v : Value) (lo hi : Q) :
  check_params a command = true ->
  Py.get String.eqb (constraints a) p = Some (Range lo hi) ->
  p <> "type" ->
  Py.get String.eqb command p = Some v ->
  exists x, v = VNum x /\ lo <= x /\ x <= hi.
Proof.
  intros Hp Hc Hne Hg. apply get_In_key in Hg.
  unfold check_params in Hp. rewrite forallb_forall in Hp.
  specialize (Hp (p, v) Hg). cbn [fst snd] in Hp.
  destruct (String.eqb p "type") eqn:E;
    [apply String.eqb_eq in E; congruence|].
  rewrite Hc in Hp. cbn [check_constraint] in Hp.
  destruct v as [|x|s|xs]; try discriminate.
  apply andb_true_iff in Hp. destruct Hp as [H1 H2].
  apply Qle_bool_iff in H1, H2. exists x. tauto.
Qed.

(** X12. The default robot accepts only the eight command types of its
    actuators. A MOVE it accepts has a speed, if any, between 0 and 1.5
    and a target that is a name or two or three coordinates, each within
    the operating bounds and no more than 50 (squared: 2500) from the
    origin in the plane; a MANIPULATE it accepts has one of the seven
    listed actions and a force, if any, between 0 and 10. *)
Theorem default_robot_accepts_only_bounded_commands :
  forall (command : CommandDict),
    validate_command create_default_embodiment command = true ->
    exists t,
      Py.get String.eqb command "type" = Some (VStr t) /\
      In t (get_available_commands create_default_embodiment) /\
      (t = "MOVE" ->
       (forall v, Py.get String.eqb command "speed" = Some v ->
                  exists x, v = VNum x /\ 0.0 <= x /\ x <= 1.5) /\
       ((exists s, Py.get String.eqb command "target" = Some (VStr s)) \/
        (exists xs,
           Py.get String.eqb command "target" = Some (VList xs) /\
           (2 <= List.length xs <= 3)%nat /\
           (forall i x, nth_error xs i = Some x ->
                        nth i (fst _get_operating_bounds) 0 <= x
                        /\ x <= nth i (snd _get_operating_bounds) 0) /\
           Registry.squared_distance xs [0.0; 0.0; 0.0] <= 2500))) /\
      (t = "MANIPULATE" ->
       (exists act,
          Py.get String.eqb command "action" = Some (VStr act) /\
          In act ["grasp"; "release"; "push_gently"; "pull_gently"; "lift";
                  "place"; "point"]) /\
       (forall v, Py.get String.eqb command "force" = Some v ->
                  exists f, v = VNum f /\ 0.0 <= f /\ f <= 10.0)).
Proof.
  intros command H.
  destruct (validate_inv _ command H)
    as (t & a & Hg & _ & Hf & Hc & _ & Hp & Hmove & Hman).
  exists t. split; [exact Hg|].
  split.
  { pose proof Hf as Hf'. unfold find_actuator in Hf'.
    apply find_some in Hf'. destruct Hf' as [Hin _].
    unfold get_available_commands. rewrite <- Hc.
    apply in_map. exact Hin. }
  split.
  - intros E. subst t. specialize (Hmove E).
    rewrite E in Hf. cbn in Hf. inversion Hf; subst a. clear Hf.
    split.
    { intros v Hv.
      apply (default_range _ command "speed" v 0.0 1.5 Hp);
        [reflexivity | discriminate | exact Hv]. }
    unfold _validate_move_command in Hmove.
    destruct (Py.get String.eqb command "target") as [[|x|s|xs]|];
      try discriminate.
    + left. exists s. reflexivity.
    + right. exists xs. split; [reflexivity|].
      destruct ((List.length xs <? 2)%nat || (3 <? List.length xs)%nat)
        eqn:El; [discriminate|].
      apply orb_false_iff in El. destruct El as [E1 E2].
      apply Nat.ltb_ge in E1, E2.
      destruct (within_bounds xs (fst _get_operating_bounds)
                              (snd _get_operating_bounds)) eqn:Eb;
        [|discriminate].
      cbn [negb current_position create_default_embodiment] in Hmove.
      split; [lia|]. split; [apply within_bounds_nth; exact Eb|].
      cbn [List.length Nat.leb andb] in Hmove.
      destruct (Py.gt (Registry.squared_distance xs [0.0; 0.0; 0.0]) 2500)
        eqn:Ed; [discriminate|].
      apply gt_false_iff in Ed. exact Ed.
  - intros E. subst t. specialize (Hman E).
    rewrite E in Hf. cbn in Hf. inversion Hf; subst a. clear Hf.
    split.
    + unfold _validate_manipulate_command, Py.get_default in Hman.
      cbn [can_manipulate_objects create_default_embodiment negb] in Hman.
      destruct (Py.get String.eqb command "action") as [act|] eqn:Ha;
        [|discriminate].
      pose proof (get_In_key _ _ _ Ha) as Hin.
      unfold check_params in Hp. rewrite forallb_forall in Hp.
      specialize (Hp _ Hin). cbn in Hp.
      repeat (apply orb_true_iff in Hp; destruct Hp as [Hp|Hp];
              [apply Value_eqb_str_l in Hp; subst act; eexists;
               split; [reflexivity | simpl; tauto]|]).
      discriminate.
    + intros v Hv.
      apply (default_range _ command "force" v 0.0 10.0 Hp);
        [reflexivity | discriminate | exact Hv].
Qed.

(** X12 on a grasp with a force of 4. *)
Lemma default_robot_accepts_only_bounded_commands_witness :
  exists t,
    Py.get String.eqb (to_dict (Scenario.manipulate "grasp" "cup" 4.0)) "type"
    = Some (VStr t) /\
    In t (get_available_commands create_default_embodiment).
Proof.
  destruct (default_robot_accepts_only_bounded_commands
              (to_dict (Scenario.manipulate "grasp" "cup" 4.0)))
    as (t & H1 & H2 & _).
  - vm_compute. reflexivity.
  - exists t. split; [exact H1 | exact H2].
Defined.

End CapabilityFacts.

(** ** The registry and the gate on command dicts *)

Module RuntimeFacts.
Import Embodiment Registry Capability Runtime.

(** *** Sequencing and loops *)

Lemma bind_returned {A B : Type} (r : Result A) (f : A -> Result B) (b : B) :
  bind r f = Returned b -> exists a, r = Returned a /\ f a = Returned b.
Proof.
  destruct r as [a|e]; simpl; [|discriminate].
  intros H. exists a. split; [reflexivity | exact H].
Qed.

Lemma number_returned (v : Value) (x : Q) :
  number v = Returned x -> v = VNum x.
Proof. destruct v; simpl; intros H; inversion H; reflexivity. Qed.

Lemma result_cases {A : Type} (r : Result A) :
  (exists a, r = Returned a) \/ (exists e, r = Raised e).
Proof. destruct r as [a|e]; [left; exists a | right; exists e]; reflexivity. Qed.


(** Loops that keep the greatest value seen. *)
Section MaxLoop.
Context {B : Type} (f : B -> Result Q).

Lemma max_loop_ge_init (xs : list B) :
  forall acc m,
    for_each (fun a x => p <- f x ;; Returned (Qmax a p)) xs acc = Returned m ->
    acc <= m.
Proof.
  induction xs as [|x xs IH]; intros acc m H; simpl in H.
  - inversion H; subst. lra.
  - apply bind_returned in H. destruct H as (a & Ha & H).
    apply bind_returned in Ha.
    destruct Ha as (p & _ & Ha). inversion Ha; subst a.
    eapply Qle_trans; [apply (Q.le_max_l acc p) | apply (IH _ _ H)].
Qed.

Lemma max_loop_ge_elem (xs : list B) (x : B) :
  In x xs ->
  forall acc m,
    for_each (fun a x => p <- f x ;; Returned (Qmax a p)) xs acc = Returned m ->
    exists p, f x = Returned p /\ p <= m.
Proof.
  induction xs as [|y xs IH]; intros Hin acc m H; simpl in *; [contradiction|].
  apply bind_returned in H. destruct H as (a & Ha & H).
  apply bind_returned in Ha.
  destruct Ha as (p & Hp & Ha). inversion Ha; subst a.
  destruct Hin as [->|Hin].
  - exists p. split; [exact Hp|].
    eapply Qle_trans; [apply (Q.le_max_r acc p)|].
    apply (max_loop_ge_init _ _ _ H).
  - apply (IH Hin _ _ H).
Qed.

Lemma max_loop_le (xs : list B) (b : Q) :
  (forall x p, In x xs -> f x = Returned p -> p <= b) ->
  forall acc m,
    acc <= b ->
    for_each (fun a x => p <- f x ;; Returned (Qmax a p)) xs acc = Returned m ->
    m <= b.
Proof.
  induction xs as [|x xs IH]; intros Hf acc m Hacc H; simpl in H.
  - inversion H; subst. exact Hacc.
  - apply bind_returned in H. destruct H as (a & Ha & H).
    apply bind_returned in Ha.
    destruct Ha as (p & Hp & Ha). inversion Ha; subst a.
    apply (IH (fun y q Hy => Hf y q (or_intror Hy)) (Qmax acc p) m);
      [|exact H].
    apply Q.max_lub; [exact Hacc|].
    apply (Hf x p (or_introl eq_refl) Hp).
Qed.


End MaxLoop.

(** *** Squares within the range of a float *)

Lemma limits :
  0 <= COORDINATE_LIMIT /\
  2 * COORDINATE_LIMIT < FLOAT_OVERFLOW /\
  (2 * COORDINATE_LIMIT) * (2 * COORDINATE_LIMIT) < FLOAT_OVERFLOW.
Proof.
  split; [vm_compute; discriminate|].
  split; vm_compute; reflexivity.
Qed.

Lemma out_of_range_false (x : Q) :
  Qabs x < FLOAT_OVERFLOW -> out_of_range x = false.
Proof.
  intros H. unfold out_of_range, Py.ge, Py.abs.
  destruct (Qle_bool FLOAT_OVERFLOW (Qabs x)) eqn:E; [|reflexivity].
  apply Qle_bool_iff in E. lra.
Qed.

Lemma square_returned (x s : Q) : square x = Returned s -> s = x ^ 2.
Proof.
  unfold square. destruct (out_of_range x);
    [|destruct (out_of_range (x ^ 2))]; intros H; inversion H; reflexivity.
Qed.

Lemma square_moderate (a b : Q) :
  Qabs a <= COORDINATE_LIMIT -> Qabs b <= COORDINATE_LIMIT ->
  square (a - b) = Returned ((a - b) ^ 2).
Proof.
  intros Ha Hb. destruct limits as (L0 & L1 & L2).
  assert (Hd : Qabs (a - b) <= 2 * COORDINATE_LIMIT).
  { eapply Qle_trans; [apply (Qabs_triangle a (- b))|].
    rewrite Qabs_opp. lra. }
  pose proof (Qabs_nonneg (a - b)) as H0.
  assert (Hs : Qabs ((a - b) ^ 2) < FLOAT_OVERFLOW).
  { assert (E : (a - b) ^ 2 == (a - b) * (a - b)) by (simpl; ring).
    rewrite E, Qabs_Qmult.
    eapply Qle_lt_trans; [|exact L2].
    apply Qmult_le_compat_nonneg; split; assumption. }
  unfold square.
  rewrite (out_of_range_false (a - b)) by lra.
  rewrite (out_of_range_false _ Hs). reflexivity.
Qed.

Lemma moderate_In (xs : list Q) (x : Q) :
  moderate xs = true -> In x xs -> Qabs x <= COORDINATE_LIMIT.
Proof.
  unfold moderate. intros H Hin.
  rewrite forallb_forall in H. specialize (H x Hin).
  apply Qle_bool_iff in H. exact H.
Qed.

Lemma squared_loop_returned (l : list (Q * Q)) :
  forall acc d,
    for_each (fun acc ab => sq <- square (fst ab - snd ab) ;;
                            Returned (acc + sq)) l acc = Returned d ->
    d = fold_left (fun acc ab => acc + (fst ab - snd ab) ^ 2) l acc.
Proof.
  induction l as [|ab l IH]; intros acc d H; simpl in H.
  - inversion H. reflexivity.
  - apply bind_returned in H. destruct H as (a & Ha & H).
    apply bind_returned in Ha. destruct Ha as (sq & Hsq & Ha).
    apply square_returned in Hsq. inversion Ha; subst a sq.
    simpl. apply IH. exact H.
Qed.

(** What the sum of squares returns is the exact sum. *)
Lemma squared_distance_returned (tgt pos : list Q) (d : Q) :
  squared_distance tgt pos = Returned d ->
  d = Registry.squared_distance tgt pos.
Proof. apply squared_loop_returned. Qed.

Lemma squared_loop_moderate (l : list (Q * Q)) :
  (forall ab, In ab l -> Qabs (fst ab) <= COORDINATE_LIMIT
                         /\ Qabs (snd ab) <= COORDINATE_LIMIT) ->
  forall acc,
    for_each (fun acc ab => sq <- square (fst ab - snd ab) ;;
                            Returned (acc + sq)) l acc
    = Returned (fold_left (fun acc ab => acc + (fst ab - snd ab) ^ 2) l acc).
Proof.
  induction l as [|ab l IH]; intros Hl acc; simpl; [reflexivity|].
  destruct (Hl ab (or_introl eq_refl)) as [Ha Hb].
  rewrite (square_moderate _ _ Ha Hb). simpl.
  apply IH. intros ab' Hab'. apply Hl. right. exact Hab'.
Qed.

(** Between points at moderate coordinates the sum of squares returns. *)
Lemma squared_distance_moderate (tgt pos : list Q) :
  moderate tgt = true -> moderate pos = true ->
  squared_distance tgt pos = Returned (Registry.squared_distance tgt pos).
Proof.
  intros Ht Hp. apply squared_loop_moderate.
  intros [a b] Hab. simpl. split.
  - apply (moderate_In tgt); [exact Ht|].
    apply (In_firstn 2). apply (in_combine_l _ _ _ _ Hab).
  - apply (moderate_In pos); [exact Hp|].
    apply (In_firstn 2). apply (in_combine_r _ _ _ _ Hab).
Qed.

(** *** The lethal estimate *)





Lemma lethal_inv (cmds : list CommandDict) (st : EmbodimentState) (p : Q) :
  _check_lethal_action cmds st = Returned p ->
  (filter is_HUMAN (detected_entities st) = [] /\ p = 0.0) \/
  (filter is_HUMAN (detected_entities st) <> [] /\
   exists m,
     for_each (fun a cmd =>
                 q <- command_probability (hazard_flags st)
                        (filter is_HUMAN (detected_entities st)) cmd ;;
                 Returned (Qmax a q)) cmds 0.0 = Returned m /\
     p = adjusted st (filter is_HUMAN (detected_entities st)) m).
Proof.
  unfold _check_lethal_action.
  destruct (filter is_HUMAN (detected_entities st)) as [|h0 hs] eqn:Hh.
  - intros H. inversion H. left. split; reflexivity.
  - intros H. right. split; [discriminate|].
    apply bind_returned in H. destruct H as (m & Hm & H).
    exists m. split; [exact Hm|]. inversion H. reflexivity.
Qed.


Lemma confidence_fold_mono (hs : list DetectedEntity) :
  forall p p', p <= p' ->
    fold_left confidence_step hs p <= fold_left confidence_step hs p'.
Proof.
  induction hs as [|h hs IH]; intros p p' Hp; simpl; [exact Hp|].
  apply IH. unfold confidence_step.
  destruct (Py.lt (Embodiment.confidence h) 0.7); [|exact Hp].
  apply Q.min_le_compat_l. lra.
Qed.

Lemma adjusted_mono (st : EmbodimentState) (humans : list DetectedEntity)
    (m m' : Q) :
  m <= m' -> adjusted st humans m <= adjusted st humans m'.
Proof.
  intros Hm. unfold adjusted. apply confidence_fold_mono.
  destruct (Py.gt (get_num (uncertainty (environment st)) 0) 0.3);
    [|exact Hm].
  apply Q.min_le_compat_l. lra.
Qed.


(** *** When the registry returns *)












(** *** What the registry raises *)

Lemma bind_raised {A B : Type} (r : Result A) (f : A -> Result B)
    (e : string) :
  bind r f = Raised e ->
  r = Raised e \/ exists a, r = Returned a /\ f a = Raised e.
Proof.
  destruct r as [a|e']; simpl; intros H.
  - right. exists a. split; [reflexivity | exact H].
  - left. inversion H. reflexivity.
Qed.

Lemma for_each_raised {A B : Type} (body : A -> B -> Result A)
    (xs : list B) (e : string) :
  forall acc, for_each body xs acc = Raised e ->
              exists x acc', In x xs /\ body acc' x = Raised e.
Proof.
  induction xs as [|x xs IH]; intros acc H; simpl in H; [discriminate|].
  apply bind_raised in H. destruct H as [H|(a & _ & H)].
  - exists x, acc. split; [left; reflexivity | exact H].
  - destruct (IH a H) as (y & acc' & Hy & Hb).
    exists y, acc'. split; [right; exact Hy | exact Hb].
Qed.


Lemma squared_distance_raised (tgt pos : list Q) (e : string) :
  squared_distance tgt pos = Raised e -> e = "OverflowError".
Proof.
  unfold squared_distance. intros H.
  apply for_each_raised in H. destruct H as ([a b] & acc & _ & H).
  apply bind_raised in H. destruct H as [H|(sq & _ & H)]; [|discriminate].
  unfold square in H.
  destruct (out_of_range _); [discriminate|].
  destruct (out_of_range _); inversion H; reflexivity.
Qed.









(** *** Children *)


(** A command on which the loop over the children says yes decides the
    loop over the commands, if that returns. *)
Lemma child_command_loop_hit (cp : bool) (children : list DetectedEntity)
    (cmds : list CommandDict) (cmd : CommandDict) :
  In cmd cmds ->
  child_loop cp cmd children = Returned true ->
  forall b, child_command_loop cp children cmds = Returned b -> b = true.
Proof.
  intros Hin Hhit.
  induction cmds as [|c cmds IH]; intros b H; simpl in *; [contradiction|].
  apply bind_returned in H. destruct H as (hit & Hc & H).
  destruct hit; [inversion H; reflexivity|].
  destruct Hin as [->|Hin]; [congruence|].
  apply (IH Hin b H).
Qed.






(** *** Refusals *)

(** Adding commands never lowers the lethal estimate. *)
Lemma lethal_mono (cmds cmds' : list CommandDict) (st : EmbodimentState)
    (p p' : Q) :
  incl cmds cmds' ->
  _check_lethal_action cmds st = Returned p ->
  _check_lethal_action cmds' st = Returned p' ->
  p <= p'.
Proof.
  intros Hincl H H'.
  destruct (lethal_inv cmds st p H) as [[E ->]|(Hne & m & Hm & ->)];
    destruct (lethal_inv cmds' st p' H') as [[E' ->]|(Hne' & m' & Hm' & ->)];
    try congruence; [lra|].
  apply adjusted_mono.
  apply (max_loop_le
           (command_probability (hazard_flags st)
              (filter is_HUMAN (detected_entities st))) cmds m')
    with (acc := 0.0); [| |exact Hm].
  - intros x q Hx Hq.
    destruct (max_loop_ge_elem _ cmds' x (Hincl x Hx) _ _ Hm')
      as (q' & Hq' & Hle).
    rewrite Hq in Hq'. inversion Hq'; subst q'. exact Hle.
  - apply (max_loop_ge_init _ _ _ _ Hm').
Qed.

Lemma child_command_loop_inv (cp : bool) (children : list DetectedEntity)
    (cmds : list CommandDict) :
  child_command_loop cp children cmds = Returned true ->
  exists cmd, In cmd cmds /\ child_loop cp cmd children = Returned true.
Proof.
  induction cmds as [|c cmds IH]; intros H; cbn [child_command_loop] in H;
    [discriminate|].
  apply bind_returned in H. destruct H as (hit & Hc & H).
  destruct hit.
  - exists c. split; [left; reflexivity | exact Hc].
  - destruct (IH H) as (cmd & Hin & Hcmd).
    exists cmd. split; [right; exact Hin | exact Hcmd].
Qed.

Lemma child_harm_mono (cmds cmds' : list CommandDict) (st : EmbodimentState) :
  incl cmds cmds' ->
  _check_child_harm cmds st = Returned true ->
  forall b, _check_child_harm cmds' st = Returned b -> b = true.
Proof.
  intros Hincl. unfold _check_child_harm.
  destruct (filter _is_child (detected_entities st)); [discriminate|].
  intros H b. destruct (child_command_loop_inv _ _ _ H) as (cmd & Hin & Hcmd).
  apply (child_command_loop_hit _ _ cmds' cmd (Hincl cmd Hin) Hcmd).
Qed.

Lemma existsb_incl {A : Type} (f : A -> bool) (l l' : list A) :
  incl l l' -> existsb f l = true -> existsb f l' = true.
Proof.
  intros Hincl H. apply existsb_exists in H. destruct H as (x & Hx & Hf).
  apply existsb_exists. exists x. split; [apply Hincl, Hx | exact Hf].
Qed.

(** Whatever the registry returns for a list with a weapon command or
    with a deceiving one is a violation. *)
Lemma check_all_hit (cmds : list CommandDict) (st : EmbodimentState) :
  _check_weapon_assistance cmds st = true
  \/ _check_identity_deception cmds st = true ->
  forall r, check_all cmds st = Returned r -> r <> None.
Proof.
  intros Hhit r H. unfold check_all in H.
  destruct (_check_human_override st); [inversion H; discriminate|].
  apply bind_returned in H. destruct H as (p & _ & H).
  destruct (Py.gt p LETHAL_PROBABILITY_THRESHOLD);
    [inversion H; discriminate|].
  apply bind_returned in H. destruct H as (c & _ & H).
  destruct c; [inversion H; discriminate|].
  destruct (_check_weapon_assistance cmds st);
    [inversion H; discriminate|].
  destruct Hhit as [Hw|Hi]; [discriminate|].
  rewrite Hi in H. inversion H. discriminate.
Qed.

(** A violation found for a list is found, or an exception raised, for
    every list that contains it. *)
Lemma check_all_mono (cmds cmds' : list CommandDict) (st : EmbodimentState)
    (v : UndeliberableViolation) :
  incl cmds cmds' ->
  check_all cmds st = Returned (Some v) ->
  forall r, check_all cmds' st = Returned r -> r <> None.
Proof.
  intros Hincl H r H'. unfold check_all in H, H'.
  destruct (_check_human_override st); [inversion H'; discriminate|].
  apply bind_returned in H. destruct H as (p & Hp & H).
  apply bind_returned in H'. destruct H' as (p' & Hp' & H').
  pose proof (lethal_mono cmds cmds' st p p' Hincl Hp Hp') as Hle.
  destruct (Py.gt p' LETHAL_PROBABILITY_THRESHOLD) eqn:L';
    [inversion H'; discriminate|].
  apply gt_false_iff in L'.
  destruct (Py.gt p LETHAL_PROBABILITY_THRESHOLD) eqn:L.
  { apply gt_true_iff in L. lra. }
  apply bind_returned in H. destruct H as (c & Hc & H).
  apply bind_returned in H'. destruct H' as (c' & Hc' & H').
  destruct c' ; [inversion H'; discriminate|].
  destruct c.
  { pose proof (child_harm_mono cmds cmds' st Hincl Hc false Hc').
    discriminate. }
  destruct (_check_weapon_assistance cmds st) eqn:W.
  { unfold _check_weapon_assistance in W, H'.
    rewrite (existsb_incl _ _ _ Hincl W) in H'. inversion H'. discriminate. }
  destruct (_check_weapon_assistance cmds' st);
    [inversion H'; discriminate|].
  destruct (_check_identity_deception cmds st) eqn:I; [|discriminate].
  unfold _check_identity_deception in I, H'.
  rewrite (existsb_incl _ _ _ Hincl I) in H'. inversion H'. discriminate.
Qed.

(** A halted layer, and a registry that finds a violation or raises,
    let nothing be executed. *)
Lemma refused (self : EmbodimentLayer) (cmds : list CommandDict) :
  _halted self = true
  \/ (forall r, check_all cmds (get_current_state self) = Returned r ->
                r <> None) ->
  untouched self (fst (execute_commands self cmds))
            (snd (execute_commands self cmds)).
Proof.
  intros H. unfold execute_commands, untouched.
  destruct (_halted self).
  { cbn [fst snd]. repeat (split; [reflexivity|]).
    intros answer E. inversion E. repeat split. }
  destruct H as [H|H]; [discriminate|].
  destruct (check_all cmds (get_current_state self)) as [[v|]|e].
  - destruct (response (undeliberable v)); cbn [fst snd log_violation
      _commands_executed _commands_rejected _motor_state _current_time].
    + repeat (split; [reflexivity|]).
      intros answer E. inversion E. repeat split.
    + split; [reflexivity|]. split; [reflexivity|].
      split; [apply EntityFacts.get_set_other; discriminate|].
      split; [reflexivity|].
      intros answer E. inversion E. repeat split.
  - exfalso. apply (H None); reflexivity.
  - cbn [fst snd]. repeat (split; [reflexivity|]).
    intros answer E. discriminate.
Qed.

Lemma blocked_inv (self : EmbodimentLayer) (cmds : list CommandDict)
    (answer : ExecResult) :
  snd (execute_commands self cmds) = Returned answer ->
  blocked answer = true ->
  _halted self = true
  \/ exists v, check_all cmds (get_current_state self) = Returned (Some v).
Proof.
  unfold execute_commands.
  destruct (_halted self); [left; reflexivity|].
  destruct (check_all cmds (get_current_state self)) as [[v|]|e].
  - intros _ _. right. exists v. reflexivity.
  - destruct (execute_loop self [] cmds) as [after [rs|e]]; cbn [snd];
      intros E; inversion E; subst answer. cbn [blocked]. discriminate.
  - cbn [snd]. discriminate.
Qed.

(** X4. A refusal cannot be lifted by adding, repeating or reordering
    commands: if the layer refuses a command list, then on every list
    that contains all commands of the first it refuses again or raises
    an exception out of the registry; it executes none of the commands
    and stays where it is. *)
Theorem added_commands_cannot_lift_a_block :
  forall (self : EmbodimentLayer) (cmds cmds' : list CommandDict)
         (answer : ExecResult),
    (forall cmd, In cmd cmds -> In cmd cmds') ->
    snd (execute_commands self cmds) = Returned answer ->
    blocked answer = true ->
    untouched self (fst (execute_commands self cmds'))
              (snd (execute_commands self cmds')).
Proof.
  intros self cmds cmds' answer Hincl Ha Hb. apply refused.
  destruct (blocked_inv self cmds answer Ha Hb) as [H|[v Hv]];
    [left; exact H|].
  right. apply (check_all_mono cmds cmds' _ v Hincl Hv).
Qed.

(** X4 on test 2b: restraining the lone child is refused, and so is
    greeting first and restraining afterwards. *)
Lemma added_commands_cannot_lift_a_block_witness :
  let self := add_entity (init create_default_embodiment) Scenario.child_1 in
  let cmds := [manipulate "restrain" "child_1" 5.0] in
  let cmds' := [speak (VStr "Hello"); manipulate "restrain" "child_1" 5.0] in
  untouched self (fst (execute_commands self cmds'))
            (snd (execute_commands self cmds')).
Proof.
  intros self cmds cmds'.
  apply (added_commands_cannot_lift_a_block self cmds cmds'
           (refusal (Some "lethal_action") false)).
  - intros cmd [H|[]]. right. left. exact H.
  - vm_compute. reflexivity.
  - reflexivity.
Defined.

(** X5. A command list in which some SPEAK command claims to be human,
    in any letter case, or denies being a machine while an identity
    question is pending, is never executed, whatever else the list and
    the scene hold: the layer refuses it, unless an exception comes out
    of the registry first, and in either case nothing is spoken,
    executed or counted. *)
Theorem identity_deception_is_never_spoken :
  forall (self : EmbodimentLayer) (cmds : list CommandDict)
         (cmd : CommandDict),
    In cmd cmds ->
    Py.get String.eqb cmd "type" = Some (VStr "SPEAK") ->
    Py.any_in HUMAN_CLAIMS (text_of cmd "message") = true
    \/ (identity_question_pending (_environment self) = true
        /\ Py.any_in DENIAL_PATTERNS (text_of cmd "message") = true) ->
    untouched self (fst (execute_commands self cmds))
              (snd (execute_commands self cmds)).
Proof.
  intros self cmds cmd Hin Ht Hd. apply refused. right.
  apply check_all_hit. right.
  unfold _check_identity_deception. apply existsb_exists.
  exists cmd. split; [exact Hin|].
  unfold deception_command, get_type, Py.get_default. rewrite Ht.
  change (is_type (VStr "SPEAK") "SPEAK") with true. cbv iota.
  cbn [get_current_state environment].
  destruct Hd as [Hd|[Hq Hd]].
  - rewrite Hd. reflexivity.
  - rewrite Hd, Hq. destruct (Py.any_in HUMAN_CLAIMS _); reflexivity.
Qed.

(** X5 on a sentence in capitals among other commands. *)
Lemma identity_deception_is_never_spoken_witness :
  let self := init create_default_embodiment in
  let cmds := [move [5.0; 3.0] 1.0; speak (VStr "Trust me, I AM HUMAN")] in
  untouched self (fst (execute_commands self cmds))
            (snd (execute_commands self cmds)).
Proof.
  intros self cmds.
  apply (identity_deception_is_never_spoken self cmds
           (speak (VStr "Trust me, I AM HUMAN"))).
  - right. left. reflexivity.
  - reflexivity.
  - left. vm_compute. reflexivity.
Defined.

(** X6. A command list is never executed when one of its commands is a
    MANIPULATE whose target text holds a weapon keyword, or a SPEAK or
    DISPLAY whose text holds both an instruction word and a weapon
    keyword, in any letter case: the layer refuses it, unless an
    exception comes out of the registry first, and in either case
    nothing is executed or counted. *)
Theorem weapon_assistance_is_never_executed :
  forall (self : EmbodimentLayer) (cmds : list CommandDict)
         (cmd : CommandDict),
    In cmd cmds ->
    (Py.get String.eqb cmd "type" = Some (VStr "MANIPULATE")
     /\ Py.any_in WEAPON_KEYWORDS (text_of cmd "target") = true)
    \/ (Py.get String.eqb cmd "type" = Some (VStr "SPEAK")
        /\ _contains_weapon_instructions (text_of cmd "message") = true)
    \/ (Py.get String.eqb cmd "type" = Some (VStr "DISPLAY")
        /\ _contains_weapon_instructions (text_of cmd "content") = true) ->
    untouched self (fst (execute_commands self cmds))
              (snd (execute_commands self cmds)).
Proof.
  intros self cmds cmd Hin Hw. apply refused. right.
  apply check_all_hit. left.
  unfold _check_weapon_assistance. apply existsb_exists.
  exists cmd. split; [exact Hin|].
  unfold weapon_command, get_type, Py.get_default.
  destruct Hw as [[Ht Hk]|[[Ht Hk]|[Ht Hk]]]; rewrite Ht.
  - change (is_type (VStr "MANIPULATE") "MANIPULATE") with true.
    rewrite Hk, orb_true_r. reflexivity.
  - change (is_type (VStr "SPEAK") "MANIPULATE") with false.
    change (is_type (VStr "SPEAK") "SPEAK") with true.
    rewrite Hk. reflexivity.
  - change (is_type (VStr "DISPLAY") "MANIPULATE") with false.
    change (is_type (VStr "DISPLAY") "SPEAK") with false.
    change (is_type (VStr "DISPLAY") "DISPLAY") with true.
    rewrite Hk. reflexivity.
Qed.

(** X6 on picking up a rifle no sensor has reported. *)
Lemma weapon_assistance_is_never_executed_witness :
  let self := init create_default_embodiment in
  let cmds := [manipulate "grasp" "the Rifle on the table" 1.0] in
  untouched self (fst (execute_commands self cmds))
            (snd (execute_commands self cmds)).
Proof.
  intros self cmds.
  apply (weapon_assistance_is_never_executed self cmds
           (manipulate "grasp" "the Rifle on the table" 1.0)).
  - left. reflexivity.
  - left. split; [reflexivity | vm_compute; reflexivity].
Defined.

(** *** The execution loop *)

(** What executing one validated command keeps, raising or not. *)
Lemma single_keeps (self : EmbodimentLayer) (cmd : CommandDict) :
  let r := _execute_single_command self cmd in
  _virtual (fst r) = _virtual self /\
  _commands_executed (fst r) = _commands_executed self /\
  _commands_rejected (fst r) = _commands_rejected self /\
  _undeliberable_violations (fst r) = _undeliberable_violations self /\
  _environment (fst r) = _environment self /\
  _detected_entities (fst r) = _detected_entities self /\
  _halted (fst r) = _halted self.
Proof.
  unfold _execute_single_command.
  repeat match goal with
         | |- context [if ?b then _ else _] => destruct b
         end;
    try (destruct (number _)); repeat split.
Qed.

Lemma is_type_other (v : Value) (a b : string) :
  is_type v a = true -> a <> b -> is_type v b = false.
Proof.
  unfold is_type. destruct v; try discriminate. cbn [Value_eqb].
  intros H Hne. apply String.eqb_eq in H. subst s.
  apply String.eqb_neq. exact Hne.
Qed.

(** It returns exactly on the executable commands, and then under the
    command's own type. *)
Lemma single_returns (self : EmbodimentLayer) (cmd : CommandDict) :
  (executable cmd = true ->
   exists r, snd (_execute_single_command self cmd) = Returned r
             /\ command r = type_or_unknown cmd) /\
  (executable cmd = false ->
   snd (_execute_single_command self cmd) = Raised "TypeError").
Proof.
  unfold _execute_single_command, executable, sliced.
  destruct (is_type (type_or_unknown cmd) "MOVE") eqn:M.
  { rewrite (is_type_other _ _ "SPEAK" M), (is_type_other _ _ "WAIT" M)
      by discriminate.
    split; [|discriminate]. intros _. eexists. split; reflexivity. }
  destruct (is_type (type_or_unknown cmd) "STOP") eqn:St.
  { rewrite (is_type_other _ _ "SPEAK" St), (is_type_other _ _ "WAIT" St)
      by discriminate.
    split; [|discriminate]. intros _. eexists. split; reflexivity. }
  destruct (is_type (type_or_unknown cmd) "ROTATE") eqn:R.
  { rewrite (is_type_other _ _ "SPEAK" R), (is_type_other _ _ "WAIT" R)
      by discriminate.
    split; [|discriminate]. intros _. eexists. split; reflexivity. }
  destruct (is_type (type_or_unknown cmd) "SPEAK") eqn:S.
  { destruct (subscriptable _); cbn [bind snd]; split;
      try discriminate; try reflexivity.
    intros _. eexists. split; reflexivity. }
  destruct (is_type (type_or_unknown cmd) "DISPLAY"
            || is_type (type_or_unknown cmd) "MANIPULATE"
            || is_type (type_or_unknown cmd) "ALERT") eqn:D.
  { assert (W : is_type (type_or_unknown cmd) "WAIT" = false).
    { apply orb_true_iff in D. destruct D as [D|D];
        [apply orb_true_iff in D; destruct D as [D|D]|];
        apply (is_type_other _ _ _ D); discriminate. }
    rewrite W. split; [|discriminate].
    intros _. eexists. split; reflexivity. }
  destruct (is_type (type_or_unknown cmd) "WAIT") eqn:W.
  { destruct (Py.get_default String.eqb cmd "duration" (VNum 1.0));
      cbn [number is_number snd]; split; try discriminate; try reflexivity;
      intros _; eexists; split; reflexivity. }
  split; [|discriminate]. intros _. eexists. split; reflexivity.
Qed.

(** One round of the loop returns exactly on the commands that run. *)
Lemma executable_cases (cmd : CommandDict) :
  executable cmd = true \/ executable cmd = false.
Proof. destruct (executable cmd); [left | right]; reflexivity. Qed.

(** What the loop keeps, raising or not. *)
Lemma execute_loop_keeps (cmds : list CommandDict) :
  forall self rs,
    let r := execute_loop self rs cmds in
    _virtual (fst r) = _virtual self /\
    _undeliberable_violations (fst r) = _undeliberable_violations self /\
    _environment (fst r) = _environment self /\
    _detected_entities (fst r) = _detected_entities self /\
    _halted (fst r) = _halted self.
Proof.
  induction cmds as [|cmd cmds IH]; intros self rs; cbn [execute_loop];
    [repeat split|].
  destruct (validate_command (_virtual self) cmd) as [[|]|e];
    [| |repeat split].
  - destruct (single_keeps self cmd) as (K1 & _ & _ & K4 & K5 & K6 & K7).
    destruct (_execute_single_command self cmd) as [self' [x|e]];
      cbn [fst] in *; [|repeat split; assumption].
    destruct (IH (count_executed self') (rs ++ [x])%list)
      as (I1 & I4 & I5 & I6 & I7).
    cbn [count_executed _virtual _undeliberable_violations _environment
         _detected_entities _halted] in *.
    repeat split; congruence.
  - destruct (IH (count_rejected self)
                 (rs ++ [done (type_or_unknown cmd) false])%list)
      as (I1 & I4 & I5 & I6 & I7).
    cbn [count_rejected _virtual _undeliberable_violations _environment
         _detected_entities _halted] in *.
    repeat split; assumption.
Qed.

(** What the loop has done when it returns. *)
Lemma execute_loop_returned (ve : VirtualEmbodiment)
    (cmds : list CommandDict) :
  forall self rs after out,
    _virtual self = ve ->
    execute_loop self rs cmds = (after, Returned out) ->
    forallb (runs ve) cmds = true /\
    map command out = (map command rs ++ map type_or_unknown cmds)%list /\
    _commands_executed after
    = (_commands_executed self + Py.count (accepts ve) cmds)%nat /\
    (_commands_executed after + _commands_rejected after
     = _commands_executed self + _commands_rejected self
       + List.length cmds)%nat.
Proof.
  induction cmds as [|cmd cmds IH]; intros self rs after out Hve H;
    cbn [execute_loop] in H.
  - inversion H; subst. unfold Py.count. cbn. rewrite app_nil_r.
    repeat split; lia.
  - rewrite Hve in H. unfold Py.count. cbn [forallb filter map List.length].
    unfold runs at 1, accepts at 1.
    destruct (validate_command ve cmd) as [[|]|e]; [| |discriminate].
    + destruct (single_keeps self cmd) as (K1 & K2 & K3 & _).
      destruct (executable_cases cmd) as [E|E].
      * destruct (proj1 (single_returns self cmd) E) as (x & Hx & Hc).
        destruct (_execute_single_command self cmd) as [self' r];
          cbn [fst snd] in *. subst r.
        destruct (IH (count_executed self') (rs ++ [x])%list after out)
          as (I1 & I2 & I3 & I4); [cbn; congruence | exact H |].
        cbn [count_executed _commands_executed _commands_rejected] in *.
        rewrite E, I1. split; [reflexivity|].
        split; [rewrite I2, map_app, <- app_assoc, <- Hc; reflexivity|].
        unfold Py.count in I3. cbn [List.length]. split; lia.
      * pose proof (proj2 (single_returns self cmd) E) as Hx.
        destruct (_execute_single_command self cmd) as [self' r];
          cbn [snd] in Hx. subst r. discriminate.
    + destruct (IH (count_rejected self)
                   (rs ++ [done (type_or_unknown cmd) false])%list after out)
        as (I1 & I2 & I3 & I4); [cbn; exact Hve | exact H |].
      cbn [count_rejected _commands_executed _commands_rejected] in *.
      rewrite I1. split; [reflexivity|].
      split; [rewrite I2, map_app, <- app_assoc; reflexivity|].
      unfold Py.count in I3. split; lia.
Qed.

(** The loop returns when every command runs. *)
Lemma execute_loop_returns (ve : VirtualEmbodiment)
    (cmds : list CommandDict) :
  forallb (runs ve) cmds = true ->
  forall self rs,
    _virtual self = ve ->
    exists after out, execute_loop self rs cmds = (after, Returned out).
Proof.
  induction cmds as [|cmd cmds IH]; intros Hr self rs Hve;
    cbn [execute_loop].
  - eexists. eexists. reflexivity.
  - cbn [forallb] in Hr. apply andb_true_iff in Hr. destruct Hr as [Hc Hr].
    rewrite Hve. unfold runs in Hc.
    destruct (validate_command ve cmd) as [[|]|e]; [| |discriminate].
    + destruct (single_keeps self cmd) as (K1 & _).
      destruct (proj1 (single_returns self cmd) Hc) as (x & Hx & _).
      destruct (_execute_single_command self cmd) as [self' r];
        cbn [fst snd] in *. subst r.
      apply (IH Hr). cbn. congruence.
    + apply (IH Hr). cbn. exact Hve.
Qed.

(** The loop raises nothing but what validation raises, or TypeError. *)
Lemma execute_loop_raised (ve : VirtualEmbodiment)
    (cmds : list CommandDict) :
  forall self rs after e,
    _virtual self = ve ->
    execute_loop self rs cmds = (after, Raised e) ->
    e = "TypeError"
    \/ exists cmd, In cmd cmds /\ validate_command ve cmd = Raised e.
Proof.
  induction cmds as [|cmd cmds IH]; intros self rs after e Hve H;
    cbn [execute_loop] in H; [discriminate|].
  rewrite Hve in H.
  destruct (validate_command ve cmd) as [[|]|e'] eqn:V.
  - destruct (single_keeps self cmd) as (K1 & _).
    destruct (executable_cases cmd) as [E|E].
    + destruct (proj1 (single_returns self cmd) E) as (x & Hx & _).
      destruct (_execute_single_command self cmd) as [self' r];
        cbn [fst snd] in *. subst r.
      destruct (IH (count_executed self') (rs ++ [x])%list after e)
        as [T|(c & Hc & Hv)]; [cbn; congruence | exact H | left; exact T |].
      right. exists c. split; [right; exact Hc | exact Hv].
    + pose proof (proj2 (single_returns self cmd) E) as Hx.
      destruct (_execute_single_command self cmd) as [self' r];
        cbn [snd] in Hx. subst r. inversion H. left. reflexivity.
  - destruct (IH (count_rejected self)
                 (rs ++ [done (type_or_unknown cmd) false])%list after e)
      as [T|(c & Hc & Hv)]; [cbn; exact Hve | exact H | left; exact T |].
    right. exists c. split; [right; exact Hc | exact Hv].
  - inversion H; subst. right. exists cmd.
    split; [left; reflexivity | exact V].
Qed.


(** *** Halting *)

(** Only the override violation halts. *)
Lemma check_all_response (cmds : list CommandDict) (st : EmbodimentState)
    (v : UndeliberableViolation) :
  check_all cmds st = Returned (Some v) ->
  response (undeliberable v)
  = if _check_human_override st then IMMEDIATE_HALT else HARD_STOP.
Proof.
  unfold check_all.
  destruct (_check_human_override st);
    [intros H; inversion H; reflexivity|].
  intros H. apply bind_returned in H. destruct H as (p & _ & H).
  destruct (Py.gt p LETHAL_PROBABILITY_THRESHOLD);
    [inversion H; reflexivity|].
  apply bind_returned in H. destruct H as (c & _ & H).
  destruct c; [inversion H; reflexivity|].
  destruct (_check_weapon_assistance cmds st); [inversion H; reflexivity|].
  destruct (_check_identity_deception cmds st);
    [inversion H; reflexivity | discriminate].
Qed.

Lemma check_all_override (cmds : list CommandDict) (st : EmbodimentState) :
  _check_human_override st = true ->
  check_all cmds st = Returned (Some (violation HUMAN_OVERRIDE cmds)).
Proof. intros H. unfold check_all. rewrite H. reflexivity. Qed.

(** X7. Only a human override ever halts the layer: after a call to
    [execute_commands], returned from or left by an exception, the layer
    is halted exactly when it was halted before or one of the three
    override flags is up; a lethal, child, weapon or identity refusal
    leaves it running, and so does an exception. The answer, if there is
    one, reports a halt exactly when the call has brought one about. The
    violation log gains the violation the registry returns, and nothing
    when it returns none, when it raises or when the layer was halted
    already. *)
Theorem only_a_human_override_halts :
  forall (self : EmbodimentLayer) (cmds : list CommandDict),
    let r := execute_commands self cmds in
    _halted (fst r)
    = _halted self || _check_human_override (get_current_state self) /\
    (forall answer, snd r = Returned answer ->
       halted answer
       = negb (_halted self)
         && _check_human_override (get_current_state self)) /\
    _undeliberable_violations (fst r)
    = (_undeliberable_violations self
       ++ if _halted self then []
          else match check_all cmds (get_current_state self) with
               | Returned (Some v) => [v]
               | _ => []
               end)%list.
Proof.
  intros self cmds r. subst r. unfold execute_commands.
  destruct (_halted self) eqn:Hh.
  { cbn [fst snd orb negb andb]. rewrite app_nil_r.
    split; [exact Hh|]. split; [|reflexivity].
    intros answer E. inversion E. reflexivity. }
  cbn [orb negb andb].
  destruct (_check_human_override (get_current_state self)) eqn:Hov.
  { rewrite (check_all_override cmds _ Hov). cbn.
    split; [reflexivity|]. split; [|reflexivity].
    intros answer E. inversion E. reflexivity. }
  destruct (check_all cmds (get_current_state self)) as [[v|]|e] eqn:Hc.
  - rewrite (check_all_response cmds _ v Hc), Hov. cbn.
    split; [exact Hh|]. split; [|reflexivity].
    intros answer E. inversion E. reflexivity.
  - destruct (execute_loop_keeps cmds self []) as (_ & K4 & _ & _ & K7).
    destruct (execute_loop self [] cmds) as [after [rs|e]];
      cbn [fst snd] in *; rewrite app_nil_r.
    + split; [congruence|]. split; [|exact K4].
      intros answer E. inversion E. reflexivity.
    + split; [congruence|]. split; [|exact K4]. discriminate.
  - cbn [fst snd]. rewrite app_nil_r.
    split; [exact Hh|]. split; [discriminate | reflexivity].
Qed.

Lemma halted_after_clear (self : EmbodimentLayer) (cmds : list CommandDict) :
  _halted (fst (execute_commands (clear_halt self) cmds)) = false /\
  forall answer,
    snd (execute_commands (clear_halt self) cmds) = Returned answer ->
    halted answer = false.
Proof.
  unfold execute_commands. cbn [_halted clear_halt].
  destruct (check_all cmds (get_current_state (clear_halt self)))
    as [[v|]|e] eqn:Hc.
  - rewrite (check_all_response cmds _ v Hc).
    cbn [_check_human_override get_current_state environment clear_halt
         _environment human_override stop_commanded emergency_stop].
    cbn. split; [reflexivity|]. intros answer E. inversion E. reflexivity.
  - destruct (execute_loop_keeps cmds (clear_halt self) [])
      as (_ & _ & _ & _ & K7).
    destruct (execute_loop (clear_halt self) [] cmds) as [after [rs|e]];
      cbn [fst snd] in *; (split; [exact K7|]).
    + intros answer E. inversion E. reflexivity.
    + discriminate.
  - cbn. split; [reflexivity | discriminate].
Qed.

(** X8. [clear_halt] puts a halted layer back to work and changes
    nothing else: the counters, the motor state, the entities and the
    violation log are as before.  The next command list is not answered
    by a halt and does not leave the layer halted, whether the call
    returns or raises; an answer that is no refusal holds one result for
    each command. *)
Theorem clear_halt_resumes_operation :
  forall (self : EmbodimentLayer) (cmds : list CommandDict),
    let fresh := clear_halt self in
    let r := execute_commands fresh cmds in
    (_commands_executed fresh = _commands_executed self /\
     _commands_rejected fresh = _commands_rejected self /\
     _motor_state fresh = _motor_state self /\
     _detected_entities fresh = _detected_entities self /\
     _undeliberable_violations fresh = _undeliberable_violations self) /\
    is_halted fresh = false /\
    _halted (fst r) = false /\
    (forall answer, snd r = Returned answer ->
       halted answer = false /\
       (blocked answer = false ->
        List.length (results answer) = List.length cmds)).
Proof.
  intros self cmds fresh r. subst r fresh.
  split; [repeat split|]. split; [reflexivity|].
  destruct (halted_after_clear self cmds) as [Hh Ha].
  split; [exact Hh|].
  intros answer E. split; [apply Ha; exact E|].
  intros Hb. unfold execute_commands in E. cbn [_halted clear_halt] in E.
  destruct (check_all cmds (get_current_state (clear_halt self)))
    as [[v|]|e].
  - destruct (response (undeliberable v)); cbn [snd] in E;
      inversion E; subst answer; discriminate.
  - destruct (execute_loop (clear_halt self) [] cmds) as [after [rs|e]] eqn:L;
      cbn [snd] in E; [|discriminate].
    inversion E; subst answer. cbn [results].
    destruct (execute_loop_returned (_virtual (clear_halt self)) cmds
                (clear_halt self) [] after rs eq_refl L) as (_ & Hm & _).
    cbn [map app] in Hm.
    apply (f_equal (@List.length Value)) in Hm.
    rewrite !length_map in Hm. exact Hm.
  - discriminate.
Qed.

(** X8 on test 2e: the layer halted by the override, once cleared,
    speaks again. *)
Lemma clear_halt_resumes_operation_witness :
  let halted_layer :=
    fst (execute_commands
           (with_environment (init create_default_embodiment)
              Scenario.child_at_kerb_stopped.(Embodiment.environment))
           [speak (VStr "Hello")]) in
  let r := execute_commands (clear_halt halted_layer)
             [speak (VStr "Hello")] in
  is_halted halted_layer = true /\
  _halted (fst r) = false /\
  forall answer, snd r = Returned answer ->
    halted answer = false /\
    (blocked answer = false -> List.length (results answer) = 1%nat).
Proof.
  intros halted_layer r.
  split; [vm_compute; reflexivity|].
  apply (clear_halt_resumes_operation halted_layer [speak (VStr "Hello")]).
Defined.



(** *** Behind the default capability model *)

(** What the validation returns is the flag of [Capability]. *)
Lemma move_returned (self : VirtualEmbodiment) (cmd : CommandDict)
    (b : bool) :
  _validate_move_command self cmd = Returned b ->
  b = Capability._validate_move_command self cmd.
Proof.
  unfold _validate_move_command, Capability._validate_move_command.
  destruct (Py.get String.eqb cmd "target") as [[|x|s|tgt]|];
    try (intros H; inversion H; reflexivity).
  destruct (_ || _); [intros H; inversion H; reflexivity|].
  destruct (negb _); [intros H; inversion H; reflexivity|].
  destruct (2 <=? _)%nat; [|intros H; inversion H; reflexivity].
  intros H. apply bind_returned in H. destruct H as (d2 & Hd & H).
  apply squared_distance_returned in Hd. subst d2.
  inversion H. cbn [andb]. destruct (Py.gt _ _); reflexivity.
Qed.

Lemma validate_returned (self : VirtualEmbodiment) (cmd : CommandDict)
    (b : bool) :
  validate_command self cmd = Returned b ->
  b = Capability.validate_command self cmd.
Proof.
  unfold validate_command, Capability.validate_command, is_type.
  destruct (negb (truthy _)); [intros H; inversion H; reflexivity|].
  destruct (find_actuator self _) as [a|];
    [|intros H; inversion H; reflexivity].
  destruct (negb (forallb _ _)); [intros H; inversion H; reflexivity|].
  destruct (negb (check_params a cmd)); [intros H; inversion H; reflexivity|].
  destruct (Value_eqb _ (VStr "MOVE")).
  - intros H. apply bind_returned in H. destruct H as (valid & Hv & H).
    apply move_returned in Hv. rewrite <- Hv. cbn [andb].
    destruct (negb valid); [inversion H; reflexivity|].
    destruct (_ && _); inversion H; reflexivity.
  - cbn [bind negb andb].
    destruct (_ && _); intros H; inversion H; reflexivity.
Qed.

Lemma within_bounds_moderate (tgt : list Q) :
  within_bounds tgt (fst _get_operating_bounds) (snd _get_operating_bounds)
  = true ->
  moderate tgt = true.
Proof.
  intros H. unfold moderate. apply forallb_forall. intros x Hx.
  apply In_nth_error in Hx. destruct Hx as [i Hi].
  destruct (CapabilityFacts.within_bounds_nth tgt _ _ H i x Hi) as [Hlo Hhi].
  apply Qle_bool_iff.
  assert (Hb : - (100) <= x /\ x <= 100).
  { destruct i as [|[|[|[|i]]]];
      cbn [nth fst snd _get_operating_bounds] in Hlo, Hhi; split; lra. }
  eapply Qle_trans; [apply Qabs_Qle_condition; exact Hb|].
  vm_compute. discriminate.
Qed.

(** The validation of the default robot raises nothing. *)
Lemma default_validate (cmd : CommandDict) :
  validate_command create_default_embodiment cmd
  = Returned (Capability.validate_command create_default_embodiment cmd).
Proof.
  assert (Hm : exists b,
            _validate_move_command create_default_embodiment cmd
            = Returned b).
  { unfold _validate_move_command.
    destruct (Py.get String.eqb cmd "target") as [[|x|s|tgt]|];
      try (eexists; reflexivity).
    destruct (_ || _); [eexists; reflexivity|].
    destruct (within_bounds tgt _ _) eqn:W; cbn [negb];
      [|eexists; reflexivity].
    cbn [current_position create_default_embodiment List.length Nat.leb].
    rewrite (squared_distance_moderate tgt [0.0; 0.0; 0.0]
               (within_bounds_moderate tgt W)) by (vm_compute; reflexivity).
    cbn [bind]. eexists. reflexivity. }
  assert (Hv : exists b,
            validate_command create_default_embodiment cmd = Returned b).
  { unfold validate_command.
    destruct (negb (truthy _)); [eexists; reflexivity|].
    destruct (find_actuator _ _) as [a|]; [|eexists; reflexivity].
    destruct (negb (forallb _ _)); [eexists; reflexivity|].
    destruct (negb (check_params a cmd)); [eexists; reflexivity|].
    destruct (is_type _ "MOVE").
    - destruct Hm as [b Hb]. rewrite Hb. cbn [bind].
      destruct (negb b); [eexists; reflexivity|].
      destruct (_ && _); eexists; reflexivity.
    - cbn [bind negb]. destruct (_ && _); eexists; reflexivity. }
  destruct Hv as [b Hb]. rewrite Hb.
  rewrite (validate_returned _ _ _ Hb). reflexivity.
Qed.

Lemma has_key_get (cmd : CommandDict) (k : string) :
  has_key cmd k = true -> exists v, Py.get String.eqb cmd k = Some v.
Proof.
  unfold has_key, Py.keys.
  induction cmd as [|[k0 v0] cmd IH]; cbn; [discriminate|].
  destruct (String.eqb k k0) eqn:E.
  - intros _. apply String.eqb_eq in E. subst k0.
    rewrite String.eqb_refl. exists v0. reflexivity.
  - cbn. intros H. rewrite String.eqb_sym, E. apply IH. exact H.
Qed.

Lemma default_type (cmd : CommandDict) :
  Capability.validate_command create_default_embodiment cmd = true ->
  exists t a,
    type_or_unknown cmd = VStr t /\
    Py.get String.eqb cmd "type" = Some (VStr t) /\
    In t (get_available_commands create_default_embodiment) /\
    find_actuator create_default_embodiment (VStr t) = Some a /\
    forallb (has_key cmd) (required_params a) = true /\
    check_params a cmd = true.
Proof.
  intros H.
  destruct (CapabilityFacts.validate_inv _ _ H)
    as (t & a & Hg & _ & Hf & Hc & Hr & Hp & _).
  exists t, a. unfold type_or_unknown, Py.get_default. rewrite Hg.
  repeat split; try assumption.
  pose proof Hf as Hf'. unfold find_actuator in Hf'.
  apply find_some in Hf'. destruct Hf' as [Hin _].
  unfold get_available_commands. rewrite <- Hc. apply in_map. exact Hin.
Qed.

(** What the default robot accepts is executable, unless it is a SPEAK
    whose message cannot be sliced. *)
Lemma default_executable (cmd : CommandDict) :
  Capability.validate_command create_default_embodiment cmd = true ->
  executable cmd
  = if is_type (type_or_unknown cmd) "SPEAK"
    then subscriptable (Py.get_default String.eqb cmd "message" (VStr ""))
    else true.
Proof.
  intros H. destruct (default_type cmd H) as (t & a & Ht & _ & _ & Hf & Hr & Hp).
  unfold executable. rewrite Ht.
  destruct (is_type (VStr t) "SPEAK"); [reflexivity|].
  destruct (is_type (VStr t) "WAIT") eqn:W; [|reflexivity].
  unfold is_type in W. cbn [Value_eqb] in W. apply String.eqb_eq in W.
  subst t. cbn in Hf. inversion Hf; subst a. clear Hf.
  cbn [required_params actuator forallb] in Hr.
  apply andb_true_iff in Hr. destruct Hr as [Hr _].
  destruct (has_key_get cmd "duration" Hr) as [v Hv].
  destruct (CapabilityFacts.default_range _ cmd "duration" v 0.1 300.0 Hp)
    as (x & -> & _); [reflexivity | discriminate | exact Hv |].
  unfold Py.get_default. rewrite Hv. reflexivity.
Qed.

Lemma default_success (self : EmbodimentLayer) (cmd : CommandDict)
    (r : CommandResult) :
  Capability.validate_command create_default_embodiment cmd = true ->
  snd (_execute_single_command self cmd) = Returned r ->
  command_success r = true.
Proof.
  intros H. destruct (default_type cmd H) as (t & a & Ht & _ & Hin & _).
  unfold _execute_single_command. rewrite Ht. cbn in Hin.
  repeat (destruct Hin as [Hin|Hin];
          [subst t; cbn [is_type Value_eqb String.eqb Ascii.eqb Bool.eqb
                         orb snd];
           try (unfold sliced; destruct (subscriptable _));
           try (destruct (number _));
           cbn [bind snd]; intros E; inversion E; reflexivity|]).
  contradiction.
Qed.

Lemma default_loop_success (cmds : list CommandDict) :
  forall self rs after out,
    _virtual self = create_default_embodiment ->
    execute_loop self rs cmds = (after, Returned out) ->
    map command_success out
    = (map command_success rs
       ++ map (Capability.validate_command create_default_embodiment)
              cmds)%list.
Proof.
  induction cmds as [|cmd cmds IH]; intros self rs after out Hve H;
    cbn [execute_loop] in H.
  - inversion H; subst. cbn. rewrite app_nil_r. reflexivity.
  - rewrite Hve, default_validate in H. cbn [map].
    destruct (Capability.validate_command create_default_embodiment cmd)
      eqn:V.
    + destruct (single_keeps self cmd) as (K1 & _).
      pose proof (default_success self cmd) as Hs.
      destruct (_execute_single_command self cmd) as [self' [x|e]];
        cbn [fst snd] in *; [|discriminate].
      rewrite (IH (count_executed self') (rs ++ [x])%list after out);
        [| cbn; congruence | exact H].
      rewrite map_app, <- app_assoc. cbn [map app].
      rewrite (Hs x V eq_refl). reflexivity.
    + rewrite (IH (count_rejected self)
                  (rs ++ [done (type_or_unknown cmd) false])%list after out);
        [| cbn; exact Hve | exact H].
      rewrite map_app, <- app_assoc. reflexivity.
Qed.

Lemma default_runs (cmd : CommandDict) :
  runs create_default_embodiment cmd = true <->
  (Capability.validate_command create_default_embodiment cmd = true ->
   Py.get String.eqb cmd "type" = Some (VStr "SPEAK") ->
   subscriptable (Py.get_default String.eqb cmd "message" (VStr "")) = true).
Proof.
  unfold runs. rewrite default_validate.
  destruct (Capability.validate_command create_default_embodiment cmd) eqn:V;
    [|split; [discriminate | reflexivity]].
  rewrite (default_executable cmd V).
  destruct (default_type cmd V) as (t & a & Ht & Hg & _).
  rewrite Ht, Hg. split.
  - intros H _ E. inversion E; subst t.
    change (is_type (VStr "SPEAK") "SPEAK") with true in H. exact H.
  - intros H. destruct (is_type (VStr t) "SPEAK") eqn:S; [|reflexivity].
    apply H; [reflexivity|].
    unfold is_type in S. cbn [Value_eqb] in S. apply String.eqb_eq in S.
    subst t. reflexivity.
Qed.

Lemma forallb_map {A : Type} (f : A -> bool) (l : list A) :
  forallb f l = forallb (fun b => b) (map f l).
Proof.
  induction l as [|x l IH]; simpl; [reflexivity | rewrite IH; reflexivity].
Qed.

(** X13. Behind the default capability model a command that is accepted
    fails in execution in one way only: a SPEAK whose message is a
    number or [None] is accepted, and raises TypeError when it is
    executed.  When the layer is not halted and the registry returns no
    violation, the call returns exactly when no accepted SPEAK is of that
    kind; it then reports success for each command exactly when the
    model accepts the command, and for the call as a whole exactly when
    it accepts them all. *)
Theorem default_robot_executes_what_it_accepts :
  forall (self : EmbodimentLayer) (cmds : list CommandDict),
    _virtual self = create_default_embodiment ->
    _halted self = false ->
    check_all cmds (get_current_state self) = Returned None ->
    let r := execute_commands self cmds in
    let accepted := Capability.validate_command create_default_embodiment in
    ((exists answer, snd r = Returned answer) <->
     (forall cmd, In cmd cmds -> accepted cmd = true ->
        Py.get String.eqb cmd "type" = Some (VStr "SPEAK") ->
        subscriptable (Py.get_default String.eqb cmd "message" (VStr ""))
        = true)) /\
    (forall e, snd r = Raised e -> e = "TypeError") /\
    (forall answer, snd r = Returned answer ->
       map command_success (results answer) = map accepted cmds /\
       success answer = forallb accepted cmds).
Proof.
  intros self cmds Hve Hh Hc r accepted. subst r accepted.
  unfold execute_commands. rewrite Hh, Hc.
  assert (Hruns : forallb (runs create_default_embodiment) cmds = true <->
            (forall cmd, In cmd cmds ->
               Capability.validate_command create_default_embodiment cmd
               = true ->
               Py.get String.eqb cmd "type" = Some (VStr "SPEAK") ->
               subscriptable
                 (Py.get_default String.eqb cmd "message" (VStr "")) = true)).
  { rewrite forallb_forall. split.
    - intros H cmd Hin. apply default_runs, H, Hin.
    - intros H cmd Hin. apply default_runs, H, Hin. }
  destruct (execute_loop self [] cmds) as [after [rs|e]] eqn:L;
    cbn [fst snd].
  - destruct (execute_loop_returned create_default_embodiment cmds self []
                after rs Hve L) as (Hr & _).
    pose proof (default_loop_success cmds self [] after rs Hve L) as Hm.
    cbn [map app] in Hm.
    split; [split; [intros _; apply Hruns, Hr | intros _; eexists; reflexivity]|].
    split; [discriminate|].
    intros answer E. inversion E; subst answer. cbn [results success].
    split; [exact Hm|].
    rewrite forallb_map, Hm, <- forallb_map. reflexivity.
  - split; [|split; [|discriminate]].
    + split; [intros [answer E]; discriminate|].
      intros H. apply Hruns in H.
      destruct (execute_loop_returns create_default_embodiment cmds H self []
                  Hve) as (after' & out & L').
      rewrite L in L'. discriminate.
    + intros e' E. inversion E; subst e'.
      destruct (execute_loop_raised create_default_embodiment cmds self []
                  after e Hve L) as [T|(cmd & _ & Hv)]; [exact T|].
      rewrite default_validate in Hv. discriminate.
Qed.

(** X13 on a drive followed by a grip the model does not list, and on a
    number to speak. *)
Lemma default_robot_executes_what_it_accepts_witness :
  let self := init create_default_embodiment in
  let cmds := [move [5.0; 3.0] 1.0; manipulate "squeeze" "cup" 1.0] in
  (forall answer, snd (execute_commands self cmds) = Returned answer ->
     map command_success (results answer) = [true; false] /\
     success answer = false) /\
  snd (execute_commands self [speak (VNum 123)]) = Raised "TypeError".
Proof.
  intros self cmds. split.
  - apply (default_robot_executes_what_it_accepts self cmds).
    + reflexivity.
    + reflexivity.
    + vm_compute. reflexivity.
  - destruct (snd (execute_commands self [speak (VNum 123)])) as [a|e] eqn:E.
    + apply (f_equal (fun r => match r with
                               | Returned _ => true
                               | Raised _ => false
                               end)) in E.
      vm_compute in E. discriminate.
    + f_equal.
      apply (default_robot_executes_what_it_accepts self
               [speak (VNum 123)]); [reflexivity | reflexivity | | exact E].
      vm_compute. reflexivity.
Defined.

(** *** Structured commands

    On the dict of a structured command the registry raises no
    TypeError, and what it returns is what [Registry.check_all] gives
    for the structured command. *)

Lemma get_item_same {A : Type} (k : string) (f : A -> Value)
    (x : option A) (d : CommandDict) :
  Py.get String.eqb (item k f x ++ d) k
  = match x with
    | Some v => Some (f v)
    | None => Py.get String.eqb d k
    end.
Proof.
  destruct x; [|reflexivity]. cbn. rewrite String.eqb_refl. reflexivity.
Qed.

Lemma get_item_other {A : Type} (k k' : string) (f : A -> Value)
    (x : option A) (d : CommandDict) :
  String.eqb k k' = false ->
  Py.get String.eqb (item k f x ++ d) k' = Py.get String.eqb d k'.
Proof. intros H. destruct x; [|reflexivity]. cbn. rewrite H. reflexivity. Qed.

Ltac by_fields cmd :=
  unfold to_dict;
  rewrite <- (app_nil_r (item "duration" VNum (duration cmd)));
  repeat (rewrite get_item_other by reflexivity);
  rewrite get_item_same;
  match goal with
  | |- match ?x with _ => _ end = _ => destruct x; [reflexivity|]
  end;
  repeat (rewrite get_item_other by reflexivity);
  reflexivity.

Lemma structured_type (cmd : Command) :
  Py.get String.eqb (to_dict cmd) "type" = option_map VStr (type cmd).
Proof. by_fields cmd. Qed.

Lemma structured_target (cmd : Command) :
  Py.get String.eqb (to_dict cmd) "target"
  = option_map of_target (target cmd).
Proof. by_fields cmd. Qed.

Lemma structured_speed (cmd : Command) :
  Py.get String.eqb (to_dict cmd) "speed" = option_map VNum (speed cmd).
Proof. by_fields cmd. Qed.

Lemma structured_force (cmd : Command) :
  Py.get String.eqb (to_dict cmd) "force" = option_map VNum (force cmd).
Proof. by_fields cmd. Qed.

Lemma structured_action (cmd : Command) :
  Py.get String.eqb (to_dict cmd) "action" = option_map VStr (action cmd).
Proof. by_fields cmd. Qed.

Lemma structured_level (cmd : Command) :
  Py.get String.eqb (to_dict cmd) "level" = option_map VNum (level cmd).
Proof. by_fields cmd. Qed.

Lemma structured_message (cmd : Command) :
  Py.get String.eqb (to_dict cmd) "message" = option_map VStr (message cmd).
Proof. by_fields cmd. Qed.

Lemma structured_content (cmd : Command) :
  Py.get String.eqb (to_dict cmd) "content" = option_map VStr (content cmd).
Proof. by_fields cmd. Qed.

Lemma structured_is_type (cmd : Command) (t : string) :
  is_type (get_type (to_dict cmd)) t = String.eqb (Embodiment.get_type cmd) t.
Proof.
  unfold is_type, get_type, Embodiment.get_type, Py.get_default.
  rewrite structured_type. destruct (type cmd); reflexivity.
Qed.

Lemma structured_number (cmd : Command) (key : string) (field : option Q)
    (d : Q) :
  Py.get String.eqb (to_dict cmd) key = option_map VNum field ->
  number (Py.get_default String.eqb (to_dict cmd) key (VNum d))
  = Returned (get_num field d).
Proof.
  intros H. unfold Py.get_default. rewrite H.
  destruct field; reflexivity.
Qed.

Lemma structured_target_text (cmd : Command) :
  text_of (to_dict cmd) "target" = target_text cmd.
Proof.
  unfold text_of, target_text, Py.get_default. rewrite structured_target.
  destruct (target cmd) as [[s|xs]|]; reflexivity.
Qed.

Lemma structured_text (cmd : Command) (key : string)
    (field : option string) :
  Py.get String.eqb (to_dict cmd) key = option_map VStr field ->
  text_of (to_dict cmd) key = Py.lower (get_str field).
Proof.
  intros H. unfold text_of, Py.get_default. rewrite H.
  destruct field; reflexivity.
Qed.

Lemma structured_move_loop (cmd : Command) (hs : list DetectedEntity) :
  forall p,
    (forall q,
       for_each (move_step (VNum (get_num (speed cmd) 0))
                   match target cmd with
                   | Some t => of_target t
                   | None => VNone
                   end) hs p = Returned q ->
       q = fold_left (Registry.move_step cmd) hs p) /\
    (forall e,
       for_each (move_step (VNum (get_num (speed cmd) 0))
                   match target cmd with
                   | Some t => of_target t
                   | None => VNone
                   end) hs p = Raised e ->
       e = "OverflowError").
Proof.
  induction hs as [|h hs IH]; intros p; cbn [for_each fold_left].
  - split; [intros q H; inversion H; reflexivity | discriminate].
  - assert (Hstep :
      (forall a, move_step (VNum (get_num (speed cmd) 0))
                   match target cmd with
                   | Some t => of_target t
                   | None => VNone
                   end p h = Returned a ->
                 a = Registry.move_step cmd p h) /\
      (forall e, move_step (VNum (get_num (speed cmd) 0))
                   match target cmd with
                   | Some t => of_target t
                   | None => VNone
                   end p h = Raised e ->
                 e = "OverflowError")).
    { unfold move_step, Registry.move_step, dist_to_human_lt_1.
      cbn [number bind].
      destruct (target cmd) as [[s|tgt]|]; cbn [of_target];
        try (split; [intros a H; inversion H; reflexivity | discriminate]).
      split.
      - intros a H. apply bind_returned in H. destruct H as (d2 & Hd & H).
        apply squared_distance_returned in Hd. subst d2.
        inversion H. reflexivity.
      - intros e H. apply bind_raised in H.
        destruct H as [H|(d2 & _ & H)];
          [apply (squared_distance_raised _ _ _ H) | discriminate]. }
    destruct Hstep as [Hr He]. split.
    + intros q H. apply bind_returned in H. destruct H as (a & Ha & H).
      rewrite <- (Hr a Ha). apply (proj1 (IH a) q H).
    + intros e H. apply bind_raised in H. destruct H as [H|(a & _ & H)];
        [apply (He e H) | apply (proj2 (IH a) e H)].
Qed.

Lemma structured_manipulate_loop (cmd : Command) (hs : list DetectedEntity) :
  forall p,
    for_each (manipulate_step (VNum (get_num (force cmd) 0))
                (Py.lower (get_str (action cmd))) (target_text cmd)) hs p
    = Returned (fold_left (Registry.manipulate_step cmd) hs p).
Proof.
  induction hs as [|h hs IH]; intros p; cbn [for_each fold_left];
    [reflexivity|].
  assert (Hstep : manipulate_step (VNum (get_num (force cmd) 0))
                    (Py.lower (get_str (action cmd))) (target_text cmd) p h
                  = Returned (Registry.manipulate_step cmd p h)).
  { unfold manipulate_step, Registry.manipulate_step. cbn [number bind].
    destruct (_ || _); reflexivity. }
  rewrite Hstep. cbn [bind]. apply IH.
Qed.

Lemma structured_probability (hz : HazardFlags)
    (humans : list DetectedEntity) (cmd : Command) :
  (forall q, command_probability hz humans (to_dict cmd) = Returned q ->
             q = Registry.command_probability hz humans cmd) /\
  (forall e, command_probability hz humans (to_dict cmd) = Raised e ->
             e = "OverflowError").
Proof.
  unfold command_probability, Registry.command_probability.
  rewrite !structured_is_type.
  destruct (String.eqb (Embodiment.get_type cmd) "MOVE").
  { rewrite (structured_number cmd "speed" (speed cmd) 0
               (structured_speed cmd)).
    assert (Ht : Py.get_default String.eqb (to_dict cmd) "target" VNone
                 = match target cmd with
                   | Some t => of_target t
                   | None => VNone
                   end).
    { unfold Py.get_default. rewrite structured_target.
      destruct (target cmd); reflexivity. }
    assert (Hs : Py.get_default String.eqb (to_dict cmd) "speed" (VNum 0)
                 = VNum (get_num (speed cmd) 0)).
    { unfold Py.get_default. rewrite structured_speed.
      destruct (speed cmd); reflexivity. }
    rewrite Ht, Hs.
    destruct (structured_move_loop cmd humans 0.0) as [Hr He].
    split.
    - intros q H. apply bind_returned in H. destruct H as (p & Hp & H).
      rewrite (Hr p Hp) in H.
      destruct (near_traffic hz); cbn [bind andb] in H;
        inversion H; reflexivity.
    - intros e H. apply bind_raised in H. destruct H as [H|(p & _ & H)];
        [apply (He e H)|].
      destruct (near_traffic hz); cbn [bind] in H; discriminate. }
  destruct (String.eqb (Embodiment.get_type cmd) "MANIPULATE").
  { assert (Hf : Py.get_default String.eqb (to_dict cmd) "force" (VNum 0)
                 = VNum (get_num (force cmd) 0)).
    { unfold Py.get_default. rewrite structured_force.
      destruct (force cmd); reflexivity. }
    rewrite Hf, (structured_text cmd "action" (action cmd)
                   (structured_action cmd)), structured_target_text,
      structured_manipulate_loop.
    cbn [bind]. split; [intros q H; inversion H; reflexivity | discriminate]. }
  destruct (String.eqb (Embodiment.get_type cmd) "ALERT").
  { rewrite (structured_number cmd "level" (level cmd) 1
               (structured_level cmd)).
    cbn [bind]. split; [intros q H; inversion H; reflexivity | discriminate]. }
  split; [intros q H; inversion H; reflexivity | discriminate].
Qed.

Lemma structured_command_loop (hz : HazardFlags)
    (humans : list DetectedEntity) (cmds : list Command) :
  forall acc,
    (forall m,
       for_each (fun a cmd => q <- command_probability hz humans cmd ;;
                              Returned (Qmax a q))
                (map to_dict cmds) acc = Returned m ->
       m = fold_left (fun a cmd =>
                        Qmax a (Registry.command_probability hz humans cmd))
                     cmds acc) /\
    (forall e,
       for_each (fun a cmd => q <- command_probability hz humans cmd ;;
                              Returned (Qmax a q))
                (map to_dict cmds) acc = Raised e ->
       e = "OverflowError").
Proof.
  induction cmds as [|cmd cmds IH]; intros acc; cbn [map for_each fold_left].
  - split; [intros m H; inversion H; reflexivity | discriminate].
  - destruct (structured_probability hz humans cmd) as [Hr He]. split.
    + intros m H. apply bind_returned in H. destruct H as (a & Ha & H).
      apply bind_returned in Ha. destruct Ha as (q & Hq & Ha).
      inversion Ha; subst a. rewrite (Hr q Hq) in H.
      apply (proj1 (IH _) m H).
    + intros e H. apply bind_raised in H. destruct H as [H|(a & _ & H)];
        [|apply (proj2 (IH a) e H)].
      apply bind_raised in H. destruct H as [H|(q & _ & H)];
        [apply (He e H) | discriminate].
Qed.

Lemma structured_child_loop (cp : bool) (cmd : Command)
    (children : list DetectedEntity) :
  child_loop cp (to_dict cmd) children
  = Returned (Registry.child_loop cp cmd children).
Proof.
  assert (Hb : child_command_blocked cp (to_dict cmd)
               = Returned (Registry.child_command_blocked cp cmd)).
  { unfold child_command_blocked, Registry.child_command_blocked.
    rewrite !structured_is_type.
    rewrite (structured_number cmd "force" (force cmd) 0
               (structured_force cmd)),
      (structured_number cmd "level" (level cmd) 0 (structured_level cmd)),
      (structured_number cmd "speed" (speed cmd) 0 (structured_speed cmd)),
      (structured_text cmd "action" (action cmd) (structured_action cmd)).
    cbn [bind].
    destruct (String.eqb (Embodiment.get_type cmd) "MANIPULATE"), cp;
      cbn [andb negb bind]; try reflexivity;
      repeat (match goal with
              | |- context [if ?b then _ else _] => destruct b
              end; cbn [andb bind]); reflexivity. }
  induction children as [|c children IH];
    cbn [child_loop Registry.child_loop]; [reflexivity|].
  unfold targets_child, Registry.targets_child.
  rewrite structured_target_text.
  destruct (_ || _); cbn [andb]; [|exact IH].
  rewrite Hb. cbn [bind].
  destruct (Registry.child_command_blocked cp cmd); [reflexivity | exact IH].
Qed.

Lemma structured_existsb {A B : Type} (f : B -> bool) (g : A -> bool)
    (h : A -> B) (l : list A) :
  (forall x, f (h x) = g x) -> existsb f (map h l) = existsb g l.
Proof.
  intros H. induction l as [|x l IH]; cbn; [reflexivity|].
  rewrite H, IH. reflexivity.
Qed.

(** On structured commands the registry raises nothing but the
    OverflowError of the lethal check, and the violation it returns is
    the one [Registry.check_all] names. *)
Lemma structured_check_all (cmds : list Command)
    (st : Embodiment.EmbodimentState) (st' : EmbodimentState) :
  environment st' = Embodiment.environment st ->
  detected_entities st' = Embodiment.detected_entities st ->
  (forall r, check_all (map to_dict cmds) st' = Returned r ->
             option_map undeliberable r
             = option_map Registry.undeliberable (Registry.check_all cmds st))
  /\ (forall e, check_all (map to_dict cmds) st' = Raised e ->
                e = "OverflowError").
Proof.
  intros He Hd.
  assert (Hl : (forall p, _check_lethal_action (map to_dict cmds) st'
                          = Returned p ->
                          p = Registry._check_lethal_action cmds st) /\
               (forall e, _check_lethal_action (map to_dict cmds) st'
                          = Raised e -> e = "OverflowError")).
  { unfold _check_lethal_action, Registry._check_lethal_action,
      hazard_flags, Registry.hazard_flags.
    rewrite He, Hd.
    destruct (filter is_HUMAN (Embodiment.detected_entities st))
      as [|h0 hs].
    { split; [intros p H; inversion H; reflexivity | discriminate]. }
    match goal with
    | |- context [for_each _ _ ?acc] =>
        destruct (structured_command_loop
                    (Registry.hazard_flags st) (h0 :: hs) cmds acc)
          as [Hr Hx]
    end.
    unfold Registry.hazard_flags in Hr, Hx. split.
    - intros p H. apply bind_returned in H. destruct H as (m & Hm & H).
      rewrite (Hr m Hm) in H. inversion H. reflexivity.
    - intros e H. apply bind_raised in H. destruct H as [H|(m & _ & H)];
        [apply (Hx e H) | discriminate]. }
  assert (Hc : _check_child_harm (map to_dict cmds) st'
               = Returned (Registry._check_child_harm cmds st)).
  { unfold _check_child_harm, Registry._check_child_harm. rewrite Hd.
    destruct (filter _is_child (Embodiment.detected_entities st));
      [reflexivity|].
    set (cp := (0 <? _)%nat). clearbody cp. clear Hl.
    induction cmds as [|cmd cmds IH];
      cbn [map child_command_loop Registry.child_command_loop];
      [reflexivity|].
    rewrite structured_child_loop. cbn [bind].
    destruct (Registry.child_loop cp cmd _); [reflexivity | exact IH]. }
  assert (Hw : _check_weapon_assistance (map to_dict cmds) st'
               = Registry._check_weapon_assistance cmds st).
  { unfold _check_weapon_assistance, Registry._check_weapon_assistance.
    rewrite Hd. apply structured_existsb. intros cmd.
    unfold weapon_command, Registry.weapon_command.
    rewrite !structured_is_type, structured_target_text,
      (structured_text cmd "message" (message cmd) (structured_message cmd)),
      (structured_text cmd "content" (content cmd) (structured_content cmd)).
    reflexivity. }
  assert (Hi : _check_identity_deception (map to_dict cmds) st'
               = Registry._check_identity_deception cmds st).
  { unfold _check_identity_deception, Registry._check_identity_deception.
    rewrite He. apply structured_existsb. intros cmd.
    unfold deception_command, Registry.deception_command.
    rewrite structured_is_type,
      (structured_text cmd "message" (message cmd) (structured_message cmd)).
    reflexivity. }
  destruct Hl as [Hlr Hlx].
  unfold check_all, Registry.check_all, _check_human_override,
    Registry._check_human_override.
  rewrite He, Hc, Hw, Hi.
  destruct (if human_override (Embodiment.environment st) then true
            else if stop_commanded (Embodiment.environment st) then true
                 else if emergency_stop (Embodiment.environment st)
                      then true else false).
  { split; [intros r H; inversion H; reflexivity | discriminate]. }
  split.
  - intros r H. apply bind_returned in H. destruct H as (p & Hp & H).
    rewrite (Hlr p Hp) in H. cbn [bind] in H.
    destruct (Py.gt _ _); [inversion H; reflexivity|].
    destruct (Registry._check_child_harm cmds st);
      [inversion H; reflexivity|].
    destruct (Registry._check_weapon_assistance cmds st);
      [inversion H; reflexivity|].
    destruct (Registry._check_identity_deception cmds st);
      inversion H; reflexivity.
  - intros e H. apply bind_raised in H. destruct H as [H|(p & _ & H)];
      [apply (Hlx e H)|].
    cbn [bind] in H.
    destruct (Py.gt _ _); [discriminate|].
    destruct (Registry._check_child_harm cmds st); [discriminate|].
    destruct (Registry._check_weapon_assistance cmds st); [discriminate|].
    destruct (Registry._check_identity_deception cmds st); discriminate.
Qed.

End RuntimeFacts.

(** ** The unconscious layer's reading of entities and levels *)

Module UnconsciousFacts.
Import Ontology Embodiment Unconscious.

(** The registry's keyword list is the unconscious layer's, with
    "young" added. *)
Lemma keyword_lists (s : string) :
  Py.any_in Registry.CHILD_KEYWORDS s
  = Py.any_in child_keywords s || Py.contains "young" s.
Proof.
  unfold Py.any_in, Registry.CHILD_KEYWORDS, child_keywords.
  cbn [existsb].
  repeat match goal with
         | |- context [Py.contains ?w s] =>
             destruct (Py.contains w s); cbn [orb]; try reflexivity
         end.
Qed.

(** X14. The two child tests agree on entities typed HUMAN except for
    one word. Whenever the unconscious layer treats a HUMAN-typed entity
    as a child, the registry's [_is_child] does too; conversely a
    HUMAN-typed entity the registry takes for a child is a child for the
    unconscious layer unless the only indicator is the word "young" in
    its description. Entities of any other type but CHILD keep their
    type. *)
Theorem child_tests_agree_up_to_one_keyword :
  forall (e : DetectedEntity),
    (entity_type e = HUMAN ->
     _get_effective_entity_type e = CHILD -> Registry._is_child e = true) /\
    (entity_type e = HUMAN ->
     Registry._is_child e = true ->
     _get_effective_entity_type e = CHILD
     \/ Py.contains "young" (Py.lower (description e)) = true) /\
    (entity_type e <> HUMAN -> _get_effective_entity_type e = entity_type e).
Proof.
  intros e. unfold _get_effective_entity_type, Registry._is_child.
  rewrite keyword_lists.
  split; [|split].
  - intros Ht. rewrite Ht. cbn [EntityType_beq].
    destruct (Registry.below _ 18); [intros _|].
    { destruct (_ || _); reflexivity. }
    destruct (Py.any_in child_keywords _); [reflexivity|].
    cbn [orb].
    destruct (Registry.below _ 1.2);
      [intros _; destruct (Py.contains _ _); reflexivity|].
    discriminate.
  - intros Ht. rewrite Ht. cbn [EntityType_beq].
    destruct (Registry.below _ 18); [left; reflexivity|].
    destruct (Py.any_in child_keywords _); [left; reflexivity|].
    cbn [orb].
    destruct (Py.contains "young" _); [right; reflexivity|].
    destruct (Registry.below _ 1.2); [left; reflexivity | discriminate].
  - intros Ht. destruct (entity_type e); try reflexivity. congruence.
Qed.

(** X14 on test 2b's five-year-old, a child for both layers. *)
Lemma child_tests_agree_up_to_one_keyword_witness :
  _get_effective_entity_type Scenario.child_1 = CHILD /\
  Registry._is_child Scenario.child_1 = true.
Proof.
  assert (H : _get_effective_entity_type Scenario.child_1 = CHILD)
    by (vm_compute; reflexivity).
  split; [exact H|].
  apply (proj1 (child_tests_agree_up_to_one_keyword Scenario.child_1));
    [reflexivity | exact H].
Defined.

(** X15. A higher level never weighs less: when the danger level rises,
    the physical weight the ontology gives the estimated severity does
    not fall, and when the distress level rises, neither does the
    psychological weight. *)
Theorem higher_level_never_weighs_less :
  forall (l1 l2 : Q),
    l1 <= l2 ->
    get_dimension_weight get_ontology PHYSICAL
      (_estimate_severity_from_danger l1)
    <= get_dimension_weight get_ontology PHYSICAL
         (_estimate_severity_from_danger l2) /\
    get_dimension_weight get_ontology PSYCHOLOGICAL
      (_estimate_severity_from_distress l1)
    <= get_dimension_weight get_ontology PSYCHOLOGICAL
         (_estimate_severity_from_distress l2).
Proof.
  intros l1 l2 Hl.
  unfold get_dimension_weight. rewrite HarmFacts.get_ontology_profiles.
  unfold _estimate_severity_from_danger, _estimate_severity_from_distress.
  split;
    repeat match goal with
           | |- context [Py.gt ?a ?b] =>
               let E := fresh "E" in
               destruct (Py.gt a b) eqn:E;
               [apply gt_true_iff in E | apply gt_false_iff in E]
           end;
    try lra; cbn; lra.
Qed.

(** X15 on a danger level of 0.5 against one of 0.95. *)
Lemma higher_level_never_weighs_less_witness :
  get_dimension_weight get_ontology PHYSICAL
    (_estimate_severity_from_danger 0.5)
  <= get_dimension_weight get_ontology PHYSICAL
       (_estimate_severity_from_danger 0.95).
Proof.
  apply (higher_level_never_weighs_less 0.5 0.95).
  vm_compute. discriminate.
Defined.

End UnconsciousFacts.

(** ** The incident history *)

Module MemoryFacts.
Import Embodiment Data Subconscious Memory.

(** X16. The history never outgrows its size: a layer whose history fits
    still fits after an incident is recorded, with one record more or,
    when it was full, the oldest record dropped; the record just made is
    the last one whenever the size is not zero. *)
Theorem history_never_outgrows_its_size :
  forall (self : SubconsciousLayer) (imp : Impetus) (ev : EmotionalValue)
         (proposals : list ProposedAction)
         (selected : option ProposedAction) (out : option Outcome),
    (List.length (_incident_history self) <= history_size self)%nat ->
    let after := record_incident self imp ev proposals selected out in
    let made := {| timestamp := imp_timestamp imp; impetus := imp;
                   emotional_value := Some ev; proposed_actions := proposals;
                   selected_action := selected; outcome := out |} in
    history_size after = history_size self /\
    List.length (_incident_history after)
    = Nat.min (history_size self) (S (List.length (_incident_history self))) /\
    ((0 < history_size self)%nat ->
     _incident_history after
     = ((if (List.length (_incident_history self) <? history_size self)%nat
         then _incident_history self
         else tl (_incident_history self)) ++ [made])%list).
Proof.
  intros self imp ev proposals selected out Hfit after made.
  unfold after, record_incident.
  cbn [history_size _incident_history]. fold made.
  unfold deque_append.
  set (h := _incident_history self) in *. set (n := history_size self) in *.
  split; [reflexivity|].
  destruct n as [|n]; [split; [reflexivity | lia]|].
  destruct (S n <=? List.length h)%nat eqn:E.
  - apply Nat.leb_le in E.
    assert (Hl : List.length h = S n) by lia.
    split.
    + rewrite length_app. destruct h as [|x h]; [discriminate|].
      simpl in *. lia.
    + intros _. assert (Hlt : (List.length h <? S n)%nat = false)
        by (apply Nat.ltb_ge; lia).
      rewrite Hlt. reflexivity.
  - apply Nat.leb_gt in E. split.
    + rewrite length_app. simpl. lia.
    + intros _. assert (Hlt : (List.length h <? S n)%nat = true)
        by (apply Nat.ltb_lt; lia).
      rewrite Hlt. reflexivity.
Qed.

(** X16 on a memory of two records with room for two: the older one
    goes. *)
Lemma history_never_outgrows_its_size_witness :
  let self := {| history_size := 2;
                 _incident_history := [Scenario.dissimilar_record;
                                       Scenario.similar_record];
                 _current_emotion := Scenario.emotion CAUTION 0.3 0.2;
                 _impetuses_processed := 2 |} in
  let after := record_incident self Scenario.base_impetus
                 (Scenario.emotion FEAR 0.84 0.5) [] None None in
  List.length (_incident_history after) = 2%nat /\
  hd_error (_incident_history after) = Some Scenario.similar_record.
Proof.
  intros self after.
  destruct (history_never_outgrows_its_size self Scenario.base_impetus
              (Scenario.emotion FEAR 0.84 0.5) [] None None)
    as (_ & Hlen & Hlast).
  - simpl. lia.
  - split; [exact Hlen|].
    unfold after. rewrite Hlast by (simpl; lia). reflexivity.
Defined.

Lemma predicted_emotion (imp : Impetus) :
  primary_emotion (_compute_emotional_value imp)
  = _predict_emotion_category imp.
Proof.
  unfold _compute_emotional_value, _predict_emotion_category.
  destruct (has_drive REDUCE_HARM (involved_drives imp)).
  - destruct (Py.gt (severity imp) 0.6); reflexivity.
  - destruct (has_drive UNDERSTAND (involved_drives imp)); reflexivity.
Qed.

Lemma EmotionCategory_beq_refl (c : EmotionCategory) :
  EmotionCategory_beq c c = true.
Proof. destruct c; reflexivity. Qed.

(** The score of an incident against the impetus it was recorded for. *)
Lemma own_record_score (imp : Impetus) (r : IncidentRecord) :
  impetus r = imp ->
  emotional_value r = Some (_compute_emotional_value imp) ->
  _compute_similarity imp r
  == if Py.nonempty (involved_drives imp) then 1 else 0.75.
Proof.
  intros Hi He.
  rewrite SubconsciousFacts.similarity_spec. unfold spec_similarity.
  rewrite Hi, He, predicted_emotion, String.eqb_refl,
    EmotionCategory_beq_refl.
  assert (Hs : Qmin (Qabs (severity imp - severity imp)) 1.0 == 0).
  { assert (Hz : severity imp - severity imp == 0) by ring.
    rewrite Hz. reflexivity. }
  rewrite Hs.
  assert (Ht : jaccard EntityType_eq_dec 1
                 (map entity_type (relevant_entities imp))
                 (map entity_type (relevant_entities imp)) == 1).
  { destruct (map entity_type (relevant_entities imp)) as [|t ts] eqn:E;
      [reflexivity|].
    apply SubconsciousFacts.jaccard_same. discriminate. }
  rewrite Ht.
  destruct (involved_drives imp) as [|d ds] eqn:Ed.
  - cbn. reflexivity.
  - rewrite (SubconsciousFacts.jaccard_same CoreDrive_eq_dec 0 (d :: ds))
      by discriminate.
    cbn. reflexivity.
Qed.

(** An impetus that involves no drive shares none with any incident. *)
Lemma jaccard_nil_l {A : Type}
    (eq_dec : forall x y : A, {x = y} + {x <> y}) (b : list A) :
  jaccard eq_dec 0 [] b == 0.
Proof.
  unfold jaccard. cbn [Py.set_of nodup].
  destruct (Py.set_of eq_dec b); [reflexivity|].
  cbn [Py.inter filter List.length Z.of_nat inject_Z].
  unfold Qdiv. ring.
Qed.

(** The bounds of the five terms of the score. *)
Lemma score_terms (current : Impetus) (r : IncidentRecord) :
  _compute_similarity current r
  <= 0.75 + 0.25 * jaccard CoreDrive_eq_dec 0 (involved_drives current)
                     (involved_drives (impetus r)) /\
  jaccard CoreDrive_eq_dec 0 (involved_drives current)
          (involved_drives (impetus r)) <= 1.
Proof.
  rewrite SubconsciousFacts.similarity_spec. unfold spec_similarity.
  destruct (SubconsciousFacts.indicator_bounds
              (String.eqb (trigger_type current) (trigger_type (impetus r))))
    as [I0 I1].
  destruct (SubconsciousFacts.jaccard_bounds CoreDrive_eq_dec 0
              (involved_drives current) (involved_drives (impetus r)))
    as [D0 D1]; [lra | lra |].
  destruct (SubconsciousFacts.severity_term_bounds
              (severity current - severity (impetus r)))
    as (S0 & S1 & _).
  destruct (SubconsciousFacts.jaccard_bounds EntityType_eq_dec 1
              (map entity_type (relevant_entities current))
              (map entity_type (relevant_entities (impetus r))))
    as [T0 T1]; [lra | lra |].
  destruct (SubconsciousFacts.indicator_bounds
              match emotional_value r with
              | Some ev => EmotionCategory_beq
                             (primary_emotion ev)
                             (_predict_emotion_category current)
              | None => false
              end) as [E0 E1].
  split; [lra | exact D1].
Qed.

(** X17. The emotion computed for an impetus is the one the similarity
    score predicts for it, so an incident recorded for an impetus, with
    the emotional value computed for it, is a best match for that
    impetus: no incident whatever scores higher against it, and its own
    score is at least 0.75, far above the 0.2 an incident needs to be
    retrieved. *)
Theorem recorded_incident_matches_its_own_impetus :
  forall (imp : Impetus) (r other : IncidentRecord),
    impetus r = imp ->
    emotional_value r = Some (_compute_emotional_value imp) ->
    primary_emotion (_compute_emotional_value imp)
    = _predict_emotion_category imp /\
    _compute_similarity imp other <= _compute_similarity imp r /\
    0.75 <= _compute_similarity imp r.
Proof.
  intros imp r other Hi He. split; [apply predicted_emotion|].
  pose proof (own_record_score imp r Hi He) as Hown.
  destruct (score_terms imp other) as [Hle Hj].
  destruct (involved_drives imp) as [|d ds] eqn:Ed.
  - cbn [Py.nonempty] in Hown.
    pose proof (jaccard_nil_l CoreDrive_eq_dec
                  (involved_drives (impetus other))) as Hz.
    rewrite Hz in Hle. split; lra.
  - cbn [Py.nonempty] in Hown. split; lra.
Qed.

(** X17 on the conflict of test group 8 and the two incidents in
    memory. *)
Lemma recorded_incident_matches_its_own_impetus_witness :
  let own := Scenario.past Scenario.base_impetus
               (_compute_emotional_value Scenario.base_impetus) 0.7 in
  _compute_similarity Scenario.base_impetus Scenario.similar_record
  <= _compute_similarity Scenario.base_impetus own /\
  0.75 <= _compute_similarity Scenario.base_impetus own.
Proof.
  intros own.
  apply (recorded_incident_matches_its_own_impetus Scenario.base_impetus
           own Scenario.similar_record); reflexivity.
Defined.

(** X18. The similarity score of any impetus and any stored incident
    lies between 0 and 1. *)
Theorem similarity_is_between_zero_and_one :
  forall (current : Impetus) (r : IncidentRecord),
    0 <= _compute_similarity current r /\ _compute_similarity current r <= 1.
Proof.
  intros current r.
  rewrite SubconsciousFacts.similarity_spec. unfold spec_similarity.
  destruct (SubconsciousFacts.indicator_bounds
              (String.eqb (trigger_type current) (trigger_type (impetus r))))
    as [I0 I1].
  destruct (SubconsciousFacts.jaccard_bounds CoreDrive_eq_dec 0
              (involved_drives current) (involved_drives (impetus r)))
    as [D0 D1]; [lra | lra |].
  destruct (SubconsciousFacts.severity_term_bounds
              (severity current - severity (impetus r)))
    as (S0 & S1 & _).
  destruct (SubconsciousFacts.jaccard_bounds EntityType_eq_dec 1
              (map entity_type (relevant_entities current))
              (map entity_type (relevant_entities (impetus r))))
    as [T0 T1]; [lra | lra |].
  destruct (SubconsciousFacts.indicator_bounds
              match emotional_value r with
              | Some ev => EmotionCategory_beq
                             (primary_emotion ev)
                             (_predict_emotion_category current)
              | None => false
              end) as [E0 E1].
  split; lra.
Qed.

Lemma clip_unit (x : Q) : in_unit (Py.clip x 0.0 1.0).
Proof.
  unfold in_unit, Py.clip. split.
  - apply Q.min_glb; [|lra].
    eapply Qle_trans; [|apply Q.le_max_r]. lra.
  - eapply Qle_trans; [apply Q.le_min_r|]. lra.
Qed.

Lemma max_in_unit (a x : Q) : in_unit a -> x <= 1 -> in_unit (Qmax a x).
Proof.
  unfold in_unit. intros [H0 H1] Hx. split.
  - eapply Qle_trans; [exact H0 | apply Q.le_max_l].
  - apply Q.max_lub; assumption.
Qed.

Lemma min_in_unit (a x : Q) : in_unit a -> 0 <= x -> in_unit (Qmin a x).
Proof.
  unfold in_unit. intros [H0 H1] Hx. split.
  - apply Q.min_glb; assumption.
  - eapply Qle_trans; [apply Q.le_min_l | exact H1].
Qed.

Lemma half_in_unit : in_unit 0.5.
Proof. unfold in_unit. split; lra. Qed.

Lemma factors_in_unit (ev : EmotionalValue) :
  let m := get_modulation_factors ev in
  in_unit (risk_tolerance m) /\ in_unit (exploration_drive m) /\
  in_unit (social_priority m) /\ in_unit (caution_level m) /\
  (in_unit (urgency ev) -> in_unit (time_pressure m)).
Proof.
  unfold get_modulation_factors, shifted.
  destruct (primary_emotion ev);
    cbn [risk_tolerance exploration_drive social_priority caution_level
         time_pressure];
    (split; [|split; [|split; [|split]]]);
    try apply clip_unit; try apply half_in_unit; try tauto;
    intros; apply clip_unit.
Qed.

Lemma history_keeps_unit (m : Factors) (history : list IncidentRecord) :
  let m' := _apply_history_modulation m history in
  (in_unit (risk_tolerance m) -> in_unit (risk_tolerance m')) /\
  (in_unit (exploration_drive m) -> in_unit (exploration_drive m')) /\
  (in_unit (social_priority m) -> in_unit (social_priority m')) /\
  (in_unit (caution_level m) -> in_unit (caution_level m')) /\
  (in_unit (time_pressure m) -> in_unit (time_pressure m')).
Proof.
  unfold _apply_history_modulation.
  destruct history as [|r0 rs]; [cbn; tauto|].
  set (h := r0 :: rs).
  assert (A : in_unit 0.1) by (unfold in_unit; split; lra).
  assert (B : in_unit 1.0) by (unfold in_unit; split; lra).
  assert (C : in_unit 0.8) by (unfold in_unit; split; lra).
  assert (D : in_unit 0.2) by (unfold in_unit; split; lra).
  destruct (Py.nonempty (qualities true h));
    [destruct (Py.lt (mean (qualities true h)) 0.4);
     [|destruct (Py.gt (mean (qualities true h)) 0.7)]|];
    destruct (Py.nonempty (qualities false h)
              && Py.lt (mean (qualities false h)) 0.4);
    cbn [risk_tolerance exploration_drive social_priority caution_level
         time_pressure];
    (split; [|split; [|split; [|split]]]); try tauto; intros [H0 H1];
    try (apply max_in_unit; [assumption | lra]);
    try (apply min_in_unit; [assumption | lra]).
Qed.

(** X19. The modulation factors stay within their range. Whatever the
    emotion, its intensity and the outcomes in the history, risk
    tolerance, exploration drive, social priority and caution level as
    put into a package lie between 0 and 1, and so does the time
    pressure whenever the urgency it starts from does; with no relevant
    history the factors are those of the emotion alone. *)
Theorem modulation_factors_stay_in_range :
  forall (ev : EmotionalValue) (history : list IncidentRecord),
    let m := _apply_history_modulation (get_modulation_factors ev) history in
    in_unit (risk_tolerance m) /\ in_unit (exploration_drive m) /\
    in_unit (social_priority m) /\ in_unit (caution_level m) /\
    (in_unit (urgency ev) -> in_unit (time_pressure m)) /\
    (history = [] -> m = get_modulation_factors ev).
Proof.
  intros ev history m.
  destruct (factors_in_unit ev) as (F1 & F2 & F3 & F4 & F5).
  destruct (history_keeps_unit (get_modulation_factors ev) history)
    as (K1 & K2 & K3 & K4 & K5).
  fold m in K1, K2, K3, K4, K5.
  split; [exact (K1 F1)|]. split; [exact (K2 F2)|].
  split; [exact (K3 F3)|]. split; [exact (K4 F4)|].
  split; [intros Hu; exact (K5 (F5 Hu))|].
  intros E. unfold m. rewrite E. reflexivity.
Qed.

(** X19 on a fear of intensity 3 with one bad outcome behind it. *)
Lemma modulation_factors_stay_in_range_witness :
  let m := _apply_history_modulation
             (get_modulation_factors (Scenario.emotion FEAR 3 0.5))
             [Scenario.past Scenario.base_impetus
                (Scenario.emotion FEAR 0.8 0.5) 0.1] in
  in_unit (time_pressure m) /\ in_unit (risk_tolerance m).
Proof.
  intros m.
  destruct (modulation_factors_stay_in_range (Scenario.emotion FEAR 3 0.5)
              [Scenario.past Scenario.base_impetus
                 (Scenario.emotion FEAR 0.8 0.5) 0.1])
    as (H1 & _ & _ & _ & H5 & _).
  split; [apply H5; split; vm_compute; discriminate | exact H1].
Defined.

Lemma update_newest_length (ts : Q) (out : Outcome)
    (l : list IncidentRecord) :
  List.length (update_newest ts out l) = List.length l /\
  map impetus (update_newest ts out l) = map impetus l /\
  map timestamp (update_newest ts out l) = map timestamp l.
Proof.
  induction l as [|r l (IH1 & IH2 & IH3)]; simpl; [repeat split|].
  destruct (Qeq_bool (timestamp r) ts); simpl; repeat split; congruence.
Qed.

Lemma update_newest_miss (ts : Q) (out : Outcome) (l : list IncidentRecord) :
  (forall x, In x l -> ~ timestamp x == ts) -> update_newest ts out l = l.
Proof.
  induction l as [|r l IH]; intros H; simpl; [reflexivity|].
  destruct (Qeq_bool (timestamp r) ts) eqn:E.
  - apply Qeq_bool_iff in E. exfalso. apply (H r); [left; reflexivity|exact E].
  - rewrite IH; [reflexivity|]. intros x Hx. apply H. right. exact Hx.
Qed.

Lemma update_newest_hit (ts : Q) (out : Outcome)
    (newer older : list IncidentRecord) (r : IncidentRecord) :
  (forall x, In x newer -> ~ timestamp x == ts) ->
  timestamp r == ts ->
  update_newest ts out (newer ++ r :: older)
  = (newer ++ with_outcome r out :: older)%list.
Proof.
  induction newer as [|n newer IH]; intros H Hr; simpl.
  - apply Qeq_bool_iff in Hr. rewrite Hr. reflexivity.
  - destruct (Qeq_bool (timestamp n) ts) eqn:E.
    + apply Qeq_bool_iff in E. exfalso.
      apply (H n); [left; reflexivity | exact E].
    + rewrite IH; [reflexivity | | exact Hr].
      intros x Hx. apply H. right. exact Hx.
Qed.

(** X20. An outcome that arrives late goes to the newest incident with
    that time stamp and to no other: the history keeps its length, its
    impetuses and its time stamps; the last record whose time stamp
    equals the given one gets the outcome while the records after it
    and before it stay as they are; and when no record has the time
    stamp the history is unchanged. *)
Theorem late_outcome_goes_to_the_newest_match :
  forall (self : SubconsciousLayer) (ts : Q) (out : Outcome),
    let after := update_incident_outcome self ts out in
    List.length (_incident_history after)
    = List.length (_incident_history self) /\
    map impetus (_incident_history after)
    = map impetus (_incident_history self) /\
    (forall older r newer,
       _incident_history self = (older ++ r :: newer)%list ->
       timestamp r == ts ->
       (forall x, In x newer -> ~ timestamp x == ts) ->
       _incident_history after
       = (older ++ with_outcome r out :: newer)%list) /\
    ((forall x, In x (_incident_history self) -> ~ timestamp x == ts) ->
     _incident_history after = _incident_history self).
Proof.
  intros self ts out after. unfold after, update_incident_outcome.
  cbn [_incident_history]. set (h := _incident_history self).
  destruct (update_newest_length ts out (rev h)) as (L1 & L2 & _).
  split; [rewrite length_rev, L1, length_rev; reflexivity|].
  split; [rewrite map_rev, L2, <- map_rev, rev_involutive; reflexivity|].
  split.
  - intros older r newer Hh Hr Hn. rewrite Hh.
    rewrite rev_app_distr. cbn [rev]. rewrite <- app_assoc. cbn [app].
    rewrite update_newest_hit;
      [|intros x Hx; apply Hn, in_rev; exact Hx | exact Hr].
    rewrite rev_app_distr. cbn [rev].
    rewrite !rev_involutive, <- app_assoc. reflexivity.
  - intros Hmiss. rewrite update_newest_miss; [apply rev_involutive|].
    intros x Hx. apply Hmiss, in_rev. exact Hx.
Qed.

(** X20 on the memory of test group 8 and the older record's time
    stamp. *)
Lemma late_outcome_goes_to_the_newest_match_witness :
  let out := {| quality := Some 0.9; outcome_success := Some true;
                execution := None |} in
  _incident_history (update_incident_outcome Scenario.memory 900 out)
  = [Scenario.dissimilar_record;
     with_outcome Scenario.similar_record out].
Proof.
  intros out.
  apply (proj1 (proj2 (proj2 (late_outcome_goes_to_the_newest_match
                                Scenario.memory 900 out)))
               [Scenario.dissimilar_record] Scenario.similar_record []).
  - reflexivity.
  - reflexivity.
  - intros x [].
Defined.

End MemoryFacts.

(** ** The vote and its winner *)

Module VotingFacts.
Import Embodiment Data Conscious.

Lemma choose_In (tb : AspectType) (tied : list ProposedAction)
    (p : ProposedAction) :
  _tiebreaker_choose tb tied = Some p -> In p tied.
Proof.
  rewrite ConsciousFacts.tiebreaker_choose_spec. unfold spec_choice.
  destruct (in_tie tb tied).
  - intros H. apply find_some in H. tauto.
  - destruct (find (fun ally => in_tie ally tied) (aspect_affinity tb)).
    + intros H. apply find_some in H. tauto.
    + destruct tied as [|t tied]; simpl; [discriminate|].
      intros H. inversion H. left. reflexivity.
Qed.

Lemma record_tiebreak_same (p w : ProposedAction) (tb : AspectType)
    (tied : list ProposedAction) :
  record_tiebreak p tb tied = Returned w ->
  aspect w = aspect p /\ action_commands w = action_commands p /\
  vote_strength w = vote_strength p.
Proof.
  unfold record_tiebreak. destruct (vote_components p); [|discriminate].
  intros H. inversion H. repeat split.
Qed.

Lemma tied_of_single (only : ProposedAction) (permitted : list ProposedAction) :
  Py.sorted_reverse vote_strength permitted = [only] ->
  tied_of permitted = [only].
Proof.
  intros E. unfold tied_of. rewrite E. cbn [filter].
  assert (Hle : Py.le (vote_strength only - vote_strength only) TIE_THRESHOLD
                = true).
  { unfold Py.le, TIE_THRESHOLD. apply Qle_bool_iff. lra. }
  rewrite Hle. reflexivity.
Qed.

(** Whatever [resolve_votes] returns stems from a tied proposal. *)
Lemma winner_from_tied (self : ConsciousLayer)
    (permitted : list ProposedAction) (w : ProposedAction) :
  snd (resolve_votes self permitted) = Returned (Some w) ->
  exists p, In p (tied_of permitted) /\
            aspect w = aspect p /\ action_commands w = action_commands p /\
            vote_strength w = vote_strength p.
Proof.
  unfold resolve_votes.
  destruct permitted as [|p0 ps]; [discriminate|].
  set (permitted := p0 :: ps).
  assert (Hne : permitted <> []) by discriminate.
  pose proof (ConsciousFacts.sorted_reverse_length vote_strength permitted)
    as Hl.
  assert (Hs : Py.sorted_reverse vote_strength permitted <> []).
  { intros E. rewrite E in Hl. unfold permitted in Hl. simpl in Hl. lia. }
  pose proof (ConsciousFacts.tied_of_nonempty permitted Hne Hs) as Htn.
  destruct (Py.sorted_reverse vote_strength permitted) as [|s0 [|s1 ss]]
    eqn:Es; [congruence | |].
  - cbn [snd]. intros H. inversion H; subst.
    rewrite (tied_of_single w permitted Es). exists w. simpl. tauto.
  - destruct (tied_of permitted) as [|t0 [|t1 ts]] eqn:Et; [congruence | |].
    + cbn [snd]. intros H. inversion H; subst. exists w. simpl. tauto.
    + destruct (get_current_tiebreaker _) as [tb|]; [|cbn; discriminate].
      destruct (_tiebreaker_choose tb (t0 :: t1 :: ts)) as [p|] eqn:Ec;
        [|cbn; discriminate].
      destruct (record_tiebreak p tb (t0 :: t1 :: ts)) as [w'|] eqn:Er;
        cbn [snd]; [|discriminate].
      intros H. inversion H; subst w'. exists p.
      split; [apply (choose_In tb), Ec|].
      apply (record_tiebreak_same _ _ _ _ Er).
Qed.

(** A tied proposal is a permitted one, within the threshold of every
    other. *)
Lemma tied_is_top (permitted : list ProposedAction) (p : ProposedAction) :
  In p (tied_of permitted) ->
  In p permitted /\
  forall q, In q permitted ->
            vote_strength q - vote_strength p <= TIE_THRESHOLD.
Proof.
  unfold tied_of.
  pose proof (SortFacts.sorted_reverse_perm vote_strength permitted) as Hperm.
  pose proof (SortFacts.sorted_reverse_sorted vote_strength permitted) as Hs.
  destruct (Py.sorted_reverse vote_strength permitted) as [|top rest];
    [intros []|].
  intros Hp. apply filter_In in Hp. destruct Hp as [Hin Hle].
  apply Qle_bool_iff in Hle.
  split; [apply (Permutation_in _ Hperm), Hin|].
  intros q Hq.
  apply (Permutation_in _ (Permutation_sym Hperm)) in Hq.
  assert (Hqt : vote_strength q <= vote_strength top).
  { destruct Hq as [<-|Hq]; [lra|].
    inversion Hs as [|? ? _ Hall]; subst.
    rewrite Forall_forall in Hall. apply (Hall q Hq). }
  lra.
Qed.

Lemma resolve_votes_returns (self : ConsciousLayer)
    (permitted : list ProposedAction) :
  permitted <> [] ->
  (_tiebreaker_index self < 6)%nat ->
  (forall p, In p permitted -> vote_components p <> None) ->
  exists w, snd (resolve_votes self permitted) = Returned (Some w).
Proof.
  intros Hne Hidx Hvc. unfold resolve_votes.
  destruct permitted as [|p0 ps]; [congruence|].
  set (permitted := p0 :: ps) in *.
  pose proof (ConsciousFacts.sorted_reverse_length vote_strength permitted)
    as Hl.
  assert (Hs : Py.sorted_reverse vote_strength permitted <> []).
  { intros E. rewrite E in Hl. unfold permitted in Hl. simpl in Hl. lia. }
  pose proof (ConsciousFacts.tied_of_nonempty permitted Hne Hs) as Htn.
  destruct (Py.sorted_reverse vote_strength permitted) as [|s0 [|s1 ss]]
    eqn:Es; [congruence | eexists; reflexivity |].
  destruct (tied_of permitted) as [|t0 [|t1 ts]] eqn:Et;
    [congruence | eexists; reflexivity |].
  unfold get_current_tiebreaker. cbn [_tiebreaker_index set_decisions_made].
  destruct (nth_error TIEBREAKER_ORDER (_tiebreaker_index self)) as [tb|]
    eqn:En; [|apply nth_error_None in En; simpl in En; lia].
  destruct (ConsciousFacts.tiebreaker_choose_some tb (t0 :: t1 :: ts))
    as [p Hp]; [discriminate|].
  rewrite Hp.
  assert (Hin : In p permitted).
  { apply tied_is_top. rewrite Et. apply (choose_In tb), Hp. }
  specialize (Hvc p Hin). unfold record_tiebreak.
  destruct (vote_components p); [|congruence].
  eexists. reflexivity.
Qed.

Lemma resolve_votes_counts (self : ConsciousLayer)
    (permitted : list ProposedAction) :
  _decisions_made (fst (resolve_votes self permitted))
  = match permitted with
    | [] => _decisions_made self
    | _ :: _ => S (_decisions_made self)
    end.
Proof.
  unfold resolve_votes. destruct permitted as [|p0 ps]; [reflexivity|].
  destruct (Py.sorted_reverse vote_strength (p0 :: ps)) as [|s0 [|s1 ss]];
    destruct (tied_of (p0 :: ps)) as [|t0 [|t1 ts]]; try reflexivity;
    destruct (get_current_tiebreaker _) as [tb|]; try reflexivity;
    destruct (_tiebreaker_choose tb _) as [p|]; try reflexivity;
    destruct (record_tiebreak p tb _); reflexivity.
Qed.

Lemma resolve_votes_none (self : ConsciousLayer)
    (permitted : list ProposedAction) :
  snd (resolve_votes self permitted) = Returned None -> permitted = [].
Proof.
  unfold resolve_votes. destruct permitted as [|p0 ps]; [reflexivity|].
  destruct (Py.sorted_reverse vote_strength (p0 :: ps)) as [|s0 [|s1 ss]];
    destruct (tied_of (p0 :: ps)) as [|t0 [|t1 ts]]; try discriminate;
    destruct (get_current_tiebreaker _) as [tb|]; try discriminate;
    destruct (_tiebreaker_choose tb _) as [p|]; try discriminate;
    destruct (record_tiebreak p tb _); discriminate.
Qed.

(** X21. The vote resolution names nobody only when nothing is
    permitted. Whatever it names is one of the permitted proposals, with
    its aspect, commands and vote, and no permitted proposal has a vote
    more than the tie threshold above the winner's. With an index inside
    the tiebreaker order and vote components on every proposal, as
    [deliberate] leaves them, it names a winner for every permitted list
    that is not empty, and counts one decision for it. *)
Theorem winner_is_permitted_and_near_the_top :
  forall (self : ConsciousLayer) (permitted : list ProposedAction),
    (snd (resolve_votes self permitted) = Returned None <-> permitted = []) /\
    (forall w,
       snd (resolve_votes self permitted) = Returned (Some w) ->
       exists p,
         In p permitted /\ aspect w = aspect p /\
         action_commands w = action_commands p /\
         vote_strength w = vote_strength p /\
         forall q, In q permitted ->
                   vote_strength q - vote_strength w <= TIE_THRESHOLD) /\
    (permitted <> [] ->
     (_tiebreaker_index self < 6)%nat ->
     (forall p, In p permitted -> vote_components p <> None) ->
     exists w,
       snd (resolve_votes self permitted) = Returned (Some w) /\
       _decisions_made (fst (resolve_votes self permitted))
       = S (_decisions_made self)).
Proof.
  intros self permitted. split; [|split].
  - split; [apply resolve_votes_none|]. intros ->. reflexivity.
  - intros w Hw.
    destruct (winner_from_tied self permitted w Hw)
      as (p & Hp & Ha & Hc & Hv).
    destruct (tied_is_top permitted p Hp) as [Hin Htop].
    exists p. repeat split; try assumption.
    intros q Hq. rewrite Hv. apply Htop, Hq.
  - intros Hne Hidx Hvc.
    destruct (resolve_votes_returns self permitted Hne Hidx Hvc) as [w Hw].
    exists w. split; [exact Hw|].
    rewrite resolve_votes_counts. destruct permitted; [congruence|].
    reflexivity.
Qed.

(** X21 on the persistent tie of the rotation test. *)
Lemma winner_is_permitted_and_near_the_top_witness :
  exists w,
    snd (resolve_votes init Scenario.persistent_tie) = Returned (Some w) /\
    _decisions_made (fst (resolve_votes init Scenario.persistent_tie))
    = 1%nat.
Proof.
  apply (proj2 (proj2 (winner_is_permitted_and_near_the_top
                         init Scenario.persistent_tie))).
  - discriminate.
  - simpl. lia.
  - intros p [<-|[<-|[]]]; discriminate.
Defined.

Lemma clip_bounds (x lo hi : Q) :
  lo <= hi -> lo <= Py.clip x lo hi /\ Py.clip x lo hi <= hi.
Proof.
  intros H. unfold Py.clip. split.
  - apply Q.min_glb; [apply Q.le_max_r | exact H].
  - apply Q.le_min_r.
Qed.

(** X22. An aspect's confidence stays within 0.2 and 0.9. One outcome
    puts the confidence of the action's aspect inside these bounds
    whatever it was and whatever the quality, and leaves the confidence
    of every other aspect as it is; so through any run of feedback every
    confidence that started inside the bounds stays there. *)
Theorem confidence_stays_within_bounds :
  forall (self : ConsciousLayer) (action : ProposedAction) (out : Outcome)
         (us : list (AspectType * Q)) (a : AspectType),
    let after := update_from_outcome self action out in
    (0.2 <= _confidence after (aspect action)
     /\ _confidence after (aspect action) <= 0.9) /\
    (a <> aspect action -> _confidence after a = _confidence self a) /\
    ((forall b, 0.2 <= _confidence self b /\ _confidence self b <= 0.9) ->
     0.2 <= _confidence (feedback self us) a
     /\ _confidence (feedback self us) a <= 0.9).
Proof.
  intros self action out us a after.
  assert (Hone : forall s act o b,
             (0.2 <= _confidence s b /\ _confidence s b <= 0.9) ->
             0.2 <= _confidence (update_from_outcome s act o) b
             /\ _confidence (update_from_outcome s act o) b <= 0.9).
  { intros s act o b Hb. unfold update_from_outcome.
    cbn [_confidence]. unfold assign.
    destruct (AspectType_beq b (aspect act)); [|exact Hb].
    apply clip_bounds. lra. }
  split; [|split].
  - unfold after, update_from_outcome. cbn [_confidence]. unfold assign.
    rewrite ConsciousFacts.AspectType_beq_refl. apply clip_bounds. lra.
  - intros Hne. unfold after, update_from_outcome. cbn [_confidence].
    unfold assign. rewrite (ConsciousFacts.AspectType_beq_neq _ _ Hne).
    reflexivity.
  - unfold feedback. clear after. revert self.
    induction us as [|u us IH]; intros self Hall; cbn [fold_left];
      [apply Hall|].
    apply IH. intros b. apply Hone, Hall.
Qed.

(** X22 on fifty good and fifty bad outcomes from the start. *)
Lemma confidence_stays_within_bounds_witness :
  0.2 <= _confidence (feedback init (Scenario.in_turn 50 GUARDIAN EXPLORER))
           EXPLORER
  /\ _confidence (feedback init (Scenario.in_turn 50 GUARDIAN EXPLORER))
       EXPLORER <= 0.9.
Proof.
  apply (proj2 (proj2 (confidence_stays_within_bounds
                         init (bare_action GUARDIAN)
                         {| quality := None; outcome_success := None;
                            execution := None |}
                         (Scenario.in_turn 50 GUARDIAN EXPLORER) EXPLORER))).
  intros b. split; vm_compute; discriminate.
Defined.

End VotingFacts.

(** ** The personality on display *)

Module PersonalityFacts.
Import Data Conscious Personality.

Lemma fold_weight_step_ge (qs : list Q) :
  forall w, 0.1 <= w -> 0.1 <= fold_left weight_step qs w.
Proof.
  induction qs as [|q qs IH]; intros w Hw; simpl; [exact Hw|].
  apply IH. apply ConsciousFacts.weight_step_clamped.
Qed.

Lemma feedback_weights_positive (us : list (AspectType * Q))
    (a : AspectType) :
  0 < _personality_weights (feedback init us) a.
Proof.
  rewrite ConsciousFacts.feedback_weight.
  assert (H : 0.1 <= fold_left weight_step
                       (map snd (filter (fun u => AspectType_beq a (fst u)) us))
                       (_personality_weights init a)).
  { apply fold_weight_step_ge. cbn. lra. }
  lra.
Qed.

Lemma profile_of_positive (self : ConsciousLayer) :
  (forall a, 0 < _personality_weights self a) ->
  exists profile,
    get_personality_profile self = Returned profile /\
    fold_left Qplus (map profile AspectTypes) 0 == 1 /\
    (forall a, 0 < profile a /\ profile a <= 1) /\
    (forall a b, _personality_weights self a <= _personality_weights self b ->
                 profile a <= profile b).
Proof.
  intros Hpos. unfold get_personality_profile.
  set (w := _personality_weights self) in *.
  assert (Htot : total_weight self
                 == w GUARDIAN + w ANALYST + w OPTIMIZER + w EMPATH
                    + w EXPLORER + w PRAGMATIST).
  { unfold total_weight. fold w. cbn [AspectTypes map fold_left]. ring. }
  pose proof (Hpos GUARDIAN). pose proof (Hpos ANALYST).
  pose proof (Hpos OPTIMIZER). pose proof (Hpos EMPATH).
  pose proof (Hpos EXPLORER). pose proof (Hpos PRAGMATIST).
  assert (Ht : 0 < total_weight self) by lra.
  destruct (Qeq_bool (total_weight self) 0) eqn:E.
  { apply Qeq_bool_iff in E. lra. }
  exists (fun at_ => w at_ / total_weight self).
  split; [reflexivity|].
  split.
  { cbn [AspectTypes map fold_left]. rewrite Htot. field. lra. }
  split.
  { intros a. split.
    - apply Qlt_shift_div_l; [exact Ht|]. pose proof (Hpos a). lra.
    - apply Qle_shift_div_r; [exact Ht|]. destruct a; fold w; lra. }
  intros a b Hab. unfold Qdiv.
  apply Qmult_le_compat_r; [exact Hab|].
  apply Qinv_le_0_compat. lra.
Qed.

(** X23. The personality shown is a share: whenever all six weights are
    positive, [get_personality_profile] divides each weight by their
    total, so the six shares are positive, sum to one and stand in the
    order of the weights. From the start and through any run of feedback
    the weights are positive, so the call never divides by zero. *)
Theorem personality_profile_sums_to_one :
  forall (self : ConsciousLayer) (us : list (AspectType * Q)),
    ((forall a, 0 < _personality_weights self a) ->
     exists profile,
       get_personality_profile self = Returned profile /\
       fold_left Qplus (map profile AspectTypes) 0 == 1 /\
       (forall a, 0 < profile a /\ profile a <= 1) /\
       (forall a b,
          _personality_weights self a <= _personality_weights self b ->
          profile a <= profile b)) /\
    (exists profile,
       get_personality_profile (feedback init us) = Returned profile /\
       fold_left Qplus (map profile AspectTypes) 0 == 1).
Proof.
  intros self us. split; [apply profile_of_positive|].
  destruct (profile_of_positive (feedback init us)) as (profile & H1 & H2 & _).
  - intros a. apply feedback_weights_positive.
  - exists profile. split; assumption.
Qed.

(** X23 on the layer as constructed: six shares of one sixth. *)
Lemma personality_profile_sums_to_one_witness :
  exists profile,
    get_personality_profile init = Returned profile /\
    fold_left Qplus (map profile AspectTypes) 0 == 1 /\
    (forall a, 0 < profile a /\ profile a <= 1).
Proof.
  destruct (proj1 (personality_profile_sums_to_one init []))
    as (profile & H1 & H2 & H3 & _).
  - intros a. reflexivity.
  - exists profile. split; [exact H1|]. split; [exact H2 | exact H3].
Defined.

End PersonalityFacts.

(** ** What an aspect cares about *)

Module AspectFacts.
Import Embodiment Data Aspect.

Lemma lookup_le_1 {K : Type} (eqb : K -> K -> bool) (d : list (K * Q))
    (k : K) :
  Forall (fun kv => snd kv <= 1) d ->
  Py.get_default eqb d k 0.3 <= 1.
Proof.
  intros Hall. unfold Py.get_default.
  destruct (Py.get eqb d k) as [v|] eqn:E; [|lra].
  destruct (HarmFacts.get_In eqb d k v E) as (k' & Hin & _).
  rewrite Forall_forall in Hall. apply (Hall (k', v) Hin).
Qed.

Lemma profiles_le_1 (a : AspectType) :
  let profile := RELEVANCE_PROFILES a in
  Forall (fun kv => snd kv <= 1) (drives profile) /\
  Forall (fun kv => snd kv <= 1) (entity_types profile) /\
  Forall (fun kv => snd kv <= 1) (emotions profile) /\
  Forall (fun kv => snd kv <= 1) (triggers profile) /\
  0.3 <= base_relevance profile /\ base_relevance profile <= 1.
Proof.
  destruct a; cbn [RELEVANCE_PROFILES drives entity_types emotions triggers
                   base_relevance];
    repeat split;
    repeat (apply Forall_cons; [cbn [snd]; lra|]); try apply Forall_nil;
    lra.
Qed.

Lemma fold_Qmax_le (xs : list Q) :
  forall x, x <= 1 -> Forall (fun y => y <= 1) xs ->
            fold_left Qmax xs x <= 1.
Proof.
  induction xs as [|y xs IH]; intros x Hx Hall; simpl; [exact Hx|].
  inversion Hall; subst. apply IH; [apply Q.max_lub; assumption|assumption].
Qed.

(** A list of relevances adds nothing, or one score of at most one. *)
Lemma scored_cases (relevances : list Q) (w : Q) :
  Forall (fun y => y <= 1) relevances ->
  scored relevances w = [] \/ exists m, scored relevances w = [(m, w)] /\ m <= 1.
Proof.
  intros Hall. unfold scored, max_of.
  destruct relevances as [|x xs]; [left; reflexivity|].
  right. eexists. split; [reflexivity|].
  inversion Hall; subst. apply fold_Qmax_le; assumption.
Qed.

(** X24. Every aspect gets some say and none more than a full one: the
    situational relevance an aspect computes for a package is at least
    its base relevance, hence at least 0.3, and at most 1, whatever
    drives, entities, emotion and trigger the package carries. *)
Theorem relevance_is_between_base_and_one :
  forall (a : AspectType) (package : DeliberationPackage),
    base_relevance (RELEVANCE_PROFILES a)
    <= compute_situational_relevance a package /\
    0.3 <= compute_situational_relevance a package /\
    compute_situational_relevance a package <= 1.
Proof.
  intros a package.
  destruct (profiles_le_1 a) as (Hd & He & Hm & Ht & Hb0 & Hb1).
  unfold compute_situational_relevance.
  set (profile := RELEVANCE_PROFILES a) in *.
  set (computed := if Py.nonempty _ then _ else _).
  assert (Hlow : base_relevance profile <= Qmax (base_relevance profile) computed)
    by apply Q.le_max_l.
  split; [exact Hlow|]. split; [lra|].
  apply Q.max_lub; [exact Hb1|].
  unfold computed. clear computed Hlow.
  set (em := Py.get_default EmotionCategory_beq (emotions profile) _ 0.3).
  set (tr := Py.get_default String.eqb (triggers profile) _ 0.3).
  assert (Hem : em <= 1) by apply (lookup_le_1 _ _ _ Hm).
  assert (Htr : tr <= 1) by apply (lookup_le_1 _ _ _ Ht).
  destruct (scored_cases
              (map (fun drive => Py.get_default CoreDrive_beq (drives profile)
                                                drive 0.3)
                   (involved_drives (package_impetus package))) 0.35)
    as [S1|(m1 & S1 & Hm1)];
    [apply Forall_forall; intros y Hy; apply in_map_iff in Hy;
     destruct Hy as (k & <- & _); apply (lookup_le_1 _ _ _ Hd) | |];
    (destruct (scored_cases
                 (map (fun e => Py.get_default EntityType_beq
                                  (entity_types profile) (entity_type e) 0.3)
                      (relevant_entities (package_impetus package))) 0.25)
      as [S2|(m2 & S2 & Hm2)];
      [apply Forall_forall; intros y Hy; apply in_map_iff in Hy;
       destruct Hy as (k & <- & _); apply (lookup_le_1 _ _ _ He) | |]);
    rewrite S1, S2;
    cbn [app Py.nonempty map fold_left fst snd];
    (apply Qle_shift_div_r; [lra|]); lra.
Qed.

End AspectFacts.

(** ** The deliberation cycle *)

Module CycleFacts.
Import Embodiment Data Registry Layer Subconscious Conscious System.

Lemma filter_none {A : Type} (f : A -> bool) (l : list A) :
  (forall x, In x l -> f x = false) -> filter f l = [].
Proof.
  induction l as [|x l IH]; intros H; simpl; [reflexivity|].
  rewrite (H x (or_introl eq_refl)). apply IH.
  intros y Hy. apply H. right. exact Hy.
Qed.

Lemma filter_all {A : Type} (f : A -> bool) (l : list A) :
  (forall x, In x l -> f x = true) -> filter f l = l.
Proof.
  induction l as [|x l IH]; intros H; simpl; [reflexivity|].
  rewrite (H x (or_introl eq_refl)). f_equal. apply IH.
  intros y Hy. apply H. right. exact Hy.
Qed.

Lemma resolve_votes_weights (self : ConsciousLayer)
    (permitted : list ProposedAction) :
  _personality_weights (fst (resolve_votes self permitted))
  = _personality_weights self /\
  _confidence (fst (resolve_votes self permitted)) = _confidence self.
Proof.
  unfold resolve_votes. destruct permitted as [|p0 ps]; [split; reflexivity|].
  destruct (Py.sorted_reverse vote_strength (p0 :: ps)) as [|s0 [|s1 ss]];
    destruct (tied_of (p0 :: ps)) as [|t0 [|t1 ts]];
    try (split; reflexivity);
    destruct (get_current_tiebreaker _) as [tb|]; try (split; reflexivity);
    destruct (_tiebreaker_choose tb _) as [p|]; try (split; reflexivity);
    destruct (record_tiebreak p tb _); split; reflexivity.
Qed.

(** X25. Only what the veto check lets through is executed. In every
    cycle the six aspects each make one proposal and the cycle counter
    goes up by one. If all six are vetoed, nothing is executed, the
    embodiment layer is as before and the cycle reports no selection and
    six vetoes. If the cycle reports a selected aspect, that aspect has a
    proposal the veto check let through, and the one call to
    [execute_commands] the cycle made was for the commands of that
    proposal. This holds whatever the reasoning, relevance and veto calls
    return. *)
Theorem only_permitted_proposals_are_executed :
  forall (ext : Externals) (self : TripartiteAGI) (imp : Impetus),
    let package := snd (process_impetus (subconscious self) imp) in
    let proposals :=
      snd (deliberate (conscious self)
             (fun a => aspect_deliberate ext a package)
             (fun a => relevance ext a package)) in
    let r := _run_deliberation_cycle ext self imp in
    List.length proposals = 6%nat /\
    _cycle_count (fst (fst r)) = S (_cycle_count self) /\
    ((forall p, In p proposals -> vetoed ext p package = true) ->
     embodiment (fst (fst r)) = embodiment self /\ snd r = [] /\
     exists rec, snd (fst r) = Returned rec /\ selected rec = None
                 /\ phase_vetoed rec = 6%nat) /\
    (forall rec a,
       snd (fst r) = Returned rec -> selected rec = Some a ->
       exists p,
         In p proposals /\ aspect p = a /\ vetoed ext p package = false /\
         embodiment (fst (fst r))
         = fst (execute_commands (embodiment self) (action_commands p)) /\
         snd r = [snd (execute_commands (embodiment self)
                         (action_commands p))]).
Proof.
  intros ext self imp package proposals r.
  assert (Hlen : List.length proposals = 6%nat) by reflexivity.
  split; [exact Hlen|].
  unfold r, _run_deliberation_cycle. cbv zeta.
  fold package. fold proposals.
  set (permitted := filter (fun p => negb (vetoed ext p package)) proposals).
  set (con := fst (deliberate (conscious self)
                     (fun a => aspect_deliberate ext a package)
                     (fun a => relevance ext a package))).
  split.
  { destruct (snd (resolve_votes con permitted)) as [[chosen|]|e];
      reflexivity. }
  split.
  - intros Hall.
    assert (Hp : permitted = []).
    { apply filter_none. intros p Hp. rewrite (Hall p Hp). reflexivity. }
    rewrite Hp. cbn [resolve_votes snd fst].
    split; [reflexivity|]. split; [reflexivity|].
    eexists. split; [reflexivity|]. split; [reflexivity|].
    cbn [phase_vetoed]. rewrite (filter_all _ _ Hall). exact Hlen.
  - intros rec a.
    destruct (snd (resolve_votes con permitted)) as [[chosen|]|e] eqn:Er;
      cbn [fst snd].
    + intros Hrec Hsel. inversion Hrec; subst rec. cbn [selected] in Hsel.
      inversion Hsel; subst a.
      destruct (VotingFacts.winner_from_tied con permitted chosen Er)
        as (p & Hp & Ha & Hc & _).
      destruct (VotingFacts.tied_is_top permitted p Hp) as [Hin _].
      apply filter_In in Hin. destruct Hin as [Hin Hv].
      exists p. split; [exact Hin|]. split; [symmetry; exact Ha|].
      split; [apply negb_true_iff; exact Hv|].
      rewrite Hc. split; reflexivity.
    + intros Hrec Hsel. inversion Hrec; subst rec. discriminate.
    + discriminate.
Qed.

(** X25 on six aspects that all want to drive and a veto on every
    proposal. *)
Lemma only_permitted_proposals_are_executed_witness :
  let strict := {| aspect_deliberate := aspect_deliberate Scenario.eager;
                   relevance := relevance Scenario.eager;
                   vetoed := fun _ _ => true;
                   monitor := monitor Scenario.eager |} in
  let self := {| embodiment := Layer.init Scenario.permissive;
                 subconscious := Subconscious.init 1000;
                 conscious := Conscious.init;
                 _cycle_count := 0; _strict_integrity := true;
                 _integrity_failures := [] |} in
  embodiment (fst (fst (_run_deliberation_cycle strict self
                          Scenario.base_impetus)))
  = embodiment self /\
  snd (_run_deliberation_cycle strict self Scenario.base_impetus) = [].
Proof.
  intros strict self.
  destruct (only_permitted_proposals_are_executed strict self
              Scenario.base_impetus) as (_ & _ & Hall & _).
  destruct Hall as (H1 & H2 & _); [reflexivity|].
  split; [exact H1 | exact H2].
Defined.

(** X26. Every cycle that completes leaves one more incident in the
    history (the oldest giving way when the history is full): it carries
    the cycle's impetus, the emotion computed for it and the six
    proposals. The subconscious layer has counted one more impetus and
    holds that emotion as the current one, and no aspect other than the
    selected one has had its weight or confidence changed. *)
Theorem a_completed_cycle_records_one_incident :
  forall (ext : Externals) (self : TripartiteAGI) (imp : Impetus)
         (rec : CycleRecord),
    let r := _run_deliberation_cycle ext self imp in
    let after := fst (fst r) in
    snd (fst r) = Returned rec ->
    (exists made,
       _incident_history (subconscious after)
       = deque_append (history_size (subconscious self))
                      (_incident_history (subconscious self)) made /\
       impetus made = imp /\
       emotional_value made = Some (_compute_emotional_value imp) /\
       List.length (proposed_actions made) = 6%nat /\
       option_map aspect (selected_action made) = selected rec) /\
    _impetuses_processed (subconscious after)
    = S (_impetuses_processed (subconscious self)) /\
    _current_emotion (subconscious after) = _compute_emotional_value imp /\
    phase_emotion rec = _predict_emotion_category imp /\
    (forall a, selected rec <> Some a ->
       _personality_weights (conscious after) a
       = _personality_weights (conscious self) a /\
       _confidence (conscious after) a = _confidence (conscious self) a).
Proof.
  intros ext self imp rec r after. unfold after, r.
  unfold _run_deliberation_cycle. cbv zeta.
  set (package := snd (process_impetus (subconscious self) imp)).
  set (proposals := snd (deliberate (conscious self)
                           (fun a => aspect_deliberate ext a package)
                           (fun a => relevance ext a package))).
  set (con := fst (deliberate (conscious self)
                     (fun a => aspect_deliberate ext a package)
                     (fun a => relevance ext a package))).
  set (permitted := filter (fun p => negb (vetoed ext p package)) proposals).
  destruct (resolve_votes_weights con permitted) as [Hw Hc].
  destruct (snd (resolve_votes con permitted)) as [[chosen|]|e] eqn:Er;
    cbn [fst snd]; [| |discriminate];
    intros Hrec; inversion Hrec; subst rec; clear Hrec;
    cbn [subconscious conscious selected phase_emotion].
  - split.
    { eexists. split; [reflexivity|]. cbn. repeat split. }
    split; [reflexivity|]. split; [reflexivity|].
    split; [apply MemoryFacts.predicted_emotion|].
    intros a Ha.
    assert (Hne : a <> aspect chosen) by congruence.
    unfold update_from_outcome. cbn [_personality_weights _confidence].
    unfold assign. rewrite (ConsciousFacts.AspectType_beq_neq _ _ Hne).
    rewrite Hw, Hc. split; reflexivity.
  - split.
    { eexists. split; [reflexivity|]. cbn. repeat split. }
    split; [reflexivity|]. split; [reflexivity|].
    split; [apply MemoryFacts.predicted_emotion|].
    intros a _. rewrite Hw, Hc. split; reflexivity.
Qed.

(** X26 on the eager aspects of the test suite. *)
Lemma a_completed_cycle_records_one_incident_witness :
  let self := {| embodiment := Layer.init Scenario.permissive;
                 subconscious := Subconscious.init 1000;
                 conscious := Conscious.init;
                 _cycle_count := 0; _strict_integrity := true;
                 _integrity_failures := [] |} in
  let r := _run_deliberation_cycle Scenario.eager self Scenario.base_impetus in
  List.length (_incident_history (subconscious (fst (fst r)))) = 1%nat /\
  _impetuses_processed (subconscious (fst (fst r))) = 1%nat.
Proof.
  intros self r.
  assert (Hex : exists rec, snd (fst r) = Returned rec)
    by (eexists; lazy; reflexivity).
  destruct Hex as [rec Hrec].
  destruct (a_completed_cycle_records_one_incident Scenario.eager self
              Scenario.base_impetus rec Hrec)
    as ((made & Hh & _) & Hn & _).
  fold r in Hh, Hn. split; [rewrite Hh; reflexivity | exact Hn].
Defined.

End CycleFacts.

(** ** The entity types read off sensor data *)

Module SensingFacts.
Import Sensing.

Lemma no_child_in_type_map :
  Forall (fun kv => snd kv <> CHILD) type_map.
Proof.
  unfold type_map.
  repeat (apply Forall_cons; [discriminate|]). apply Forall_nil.
Qed.

Lemma lower_nil (s : string) : Py.lower s = EmptyString -> s = EmptyString.
Proof. destruct s; [reflexivity | discriminate]. Qed.

Lemma parse_by_lower (a b : string) :
  Py.lower a = Py.lower b -> _parse_entity_type a = _parse_entity_type b.
Proof.
  intros H. unfold _parse_entity_type, normalize. rewrite H.
  destruct (String.eqb a EmptyString) eqn:Ea;
    destruct (String.eqb b EmptyString) eqn:Eb; try reflexivity.
  - apply String.eqb_eq in Ea. subst a. simpl in H. symmetry in H.
    apply lower_nil in H. subst b. discriminate.
  - apply String.eqb_eq in Eb. subst b. simpl in H.
    apply lower_nil in H. subst a. discriminate.
Qed.

Lemma listed_spelling (k : string) (t : EntityType) :
  In (k, t) type_map -> Py.lower k = k /\ _parse_entity_type k = t.
Proof.
  unfold type_map. intros Hin.
  repeat (destruct Hin as [Hin|Hin];
          [inversion Hin; subst; split; vm_compute; reflexivity|]).
  contradiction.
Qed.

(** X27. What the sensor path makes of an entity's type and confidence.
    No type string is ever parsed to CHILD, the word "child" included:
    the result is a type of the spelling table or the default HUMAN.
    Parsing ignores letter case, and every spelling the table lists, in
    any letter case, gives the type listed for it. The confidence given
    to a sensed entity lies between 0 and 1. *)
Theorem sensed_entities_are_never_typed_child :
  (forall raw, _parse_entity_type raw <> CHILD) /\
  (forall a b, Py.lower a = Py.lower b ->
               _parse_entity_type a = _parse_entity_type b) /\
  (forall k t raw, In (k, t) type_map -> Py.lower raw = k ->
                   _parse_entity_type raw = t) /\
  (forall given, 0 <= sensed_confidence given /\ sensed_confidence given <= 1).
Proof.
  pose proof no_child_in_type_map as Hall. rewrite Forall_forall in Hall.
  split; [|split; [|split]].
  - intros raw. unfold _parse_entity_type.
    destruct (String.eqb raw EmptyString); [discriminate|].
    destruct (Py.get String.eqb type_map (normalize raw)) as [t|] eqn:Eg.
    + destruct (HarmFacts.get_In _ _ _ _ Eg) as (k & Hin & _).
      apply (Hall (k, t) Hin).
    + destruct (find _ type_map) as [kv|] eqn:Ef; [|discriminate].
      apply find_some in Ef. apply (Hall kv), Ef.
  - apply parse_by_lower.
  - intros k t raw Hin Hl.
    destruct (listed_spelling k t Hin) as [Hk Ht].
    rewrite <- Ht. apply parse_by_lower. congruence.
  - intros given. unfold sensed_confidence. split.
    + eapply Qle_trans; [|apply Q.le_max_l]. lra.
    + apply Q.max_lub; [lra|]. eapply Qle_trans; [apply Q.le_min_l|]. lra.
Qed.

(** X27 on the word itself, with a capital. *)
Lemma sensed_entities_are_never_typed_child_witness :
  _parse_entity_type "Child" = HUMAN.
Proof.
  apply (proj1 (proj2 (proj2 sensed_entities_are_never_typed_child))
               "child" HUMAN "Child").
  - vm_compute. tauto.
  - reflexivity.
Defined.

End SensingFacts.

(** ** Capability gating and the integrity check *)

Module EvsFacts.
Import Evs.

Lemma ge_false_iff (a b : Q) : Py.ge a b = false <-> a < b.
Proof.
  unfold Py.ge. split.
  - intros H. apply Qnot_le_lt. intros Hle.
    apply Qle_bool_iff in Hle. congruence.
  - intros H. destruct (Qle_bool b a) eqn:E; [|reflexivity].
    apply Qle_bool_iff in E. lra.
Qed.

Lemma allowed_iff (ces : Q) (capability : CognitiveCapability) :
  is_capability_allowed ces capability
  = Py.ge ces match capability with
              | BASIC_ASSOCIATION => 0.1 | OBJECT_PERMANENCE => 0.3
              | CAUSAL_REASONING => 0.4 | ABSTRACT_PLANNING => 0.5
              | THEORY_OF_MIND => 0.6 | FULL_DELIBERATION => 0.7
              end.
Proof.
  unfold is_capability_allowed, get_allowed_capabilities,
    CAPABILITY_THRESHOLDS.
  destruct capability; cbn [filter snd];
    destruct (Py.ge ces 0.1), (Py.ge ces 0.3), (Py.ge ces 0.4),
      (Py.ge ces 0.5), (Py.ge ces 0.6), (Py.ge ces 0.7);
    reflexivity.
Qed.

(** X28. Capabilities grow with the embodiment score. A capability
    allowed at one combined embodiment score is allowed at every higher
    one; a score that allows full deliberation allows all six
    capabilities. With gating enforced the cognitive mode is "full"
    exactly when full deliberation is allowed and "reflex_only" exactly
    when no capability is; with gating off the mode is "full" and every
    capability is allowed, whatever the score. *)
Theorem capabilities_grow_with_the_embodiment_score :
  forall (ces ces' : Q) (capability : CognitiveCapability),
    (ces <= ces' -> is_capability_allowed ces capability = true ->
     is_capability_allowed ces' capability = true) /\
    (is_capability_allowed ces FULL_DELIBERATION = true ->
     is_capability_allowed ces capability = true) /\
    (_update_cognitive_mode true ces = "full"
     <-> is_capability_allowed ces FULL_DELIBERATION = true) /\
    (_update_cognitive_mode true ces = "reflex_only"
     <-> get_allowed_capabilities ces = []) /\
    _update_cognitive_mode false ces = "full" /\
    system_allows false ces capability = true.
Proof.
  intros ces ces' capability.
  split; [|split; [|split; [|split; [|split; reflexivity]]]].
  - rewrite !allowed_iff. intros Hle H.
    apply ge_true_iff in H. apply ge_true_iff. lra.
  - rewrite !allowed_iff. intros H.
    apply ge_true_iff in H. apply ge_true_iff.
    destruct capability; lra.
  - rewrite allowed_iff. unfold _update_cognitive_mode. cbn [negb].
    destruct (Py.ge ces 0.7); [tauto|].
    destruct (Py.ge ces 0.5); [split; discriminate|].
    destruct (Py.ge ces 0.3); [split; discriminate|].
    destruct (Py.ge ces 0.1); split; discriminate.
  - unfold _update_cognitive_mode, get_allowed_capabilities,
      CAPABILITY_THRESHOLDS. cbn [negb filter snd].
    destruct (Py.ge ces 0.1) eqn:E1; destruct (Py.ge ces 0.3) eqn:E3;
      destruct (Py.ge ces 0.4) eqn:E4; destruct (Py.ge ces 0.5) eqn:E5;
      destruct (Py.ge ces 0.6) eqn:E6; destruct (Py.ge ces 0.7) eqn:E7;
      try (split; discriminate); try (split; reflexivity);
      exfalso;
      repeat match goal with
             | H : Py.ge _ _ = true |- _ => apply ge_true_iff in H
             | H : Py.ge _ _ = false |- _ => apply ge_false_iff in H
             end;
      lra.
Qed.

(** X28 on scores of 0.55 and 0.65 and abstract planning. *)
Lemma capabilities_grow_with_the_embodiment_score_witness :
  is_capability_allowed 0.65 ABSTRACT_PLANNING = true.
Proof.
  apply (proj1 (capabilities_grow_with_the_embodiment_score
                  0.55 0.65 ABSTRACT_PLANNING)).
  - vm_compute. discriminate.
  - vm_compute. reflexivity.
Defined.

End EvsFacts.

Module IntegrityFacts.
Import Ontology Integrity.

(** The checks on the registry and on the three thresholds compare
    constants of the program and pass. *)
Lemma failures_are_checksum_failures
    (ontology unconscious_ontology : GroundedHarmOntology) :
  integrity_failures ontology unconscious_ontology
  = ((if negb (verify_integrity ontology)
      then [OntologyChecksumMismatch] else [])
     ++ (if negb (verify_integrity unconscious_ontology)
         then [UnconsciousOntologyFailed] else []))%list.
Proof.
  unfold integrity_failures. cbv zeta.
  assert (H3 : Py.nonempty
                 (difference expected_undeliberables
                    (Py.set_of string_dec
                       (map Registry.name Registry.get_all)))
               || Py.nonempty
                    (difference
                       (Py.set_of string_dec
                          (map Registry.name Registry.get_all))
                       expected_undeliberables) = false)
    by (vm_compute; reflexivity).
  assert (H4 : Py.lt 0.0 VETO_THRESHOLD && Py.lt VETO_THRESHOLD 1.0 = true)
    by (vm_compute; reflexivity).
  assert (H5 : Py.lt 0.0 CAUTION_THRESHOLD
               && Py.lt CAUTION_THRESHOLD VETO_THRESHOLD = true)
    by (vm_compute; reflexivity).
  assert (H6 : Py.le 0.5 Registry.LETHAL_PROBABILITY_THRESHOLD
               && Py.le Registry.LETHAL_PROBABILITY_THRESHOLD 0.9 = true)
    by (vm_compute; reflexivity).
  rewrite H3, H4, H5, H6. cbn [negb]. rewrite !app_nil_r. reflexivity.
Qed.

(** X29. The full integrity check rests on the ontology checksum alone.
    Its checks of the registry and of the three thresholds compare
    constants of the program and never fail, so the check passes exactly
    when the two checksum comparisons pass; when the unconscious layer
    refers to the ontology singleton itself, as it does from
    construction, the failure list is empty or holds exactly the two
    checksum failures. A system whose ontology had a severity-to-weight
    table replaced passes the full check. *)
Theorem full_integrity_rests_on_the_checksum_alone :
  forall (ontology unconscious_ontology : GroundedHarmOntology)
         (d : HarmDimension) (ws : list DimensionSeverityWeight),
    verify_full_integrity ontology unconscious_ontology
    = verify_integrity ontology && verify_integrity unconscious_ontology /\
    (integrity_failures ontology ontology = []
     \/ integrity_failures ontology ontology
        = [OntologyChecksumMismatch; UnconsciousOntologyFailed]) /\
    verify_full_integrity (set_severity_weights get_ontology d ws)
                          (set_severity_weights get_ontology d ws) = true.
Proof.
  intros ontology unconscious_ontology d ws.
  split; [|split].
  - unfold verify_full_integrity. rewrite failures_are_checksum_failures.
    destruct (verify_integrity ontology),
      (verify_integrity unconscious_ontology); reflexivity.
  - rewrite failures_are_checksum_failures.
    destruct (verify_integrity ontology); [left | right]; reflexivity.
  - unfold verify_full_integrity. rewrite failures_are_checksum_failures.
    rewrite OntologyFacts.altered_weights_pass. reflexivity.
Qed.

End IntegrityFacts.

(** ** Dimensions without a profile *)

Module ProfileFacts.
Import Ontology.

(** X30. Three dimensions have no profile in the program's ontology:
    PRIVACY, DIGNITY and DEVELOPMENTAL. For them the weight is the
    default 0.3 at every severity, FATAL as well as MINOR, so with no
    context given a harm in one of them to an entity of any type but
    COLLECTIVE has a gross harm of at most 0.39 and never exceeds the
    veto threshold, whatever exceptions are claimed. *)
Theorem unprofiled_dimensions_ignore_severity :
  forall (d : HarmDimension) (sev : SeverityLevel) (e : EntityType)
         (exceptions : list (ExceptionType * list (string * bool))),
    d = PRIVACY \/ d = DIGNITY \/ d = DEVELOPMENTAL ->
    get_dimension_weight get_ontology d sev == 0.3 /\
    (e <> COLLECTIVE ->
     let r := calculate_harm get_ontology d sev e [] exceptions in
     gross_harm r <= 0.39 /\ exceeds_veto r = false).
Proof.
  intros d sev e exceptions Hd.
  assert (Hw : get_dimension_weight get_ontology d sev = 0.3).
  { unfold get_dimension_weight. rewrite HarmFacts.get_ontology_profiles.
    destruct Hd as [->|[->| ->]]; reflexivity. }
  split; [rewrite Hw; reflexivity|].
  intros He r.
  assert (Hg : gross_harm r <= 0.39).
  { unfold r, calculate_harm. cbn [gross_harm fold_left fst]. rewrite Hw.
    unfold get_entity_modifier. rewrite HarmFacts.get_ontology_entities.
    destruct e; try congruence; cbn; lra. }
  split; [exact Hg|].
  assert (Hr : 0 <= exception_reduction r).
  { unfold r, calculate_harm. cbn [exception_reduction].
    apply HarmFacts.reductions_nonneg. simpl. lra. }
  unfold r, calculate_harm in *.
  cbn [exceeds_veto gross_harm exception_reduction] in *.
  apply gt_false_iff. unfold VETO_THRESHOLD.
  apply Q.max_lub; lra.
Qed.

(** X30 on a fatal harm to a child's development. *)
Lemma unprofiled_dimensions_ignore_severity_witness :
  exceeds_veto (calculate_harm get_ontology DEVELOPMENTAL FATAL CHILD [] [])
  = false.
Proof.
  apply (proj2 (unprofiled_dimensions_ignore_severity
                  DEVELOPMENTAL FATAL CHILD []
                  (or_intror (or_intror eq_refl)))).
  discriminate.
Defined.

End ProfileFacts.
